(** * Steam API interception engine of tek-game-runtime

    A shallow embedding of the interception engine (steam_api.cpp,
    steam_api.hpp, settings.hpp, tek-steamclient.cpp and the game callbacks of
    steam/346110.cpp) together with the properties stated about it.

    Conventions.  C++ integers are [Z] with conversions written out; a
    [std::array] or [std::vector] is a [list] accessed through bounds-checked
    helpers, an out-of-range access being undefined behaviour; [std::set] and
    [std::unordered_map] are stdpp's [gset] and [gmap]; the global variables of
    the translation units are the fields of one [state] record that is threaded
    through a state-and-failure monad; everything the process obtains from the
    operating system, from the vendor library and from the network is read
    from a [world] record. *)

From Stdlib Require Import ZArith List String Bool Lia.
From stdpp Require Import base option list gmap strings pretty sorting.

Open Scope string_scope.
Open Scope list_scope.
Open Scope Z_scope.

(** ** C++ scalar conversions and checked array access *)

Module cxx.

(** Reduction of a value to an unsigned integer of [bits] bits. *)
Definition wrap (bits z : Z) : Z := z mod 2 ^ bits.

(** [static_cast<int>] of a [std::size_t]: the low 32 bits, read as a
    two's-complement number. *)
Definition static_cast_int (z : Z) : Z :=
  let r := wrap 32 z in
  if r <? 2 ^ 31 then r else r - 2 ^ 32.

Definition INT_MAX : Z := 2 ^ 31 - 1.
Definition UINT64_MAX : Z := 2 ^ 64 - 1.

(** [a[i]] on a [std::array] / [std::vector]: defined inside the bounds
    only. *)
Definition array_get {A} (a : list A) (i : Z) : option A :=
  if (0 <=? i) && (i <? Z.of_nat (length a)) then a !! Z.to_nat i else None.

(** [a[i] = x]. *)
Definition array_set {A} (a : list A) (i : Z) (x : A) : option (list A) :=
  if (0 <=? i) && (i <? Z.of_nat (length a))
  then Some (<[Z.to_nat i := x]> a) else None.

End cxx.

(** ** settings.hpp *)

Module settings.

Record steam_options := {
  (** Steam application ID. *)
  app_id : Z;
  (** Application ID used to initialise the Steam API; zero means "use
      [app_id], fall back to 480". *)
  spoof_app_id : Z;
  (** List of owned DLC app IDs and names. *)
  dlc : list (Z * string);
  (** Set of installed app IDs. *)
  installed_dlc : gset Z;
  tek_sc_path : string;
  auto_update_dlc : bool
}.

Definition set_spoof_app_id (v : Z) (o : steam_options) : steam_options :=
  {| app_id := app_id o; spoof_app_id := v; dlc := dlc o;
     installed_dlc := installed_dlc o; tek_sc_path := tek_sc_path o;
     auto_update_dlc := auto_update_dlc o |}.

Definition set_dlc (l : list (Z * string)) (i : gset Z)
    (o : steam_options) : steam_options :=
  {| app_id := app_id o; spoof_app_id := spoof_app_id o; dlc := l;
     installed_dlc := i; tek_sc_path := tek_sc_path o;
     auto_update_dlc := auto_update_dlc o |}.

End settings.

(** ** steam_api.hpp: method enumerations *)

(** Virtual method enumeration for the ISteamApps interface (steam_api.hpp). *)
Inductive ISteamApps_m : Set :=
  | ISteamApps_m_BIsSubscribed
  | ISteamApps_m_BIsLowViolence
  | ISteamApps_m_BIsCybercafe
  | ISteamApps_m_BIsVACBanned
  | ISteamApps_m_GetCurrentGameLanguage
  | ISteamApps_m_GetAvailableGameLanguages
  | ISteamApps_m_BIsSubscribedApp
  | ISteamApps_m_BIsDlcInstalled
  | ISteamApps_m_GetEarliestPurchaseUnixTime
  | ISteamApps_m_BIsSubscribedFromFreeWeekend
  | ISteamApps_m_GetDLCCount
  | ISteamApps_m_BGetDLCDataByIndex
  | ISteamApps_m_InstallDLC
  | ISteamApps_m_UninstallDLC
  | ISteamApps_m_RequestAppProofOfPurchaseKey
  | ISteamApps_m_GetCurrentBetaName
  | ISteamApps_m_MarkContentCorrupt
  | ISteamApps_m_GetInstalledDepots
  | ISteamApps_m_GetAppInstallDir
  | ISteamApps_m_BIsAppInstalled
  | ISteamApps_m_GetAppOwner
  | ISteamApps_m_GetLaunchQueryParam
  | ISteamApps_m_GetDlcDownloadProgress
  | ISteamApps_m_GetAppBuildId
  | ISteamApps_m_RequestAllProofOfPurchaseKeys
  | ISteamApps_m_GetFileDetails
  | ISteamApps_m_GetLaunchCommandLine
  | ISteamApps_m_BIsSubscribedFromFamilySharing
  | ISteamApps_m_BIsTimedTrial
  | ISteamApps_m_SetDlcContext
  | ISteamApps_m_GetNumBetas
  | ISteamApps_m_GetBetaInfo
  | ISteamApps_m_SetActiveBeta.

(** The integer value of each enumerator, in declaration order. *)
Definition ISteamApps_m_value (m : ISteamApps_m) : Z :=
  match m with
  | ISteamApps_m_BIsSubscribed => 0
  | ISteamApps_m_BIsLowViolence => 1
  | ISteamApps_m_BIsCybercafe => 2
  | ISteamApps_m_BIsVACBanned => 3
  | ISteamApps_m_GetCurrentGameLanguage => 4
  | ISteamApps_m_GetAvailableGameLanguages => 5
  | ISteamApps_m_BIsSubscribedApp => 6
  | ISteamApps_m_BIsDlcInstalled => 7
  | ISteamApps_m_GetEarliestPurchaseUnixTime => 8
  | ISteamApps_m_BIsSubscribedFromFreeWeekend => 9
  | ISteamApps_m_GetDLCCount => 10
  | ISteamApps_m_BGetDLCDataByIndex => 11
  | ISteamApps_m_InstallDLC => 12
  | ISteamApps_m_UninstallDLC => 13
  | ISteamApps_m_RequestAppProofOfPurchaseKey => 14
  | ISteamApps_m_GetCurrentBetaName => 15
  | ISteamApps_m_MarkContentCorrupt => 16
  | ISteamApps_m_GetInstalledDepots => 17
  | ISteamApps_m_GetAppInstallDir => 18
  | ISteamApps_m_BIsAppInstalled => 19
  | ISteamApps_m_GetAppOwner => 20
  | ISteamApps_m_GetLaunchQueryParam => 21
  | ISteamApps_m_GetDlcDownloadProgress => 22
  | ISteamApps_m_GetAppBuildId => 23
  | ISteamApps_m_RequestAllProofOfPurchaseKeys => 24
  | ISteamApps_m_GetFileDetails => 25
  | ISteamApps_m_GetLaunchCommandLine => 26
  | ISteamApps_m_BIsSubscribedFromFamilySharing => 27
  | ISteamApps_m_BIsTimedTrial => 28
  | ISteamApps_m_SetDlcContext => 29
  | ISteamApps_m_GetNumBetas => 30
  | ISteamApps_m_GetBetaInfo => 31
  | ISteamApps_m_SetActiveBeta => 32
  end.

Coercion ISteamApps_m_value : ISteamApps_m >-> Z.

(** The trailing enumerator [ISteamApps_num_methods], used as the array bound. *)
Definition ISteamApps_num_methods : Z := 33.

Definition ISteamApps_m_all : list ISteamApps_m :=
  [
   ISteamApps_m_BIsSubscribed;
   ISteamApps_m_BIsLowViolence;
   ISteamApps_m_BIsCybercafe;
   ISteamApps_m_BIsVACBanned;
   ISteamApps_m_GetCurrentGameLanguage;
   ISteamApps_m_GetAvailableGameLanguages;
   ISteamApps_m_BIsSubscribedApp;
   ISteamApps_m_BIsDlcInstalled;
   ISteamApps_m_GetEarliestPurchaseUnixTime;
   ISteamApps_m_BIsSubscribedFromFreeWeekend;
   ISteamApps_m_GetDLCCount;
   ISteamApps_m_BGetDLCDataByIndex;
   ISteamApps_m_InstallDLC;
   ISteamApps_m_UninstallDLC;
   ISteamApps_m_RequestAppProofOfPurchaseKey;
   ISteamApps_m_GetCurrentBetaName;
   ISteamApps_m_MarkContentCorrupt;
   ISteamApps_m_GetInstalledDepots;
   ISteamApps_m_GetAppInstallDir;
   ISteamApps_m_BIsAppInstalled;
   ISteamApps_m_GetAppOwner;
   ISteamApps_m_GetLaunchQueryParam;
   ISteamApps_m_GetDlcDownloadProgress;
   ISteamApps_m_GetAppBuildId;
   ISteamApps_m_RequestAllProofOfPurchaseKeys;
   ISteamApps_m_GetFileDetails;
   ISteamApps_m_GetLaunchCommandLine;
   ISteamApps_m_BIsSubscribedFromFamilySharing;
   ISteamApps_m_BIsTimedTrial;
   ISteamApps_m_SetDlcContext;
   ISteamApps_m_GetNumBetas;
   ISteamApps_m_GetBetaInfo;
   ISteamApps_m_SetActiveBeta
  ].

(** Virtual method enumeration for the ISteamMatchmaking interface (steam_api.hpp). *)
Inductive ISteamMatchmaking_m : Set :=
  | ISteamMatchmaking_m_GetFavoriteGameCount
  | ISteamMatchmaking_m_GetFavoriteGame
  | ISteamMatchmaking_m_AddFavoriteGame
  | ISteamMatchmaking_m_RemoveFavoriteGame
  | ISteamMatchmaking_m_RequestLobbyList
  | ISteamMatchmaking_m_AddRequestLobbyListStringFilter
  | ISteamMatchmaking_m_AddRequestLobbyListNumericalFilter
  | ISteamMatchmaking_m_AddRequestLobbyListNearValueFilter
  | ISteamMatchmaking_m_AddRequestLobbyListFilterSlotsAvailable
  | ISteamMatchmaking_m_AddRequestLobbyListDistanceFilter
  | ISteamMatchmaking_m_AddRequestLobbyListResultCountFilter
  | ISteamMatchmaking_m_AddRequestLobbyListCompatibleMembersFilter
  | ISteamMatchmaking_m_GetLobbyByIndex
  | ISteamMatchmaking_m_CreateLobby
  | ISteamMatchmaking_m_JoinLobby
  | ISteamMatchmaking_m_LeaveLobby
  | ISteamMatchmaking_m_InviteUserToLobby
  | ISteamMatchmaking_m_GetNumLobbyMembers
  | ISteamMatchmaking_m_GetLobbyMemberByIndex
  | ISteamMatchmaking_m_GetLobbyData
  | ISteamMatchmaking_m_SetLobbyData
  | ISteamMatchmaking_m_GetLobbyDataCount
  | ISteamMatchmaking_m_GetLobbyDataByIndex
  | ISteamMatchmaking_m_DeleteLobbyData
  | ISteamMatchmaking_m_GetLobbyMemberData
  | ISteamMatchmaking_m_SetLobbyMemberData
  | ISteamMatchmaking_m_SendLobbyChatMsg
  | ISteamMatchmaking_m_GetLobbyChatEntry
  | ISteamMatchmaking_m_RequestLobbyData
  | ISteamMatchmaking_m_SetLobbyGameServer
  | ISteamMatchmaking_m_GetLobbyGameServer
  | ISteamMatchmaking_m_SetLobbyMemberLimit
  | ISteamMatchmaking_m_GetLobbyMemberLimit
  | ISteamMatchmaking_m_SetLobbyType
  | ISteamMatchmaking_m_SetLobbyJoinable
  | ISteamMatchmaking_m_GetLobbyOwner
  | ISteamMatchmaking_m_SetLobbyOwner
  | ISteamMatchmaking_m_SetLinkedLobby.

(** The integer value of each enumerator, in declaration order. *)
Definition ISteamMatchmaking_m_value (m : ISteamMatchmaking_m) : Z :=
  match m with
  | ISteamMatchmaking_m_GetFavoriteGameCount => 0
  | ISteamMatchmaking_m_GetFavoriteGame => 1
  | ISteamMatchmaking_m_AddFavoriteGame => 2
  | ISteamMatchmaking_m_RemoveFavoriteGame => 3
  | ISteamMatchmaking_m_RequestLobbyList => 4
  | ISteamMatchmaking_m_AddRequestLobbyListStringFilter => 5
  | ISteamMatchmaking_m_AddRequestLobbyListNumericalFilter => 6
  | ISteamMatchmaking_m_AddRequestLobbyListNearValueFilter => 7
  | ISteamMatchmaking_m_AddRequestLobbyListFilterSlotsAvailable => 8
  | ISteamMatchmaking_m_AddRequestLobbyListDistanceFilter => 9
  | ISteamMatchmaking_m_AddRequestLobbyListResultCountFilter => 10
  | ISteamMatchmaking_m_AddRequestLobbyListCompatibleMembersFilter => 11
  | ISteamMatchmaking_m_GetLobbyByIndex => 12
  | ISteamMatchmaking_m_CreateLobby => 13
  | ISteamMatchmaking_m_JoinLobby => 14
  | ISteamMatchmaking_m_LeaveLobby => 15
  | ISteamMatchmaking_m_InviteUserToLobby => 16
  | ISteamMatchmaking_m_GetNumLobbyMembers => 17
  | ISteamMatchmaking_m_GetLobbyMemberByIndex => 18
  | ISteamMatchmaking_m_GetLobbyData => 19
  | ISteamMatchmaking_m_SetLobbyData => 20
  | ISteamMatchmaking_m_GetLobbyDataCount => 21
  | ISteamMatchmaking_m_GetLobbyDataByIndex => 22
  | ISteamMatchmaking_m_DeleteLobbyData => 23
  | ISteamMatchmaking_m_GetLobbyMemberData => 24
  | ISteamMatchmaking_m_SetLobbyMemberData => 25
  | ISteamMatchmaking_m_SendLobbyChatMsg => 26
  | ISteamMatchmaking_m_GetLobbyChatEntry => 27
  | ISteamMatchmaking_m_RequestLobbyData => 28
  | ISteamMatchmaking_m_SetLobbyGameServer => 29
  | ISteamMatchmaking_m_GetLobbyGameServer => 30
  | ISteamMatchmaking_m_SetLobbyMemberLimit => 31
  | ISteamMatchmaking_m_GetLobbyMemberLimit => 32
  | ISteamMatchmaking_m_SetLobbyType => 33
  | ISteamMatchmaking_m_SetLobbyJoinable => 34
  | ISteamMatchmaking_m_GetLobbyOwner => 35
  | ISteamMatchmaking_m_SetLobbyOwner => 36
  | ISteamMatchmaking_m_SetLinkedLobby => 37
  end.

Coercion ISteamMatchmaking_m_value : ISteamMatchmaking_m >-> Z.

(** The trailing enumerator [ISteamMatchmaking_num_methods], used as the array bound. *)
Definition ISteamMatchmaking_num_methods : Z := 38.

Definition ISteamMatchmaking_m_all : list ISteamMatchmaking_m :=
  [
   ISteamMatchmaking_m_GetFavoriteGameCount;
   ISteamMatchmaking_m_GetFavoriteGame;
   ISteamMatchmaking_m_AddFavoriteGame;
   ISteamMatchmaking_m_RemoveFavoriteGame;
   ISteamMatchmaking_m_RequestLobbyList;
   ISteamMatchmaking_m_AddRequestLobbyListStringFilter;
   ISteamMatchmaking_m_AddRequestLobbyListNumericalFilter;
   ISteamMatchmaking_m_AddRequestLobbyListNearValueFilter;
   ISteamMatchmaking_m_AddRequestLobbyListFilterSlotsAvailable;
   ISteamMatchmaking_m_AddRequestLobbyListDistanceFilter;
   ISteamMatchmaking_m_AddRequestLobbyListResultCountFilter;
   ISteamMatchmaking_m_AddRequestLobbyListCompatibleMembersFilter;
   ISteamMatchmaking_m_GetLobbyByIndex;
   ISteamMatchmaking_m_CreateLobby;
   ISteamMatchmaking_m_JoinLobby;
   ISteamMatchmaking_m_LeaveLobby;
   ISteamMatchmaking_m_InviteUserToLobby;
   ISteamMatchmaking_m_GetNumLobbyMembers;
   ISteamMatchmaking_m_GetLobbyMemberByIndex;
   ISteamMatchmaking_m_GetLobbyData;
   ISteamMatchmaking_m_SetLobbyData;
   ISteamMatchmaking_m_GetLobbyDataCount;
   ISteamMatchmaking_m_GetLobbyDataByIndex;
   ISteamMatchmaking_m_DeleteLobbyData;
   ISteamMatchmaking_m_GetLobbyMemberData;
   ISteamMatchmaking_m_SetLobbyMemberData;
   ISteamMatchmaking_m_SendLobbyChatMsg;
   ISteamMatchmaking_m_GetLobbyChatEntry;
   ISteamMatchmaking_m_RequestLobbyData;
   ISteamMatchmaking_m_SetLobbyGameServer;
   ISteamMatchmaking_m_GetLobbyGameServer;
   ISteamMatchmaking_m_SetLobbyMemberLimit;
   ISteamMatchmaking_m_GetLobbyMemberLimit;
   ISteamMatchmaking_m_SetLobbyType;
   ISteamMatchmaking_m_SetLobbyJoinable;
   ISteamMatchmaking_m_GetLobbyOwner;
   ISteamMatchmaking_m_SetLobbyOwner;
   ISteamMatchmaking_m_SetLinkedLobby
  ].

(** Virtual method enumeration for the ISteamMatchmakingServers interface (steam_api.hpp). *)
Inductive ISteamMatchmakingServers_m : Set :=
  | ISteamMatchmakingServers_m_RequestInternetServerList
  | ISteamMatchmakingServers_m_RequestLANServerList
  | ISteamMatchmakingServers_m_RequestFriendsServerList
  | ISteamMatchmakingServers_m_RequestFavoritesServerList
  | ISteamMatchmakingServers_m_RequestHistoryServerList
  | ISteamMatchmakingServers_m_RequestSpectatorServerList
  | ISteamMatchmakingServers_m_ReleaseRequest
  | ISteamMatchmakingServers_m_GetServerDetails
  | ISteamMatchmakingServers_m_CancelQuery
  | ISteamMatchmakingServers_m_RefreshQuery
  | ISteamMatchmakingServers_m_IsRefreshing
  | ISteamMatchmakingServers_m_GetServerCount
  | ISteamMatchmakingServers_m_RefreshServer
  | ISteamMatchmakingServers_m_PingServer
  | ISteamMatchmakingServers_m_PlayerDetails
  | ISteamMatchmakingServers_m_ServerRules
  | ISteamMatchmakingServers_m_CancelServerQuery.

(** The integer value of each enumerator, in declaration order. *)
Definition ISteamMatchmakingServers_m_value (m : ISteamMatchmakingServers_m) : Z :=
  match m with
  | ISteamMatchmakingServers_m_RequestInternetServerList => 0
  | ISteamMatchmakingServers_m_RequestLANServerList => 1
  | ISteamMatchmakingServers_m_RequestFriendsServerList => 2
  | ISteamMatchmakingServers_m_RequestFavoritesServerList => 3
  | ISteamMatchmakingServers_m_RequestHistoryServerList => 4
  | ISteamMatchmakingServers_m_RequestSpectatorServerList => 5
  | ISteamMatchmakingServers_m_ReleaseRequest => 6
  | ISteamMatchmakingServers_m_GetServerDetails => 7
  | ISteamMatchmakingServers_m_CancelQuery => 8
  | ISteamMatchmakingServers_m_RefreshQuery => 9
  | ISteamMatchmakingServers_m_IsRefreshing => 10
  | ISteamMatchmakingServers_m_GetServerCount => 11
  | ISteamMatchmakingServers_m_RefreshServer => 12
  | ISteamMatchmakingServers_m_PingServer => 13
  | ISteamMatchmakingServers_m_PlayerDetails => 14
  | ISteamMatchmakingServers_m_ServerRules => 15
  | ISteamMatchmakingServers_m_CancelServerQuery => 16
  end.

Coercion ISteamMatchmakingServers_m_value : ISteamMatchmakingServers_m >-> Z.

(** The trailing enumerator [ISteamMatchmakingServers_num_methods], used as the array bound. *)
Definition ISteamMatchmakingServers_num_methods : Z := 17.

Definition ISteamMatchmakingServers_m_all : list ISteamMatchmakingServers_m :=
  [
   ISteamMatchmakingServers_m_RequestInternetServerList;
   ISteamMatchmakingServers_m_RequestLANServerList;
   ISteamMatchmakingServers_m_RequestFriendsServerList;
   ISteamMatchmakingServers_m_RequestFavoritesServerList;
   ISteamMatchmakingServers_m_RequestHistoryServerList;
   ISteamMatchmakingServers_m_RequestSpectatorServerList;
   ISteamMatchmakingServers_m_ReleaseRequest;
   ISteamMatchmakingServers_m_GetServerDetails;
   ISteamMatchmakingServers_m_CancelQuery;
   ISteamMatchmakingServers_m_RefreshQuery;
   ISteamMatchmakingServers_m_IsRefreshing;
   ISteamMatchmakingServers_m_GetServerCount;
   ISteamMatchmakingServers_m_RefreshServer;
   ISteamMatchmakingServers_m_PingServer;
   ISteamMatchmakingServers_m_PlayerDetails;
   ISteamMatchmakingServers_m_ServerRules;
   ISteamMatchmakingServers_m_CancelServerQuery
  ].

(** Virtual method enumeration for the ISteamUGC interface (steam_api.hpp). *)
Inductive ISteamUGC_m : Set :=
  | ISteamUGC_m_CreateQueryUserUGCRequest
  | ISteamUGC_m_CreateQueryAllUGCRequestCursor
  | ISteamUGC_m_CreateQueryAllUGCRequestPage
  | ISteamUGC_m_CreateQueryUGCDetailsRequest
  | ISteamUGC_m_SendQueryUGCRequest
  | ISteamUGC_m_GetQueryUGCResult
  | ISteamUGC_m_GetQueryUGCNumTags
  | ISteamUGC_m_GetQueryUGCTag
  | ISteamUGC_m_GetQueryUGCTagDisplayName
  | ISteamUGC_m_GetQueryUGCPreviewURL
  | ISteamUGC_m_GetQueryUGCMetadata
  | ISteamUGC_m_GetQueryUGCChildren
  | ISteamUGC_m_GetQueryUGCStatistic
  | ISteamUGC_m_GetQueryUGCNumAdditionalPreviews
  | ISteamUGC_m_GetQueryUGCAdditionalPreview
  | ISteamUGC_m_GetQueryUGCNumKeyValueTags
  | ISteamUGC_m_GetQueryFirstUGCKeyValueTag
  | ISteamUGC_m_GetQueryUGCKeyValueTag
  | ISteamUGC_m_GetNumSupportedGameVersions
  | ISteamUGC_m_GetSupportedGameVersionData
  | ISteamUGC_m_GetQueryUGCContentDescriptors
  | ISteamUGC_m_ReleaseQueryUGCRequest
  | ISteamUGC_m_AddRequiredTag
  | ISteamUGC_m_AddRequiredTagGroup
  | ISteamUGC_m_AddExcludedTag
  | ISteamUGC_m_SetReturnOnlyIDs
  | ISteamUGC_m_SetReturnKeyValueTags
  | ISteamUGC_m_SetReturnLongDescription
  | ISteamUGC_m_SetReturnMetadata
  | ISteamUGC_m_SetReturnChildren
  | ISteamUGC_m_SetReturnAdditionalPreviews
  | ISteamUGC_m_SetReturnTotalOnly
  | ISteamUGC_m_SetReturnPlaytimeStats
  | ISteamUGC_m_SetLanguage
  | ISteamUGC_m_SetAllowCachedResponse
  | ISteamUGC_m_SetAdminQuery
  | ISteamUGC_m_SetCloudFileNameFilter
  | ISteamUGC_m_SetMatchAnyTag
  | ISteamUGC_m_SetSearchText
  | ISteamUGC_m_SetRankedByTrendDays
  | ISteamUGC_m_SetTimeCreatedDateRange
  | ISteamUGC_m_SetTimeUpdatedDateRange
  | ISteamUGC_m_AddRequiredKeyValueTag
  | ISteamUGC_m_RequestUGCDetails
  | ISteamUGC_m_CreateItem
  | ISteamUGC_m_StartItemUpdate
  | ISteamUGC_m_SetItemTitle
  | ISteamUGC_m_SetItemDescription
  | ISteamUGC_m_SetItemUpdateLanguage
  | ISteamUGC_m_SetItemMetadata
  | ISteamUGC_m_SetItemVisibility
  | ISteamUGC_m_SetItemTags
  | ISteamUGC_m_SetItemContent
  | ISteamUGC_m_SetItemPreview
  | ISteamUGC_m_SetAllowLegacyUpload
  | ISteamUGC_m_RemoveAllItemKeyValueTags
  | ISteamUGC_m_RemoveItemKeyValueTags
  | ISteamUGC_m_AddItemKeyValueTag
  | ISteamUGC_m_AddItemPreviewFile
  | ISteamUGC_m_AddItemPreviewVideo
  | ISteamUGC_m_UpdateItemPreviewFile
  | ISteamUGC_m_UpdateItemPreviewVideo
  | ISteamUGC_m_RemoveItemPreview
  | ISteamUGC_m_AddContentDescriptor
  | ISteamUGC_m_RemoveContentDescriptor
  | ISteamUGC_m_SetRequiredGameVersions
  | ISteamUGC_m_SubmitItemUpdate
  | ISteamUGC_m_GetItemUpdateProgress
  | ISteamUGC_m_SetUserItemVote
  | ISteamUGC_m_GetUserItemVote
  | ISteamUGC_m_AddItemToFavorites
  | ISteamUGC_m_RemoveItemFromFavorites
  | ISteamUGC_m_SubscribeItem
  | ISteamUGC_m_UnsubscribeItem
  | ISteamUGC_m_GetNumSubscribedItems
  | ISteamUGC_m_GetSubscribedItems
  | ISteamUGC_m_GetItemState
  | ISteamUGC_m_GetItemInstallInfo
  | ISteamUGC_m_GetItemDownloadInfo
  | ISteamUGC_m_DownloadItem
  | ISteamUGC_m_BInitWorkshopForGameServer
  | ISteamUGC_m_SuspendDownloads
  | ISteamUGC_m_StartPlaytimeTracking
  | ISteamUGC_m_StopPlaytimeTracking
  | ISteamUGC_m_StopPlaytimeTrackingForAllItems
  | ISteamUGC_m_AddDependency
  | ISteamUGC_m_RemoveDependency
  | ISteamUGC_m_AddAppDependency
  | ISteamUGC_m_RemoveAppDependency
  | ISteamUGC_m_GetAppDependencies
  | ISteamUGC_m_DeleteItem
  | ISteamUGC_m_ShowWorkshopEULA
  | ISteamUGC_m_GetWorkshopEULAStatus
  | ISteamUGC_m_GetUserContentDescriptorPreferences
  | ISteamUGC_m_SetItemsDisabledLocally
  | ISteamUGC_m_SetSubscriptionsLoadOrder.

(** Enumerator alias: [ISteamUGC_m_GetItemUpdateInfo = ISteamUGC_m_GetItemDownloadInfo] in the header. *)
Definition ISteamUGC_m_GetItemUpdateInfo : ISteamUGC_m := ISteamUGC_m_GetItemDownloadInfo.

(** The integer value of each enumerator, in declaration order. *)
Definition ISteamUGC_m_value (m : ISteamUGC_m) : Z :=
  match m with
  | ISteamUGC_m_CreateQueryUserUGCRequest => 0
  | ISteamUGC_m_CreateQueryAllUGCRequestCursor => 1
  | ISteamUGC_m_CreateQueryAllUGCRequestPage => 2
  | ISteamUGC_m_CreateQueryUGCDetailsRequest => 3
  | ISteamUGC_m_SendQueryUGCRequest => 4
  | ISteamUGC_m_GetQueryUGCResult => 5
  | ISteamUGC_m_GetQueryUGCNumTags => 6
  | ISteamUGC_m_GetQueryUGCTag => 7
  | ISteamUGC_m_GetQueryUGCTagDisplayName => 8
  | ISteamUGC_m_GetQueryUGCPreviewURL => 9
  | ISteamUGC_m_GetQueryUGCMetadata => 10
  | ISteamUGC_m_GetQueryUGCChildren => 11
  | ISteamUGC_m_GetQueryUGCStatistic => 12
  | ISteamUGC_m_GetQueryUGCNumAdditionalPreviews => 13
  | ISteamUGC_m_GetQueryUGCAdditionalPreview => 14
  | ISteamUGC_m_GetQueryUGCNumKeyValueTags => 15
  | ISteamUGC_m_GetQueryFirstUGCKeyValueTag => 16
  | ISteamUGC_m_GetQueryUGCKeyValueTag => 17
  | ISteamUGC_m_GetNumSupportedGameVersions => 18
  | ISteamUGC_m_GetSupportedGameVersionData => 19
  | ISteamUGC_m_GetQueryUGCContentDescriptors => 20
  | ISteamUGC_m_ReleaseQueryUGCRequest => 21
  | ISteamUGC_m_AddRequiredTag => 22
  | ISteamUGC_m_AddRequiredTagGroup => 23
  | ISteamUGC_m_AddExcludedTag => 24
  | ISteamUGC_m_SetReturnOnlyIDs => 25
  | ISteamUGC_m_SetReturnKeyValueTags => 26
  | ISteamUGC_m_SetReturnLongDescription => 27
  | ISteamUGC_m_SetReturnMetadata => 28
  | ISteamUGC_m_SetReturnChildren => 29
  | ISteamUGC_m_SetReturnAdditionalPreviews => 30
  | ISteamUGC_m_SetReturnTotalOnly => 31
  | ISteamUGC_m_SetReturnPlaytimeStats => 32
  | ISteamUGC_m_SetLanguage => 33
  | ISteamUGC_m_SetAllowCachedResponse => 34
  | ISteamUGC_m_SetAdminQuery => 35
  | ISteamUGC_m_SetCloudFileNameFilter => 36
  | ISteamUGC_m_SetMatchAnyTag => 37
  | ISteamUGC_m_SetSearchText => 38
  | ISteamUGC_m_SetRankedByTrendDays => 39
  | ISteamUGC_m_SetTimeCreatedDateRange => 40
  | ISteamUGC_m_SetTimeUpdatedDateRange => 41
  | ISteamUGC_m_AddRequiredKeyValueTag => 42
  | ISteamUGC_m_RequestUGCDetails => 43
  | ISteamUGC_m_CreateItem => 44
  | ISteamUGC_m_StartItemUpdate => 45
  | ISteamUGC_m_SetItemTitle => 46
  | ISteamUGC_m_SetItemDescription => 47
  | ISteamUGC_m_SetItemUpdateLanguage => 48
  | ISteamUGC_m_SetItemMetadata => 49
  | ISteamUGC_m_SetItemVisibility => 50
  | ISteamUGC_m_SetItemTags => 51
  | ISteamUGC_m_SetItemContent => 52
  | ISteamUGC_m_SetItemPreview => 53
  | ISteamUGC_m_SetAllowLegacyUpload => 54
  | ISteamUGC_m_RemoveAllItemKeyValueTags => 55
  | ISteamUGC_m_RemoveItemKeyValueTags => 56
  | ISteamUGC_m_AddItemKeyValueTag => 57
  | ISteamUGC_m_AddItemPreviewFile => 58
  | ISteamUGC_m_AddItemPreviewVideo => 59
  | ISteamUGC_m_UpdateItemPreviewFile => 60
  | ISteamUGC_m_UpdateItemPreviewVideo => 61
  | ISteamUGC_m_RemoveItemPreview => 62
  | ISteamUGC_m_AddContentDescriptor => 63
  | ISteamUGC_m_RemoveContentDescriptor => 64
  | ISteamUGC_m_SetRequiredGameVersions => 65
  | ISteamUGC_m_SubmitItemUpdate => 66
  | ISteamUGC_m_GetItemUpdateProgress => 67
  | ISteamUGC_m_SetUserItemVote => 68
  | ISteamUGC_m_GetUserItemVote => 69
  | ISteamUGC_m_AddItemToFavorites => 70
  | ISteamUGC_m_RemoveItemFromFavorites => 71
  | ISteamUGC_m_SubscribeItem => 72
  | ISteamUGC_m_UnsubscribeItem => 73
  | ISteamUGC_m_GetNumSubscribedItems => 74
  | ISteamUGC_m_GetSubscribedItems => 75
  | ISteamUGC_m_GetItemState => 76
  | ISteamUGC_m_GetItemInstallInfo => 77
  | ISteamUGC_m_GetItemDownloadInfo => 78
  | ISteamUGC_m_DownloadItem => 79
  | ISteamUGC_m_BInitWorkshopForGameServer => 80
  | ISteamUGC_m_SuspendDownloads => 81
  | ISteamUGC_m_StartPlaytimeTracking => 82
  | ISteamUGC_m_StopPlaytimeTracking => 83
  | ISteamUGC_m_StopPlaytimeTrackingForAllItems => 84
  | ISteamUGC_m_AddDependency => 85
  | ISteamUGC_m_RemoveDependency => 86
  | ISteamUGC_m_AddAppDependency => 87
  | ISteamUGC_m_RemoveAppDependency => 88
  | ISteamUGC_m_GetAppDependencies => 89
  | ISteamUGC_m_DeleteItem => 90
  | ISteamUGC_m_ShowWorkshopEULA => 91
  | ISteamUGC_m_GetWorkshopEULAStatus => 92
  | ISteamUGC_m_GetUserContentDescriptorPreferences => 93
  | ISteamUGC_m_SetItemsDisabledLocally => 94
  | ISteamUGC_m_SetSubscriptionsLoadOrder => 95
  end.

Coercion ISteamUGC_m_value : ISteamUGC_m >-> Z.

(** The trailing enumerator [ISteamUGC_num_methods], used as the array bound. *)
Definition ISteamUGC_num_methods : Z := 96.

Definition ISteamUGC_m_all : list ISteamUGC_m :=
  [
   ISteamUGC_m_CreateQueryUserUGCRequest;
   ISteamUGC_m_CreateQueryAllUGCRequestCursor;
   ISteamUGC_m_CreateQueryAllUGCRequestPage;
   ISteamUGC_m_CreateQueryUGCDetailsRequest;
   ISteamUGC_m_SendQueryUGCRequest;
   ISteamUGC_m_GetQueryUGCResult;
   ISteamUGC_m_GetQueryUGCNumTags;
   ISteamUGC_m_GetQueryUGCTag;
   ISteamUGC_m_GetQueryUGCTagDisplayName;
   ISteamUGC_m_GetQueryUGCPreviewURL;
   ISteamUGC_m_GetQueryUGCMetadata;
   ISteamUGC_m_GetQueryUGCChildren;
   ISteamUGC_m_GetQueryUGCStatistic;
   ISteamUGC_m_GetQueryUGCNumAdditionalPreviews;
   ISteamUGC_m_GetQueryUGCAdditionalPreview;
   ISteamUGC_m_GetQueryUGCNumKeyValueTags;
   ISteamUGC_m_GetQueryFirstUGCKeyValueTag;
   ISteamUGC_m_GetQueryUGCKeyValueTag;
   ISteamUGC_m_GetNumSupportedGameVersions;
   ISteamUGC_m_GetSupportedGameVersionData;
   ISteamUGC_m_GetQueryUGCContentDescriptors;
   ISteamUGC_m_ReleaseQueryUGCRequest;
   ISteamUGC_m_AddRequiredTag;
   ISteamUGC_m_AddRequiredTagGroup;
   ISteamUGC_m_AddExcludedTag;
   ISteamUGC_m_SetReturnOnlyIDs;
   ISteamUGC_m_SetReturnKeyValueTags;
   ISteamUGC_m_SetReturnLongDescription;
   ISteamUGC_m_SetReturnMetadata;
   ISteamUGC_m_SetReturnChildren;
   ISteamUGC_m_SetReturnAdditionalPreviews;
   ISteamUGC_m_SetReturnTotalOnly;
   ISteamUGC_m_SetReturnPlaytimeStats;
   ISteamUGC_m_SetLanguage;
   ISteamUGC_m_SetAllowCachedResponse;
   ISteamUGC_m_SetAdminQuery;
   ISteamUGC_m_SetCloudFileNameFilter;
   ISteamUGC_m_SetMatchAnyTag;
   ISteamUGC_m_SetSearchText;
   ISteamUGC_m_SetRankedByTrendDays;
   ISteamUGC_m_SetTimeCreatedDateRange;
   ISteamUGC_m_SetTimeUpdatedDateRange;
   ISteamUGC_m_AddRequiredKeyValueTag;
   ISteamUGC_m_RequestUGCDetails;
   ISteamUGC_m_CreateItem;
   ISteamUGC_m_StartItemUpdate;
   ISteamUGC_m_SetItemTitle;
   ISteamUGC_m_SetItemDescription;
   ISteamUGC_m_SetItemUpdateLanguage;
   ISteamUGC_m_SetItemMetadata;
   ISteamUGC_m_SetItemVisibility;
   ISteamUGC_m_SetItemTags;
   ISteamUGC_m_SetItemContent;
   ISteamUGC_m_SetItemPreview;
   ISteamUGC_m_SetAllowLegacyUpload;
   ISteamUGC_m_RemoveAllItemKeyValueTags;
   ISteamUGC_m_RemoveItemKeyValueTags;
   ISteamUGC_m_AddItemKeyValueTag;
   ISteamUGC_m_AddItemPreviewFile;
   ISteamUGC_m_AddItemPreviewVideo;
   ISteamUGC_m_UpdateItemPreviewFile;
   ISteamUGC_m_UpdateItemPreviewVideo;
   ISteamUGC_m_RemoveItemPreview;
   ISteamUGC_m_AddContentDescriptor;
   ISteamUGC_m_RemoveContentDescriptor;
   ISteamUGC_m_SetRequiredGameVersions;
   ISteamUGC_m_SubmitItemUpdate;
   ISteamUGC_m_GetItemUpdateProgress;
   ISteamUGC_m_SetUserItemVote;
   ISteamUGC_m_GetUserItemVote;
   ISteamUGC_m_AddItemToFavorites;
   ISteamUGC_m_RemoveItemFromFavorites;
   ISteamUGC_m_SubscribeItem;
   ISteamUGC_m_UnsubscribeItem;
   ISteamUGC_m_GetNumSubscribedItems;
   ISteamUGC_m_GetSubscribedItems;
   ISteamUGC_m_GetItemState;
   ISteamUGC_m_GetItemInstallInfo;
   ISteamUGC_m_GetItemDownloadInfo;
   ISteamUGC_m_DownloadItem;
   ISteamUGC_m_BInitWorkshopForGameServer;
   ISteamUGC_m_SuspendDownloads;
   ISteamUGC_m_StartPlaytimeTracking;
   ISteamUGC_m_StopPlaytimeTracking;
   ISteamUGC_m_StopPlaytimeTrackingForAllItems;
   ISteamUGC_m_AddDependency;
   ISteamUGC_m_RemoveDependency;
   ISteamUGC_m_AddAppDependency;
   ISteamUGC_m_RemoveAppDependency;
   ISteamUGC_m_GetAppDependencies;
   ISteamUGC_m_DeleteItem;
   ISteamUGC_m_ShowWorkshopEULA;
   ISteamUGC_m_GetWorkshopEULAStatus;
   ISteamUGC_m_GetUserContentDescriptorPreferences;
   ISteamUGC_m_SetItemsDisabledLocally;
   ISteamUGC_m_SetSubscriptionsLoadOrder
  ].

(** Virtual method enumeration for the ISteamUser interface (steam_api.hpp). *)
Inductive ISteamUser_m : Set :=
  | ISteamUser_m_GetHSteamUser
  | ISteamUser_m_BLoggedOn
  | ISteamUser_m_GetSteamID
  | ISteamUser_m_InitiateGameConnection
  | ISteamUser_m_TerminateGameConnection
  | ISteamUser_m_TrackAppUsageEvent
  | ISteamUser_m_GetUserDataFolder
  | ISteamUser_m_StartVoiceRecording
  | ISteamUser_m_StopVoiceRecording
  | ISteamUser_m_GetAvailableVoice
  | ISteamUser_m_GetVoice
  | ISteamUser_m_DecompressVoice
  | ISteamUser_m_GetVoiceOptimalSampleRate
  | ISteamUser_m_GetAuthSessionTicket
  | ISteamUser_m_GetAuthTicketForWebApi
  | ISteamUser_m_BeginAuthSession
  | ISteamUser_m_EndAuthSession
  | ISteamUser_m_CancelAuthTicket
  | ISteamUser_m_UserHasLicenseForApp
  | ISteamUser_m_BIsBehindNAT
  | ISteamUser_m_AdvertiseGame
  | ISteamUser_m_RequestEncryptedAppTicket
  | ISteamUser_m_GetEncryptedAppTicket
  | ISteamUser_m_GetGameBadgeLevel
  | ISteamUser_m_GetPlayerSteamLevel
  | ISteamUser_m_RequestStoreAuthURL
  | ISteamUser_m_BIsPhoneVerified
  | ISteamUser_m_BIsTwoFactorEnabled
  | ISteamUser_m_BIsPhoneIdentifying
  | ISteamUser_m_BIsPhoneRequiringVerification
  | ISteamUser_m_GetMarketEligibility
  | ISteamUser_m_GetDurationControl
  | ISteamUser_m_BSetDurationControlOnlineState.

(** The integer value of each enumerator, in declaration order. *)
Definition ISteamUser_m_value (m : ISteamUser_m) : Z :=
  match m with
  | ISteamUser_m_GetHSteamUser => 0
  | ISteamUser_m_BLoggedOn => 1
  | ISteamUser_m_GetSteamID => 2
  | ISteamUser_m_InitiateGameConnection => 3
  | ISteamUser_m_TerminateGameConnection => 4
  | ISteamUser_m_TrackAppUsageEvent => 5
  | ISteamUser_m_GetUserDataFolder => 6
  | ISteamUser_m_StartVoiceRecording => 7
  | ISteamUser_m_StopVoiceRecording => 8
  | ISteamUser_m_GetAvailableVoice => 9
  | ISteamUser_m_GetVoice => 10
  | ISteamUser_m_DecompressVoice => 11
  | ISteamUser_m_GetVoiceOptimalSampleRate => 12
  | ISteamUser_m_GetAuthSessionTicket => 13
  | ISteamUser_m_GetAuthTicketForWebApi => 14
  | ISteamUser_m_BeginAuthSession => 15
  | ISteamUser_m_EndAuthSession => 16
  | ISteamUser_m_CancelAuthTicket => 17
  | ISteamUser_m_UserHasLicenseForApp => 18
  | ISteamUser_m_BIsBehindNAT => 19
  | ISteamUser_m_AdvertiseGame => 20
  | ISteamUser_m_RequestEncryptedAppTicket => 21
  | ISteamUser_m_GetEncryptedAppTicket => 22
  | ISteamUser_m_GetGameBadgeLevel => 23
  | ISteamUser_m_GetPlayerSteamLevel => 24
  | ISteamUser_m_RequestStoreAuthURL => 25
  | ISteamUser_m_BIsPhoneVerified => 26
  | ISteamUser_m_BIsTwoFactorEnabled => 27
  | ISteamUser_m_BIsPhoneIdentifying => 28
  | ISteamUser_m_BIsPhoneRequiringVerification => 29
  | ISteamUser_m_GetMarketEligibility => 30
  | ISteamUser_m_GetDurationControl => 31
  | ISteamUser_m_BSetDurationControlOnlineState => 32
  end.

Coercion ISteamUser_m_value : ISteamUser_m >-> Z.

(** The trailing enumerator [ISteamUser_num_methods], used as the array bound. *)
Definition ISteamUser_num_methods : Z := 33.

Definition ISteamUser_m_all : list ISteamUser_m :=
  [
   ISteamUser_m_GetHSteamUser;
   ISteamUser_m_BLoggedOn;
   ISteamUser_m_GetSteamID;
   ISteamUser_m_InitiateGameConnection;
   ISteamUser_m_TerminateGameConnection;
   ISteamUser_m_TrackAppUsageEvent;
   ISteamUser_m_GetUserDataFolder;
   ISteamUser_m_StartVoiceRecording;
   ISteamUser_m_StopVoiceRecording;
   ISteamUser_m_GetAvailableVoice;
   ISteamUser_m_GetVoice;
   ISteamUser_m_DecompressVoice;
   ISteamUser_m_GetVoiceOptimalSampleRate;
   ISteamUser_m_GetAuthSessionTicket;
   ISteamUser_m_GetAuthTicketForWebApi;
   ISteamUser_m_BeginAuthSession;
   ISteamUser_m_EndAuthSession;
   ISteamUser_m_CancelAuthTicket;
   ISteamUser_m_UserHasLicenseForApp;
   ISteamUser_m_BIsBehindNAT;
   ISteamUser_m_AdvertiseGame;
   ISteamUser_m_RequestEncryptedAppTicket;
   ISteamUser_m_GetEncryptedAppTicket;
   ISteamUser_m_GetGameBadgeLevel;
   ISteamUser_m_GetPlayerSteamLevel;
   ISteamUser_m_RequestStoreAuthURL;
   ISteamUser_m_BIsPhoneVerified;
   ISteamUser_m_BIsTwoFactorEnabled;
   ISteamUser_m_BIsPhoneIdentifying;
   ISteamUser_m_BIsPhoneRequiringVerification;
   ISteamUser_m_GetMarketEligibility;
   ISteamUser_m_GetDurationControl;
   ISteamUser_m_BSetDurationControlOnlineState
  ].

(** Virtual method enumeration for the ISteamUtils interface (steam_api.hpp). *)
Inductive ISteamUtils_m : Set :=
  | ISteamUtils_m_GetSecondsSinceAppActive
  | ISteamUtils_m_GetSecondsSinceComputerActive
  | ISteamUtils_m_GetConnectedUniverse
  | ISteamUtils_m_GetServerRealTime
  | ISteamUtils_m_GetIPCountry
  | ISteamUtils_m_GetImageSize
  | ISteamUtils_m_GetImageRGBA
  | ISteamUtils_m_GetCSERIPPort
  | ISteamUtils_m_GetCurrentBatteryPower
  | ISteamUtils_m_GetAppID
  | ISteamUtils_m_SetOverlayNotificationPosition
  | ISteamUtils_m_IsAPICallCompleted
  | ISteamUtils_m_GetAPICallFailureReason
  | ISteamUtils_m_GetAPICallResult
  | ISteamUtils_m_RunFrame
  | ISteamUtils_m_GetIPCCallCount
  | ISteamUtils_m_SetWarningMessageHook
  | ISteamUtils_m_IsOverlayEnabled
  | ISteamUtils_m_BOverlayNeedsPresent
  | ISteamUtils_m_CheckFileSignature
  | ISteamUtils_m_ShowGamepadTextInput
  | ISteamUtils_m_GetEnteredGamepadTextLength
  | ISteamUtils_m_GetEnteredGamepadTextInput
  | ISteamUtils_m_GetSteamUILanguage
  | ISteamUtils_m_IsSteamRunningInVR
  | ISteamUtils_m_SetOverlayNotificationInset
  | ISteamUtils_m_IsSteamInBigPictureMode
  | ISteamUtils_m_StartVRDashboard
  | ISteamUtils_m_IsVRHeadsetStreamingEnabled
  | ISteamUtils_m_SetVRHeadsetStreamingEnabled
  | ISteamUtils_m_IsSteamChinaLauncher
  | ISteamUtils_m_InitFilterText
  | ISteamUtils_m_FilterText
  | ISteamUtils_m_GetIPv6ConnectivityState
  | ISteamUtils_m_IsSteamRunningOnSteamDeck
  | ISteamUtils_m_ShowFloatingGamepadTextInput
  | ISteamUtils_m_SetGameLauncherMode
  | ISteamUtils_m_DismissFloatingGamepadTextInput
  | ISteamUtils_m_DismissGamepadTextInput.

(** The integer value of each enumerator, in declaration order. *)
Definition ISteamUtils_m_value (m : ISteamUtils_m) : Z :=
  match m with
  | ISteamUtils_m_GetSecondsSinceAppActive => 0
  | ISteamUtils_m_GetSecondsSinceComputerActive => 1
  | ISteamUtils_m_GetConnectedUniverse => 2
  | ISteamUtils_m_GetServerRealTime => 3
  | ISteamUtils_m_GetIPCountry => 4
  | ISteamUtils_m_GetImageSize => 5
  | ISteamUtils_m_GetImageRGBA => 6
  | ISteamUtils_m_GetCSERIPPort => 7
  | ISteamUtils_m_GetCurrentBatteryPower => 8
  | ISteamUtils_m_GetAppID => 9
  | ISteamUtils_m_SetOverlayNotificationPosition => 10
  | ISteamUtils_m_IsAPICallCompleted => 11
  | ISteamUtils_m_GetAPICallFailureReason => 12
  | ISteamUtils_m_GetAPICallResult => 13
  | ISteamUtils_m_RunFrame => 14
  | ISteamUtils_m_GetIPCCallCount => 15
  | ISteamUtils_m_SetWarningMessageHook => 16
  | ISteamUtils_m_IsOverlayEnabled => 17
  | ISteamUtils_m_BOverlayNeedsPresent => 18
  | ISteamUtils_m_CheckFileSignature => 19
  | ISteamUtils_m_ShowGamepadTextInput => 20
  | ISteamUtils_m_GetEnteredGamepadTextLength => 21
  | ISteamUtils_m_GetEnteredGamepadTextInput => 22
  | ISteamUtils_m_GetSteamUILanguage => 23
  | ISteamUtils_m_IsSteamRunningInVR => 24
  | ISteamUtils_m_SetOverlayNotificationInset => 25
  | ISteamUtils_m_IsSteamInBigPictureMode => 26
  | ISteamUtils_m_StartVRDashboard => 27
  | ISteamUtils_m_IsVRHeadsetStreamingEnabled => 28
  | ISteamUtils_m_SetVRHeadsetStreamingEnabled => 29
  | ISteamUtils_m_IsSteamChinaLauncher => 30
  | ISteamUtils_m_InitFilterText => 31
  | ISteamUtils_m_FilterText => 32
  | ISteamUtils_m_GetIPv6ConnectivityState => 33
  | ISteamUtils_m_IsSteamRunningOnSteamDeck => 34
  | ISteamUtils_m_ShowFloatingGamepadTextInput => 35
  | ISteamUtils_m_SetGameLauncherMode => 36
  | ISteamUtils_m_DismissFloatingGamepadTextInput => 37
  | ISteamUtils_m_DismissGamepadTextInput => 38
  end.

Coercion ISteamUtils_m_value : ISteamUtils_m >-> Z.

(** The trailing enumerator [ISteamUtils_num_methods], used as the array bound. *)
Definition ISteamUtils_num_methods : Z := 39.

Definition ISteamUtils_m_all : list ISteamUtils_m :=
  [
   ISteamUtils_m_GetSecondsSinceAppActive;
   ISteamUtils_m_GetSecondsSinceComputerActive;
   ISteamUtils_m_GetConnectedUniverse;
   ISteamUtils_m_GetServerRealTime;
   ISteamUtils_m_GetIPCountry;
   ISteamUtils_m_GetImageSize;
   ISteamUtils_m_GetImageRGBA;
   ISteamUtils_m_GetCSERIPPort;
   ISteamUtils_m_GetCurrentBatteryPower;
   ISteamUtils_m_GetAppID;
   ISteamUtils_m_SetOverlayNotificationPosition;
   ISteamUtils_m_IsAPICallCompleted;
   ISteamUtils_m_GetAPICallFailureReason;
   ISteamUtils_m_GetAPICallResult;
   ISteamUtils_m_RunFrame;
   ISteamUtils_m_GetIPCCallCount;
   ISteamUtils_m_SetWarningMessageHook;
   ISteamUtils_m_IsOverlayEnabled;
   ISteamUtils_m_BOverlayNeedsPresent;
   ISteamUtils_m_CheckFileSignature;
   ISteamUtils_m_ShowGamepadTextInput;
   ISteamUtils_m_GetEnteredGamepadTextLength;
   ISteamUtils_m_GetEnteredGamepadTextInput;
   ISteamUtils_m_GetSteamUILanguage;
   ISteamUtils_m_IsSteamRunningInVR;
   ISteamUtils_m_SetOverlayNotificationInset;
   ISteamUtils_m_IsSteamInBigPictureMode;
   ISteamUtils_m_StartVRDashboard;
   ISteamUtils_m_IsVRHeadsetStreamingEnabled;
   ISteamUtils_m_SetVRHeadsetStreamingEnabled;
   ISteamUtils_m_IsSteamChinaLauncher;
   ISteamUtils_m_InitFilterText;
   ISteamUtils_m_FilterText;
   ISteamUtils_m_GetIPv6ConnectivityState;
   ISteamUtils_m_IsSteamRunningOnSteamDeck;
   ISteamUtils_m_ShowFloatingGamepadTextInput;
   ISteamUtils_m_SetGameLauncherMode;
   ISteamUtils_m_DismissFloatingGamepadTextInput;
   ISteamUtils_m_DismissGamepadTextInput
  ].

(** ** Pointers, descriptors and the process state *)

(** The six wrapped interfaces; each has one global descriptor
    ([ISteamApps_desc], ...) in steam_api.hpp. *)
Inductive interface : Set :=
  | ISteamApps
  | ISteamMatchmaking
  | ISteamMatchmakingServers
  | ISteamUGC
  | ISteamUser
  | ISteamUtils.

#[global] Instance interface_eq_dec : EqDecision interface.
Proof. solve_decision. Defined.

(** Template argument of each descriptor: the number of methods in the
    highest supported interface version. *)
Definition max_num_methods (X : interface) : Z :=
  match X with
  | ISteamApps => ISteamApps_num_methods
  | ISteamMatchmaking => ISteamMatchmaking_num_methods
  | ISteamMatchmakingServers => ISteamMatchmakingServers_num_methods
  | ISteamUGC => ISteamUGC_num_methods
  | ISteamUser => ISteamUser_num_methods
  | ISteamUtils => ISteamUtils_num_methods
  end.

(** The functions of this library whose addresses are stored into method
    tables or import cells. *)
Inductive function : Set :=
  | fn_SteamApps_BIsSubscribed
  | fn_SteamApps_BIsSubscribedApp
  | fn_SteamApps_BIsDlcInstalled
  | fn_SteamApps_BIsSubscribedFromFreeWeekend
  | fn_SteamApps_GetDLCCount
  | fn_SteamApps_BGetDLCDataByIndex
  | fn_SteamApps_BIsAppInstalled
  | fn_SteamApps_GetAppOwner
  | fn_SteamApps_BIsSubscribedFromFamilySharing
  | fn_SteamApps_BIsTimedTrial
  | fn_SteamUser_UserHasLicenseForApp
  | fn_SteamUtils_GetAppID
  | fn_SteamAPI_Init
  | fn_SteamMatchmakingServers_RequestInternetServerList
  | fn_SteamMatchmakingServers_ServerRules
  | fn_SteamUGC_SubscribeItem
  | fn_SteamUGC_GetNumSubscribedItems
  | fn_SteamUGC_GetSubscribedItems
  | fn_SteamUGC_GetItemInstallInfo
  | fn_SteamUGC_GetItemUpdateInfo
  | fn_SteamUtils_IsAPICallCompleted
  | fn_SteamUtils_GetAPICallResult.

(** A code pointer: null, an address inside the vendor library (or any other
    foreign code), or one of the functions above. *)
Inductive fnptr : Set :=
  | fn_null
  | fn_vendor (addr : Z)
  | fn_wrapper (f : function).

Coercion fn_wrapper : function >-> fnptr.

#[global] Instance function_eq_dec : EqDecision function.
Proof. solve_decision. Defined.

#[global] Instance fnptr_eq_dec : EqDecision fnptr.
Proof. solve_decision. Defined.

(** A pointer to a method table: a table in foreign memory, or the [vtable]
    array of one of the descriptors ([X_desc.vtable.data()]). *)
Inductive vtable_ptr : Set :=
  | vendor_table (addr : Z)
  | desc_table (X : interface).

#[global] Instance vtable_ptr_eq_dec : EqDecision vtable_ptr.
Proof. solve_decision. Defined.

(** [wrapper_desc<max_num_methods>] of steam_api.hpp. *)
Record wrapper_desc := {
  (** Actual number of interface methods, detected at run time. *)
  num_methods : Z;
  (** Pointer to the original method table ([None] is [nullptr]). *)
  orig_vtable : option vtable_ptr;
  (** Pointer to the interface instance (0 is [nullptr]). *)
  iface : Z;
  (** The wrapper's own method table. *)
  vtable : list fnptr;
  (** Enumerator value to table index; -1 marks an unavailable method. *)
  vm_idxs : list Z
}.

(** The descriptor as the program finds it at start-up: static storage is
    zero-initialised and the constructor fills [vm_idxs] with -1. *)
Definition wrapper_desc_init (max : Z) : wrapper_desc :=
  {| num_methods := 0;
     orig_vtable := None;
     iface := 0;
     vtable := replicate (Z.to_nat max) fn_null;
     vm_idxs := replicate (Z.to_nat max) (-1) |}.

Definition set_num_methods (n : Z) (d : wrapper_desc) : wrapper_desc :=
  {| num_methods := n; orig_vtable := orig_vtable d; iface := iface d;
     vtable := vtable d; vm_idxs := vm_idxs d |}.

Definition set_orig_vtable (p : option vtable_ptr) (d : wrapper_desc)
    : wrapper_desc :=
  {| num_methods := num_methods d; orig_vtable := p; iface := iface d;
     vtable := vtable d; vm_idxs := vm_idxs d |}.

Definition set_iface (p : Z) (d : wrapper_desc) : wrapper_desc :=
  {| num_methods := num_methods d; orig_vtable := orig_vtable d; iface := p;
     vtable := vtable d; vm_idxs := vm_idxs d |}.

Definition set_vtable (t : list fnptr) (d : wrapper_desc) : wrapper_desc :=
  {| num_methods := num_methods d; orig_vtable := orig_vtable d;
     iface := iface d; vtable := t; vm_idxs := vm_idxs d |}.

Definition set_vm_idxs (t : list Z) (d : wrapper_desc) : wrapper_desc :=
  {| num_methods := num_methods d; orig_vtable := orig_vtable d;
     iface := iface d; vtable := vtable d; vm_idxs := t |}.

(** The six global descriptors of steam_api.hpp. *)
Record descriptors := {
  ISteamApps_desc : wrapper_desc;
  ISteamMatchmaking_desc : wrapper_desc;
  ISteamMatchmakingServers_desc : wrapper_desc;
  ISteamUGC_desc : wrapper_desc;
  ISteamUser_desc : wrapper_desc;
  ISteamUtils_desc : wrapper_desc
}.

(** The descriptor of an interface. *)
Definition descriptor (X : interface) (ds : descriptors) : wrapper_desc :=
  match X with
  | ISteamApps => ISteamApps_desc ds
  | ISteamMatchmaking => ISteamMatchmaking_desc ds
  | ISteamMatchmakingServers => ISteamMatchmakingServers_desc ds
  | ISteamUGC => ISteamUGC_desc ds
  | ISteamUser => ISteamUser_desc ds
  | ISteamUtils => ISteamUtils_desc ds
  end.

Definition set_descriptor (X : interface) (d : wrapper_desc)
    (ds : descriptors) : descriptors :=
  {| ISteamApps_desc :=
       match X with ISteamApps => d | _ => ISteamApps_desc ds end;
     ISteamMatchmaking_desc :=
       match X with ISteamMatchmaking => d | _ => ISteamMatchmaking_desc ds end;
     ISteamMatchmakingServers_desc :=
       match X with
       | ISteamMatchmakingServers => d
       | _ => ISteamMatchmakingServers_desc ds
       end;
     ISteamUGC_desc :=
       match X with ISteamUGC => d | _ => ISteamUGC_desc ds end;
     ISteamUser_desc :=
       match X with ISteamUser => d | _ => ISteamUser_desc ds end;
     ISteamUtils_desc :=
       match X with ISteamUtils => d | _ => ISteamUtils_desc ds end |}.

(** File-scope variables of steam/346110.cpp. *)
Module app_346110_vars.
Record globals := {
  show_be_servers : bool;
  show_unavailable_servers : bool;
  ws_dir_path : string;
  ws_am_path : string;
  (** DLC maps not owned by the user. *)
  unavailable_dlc : list string;
  (** Installed Steam Workshop item IDs. *)
  mods : list Z;
  (** Active Workshop job descriptors: item ID to descriptor pointer
      (0 is [nullptr]). *)
  ws_descs : gmap Z Z;
  SteamMatchmakingServers_CancelServerQuery_orig : fnptr;
  SteamMatchmakingServers_RequestInternetServerList_orig : fnptr;
  SteamMatchmakingServers_ServerRules_orig : fnptr;
  SteamUtils_IsAPICallCompleted_orig : fnptr;
  SteamUtils_GetAPICallResult_orig : fnptr
}.
End app_346110_vars.

(** A recorded call into foreign code: callee, [this] pointer, argument. *)
Record vendor_call := {
  callee : Z;
  this_ptr : Z;
  argument : Z
}.

(** Arguments handed to a started Workshop job thread ([ws_job_args] of
    tek-steamclient.cpp; the descriptor slot is named by its map key). *)
Record ws_job_args := {
  job_id : Z;
  job_item_desc : Z
}.

(** The mutable state of the process that the modelled code can observe or
    change. *)
Record state := {
  (** [g_settings.steam] *)
  g_settings : settings.steam_options;
  (** environment variables of the process *)
  environment : gmap string string;
  (** interface instances ([cpp_interface]): address to [vtable] field *)
  cpp_objects : gmap Z vtable_ptr;
  (** method tables in foreign memory: table address, slot, content *)
  vendor_mem : Z -> Z -> fnptr;
  (** [steam_api::ver] *)
  ver : Z;
  (** [steam_api::steam_id] *)
  steam_id : Z;
  (** the descriptors [ISteamApps_desc] ... [ISteamUtils_desc] *)
  steam_api_descs : descriptors;
  SteamApps_BIsSubscribedApp_orig : fnptr;
  SteamApps_BIsAppInstalled_orig : fnptr;
  (** statics of steam/346110.cpp *)
  game_346110 : app_346110_vars.globals;
  (** [steamclient::loaded] *)
  steamclient_loaded : bool;
  (** [steamclient::am] (0 is [nullptr]) *)
  steamclient_am : Z;
  (** texts shown through [display_error] *)
  messages : list string;
  (** calls made into foreign code, oldest first *)
  vendor_calls : list vendor_call;
  (** Workshop job threads started, oldest first *)
  threads : list ws_job_args;
  (** number of calls of the real [SteamAPI_Init] so far *)
  init_calls : nat
}.


(** [X_desc] for an interface [X]. *)
Definition descs (s : state) (X : interface) : wrapper_desc :=
  descriptor X (steam_api_descs s).

(** Everything outside the process that the code consults. *)
Record world := {
  (** the real [SteamAPI_Init]: result of its [k]-th call, given the value of
      the SteamAppId environment variable at that moment *)
  w_SteamAPI_Init_orig : nat -> option string -> bool;
  (** version resource of steam_api64.dll (0 is a null handle) *)
  w_FindResourceW : Z;
  w_LoadResource : Z -> Z;
  w_LockResource : Z -> Z;
  (** [VerQueryValueW]: [dwFileVersionMS], [dwFileVersionLS] on success *)
  w_VerQueryValueW : Z -> option (Z * Z);
  (** exported interface getters of steam_api64.dll, by export name: the
      pointer the getter returns, [None] when there is no such export *)
  w_export_getter : string -> option Z;
  (** [SteamInternal_CreateInterface] *)
  w_SteamInternal_CreateInterface : string -> Z;
  w_SteamAPI_GetHSteamPipe : Z;
  w_SteamAPI_GetHSteamUser : Z;
  (** foreign [ISteamClient::GetISteamGenericInterface]: callee, client,
      user, pipe, version name *)
  w_GetISteamGenericInterface : Z -> Z -> Z -> Z -> string -> Z;
  (** foreign [ISteamUser::GetSteamID]: callee, instance *)
  w_GetSteamID : Z -> Z -> Z;
  (** foreign methods [bool (void *, uint32_t)]: callee, instance, app ID *)
  w_vendor_bool : Z -> Z -> Z -> bool;
  (** whether libtek-steamclient-1.dll and all its entry points load and the
      library context initialises *)
  w_steamclient_load : bool;
  (** DLC entries that the network update of the DLC list discovers *)
  w_update_dlc : list (Z * string);
  (** [tek_sc_am_create] (0 on failure) *)
  w_am_create : string -> Z;
  (** whether [_beginthreadex] manages to start the job thread of an item *)
  w_beginthreadex : Z -> bool;
  (** [std::filesystem::exists] *)
  w_fs_exists : string -> bool;
  (** item IDs named by the sub-directories of a directory (the scan of
      steam_api_init_346110) *)
  w_workshop_dirs : string -> list Z
}.

(** ** The state-and-failure monad *)

(** A computation either finishes, or performs an operation the C++
    standard leaves undefined (null or wild dereference, array access outside
    its bounds). *)
Inductive result (A : Type) : Type :=
  | Ok (a : A)
  | Undefined (what : string).

Arguments Ok {A} a.
Arguments Undefined {A} what.

Definition M (A : Type) : Type := state -> result (A * state).

#[global] Instance M_ret : MRet M := fun A a s => Ok (a, s).

#[global] Instance M_bind : MBind M := fun A B f m s =>
  match m s with
  | Ok (a, s') => f a s'
  | Undefined e => Undefined e
  end.

Definition gets {A} (f : state -> A) : M A := fun s => Ok (f s, s).
Definition modify (f : state -> state) : M unit := fun s => Ok (tt, f s).
Definition undefined {A} (what : string) : M A := fun _ => Undefined what.

(** Unwrap a checked access. *)
Definition defined {A} (what : string) (o : option A) : M A :=
  match o with
  | Some a => mret a
  | None => undefined what
  end.

(** *** Field updates *)

Definition with_settings (f : settings.steam_options -> settings.steam_options)
    (s : state) : state :=
  {| g_settings := f (g_settings s); environment := environment s;
     cpp_objects := cpp_objects s; vendor_mem := vendor_mem s; ver := ver s;
     steam_id := steam_id s; steam_api_descs := steam_api_descs s;
     SteamApps_BIsSubscribedApp_orig := SteamApps_BIsSubscribedApp_orig s;
     SteamApps_BIsAppInstalled_orig := SteamApps_BIsAppInstalled_orig s;
     game_346110 := game_346110 s; steamclient_loaded := steamclient_loaded s;
     steamclient_am := steamclient_am s; messages := messages s;
     vendor_calls := vendor_calls s; threads := threads s;
     init_calls := init_calls s |}.

Definition with_environment (f : gmap string string -> gmap string string)
    (s : state) : state :=
  {| g_settings := g_settings s; environment := f (environment s);
     cpp_objects := cpp_objects s; vendor_mem := vendor_mem s; ver := ver s;
     steam_id := steam_id s; steam_api_descs := steam_api_descs s;
     SteamApps_BIsSubscribedApp_orig := SteamApps_BIsSubscribedApp_orig s;
     SteamApps_BIsAppInstalled_orig := SteamApps_BIsAppInstalled_orig s;
     game_346110 := game_346110 s; steamclient_loaded := steamclient_loaded s;
     steamclient_am := steamclient_am s; messages := messages s;
     vendor_calls := vendor_calls s; threads := threads s;
     init_calls := init_calls s |}.

Definition with_cpp_objects (f : gmap Z vtable_ptr -> gmap Z vtable_ptr)
    (s : state) : state :=
  {| g_settings := g_settings s; environment := environment s;
     cpp_objects := f (cpp_objects s); vendor_mem := vendor_mem s;
     ver := ver s; steam_id := steam_id s; steam_api_descs := steam_api_descs s;
     SteamApps_BIsSubscribedApp_orig := SteamApps_BIsSubscribedApp_orig s;
     SteamApps_BIsAppInstalled_orig := SteamApps_BIsAppInstalled_orig s;
     game_346110 := game_346110 s; steamclient_loaded := steamclient_loaded s;
     steamclient_am := steamclient_am s; messages := messages s;
     vendor_calls := vendor_calls s; threads := threads s;
     init_calls := init_calls s |}.

Definition with_ver (v : Z) (s : state) : state :=
  {| g_settings := g_settings s; environment := environment s;
     cpp_objects := cpp_objects s; vendor_mem := vendor_mem s; ver := v;
     steam_id := steam_id s; steam_api_descs := steam_api_descs s;
     SteamApps_BIsSubscribedApp_orig := SteamApps_BIsSubscribedApp_orig s;
     SteamApps_BIsAppInstalled_orig := SteamApps_BIsAppInstalled_orig s;
     game_346110 := game_346110 s; steamclient_loaded := steamclient_loaded s;
     steamclient_am := steamclient_am s; messages := messages s;
     vendor_calls := vendor_calls s; threads := threads s;
     init_calls := init_calls s |}.

Definition with_steam_id (v : Z) (s : state) : state :=
  {| g_settings := g_settings s; environment := environment s;
     cpp_objects := cpp_objects s; vendor_mem := vendor_mem s; ver := ver s;
     steam_id := v; steam_api_descs := steam_api_descs s;
     SteamApps_BIsSubscribedApp_orig := SteamApps_BIsSubscribedApp_orig s;
     SteamApps_BIsAppInstalled_orig := SteamApps_BIsAppInstalled_orig s;
     game_346110 := game_346110 s; steamclient_loaded := steamclient_loaded s;
     steamclient_am := steamclient_am s; messages := messages s;
     vendor_calls := vendor_calls s; threads := threads s;
     init_calls := init_calls s |}.

Definition with_descs (f : descriptors -> descriptors) (s : state) : state :=
  {| g_settings := g_settings s; environment := environment s;
     cpp_objects := cpp_objects s; vendor_mem := vendor_mem s; ver := ver s;
     steam_id := steam_id s; steam_api_descs := f (steam_api_descs s);
     SteamApps_BIsSubscribedApp_orig := SteamApps_BIsSubscribedApp_orig s;
     SteamApps_BIsAppInstalled_orig := SteamApps_BIsAppInstalled_orig s;
     game_346110 := game_346110 s; steamclient_loaded := steamclient_loaded s;
     steamclient_am := steamclient_am s; messages := messages s;
     vendor_calls := vendor_calls s; threads := threads s;
     init_calls := init_calls s |}.

Definition with_SteamApps_BIsSubscribedApp_orig (p : fnptr) (s : state)
    : state :=
  {| g_settings := g_settings s; environment := environment s;
     cpp_objects := cpp_objects s; vendor_mem := vendor_mem s; ver := ver s;
     steam_id := steam_id s; steam_api_descs := steam_api_descs s;
     SteamApps_BIsSubscribedApp_orig := p;
     SteamApps_BIsAppInstalled_orig := SteamApps_BIsAppInstalled_orig s;
     game_346110 := game_346110 s; steamclient_loaded := steamclient_loaded s;
     steamclient_am := steamclient_am s; messages := messages s;
     vendor_calls := vendor_calls s; threads := threads s;
     init_calls := init_calls s |}.

Definition with_SteamApps_BIsAppInstalled_orig (p : fnptr) (s : state)
    : state :=
  {| g_settings := g_settings s; environment := environment s;
     cpp_objects := cpp_objects s; vendor_mem := vendor_mem s; ver := ver s;
     steam_id := steam_id s; steam_api_descs := steam_api_descs s;
     SteamApps_BIsSubscribedApp_orig := SteamApps_BIsSubscribedApp_orig s;
     SteamApps_BIsAppInstalled_orig := p;
     game_346110 := game_346110 s; steamclient_loaded := steamclient_loaded s;
     steamclient_am := steamclient_am s; messages := messages s;
     vendor_calls := vendor_calls s; threads := threads s;
     init_calls := init_calls s |}.

Definition with_game_346110
    (f : app_346110_vars.globals -> app_346110_vars.globals) (s : state)
    : state :=
  {| g_settings := g_settings s; environment := environment s;
     cpp_objects := cpp_objects s; vendor_mem := vendor_mem s; ver := ver s;
     steam_id := steam_id s; steam_api_descs := steam_api_descs s;
     SteamApps_BIsSubscribedApp_orig := SteamApps_BIsSubscribedApp_orig s;
     SteamApps_BIsAppInstalled_orig := SteamApps_BIsAppInstalled_orig s;
     game_346110 := f (game_346110 s);
     steamclient_loaded := steamclient_loaded s;
     steamclient_am := steamclient_am s; messages := messages s;
     vendor_calls := vendor_calls s; threads := threads s;
     init_calls := init_calls s |}.

Definition with_steamclient_loaded (b : bool) (s : state) : state :=
  {| g_settings := g_settings s; environment := environment s;
     cpp_objects := cpp_objects s; vendor_mem := vendor_mem s; ver := ver s;
     steam_id := steam_id s; steam_api_descs := steam_api_descs s;
     SteamApps_BIsSubscribedApp_orig := SteamApps_BIsSubscribedApp_orig s;
     SteamApps_BIsAppInstalled_orig := SteamApps_BIsAppInstalled_orig s;
     game_346110 := game_346110 s; steamclient_loaded := b;
     steamclient_am := steamclient_am s; messages := messages s;
     vendor_calls := vendor_calls s; threads := threads s;
     init_calls := init_calls s |}.

Definition with_steamclient_am (p : Z) (s : state) : state :=
  {| g_settings := g_settings s; environment := environment s;
     cpp_objects := cpp_objects s; vendor_mem := vendor_mem s; ver := ver s;
     steam_id := steam_id s; steam_api_descs := steam_api_descs s;
     SteamApps_BIsSubscribedApp_orig := SteamApps_BIsSubscribedApp_orig s;
     SteamApps_BIsAppInstalled_orig := SteamApps_BIsAppInstalled_orig s;
     game_346110 := game_346110 s; steamclient_loaded := steamclient_loaded s;
     steamclient_am := p; messages := messages s;
     vendor_calls := vendor_calls s; threads := threads s;
     init_calls := init_calls s |}.

Definition with_messages (f : list string -> list string) (s : state)
    : state :=
  {| g_settings := g_settings s; environment := environment s;
     cpp_objects := cpp_objects s; vendor_mem := vendor_mem s; ver := ver s;
     steam_id := steam_id s; steam_api_descs := steam_api_descs s;
     SteamApps_BIsSubscribedApp_orig := SteamApps_BIsSubscribedApp_orig s;
     SteamApps_BIsAppInstalled_orig := SteamApps_BIsAppInstalled_orig s;
     game_346110 := game_346110 s; steamclient_loaded := steamclient_loaded s;
     steamclient_am := steamclient_am s; messages := f (messages s);
     vendor_calls := vendor_calls s; threads := threads s;
     init_calls := init_calls s |}.

Definition with_vendor_calls (f : list vendor_call -> list vendor_call)
    (s : state) : state :=
  {| g_settings := g_settings s; environment := environment s;
     cpp_objects := cpp_objects s; vendor_mem := vendor_mem s; ver := ver s;
     steam_id := steam_id s; steam_api_descs := steam_api_descs s;
     SteamApps_BIsSubscribedApp_orig := SteamApps_BIsSubscribedApp_orig s;
     SteamApps_BIsAppInstalled_orig := SteamApps_BIsAppInstalled_orig s;
     game_346110 := game_346110 s; steamclient_loaded := steamclient_loaded s;
     steamclient_am := steamclient_am s; messages := messages s;
     vendor_calls := f (vendor_calls s); threads := threads s;
     init_calls := init_calls s |}.

Definition with_threads (f : list ws_job_args -> list ws_job_args) (s : state)
    : state :=
  {| g_settings := g_settings s; environment := environment s;
     cpp_objects := cpp_objects s; vendor_mem := vendor_mem s; ver := ver s;
     steam_id := steam_id s; steam_api_descs := steam_api_descs s;
     SteamApps_BIsSubscribedApp_orig := SteamApps_BIsSubscribedApp_orig s;
     SteamApps_BIsAppInstalled_orig := SteamApps_BIsAppInstalled_orig s;
     game_346110 := game_346110 s; steamclient_loaded := steamclient_loaded s;
     steamclient_am := steamclient_am s; messages := messages s;
     vendor_calls := vendor_calls s; threads := f (threads s);
     init_calls := init_calls s |}.

Definition with_init_calls (n : nat) (s : state) : state :=
  {| g_settings := g_settings s; environment := environment s;
     cpp_objects := cpp_objects s; vendor_mem := vendor_mem s; ver := ver s;
     steam_id := steam_id s; steam_api_descs := steam_api_descs s;
     SteamApps_BIsSubscribedApp_orig := SteamApps_BIsSubscribedApp_orig s;
     SteamApps_BIsAppInstalled_orig := SteamApps_BIsAppInstalled_orig s;
     game_346110 := game_346110 s; steamclient_loaded := steamclient_loaded s;
     steamclient_am := steamclient_am s; messages := messages s;
     vendor_calls := vendor_calls s; threads := threads s;
     init_calls := n |}.

(** Replace one descriptor. *)
Definition update_desc (X : interface) (f : wrapper_desc -> wrapper_desc)
    : M unit :=
  modify (with_descs (fun ds => set_descriptor X (f (descriptor X ds)) ds)).

(** *** Primitive operations *)

(** [display_error] of common.hpp (a message box). *)
Definition display_error (msg : string) : M unit :=
  modify (with_messages (fun l => l ++ [msg])).

Definition SetEnvironmentVariableW (name value : string) : M unit :=
  modify (with_environment (insert name value)).

(** [p->vtable] for an interface pointer [p]. *)
Definition load_vtable (p : Z) : M vtable_ptr :=
  o ← gets (fun s => cpp_objects s !! p);
  defined "dereference of a pointer that is not an interface instance" o.

(** [p->vtable = t]. *)
Definition store_vtable (p : Z) (t : vtable_ptr) : M unit :=
  _ ← load_vtable p;
  modify (with_cpp_objects (insert p t)).

(** [t[i]] through a method-table pointer. *)
Definition read_table (s : state) (t : vtable_ptr) (i : Z) : option fnptr :=
  match t with
  | vendor_table a => Some (vendor_mem s a i)
  | desc_table X => cxx.array_get (vtable (descs s X)) i
  end.

Definition load_table (t : vtable_ptr) (i : Z) : M fnptr :=
  o ← gets (fun s => read_table s t i);
  defined "read outside the bounds of a descriptor's vtable array" o.

(** [X_desc.vm_idxs[m]]. *)
Definition load_vm_idx (X : interface) (m : Z) : M Z :=
  o ← gets (fun s => cxx.array_get (vm_idxs (descs s X)) m);
  defined "read outside the bounds of vm_idxs" o.

(** [X_desc.vm_idxs[m] = v]. *)
Definition store_vm_idx (X : interface) (m v : Z) : M unit :=
  d ← gets (fun s => descs s X);
  t ← defined "write outside the bounds of vm_idxs"
        (cxx.array_set (vm_idxs d) m v);
  update_desc X (set_vm_idxs t).

(** [X_desc.vtable[i] = f]. *)
Definition store_vtable_entry (X : interface) (i : Z) (f : fnptr) : M unit :=
  d ← gets (fun s => descs s X);
  t ← defined "write outside the bounds of a descriptor's vtable array"
        (cxx.array_set (vtable d) i f);
  update_desc X (set_vtable t).

(** [X_desc.orig_vtable[i]]. *)
Definition load_orig_entry (X : interface) (i : Z) : M fnptr :=
  o ← gets (fun s => orig_vtable (descs s X));
  t ← defined "dereference of a null orig_vtable" o;
  load_table t i.

(** A call of a foreign [bool (void *, uint32_t)] method through a code
    pointer.  Only foreign code can be entered this way in the model. *)
Definition call_vendor_bool (w : world) (f : fnptr) (this arg : Z) : M bool :=
  match f with
  | fn_vendor a =>
      modify (with_vendor_calls (fun l =>
        l ++ [{| callee := a; this_ptr := this; argument := arg |}])) ;;
      mret (w_vendor_bool w a this arg)
  | fn_null => undefined "call through a null function pointer"
  | fn_wrapper _ => undefined "re-entrant call of an interception function"
  end.


(** ** steam_api.cpp: method-table layouts per interface version *)

(** The explicit [vm_idxs] assignments of each version branch of
    [SteamAPI_Init], in source order; each list is named after the interface
    version the branch is commented with. *)

Definition SteamMatchMaking008_vm_idxs : list (ISteamMatchmaking_m * Z) :=
  [
    (ISteamMatchmaking_m_GetFavoriteGameCount, 0);
    (ISteamMatchmaking_m_GetFavoriteGame, 1);
    (ISteamMatchmaking_m_AddFavoriteGame, 2);
    (ISteamMatchmaking_m_RemoveFavoriteGame, 3);
    (ISteamMatchmaking_m_RequestLobbyList, 4);
    (ISteamMatchmaking_m_AddRequestLobbyListStringFilter, 5);
    (ISteamMatchmaking_m_AddRequestLobbyListNumericalFilter, 6);
    (ISteamMatchmaking_m_AddRequestLobbyListNearValueFilter, 7);
    (ISteamMatchmaking_m_AddRequestLobbyListFilterSlotsAvailable, 8);
    (ISteamMatchmaking_m_AddRequestLobbyListDistanceFilter, 9);
    (ISteamMatchmaking_m_AddRequestLobbyListResultCountFilter, 10);
    (ISteamMatchmaking_m_GetLobbyByIndex, 11);
    (ISteamMatchmaking_m_CreateLobby, 12);
    (ISteamMatchmaking_m_JoinLobby, 13);
    (ISteamMatchmaking_m_LeaveLobby, 14);
    (ISteamMatchmaking_m_InviteUserToLobby, 15);
    (ISteamMatchmaking_m_GetNumLobbyMembers, 16);
    (ISteamMatchmaking_m_GetLobbyMemberByIndex, 17);
    (ISteamMatchmaking_m_GetLobbyData, 18);
    (ISteamMatchmaking_m_SetLobbyData, 19);
    (ISteamMatchmaking_m_GetLobbyDataCount, 20);
    (ISteamMatchmaking_m_GetLobbyDataByIndex, 21);
    (ISteamMatchmaking_m_DeleteLobbyData, 22);
    (ISteamMatchmaking_m_GetLobbyMemberData, 23);
    (ISteamMatchmaking_m_SetLobbyMemberData, 24);
    (ISteamMatchmaking_m_SendLobbyChatMsg, 25);
    (ISteamMatchmaking_m_GetLobbyChatEntry, 26);
    (ISteamMatchmaking_m_RequestLobbyData, 27);
    (ISteamMatchmaking_m_SetLobbyGameServer, 28);
    (ISteamMatchmaking_m_GetLobbyGameServer, 29);
    (ISteamMatchmaking_m_SetLobbyMemberLimit, 30);
    (ISteamMatchmaking_m_GetLobbyMemberLimit, 31);
    (ISteamMatchmaking_m_SetLobbyType, 32);
    (ISteamMatchmaking_m_SetLobbyJoinable, 33);
    (ISteamMatchmaking_m_GetLobbyOwner, 34);
    (ISteamMatchmaking_m_SetLobbyOwner, 35)
  ].

Definition STEAMUGC_INTERFACE_VERSION018_vm_idxs : list (ISteamUGC_m * Z) :=
  [
    (ISteamUGC_m_CreateQueryUserUGCRequest, 0);
    (ISteamUGC_m_CreateQueryAllUGCRequestCursor, 1);
    (ISteamUGC_m_CreateQueryAllUGCRequestPage, 2);
    (ISteamUGC_m_CreateQueryUGCDetailsRequest, 3);
    (ISteamUGC_m_SendQueryUGCRequest, 4);
    (ISteamUGC_m_GetQueryUGCResult, 5);
    (ISteamUGC_m_GetQueryUGCNumTags, 6);
    (ISteamUGC_m_GetQueryUGCTag, 7);
    (ISteamUGC_m_GetQueryUGCTagDisplayName, 8);
    (ISteamUGC_m_GetQueryUGCPreviewURL, 9);
    (ISteamUGC_m_GetQueryUGCMetadata, 10);
    (ISteamUGC_m_GetQueryUGCChildren, 11);
    (ISteamUGC_m_GetQueryUGCStatistic, 12);
    (ISteamUGC_m_GetQueryUGCNumAdditionalPreviews, 13);
    (ISteamUGC_m_GetQueryUGCAdditionalPreview, 14);
    (ISteamUGC_m_GetQueryUGCNumKeyValueTags, 15);
    (ISteamUGC_m_GetQueryFirstUGCKeyValueTag, 16);
    (ISteamUGC_m_GetQueryUGCKeyValueTag, 17);
    (ISteamUGC_m_GetQueryUGCContentDescriptors, 18);
    (ISteamUGC_m_ReleaseQueryUGCRequest, 19);
    (ISteamUGC_m_AddRequiredTag, 20);
    (ISteamUGC_m_AddRequiredTagGroup, 21);
    (ISteamUGC_m_AddExcludedTag, 22);
    (ISteamUGC_m_SetReturnOnlyIDs, 23);
    (ISteamUGC_m_SetReturnKeyValueTags, 24);
    (ISteamUGC_m_SetReturnLongDescription, 25);
    (ISteamUGC_m_SetReturnMetadata, 26);
    (ISteamUGC_m_SetReturnChildren, 27);
    (ISteamUGC_m_SetReturnAdditionalPreviews, 28);
    (ISteamUGC_m_SetReturnTotalOnly, 29);
    (ISteamUGC_m_SetReturnPlaytimeStats, 30);
    (ISteamUGC_m_SetLanguage, 31);
    (ISteamUGC_m_SetAllowCachedResponse, 32);
    (ISteamUGC_m_SetCloudFileNameFilter, 33);
    (ISteamUGC_m_SetMatchAnyTag, 34);
    (ISteamUGC_m_SetSearchText, 35);
    (ISteamUGC_m_SetRankedByTrendDays, 36);
    (ISteamUGC_m_SetTimeCreatedDateRange, 37);
    (ISteamUGC_m_SetTimeUpdatedDateRange, 38);
    (ISteamUGC_m_AddRequiredKeyValueTag, 39);
    (ISteamUGC_m_RequestUGCDetails, 40);
    (ISteamUGC_m_CreateItem, 41);
    (ISteamUGC_m_StartItemUpdate, 42);
    (ISteamUGC_m_SetItemTitle, 43);
    (ISteamUGC_m_SetItemDescription, 44);
    (ISteamUGC_m_SetItemUpdateLanguage, 45);
    (ISteamUGC_m_SetItemMetadata, 46);
    (ISteamUGC_m_SetItemVisibility, 47);
    (ISteamUGC_m_SetItemTags, 48);
    (ISteamUGC_m_SetItemContent, 49);
    (ISteamUGC_m_SetItemPreview, 50);
    (ISteamUGC_m_SetAllowLegacyUpload, 51);
    (ISteamUGC_m_RemoveAllItemKeyValueTags, 52);
    (ISteamUGC_m_RemoveItemKeyValueTags, 53);
    (ISteamUGC_m_AddItemKeyValueTag, 54);
    (ISteamUGC_m_AddItemPreviewFile, 55);
    (ISteamUGC_m_AddItemPreviewVideo, 56);
    (ISteamUGC_m_UpdateItemPreviewFile, 57);
    (ISteamUGC_m_UpdateItemPreviewVideo, 58);
    (ISteamUGC_m_RemoveItemPreview, 59);
    (ISteamUGC_m_AddContentDescriptor, 60);
    (ISteamUGC_m_RemoveContentDescriptor, 61);
    (ISteamUGC_m_SubmitItemUpdate, 62);
    (ISteamUGC_m_GetItemUpdateProgress, 63);
    (ISteamUGC_m_SetUserItemVote, 64);
    (ISteamUGC_m_GetUserItemVote, 65);
    (ISteamUGC_m_AddItemToFavorites, 66);
    (ISteamUGC_m_RemoveItemFromFavorites, 67);
    (ISteamUGC_m_SubscribeItem, 68);
    (ISteamUGC_m_UnsubscribeItem, 69);
    (ISteamUGC_m_GetNumSubscribedItems, 70);
    (ISteamUGC_m_GetSubscribedItems, 71);
    (ISteamUGC_m_GetItemState, 72);
    (ISteamUGC_m_GetItemInstallInfo, 73);
    (ISteamUGC_m_GetItemDownloadInfo, 74);
    (ISteamUGC_m_DownloadItem, 75);
    (ISteamUGC_m_BInitWorkshopForGameServer, 76);
    (ISteamUGC_m_SuspendDownloads, 77);
    (ISteamUGC_m_StartPlaytimeTracking, 78);
    (ISteamUGC_m_StopPlaytimeTracking, 79);
    (ISteamUGC_m_StopPlaytimeTrackingForAllItems, 80);
    (ISteamUGC_m_AddDependency, 81);
    (ISteamUGC_m_RemoveDependency, 82);
    (ISteamUGC_m_AddAppDependency, 83);
    (ISteamUGC_m_RemoveAppDependency, 84);
    (ISteamUGC_m_GetAppDependencies, 85);
    (ISteamUGC_m_DeleteItem, 86);
    (ISteamUGC_m_ShowWorkshopEULA, 87);
    (ISteamUGC_m_GetWorkshopEULAStatus, 88);
    (ISteamUGC_m_GetUserContentDescriptorPreferences, 89)
  ].

Definition STEAMUGC_INTERFACE_VERSION017_vm_idxs : list (ISteamUGC_m * Z) :=
  [
    (ISteamUGC_m_CreateQueryUserUGCRequest, 0);
    (ISteamUGC_m_CreateQueryAllUGCRequestCursor, 1);
    (ISteamUGC_m_CreateQueryAllUGCRequestPage, 2);
    (ISteamUGC_m_CreateQueryUGCDetailsRequest, 3);
    (ISteamUGC_m_SendQueryUGCRequest, 4);
    (ISteamUGC_m_GetQueryUGCResult, 5);
    (ISteamUGC_m_GetQueryUGCNumTags, 6);
    (ISteamUGC_m_GetQueryUGCTag, 7);
    (ISteamUGC_m_GetQueryUGCTagDisplayName, 8);
    (ISteamUGC_m_GetQueryUGCPreviewURL, 9);
    (ISteamUGC_m_GetQueryUGCMetadata, 10);
    (ISteamUGC_m_GetQueryUGCChildren, 11);
    (ISteamUGC_m_GetQueryUGCStatistic, 12);
    (ISteamUGC_m_GetQueryUGCNumAdditionalPreviews, 13);
    (ISteamUGC_m_GetQueryUGCAdditionalPreview, 14);
    (ISteamUGC_m_GetQueryUGCNumKeyValueTags, 15);
    (ISteamUGC_m_GetQueryFirstUGCKeyValueTag, 16);
    (ISteamUGC_m_GetQueryUGCKeyValueTag, 17);
    (ISteamUGC_m_GetQueryUGCContentDescriptors, 18);
    (ISteamUGC_m_ReleaseQueryUGCRequest, 19);
    (ISteamUGC_m_AddRequiredTag, 20);
    (ISteamUGC_m_AddRequiredTagGroup, 21);
    (ISteamUGC_m_AddExcludedTag, 22);
    (ISteamUGC_m_SetReturnOnlyIDs, 23);
    (ISteamUGC_m_SetReturnKeyValueTags, 24);
    (ISteamUGC_m_SetReturnLongDescription, 25);
    (ISteamUGC_m_SetReturnMetadata, 26);
    (ISteamUGC_m_SetReturnChildren, 27);
    (ISteamUGC_m_SetReturnAdditionalPreviews, 28);
    (ISteamUGC_m_SetReturnTotalOnly, 29);
    (ISteamUGC_m_SetReturnPlaytimeStats, 30);
    (ISteamUGC_m_SetLanguage, 31);
    (ISteamUGC_m_SetAllowCachedResponse, 32);
    (ISteamUGC_m_SetCloudFileNameFilter, 33);
    (ISteamUGC_m_SetMatchAnyTag, 34);
    (ISteamUGC_m_SetSearchText, 35);
    (ISteamUGC_m_SetRankedByTrendDays, 36);
    (ISteamUGC_m_SetTimeCreatedDateRange, 37);
    (ISteamUGC_m_SetTimeUpdatedDateRange, 38);
    (ISteamUGC_m_AddRequiredKeyValueTag, 39);
    (ISteamUGC_m_RequestUGCDetails, 40);
    (ISteamUGC_m_CreateItem, 41);
    (ISteamUGC_m_StartItemUpdate, 42);
    (ISteamUGC_m_SetItemTitle, 43);
    (ISteamUGC_m_SetItemDescription, 44);
    (ISteamUGC_m_SetItemUpdateLanguage, 45);
    (ISteamUGC_m_SetItemMetadata, 46);
    (ISteamUGC_m_SetItemVisibility, 47);
    (ISteamUGC_m_SetItemTags, 48);
    (ISteamUGC_m_SetItemContent, 49);
    (ISteamUGC_m_SetItemPreview, 50);
    (ISteamUGC_m_SetAllowLegacyUpload, 51);
    (ISteamUGC_m_RemoveAllItemKeyValueTags, 52);
    (ISteamUGC_m_RemoveItemKeyValueTags, 53);
    (ISteamUGC_m_AddItemKeyValueTag, 54);
    (ISteamUGC_m_AddItemPreviewFile, 55);
    (ISteamUGC_m_AddItemPreviewVideo, 56);
    (ISteamUGC_m_UpdateItemPreviewFile, 57);
    (ISteamUGC_m_UpdateItemPreviewVideo, 58);
    (ISteamUGC_m_RemoveItemPreview, 59);
    (ISteamUGC_m_AddContentDescriptor, 60);
    (ISteamUGC_m_RemoveContentDescriptor, 61);
    (ISteamUGC_m_SubmitItemUpdate, 62);
    (ISteamUGC_m_GetItemUpdateProgress, 63);
    (ISteamUGC_m_SetUserItemVote, 64);
    (ISteamUGC_m_GetUserItemVote, 65);
    (ISteamUGC_m_AddItemToFavorites, 66);
    (ISteamUGC_m_RemoveItemFromFavorites, 67);
    (ISteamUGC_m_SubscribeItem, 68);
    (ISteamUGC_m_UnsubscribeItem, 69);
    (ISteamUGC_m_GetNumSubscribedItems, 70);
    (ISteamUGC_m_GetSubscribedItems, 71);
    (ISteamUGC_m_GetItemState, 72);
    (ISteamUGC_m_GetItemInstallInfo, 73);
    (ISteamUGC_m_GetItemDownloadInfo, 74);
    (ISteamUGC_m_DownloadItem, 75);
    (ISteamUGC_m_BInitWorkshopForGameServer, 76);
    (ISteamUGC_m_SuspendDownloads, 77);
    (ISteamUGC_m_StartPlaytimeTracking, 78);
    (ISteamUGC_m_StopPlaytimeTracking, 79);
    (ISteamUGC_m_StopPlaytimeTrackingForAllItems, 80);
    (ISteamUGC_m_AddDependency, 81);
    (ISteamUGC_m_RemoveDependency, 82);
    (ISteamUGC_m_AddAppDependency, 83);
    (ISteamUGC_m_RemoveAppDependency, 84);
    (ISteamUGC_m_GetAppDependencies, 85);
    (ISteamUGC_m_DeleteItem, 86);
    (ISteamUGC_m_ShowWorkshopEULA, 87);
    (ISteamUGC_m_GetWorkshopEULAStatus, 88)
  ].

Definition STEAMUGC_INTERFACE_VERSION016_vm_idxs : list (ISteamUGC_m * Z) :=
  [
    (ISteamUGC_m_CreateQueryUserUGCRequest, 0);
    (ISteamUGC_m_CreateQueryAllUGCRequestCursor, 1);
    (ISteamUGC_m_CreateQueryAllUGCRequestPage, 2);
    (ISteamUGC_m_CreateQueryUGCDetailsRequest, 3);
    (ISteamUGC_m_SendQueryUGCRequest, 4);
    (ISteamUGC_m_GetQueryUGCResult, 5);
    (ISteamUGC_m_GetQueryUGCNumTags, 6);
    (ISteamUGC_m_GetQueryUGCTag, 7);
    (ISteamUGC_m_GetQueryUGCTagDisplayName, 8);
    (ISteamUGC_m_GetQueryUGCPreviewURL, 9);
    (ISteamUGC_m_GetQueryUGCMetadata, 10);
    (ISteamUGC_m_GetQueryUGCChildren, 11);
    (ISteamUGC_m_GetQueryUGCStatistic, 12);
    (ISteamUGC_m_GetQueryUGCNumAdditionalPreviews, 13);
    (ISteamUGC_m_GetQueryUGCAdditionalPreview, 14);
    (ISteamUGC_m_GetQueryUGCNumKeyValueTags, 15);
    (ISteamUGC_m_GetQueryFirstUGCKeyValueTag, 16);
    (ISteamUGC_m_GetQueryUGCKeyValueTag, 17);
    (ISteamUGC_m_ReleaseQueryUGCRequest, 18);
    (ISteamUGC_m_AddRequiredTag, 19);
    (ISteamUGC_m_AddRequiredTagGroup, 20);
    (ISteamUGC_m_AddExcludedTag, 21);
    (ISteamUGC_m_SetReturnOnlyIDs, 22);
    (ISteamUGC_m_SetReturnKeyValueTags, 23);
    (ISteamUGC_m_SetReturnLongDescription, 24);
    (ISteamUGC_m_SetReturnMetadata, 25);
    (ISteamUGC_m_SetReturnChildren, 26);
    (ISteamUGC_m_SetReturnAdditionalPreviews, 27);
    (ISteamUGC_m_SetReturnTotalOnly, 28);
    (ISteamUGC_m_SetReturnPlaytimeStats, 29);
    (ISteamUGC_m_SetLanguage, 30);
    (ISteamUGC_m_SetAllowCachedResponse, 31);
    (ISteamUGC_m_SetCloudFileNameFilter, 32);
    (ISteamUGC_m_SetMatchAnyTag, 33);
    (ISteamUGC_m_SetSearchText, 34);
    (ISteamUGC_m_SetRankedByTrendDays, 35);
    (ISteamUGC_m_SetTimeCreatedDateRange, 36);
    (ISteamUGC_m_SetTimeUpdatedDateRange, 37);
    (ISteamUGC_m_AddRequiredKeyValueTag, 38);
    (ISteamUGC_m_RequestUGCDetails, 39);
    (ISteamUGC_m_CreateItem, 40);
    (ISteamUGC_m_StartItemUpdate, 41);
    (ISteamUGC_m_SetItemTitle, 42);
    (ISteamUGC_m_SetItemDescription, 43);
    (ISteamUGC_m_SetItemUpdateLanguage, 44);
    (ISteamUGC_m_SetItemMetadata, 45);
    (ISteamUGC_m_SetItemVisibility, 46);
    (ISteamUGC_m_SetItemTags, 47);
    (ISteamUGC_m_SetItemContent, 48);
    (ISteamUGC_m_SetItemPreview, 49);
    (ISteamUGC_m_SetAllowLegacyUpload, 50);
    (ISteamUGC_m_RemoveAllItemKeyValueTags, 51);
    (ISteamUGC_m_RemoveItemKeyValueTags, 52);
    (ISteamUGC_m_AddItemKeyValueTag, 53);
    (ISteamUGC_m_AddItemPreviewFile, 54);
    (ISteamUGC_m_AddItemPreviewVideo, 55);
    (ISteamUGC_m_UpdateItemPreviewFile, 56);
    (ISteamUGC_m_UpdateItemPreviewVideo, 57);
    (ISteamUGC_m_RemoveItemPreview, 58);
    (ISteamUGC_m_SubmitItemUpdate, 59);
    (ISteamUGC_m_GetItemUpdateProgress, 60);
    (ISteamUGC_m_SetUserItemVote, 61);
    (ISteamUGC_m_GetUserItemVote, 62);
    (ISteamUGC_m_AddItemToFavorites, 63);
    (ISteamUGC_m_RemoveItemFromFavorites, 64);
    (ISteamUGC_m_SubscribeItem, 65);
    (ISteamUGC_m_UnsubscribeItem, 66);
    (ISteamUGC_m_GetNumSubscribedItems, 67);
    (ISteamUGC_m_GetSubscribedItems, 68);
    (ISteamUGC_m_GetItemState, 69);
    (ISteamUGC_m_GetItemInstallInfo, 70);
    (ISteamUGC_m_GetItemDownloadInfo, 71);
    (ISteamUGC_m_DownloadItem, 72);
    (ISteamUGC_m_BInitWorkshopForGameServer, 73);
    (ISteamUGC_m_SuspendDownloads, 74);
    (ISteamUGC_m_StartPlaytimeTracking, 75);
    (ISteamUGC_m_StopPlaytimeTracking, 76);
    (ISteamUGC_m_StopPlaytimeTrackingForAllItems, 77);
    (ISteamUGC_m_AddDependency, 78);
    (ISteamUGC_m_RemoveDependency, 79);
    (ISteamUGC_m_AddAppDependency, 80);
    (ISteamUGC_m_RemoveAppDependency, 81);
    (ISteamUGC_m_GetAppDependencies, 82);
    (ISteamUGC_m_DeleteItem, 83);
    (ISteamUGC_m_ShowWorkshopEULA, 84);
    (ISteamUGC_m_GetWorkshopEULAStatus, 85)
  ].

Definition STEAMUGC_INTERFACE_VERSION015_vm_idxs : list (ISteamUGC_m * Z) :=
  [
    (ISteamUGC_m_CreateQueryUserUGCRequest, 0);
    (ISteamUGC_m_CreateQueryAllUGCRequestCursor, 1);
    (ISteamUGC_m_CreateQueryAllUGCRequestPage, 2);
    (ISteamUGC_m_CreateQueryUGCDetailsRequest, 3);
    (ISteamUGC_m_SendQueryUGCRequest, 4);
    (ISteamUGC_m_GetQueryUGCResult, 5);
    (ISteamUGC_m_GetQueryUGCNumTags, 6);
    (ISteamUGC_m_GetQueryUGCTag, 7);
    (ISteamUGC_m_GetQueryUGCTagDisplayName, 8);
    (ISteamUGC_m_GetQueryUGCPreviewURL, 9);
    (ISteamUGC_m_GetQueryUGCMetadata, 10);
    (ISteamUGC_m_GetQueryUGCChildren, 11);
    (ISteamUGC_m_GetQueryUGCStatistic, 12);
    (ISteamUGC_m_GetQueryUGCNumAdditionalPreviews, 13);
    (ISteamUGC_m_GetQueryUGCAdditionalPreview, 14);
    (ISteamUGC_m_GetQueryUGCNumKeyValueTags, 15);
    (ISteamUGC_m_GetQueryFirstUGCKeyValueTag, 16);
    (ISteamUGC_m_GetQueryUGCKeyValueTag, 17);
    (ISteamUGC_m_ReleaseQueryUGCRequest, 18);
    (ISteamUGC_m_AddRequiredTag, 19);
    (ISteamUGC_m_AddRequiredTagGroup, 20);
    (ISteamUGC_m_AddExcludedTag, 21);
    (ISteamUGC_m_SetReturnOnlyIDs, 22);
    (ISteamUGC_m_SetReturnKeyValueTags, 23);
    (ISteamUGC_m_SetReturnLongDescription, 24);
    (ISteamUGC_m_SetReturnMetadata, 25);
    (ISteamUGC_m_SetReturnChildren, 26);
    (ISteamUGC_m_SetReturnAdditionalPreviews, 27);
    (ISteamUGC_m_SetReturnTotalOnly, 28);
    (ISteamUGC_m_SetReturnPlaytimeStats, 29);
    (ISteamUGC_m_SetLanguage, 30);
    (ISteamUGC_m_SetAllowCachedResponse, 31);
    (ISteamUGC_m_SetCloudFileNameFilter, 32);
    (ISteamUGC_m_SetMatchAnyTag, 33);
    (ISteamUGC_m_SetSearchText, 34);
    (ISteamUGC_m_SetRankedByTrendDays, 35);
    (ISteamUGC_m_AddRequiredKeyValueTag, 36);
    (ISteamUGC_m_RequestUGCDetails, 37);
    (ISteamUGC_m_CreateItem, 38);
    (ISteamUGC_m_StartItemUpdate, 39);
    (ISteamUGC_m_SetItemTitle, 40);
    (ISteamUGC_m_SetItemDescription, 41);
    (ISteamUGC_m_SetItemUpdateLanguage, 42);
    (ISteamUGC_m_SetItemMetadata, 43);
    (ISteamUGC_m_SetItemVisibility, 44);
    (ISteamUGC_m_SetItemTags, 45);
    (ISteamUGC_m_SetItemContent, 46);
    (ISteamUGC_m_SetItemPreview, 47);
    (ISteamUGC_m_SetAllowLegacyUpload, 48);
    (ISteamUGC_m_RemoveAllItemKeyValueTags, 49);
    (ISteamUGC_m_RemoveItemKeyValueTags, 50);
    (ISteamUGC_m_AddItemKeyValueTag, 51);
    (ISteamUGC_m_AddItemPreviewFile, 52);
    (ISteamUGC_m_AddItemPreviewVideo, 53);
    (ISteamUGC_m_UpdateItemPreviewFile, 54);
    (ISteamUGC_m_UpdateItemPreviewVideo, 55);
    (ISteamUGC_m_RemoveItemPreview, 56);
    (ISteamUGC_m_SubmitItemUpdate, 57);
    (ISteamUGC_m_GetItemUpdateProgress, 58);
    (ISteamUGC_m_SetUserItemVote, 59);
    (ISteamUGC_m_GetUserItemVote, 60);
    (ISteamUGC_m_AddItemToFavorites, 61);
    (ISteamUGC_m_RemoveItemFromFavorites, 62);
    (ISteamUGC_m_SubscribeItem, 63);
    (ISteamUGC_m_UnsubscribeItem, 64);
    (ISteamUGC_m_GetNumSubscribedItems, 65);
    (ISteamUGC_m_GetSubscribedItems, 66);
    (ISteamUGC_m_GetItemState, 67);
    (ISteamUGC_m_GetItemInstallInfo, 68);
    (ISteamUGC_m_GetItemDownloadInfo, 69);
    (ISteamUGC_m_DownloadItem, 70);
    (ISteamUGC_m_BInitWorkshopForGameServer, 71);
    (ISteamUGC_m_SuspendDownloads, 72);
    (ISteamUGC_m_StartPlaytimeTracking, 73);
    (ISteamUGC_m_StopPlaytimeTracking, 74);
    (ISteamUGC_m_StopPlaytimeTrackingForAllItems, 75);
    (ISteamUGC_m_AddDependency, 76);
    (ISteamUGC_m_RemoveDependency, 77);
    (ISteamUGC_m_AddAppDependency, 78);
    (ISteamUGC_m_RemoveAppDependency, 79);
    (ISteamUGC_m_GetAppDependencies, 80);
    (ISteamUGC_m_DeleteItem, 81);
    (ISteamUGC_m_ShowWorkshopEULA, 82);
    (ISteamUGC_m_GetWorkshopEULAStatus, 83)
  ].

Definition STEAMUGC_INTERFACE_VERSION014_vm_idxs : list (ISteamUGC_m * Z) :=
  [
    (ISteamUGC_m_CreateQueryUserUGCRequest, 0);
    (ISteamUGC_m_CreateQueryAllUGCRequestCursor, 1);
    (ISteamUGC_m_CreateQueryAllUGCRequestPage, 2);
    (ISteamUGC_m_CreateQueryUGCDetailsRequest, 3);
    (ISteamUGC_m_SendQueryUGCRequest, 4);
    (ISteamUGC_m_GetQueryUGCResult, 5);
    (ISteamUGC_m_GetQueryUGCPreviewURL, 6);
    (ISteamUGC_m_GetQueryUGCMetadata, 7);
    (ISteamUGC_m_GetQueryUGCChildren, 8);
    (ISteamUGC_m_GetQueryUGCStatistic, 9);
    (ISteamUGC_m_GetQueryUGCNumAdditionalPreviews, 10);
    (ISteamUGC_m_GetQueryUGCAdditionalPreview, 11);
    (ISteamUGC_m_GetQueryUGCNumKeyValueTags, 12);
    (ISteamUGC_m_GetQueryFirstUGCKeyValueTag, 13);
    (ISteamUGC_m_GetQueryUGCKeyValueTag, 14);
    (ISteamUGC_m_ReleaseQueryUGCRequest, 15);
    (ISteamUGC_m_AddRequiredTag, 16);
    (ISteamUGC_m_AddRequiredTagGroup, 17);
    (ISteamUGC_m_AddExcludedTag, 18);
    (ISteamUGC_m_SetReturnOnlyIDs, 19);
    (ISteamUGC_m_SetReturnKeyValueTags, 20);
    (ISteamUGC_m_SetReturnLongDescription, 21);
    (ISteamUGC_m_SetReturnMetadata, 22);
    (ISteamUGC_m_SetReturnChildren, 23);
    (ISteamUGC_m_SetReturnAdditionalPreviews, 24);
    (ISteamUGC_m_SetReturnTotalOnly, 25);
    (ISteamUGC_m_SetReturnPlaytimeStats, 26);
    (ISteamUGC_m_SetLanguage, 27);
    (ISteamUGC_m_SetAllowCachedResponse, 28);
    (ISteamUGC_m_SetCloudFileNameFilter, 29);
    (ISteamUGC_m_SetMatchAnyTag, 30);
    (ISteamUGC_m_SetSearchText, 31);
    (ISteamUGC_m_SetRankedByTrendDays, 32);
    (ISteamUGC_m_AddRequiredKeyValueTag, 33);
    (ISteamUGC_m_RequestUGCDetails, 34);
    (ISteamUGC_m_CreateItem, 35);
    (ISteamUGC_m_StartItemUpdate, 36);
    (ISteamUGC_m_SetItemTitle, 37);
    (ISteamUGC_m_SetItemDescription, 38);
    (ISteamUGC_m_SetItemUpdateLanguage, 39);
    (ISteamUGC_m_SetItemMetadata, 40);
    (ISteamUGC_m_SetItemVisibility, 41);
    (ISteamUGC_m_SetItemTags, 42);
    (ISteamUGC_m_SetItemContent, 43);
    (ISteamUGC_m_SetItemPreview, 44);
    (ISteamUGC_m_SetAllowLegacyUpload, 45);
    (ISteamUGC_m_RemoveAllItemKeyValueTags, 46);
    (ISteamUGC_m_RemoveItemKeyValueTags, 47);
    (ISteamUGC_m_AddItemKeyValueTag, 48);
    (ISteamUGC_m_AddItemPreviewFile, 49);
    (ISteamUGC_m_AddItemPreviewVideo, 50);
    (ISteamUGC_m_UpdateItemPreviewFile, 51);
    (ISteamUGC_m_UpdateItemPreviewVideo, 52);
    (ISteamUGC_m_RemoveItemPreview, 53);
    (ISteamUGC_m_SubmitItemUpdate, 54);
    (ISteamUGC_m_GetItemUpdateProgress, 55);
    (ISteamUGC_m_SetUserItemVote, 56);
    (ISteamUGC_m_GetUserItemVote, 57);
    (ISteamUGC_m_AddItemToFavorites, 58);
    (ISteamUGC_m_RemoveItemFromFavorites, 59);
    (ISteamUGC_m_SubscribeItem, 60);
    (ISteamUGC_m_UnsubscribeItem, 61);
    (ISteamUGC_m_GetNumSubscribedItems, 62);
    (ISteamUGC_m_GetSubscribedItems, 63);
    (ISteamUGC_m_GetItemState, 64);
    (ISteamUGC_m_GetItemInstallInfo, 65);
    (ISteamUGC_m_GetItemDownloadInfo, 66);
    (ISteamUGC_m_DownloadItem, 67);
    (ISteamUGC_m_BInitWorkshopForGameServer, 68);
    (ISteamUGC_m_SuspendDownloads, 69);
    (ISteamUGC_m_StartPlaytimeTracking, 70);
    (ISteamUGC_m_StopPlaytimeTracking, 71);
    (ISteamUGC_m_StopPlaytimeTrackingForAllItems, 72);
    (ISteamUGC_m_AddDependency, 73);
    (ISteamUGC_m_RemoveDependency, 74);
    (ISteamUGC_m_AddAppDependency, 75);
    (ISteamUGC_m_RemoveAppDependency, 76);
    (ISteamUGC_m_GetAppDependencies, 77);
    (ISteamUGC_m_DeleteItem, 78)
  ].

Definition STEAMUGC_INTERFACE_VERSION013_vm_idxs : list (ISteamUGC_m * Z) :=
  [
    (ISteamUGC_m_CreateQueryUserUGCRequest, 0);
    (ISteamUGC_m_CreateQueryAllUGCRequestCursor, 1);
    (ISteamUGC_m_CreateQueryAllUGCRequestPage, 2);
    (ISteamUGC_m_CreateQueryUGCDetailsRequest, 3);
    (ISteamUGC_m_SendQueryUGCRequest, 4);
    (ISteamUGC_m_GetQueryUGCResult, 5);
    (ISteamUGC_m_GetQueryUGCPreviewURL, 6);
    (ISteamUGC_m_GetQueryUGCMetadata, 7);
    (ISteamUGC_m_GetQueryUGCChildren, 8);
    (ISteamUGC_m_GetQueryUGCStatistic, 9);
    (ISteamUGC_m_GetQueryUGCNumAdditionalPreviews, 10);
    (ISteamUGC_m_GetQueryUGCAdditionalPreview, 11);
    (ISteamUGC_m_GetQueryUGCNumKeyValueTags, 12);
    (ISteamUGC_m_GetQueryFirstUGCKeyValueTag, 13);
    (ISteamUGC_m_GetQueryUGCKeyValueTag, 14);
    (ISteamUGC_m_ReleaseQueryUGCRequest, 15);
    (ISteamUGC_m_AddRequiredTag, 16);
    (ISteamUGC_m_AddExcludedTag, 17);
    (ISteamUGC_m_SetReturnOnlyIDs, 18);
    (ISteamUGC_m_SetReturnKeyValueTags, 19);
    (ISteamUGC_m_SetReturnLongDescription, 20);
    (ISteamUGC_m_SetReturnMetadata, 21);
    (ISteamUGC_m_SetReturnChildren, 22);
    (ISteamUGC_m_SetReturnAdditionalPreviews, 23);
    (ISteamUGC_m_SetReturnTotalOnly, 24);
    (ISteamUGC_m_SetReturnPlaytimeStats, 25);
    (ISteamUGC_m_SetLanguage, 26);
    (ISteamUGC_m_SetAllowCachedResponse, 27);
    (ISteamUGC_m_SetCloudFileNameFilter, 28);
    (ISteamUGC_m_SetMatchAnyTag, 29);
    (ISteamUGC_m_SetSearchText, 30);
    (ISteamUGC_m_SetRankedByTrendDays, 31);
    (ISteamUGC_m_AddRequiredKeyValueTag, 32);
    (ISteamUGC_m_RequestUGCDetails, 33);
    (ISteamUGC_m_CreateItem, 34);
    (ISteamUGC_m_StartItemUpdate, 35);
    (ISteamUGC_m_SetItemTitle, 36);
    (ISteamUGC_m_SetItemDescription, 37);
    (ISteamUGC_m_SetItemUpdateLanguage, 38);
    (ISteamUGC_m_SetItemMetadata, 39);
    (ISteamUGC_m_SetItemVisibility, 40);
    (ISteamUGC_m_SetItemTags, 41);
    (ISteamUGC_m_SetItemContent, 42);
    (ISteamUGC_m_SetItemPreview, 43);
    (ISteamUGC_m_SetAllowLegacyUpload, 44);
    (ISteamUGC_m_RemoveAllItemKeyValueTags, 45);
    (ISteamUGC_m_RemoveItemKeyValueTags, 46);
    (ISteamUGC_m_AddItemKeyValueTag, 47);
    (ISteamUGC_m_AddItemPreviewFile, 48);
    (ISteamUGC_m_AddItemPreviewVideo, 49);
    (ISteamUGC_m_UpdateItemPreviewFile, 50);
    (ISteamUGC_m_UpdateItemPreviewVideo, 51);
    (ISteamUGC_m_RemoveItemPreview, 52);
    (ISteamUGC_m_SubmitItemUpdate, 53);
    (ISteamUGC_m_GetItemUpdateProgress, 54);
    (ISteamUGC_m_SetUserItemVote, 55);
    (ISteamUGC_m_GetUserItemVote, 56);
    (ISteamUGC_m_AddItemToFavorites, 57);
    (ISteamUGC_m_RemoveItemFromFavorites, 58);
    (ISteamUGC_m_SubscribeItem, 59);
    (ISteamUGC_m_UnsubscribeItem, 60);
    (ISteamUGC_m_GetNumSubscribedItems, 61);
    (ISteamUGC_m_GetSubscribedItems, 62);
    (ISteamUGC_m_GetItemState, 63);
    (ISteamUGC_m_GetItemInstallInfo, 64);
    (ISteamUGC_m_GetItemDownloadInfo, 65);
    (ISteamUGC_m_DownloadItem, 66);
    (ISteamUGC_m_BInitWorkshopForGameServer, 67);
    (ISteamUGC_m_SuspendDownloads, 68);
    (ISteamUGC_m_StartPlaytimeTracking, 69);
    (ISteamUGC_m_StopPlaytimeTracking, 70);
    (ISteamUGC_m_StopPlaytimeTrackingForAllItems, 71);
    (ISteamUGC_m_AddDependency, 72);
    (ISteamUGC_m_RemoveDependency, 73);
    (ISteamUGC_m_AddAppDependency, 74);
    (ISteamUGC_m_RemoveAppDependency, 75);
    (ISteamUGC_m_GetAppDependencies, 76);
    (ISteamUGC_m_DeleteItem, 77)
  ].

Definition STEAMUGC_INTERFACE_VERSION012_vm_idxs : list (ISteamUGC_m * Z) :=
  [
    (ISteamUGC_m_CreateQueryUserUGCRequest, 0);
    (ISteamUGC_m_CreateQueryAllUGCRequestCursor, 1);
    (ISteamUGC_m_CreateQueryAllUGCRequestPage, 2);
    (ISteamUGC_m_CreateQueryUGCDetailsRequest, 3);
    (ISteamUGC_m_SendQueryUGCRequest, 4);
    (ISteamUGC_m_GetQueryUGCResult, 5);
    (ISteamUGC_m_GetQueryUGCPreviewURL, 6);
    (ISteamUGC_m_GetQueryUGCMetadata, 7);
    (ISteamUGC_m_GetQueryUGCChildren, 8);
    (ISteamUGC_m_GetQueryUGCStatistic, 9);
    (ISteamUGC_m_GetQueryUGCNumAdditionalPreviews, 10);
    (ISteamUGC_m_GetQueryUGCAdditionalPreview, 11);
    (ISteamUGC_m_GetQueryUGCNumKeyValueTags, 12);
    (ISteamUGC_m_GetQueryUGCKeyValueTag, 13);
    (ISteamUGC_m_ReleaseQueryUGCRequest, 14);
    (ISteamUGC_m_AddRequiredTag, 15);
    (ISteamUGC_m_AddExcludedTag, 16);
    (ISteamUGC_m_SetReturnOnlyIDs, 17);
    (ISteamUGC_m_SetReturnKeyValueTags, 18);
    (ISteamUGC_m_SetReturnLongDescription, 19);
    (ISteamUGC_m_SetReturnMetadata, 20);
    (ISteamUGC_m_SetReturnChildren, 21);
    (ISteamUGC_m_SetReturnAdditionalPreviews, 22);
    (ISteamUGC_m_SetReturnTotalOnly, 23);
    (ISteamUGC_m_SetReturnPlaytimeStats, 24);
    (ISteamUGC_m_SetLanguage, 25);
    (ISteamUGC_m_SetAllowCachedResponse, 26);
    (ISteamUGC_m_SetCloudFileNameFilter, 27);
    (ISteamUGC_m_SetMatchAnyTag, 28);
    (ISteamUGC_m_SetSearchText, 29);
    (ISteamUGC_m_SetRankedByTrendDays, 30);
    (ISteamUGC_m_AddRequiredKeyValueTag, 31);
    (ISteamUGC_m_RequestUGCDetails, 32);
    (ISteamUGC_m_CreateItem, 33);
    (ISteamUGC_m_StartItemUpdate, 34);
    (ISteamUGC_m_SetItemTitle, 35);
    (ISteamUGC_m_SetItemDescription, 36);
    (ISteamUGC_m_SetItemUpdateLanguage, 37);
    (ISteamUGC_m_SetItemMetadata, 38);
    (ISteamUGC_m_SetItemVisibility, 39);
    (ISteamUGC_m_SetItemTags, 40);
    (ISteamUGC_m_SetItemContent, 41);
    (ISteamUGC_m_SetItemPreview, 42);
    (ISteamUGC_m_SetAllowLegacyUpload, 43);
    (ISteamUGC_m_RemoveItemKeyValueTags, 44);
    (ISteamUGC_m_AddItemKeyValueTag, 45);
    (ISteamUGC_m_AddItemPreviewFile, 46);
    (ISteamUGC_m_AddItemPreviewVideo, 47);
    (ISteamUGC_m_UpdateItemPreviewFile, 48);
    (ISteamUGC_m_UpdateItemPreviewVideo, 49);
    (ISteamUGC_m_RemoveItemPreview, 50);
    (ISteamUGC_m_SubmitItemUpdate, 51);
    (ISteamUGC_m_GetItemUpdateProgress, 52);
    (ISteamUGC_m_SetUserItemVote, 53);
    (ISteamUGC_m_GetUserItemVote, 54);
    (ISteamUGC_m_AddItemToFavorites, 55);
    (ISteamUGC_m_RemoveItemFromFavorites, 56);
    (ISteamUGC_m_SubscribeItem, 57);
    (ISteamUGC_m_UnsubscribeItem, 58);
    (ISteamUGC_m_GetNumSubscribedItems, 59);
    (ISteamUGC_m_GetSubscribedItems, 60);
    (ISteamUGC_m_GetItemState, 61);
    (ISteamUGC_m_GetItemInstallInfo, 62);
    (ISteamUGC_m_GetItemDownloadInfo, 63);
    (ISteamUGC_m_DownloadItem, 64);
    (ISteamUGC_m_BInitWorkshopForGameServer, 65);
    (ISteamUGC_m_SuspendDownloads, 66);
    (ISteamUGC_m_StartPlaytimeTracking, 67);
    (ISteamUGC_m_StopPlaytimeTracking, 68);
    (ISteamUGC_m_StopPlaytimeTrackingForAllItems, 69);
    (ISteamUGC_m_AddDependency, 70);
    (ISteamUGC_m_RemoveDependency, 71);
    (ISteamUGC_m_AddAppDependency, 72);
    (ISteamUGC_m_RemoveAppDependency, 73);
    (ISteamUGC_m_GetAppDependencies, 74);
    (ISteamUGC_m_DeleteItem, 75)
  ].

Definition STEAMUGC_INTERFACE_VERSION010_vm_idxs : list (ISteamUGC_m * Z) :=
  [
    (ISteamUGC_m_CreateQueryUserUGCRequest, 0);
    (ISteamUGC_m_CreateQueryAllUGCRequestPage, 1);
    (ISteamUGC_m_CreateQueryUGCDetailsRequest, 2);
    (ISteamUGC_m_SendQueryUGCRequest, 3);
    (ISteamUGC_m_GetQueryUGCResult, 4);
    (ISteamUGC_m_GetQueryUGCPreviewURL, 5);
    (ISteamUGC_m_GetQueryUGCMetadata, 6);
    (ISteamUGC_m_GetQueryUGCChildren, 7);
    (ISteamUGC_m_GetQueryUGCStatistic, 8);
    (ISteamUGC_m_GetQueryUGCNumAdditionalPreviews, 9);
    (ISteamUGC_m_GetQueryUGCAdditionalPreview, 10);
    (ISteamUGC_m_GetQueryUGCNumKeyValueTags, 11);
    (ISteamUGC_m_GetQueryUGCKeyValueTag, 12);
    (ISteamUGC_m_ReleaseQueryUGCRequest, 13);
    (ISteamUGC_m_AddRequiredTag, 14);
    (ISteamUGC_m_AddExcludedTag, 15);
    (ISteamUGC_m_SetReturnOnlyIDs, 16);
    (ISteamUGC_m_SetReturnKeyValueTags, 17);
    (ISteamUGC_m_SetReturnLongDescription, 18);
    (ISteamUGC_m_SetReturnMetadata, 19);
    (ISteamUGC_m_SetReturnChildren, 20);
    (ISteamUGC_m_SetReturnAdditionalPreviews, 21);
    (ISteamUGC_m_SetReturnTotalOnly, 22);
    (ISteamUGC_m_SetReturnPlaytimeStats, 23);
    (ISteamUGC_m_SetLanguage, 24);
    (ISteamUGC_m_SetAllowCachedResponse, 25);
    (ISteamUGC_m_SetCloudFileNameFilter, 26);
    (ISteamUGC_m_SetMatchAnyTag, 27);
    (ISteamUGC_m_SetSearchText, 28);
    (ISteamUGC_m_SetRankedByTrendDays, 29);
    (ISteamUGC_m_AddRequiredKeyValueTag, 30);
    (ISteamUGC_m_RequestUGCDetails, 31);
    (ISteamUGC_m_CreateItem, 32);
    (ISteamUGC_m_StartItemUpdate, 33);
    (ISteamUGC_m_SetItemTitle, 34);
    (ISteamUGC_m_SetItemDescription, 35);
    (ISteamUGC_m_SetItemUpdateLanguage, 36);
    (ISteamUGC_m_SetItemMetadata, 37);
    (ISteamUGC_m_SetItemVisibility, 38);
    (ISteamUGC_m_SetItemTags, 39);
    (ISteamUGC_m_SetItemContent, 40);
    (ISteamUGC_m_SetItemPreview, 41);
    (ISteamUGC_m_RemoveItemKeyValueTags, 42);
    (ISteamUGC_m_AddItemKeyValueTag, 43);
    (ISteamUGC_m_AddItemPreviewFile, 44);
    (ISteamUGC_m_AddItemPreviewVideo, 45);
    (ISteamUGC_m_UpdateItemPreviewFile, 46);
    (ISteamUGC_m_UpdateItemPreviewVideo, 47);
    (ISteamUGC_m_RemoveItemPreview, 48);
    (ISteamUGC_m_SubmitItemUpdate, 49);
    (ISteamUGC_m_GetItemUpdateProgress, 50);
    (ISteamUGC_m_SetUserItemVote, 51);
    (ISteamUGC_m_GetUserItemVote, 52);
    (ISteamUGC_m_AddItemToFavorites, 53);
    (ISteamUGC_m_RemoveItemFromFavorites, 54);
    (ISteamUGC_m_SubscribeItem, 55);
    (ISteamUGC_m_UnsubscribeItem, 56);
    (ISteamUGC_m_GetNumSubscribedItems, 57);
    (ISteamUGC_m_GetSubscribedItems, 58);
    (ISteamUGC_m_GetItemState, 59);
    (ISteamUGC_m_GetItemInstallInfo, 60);
    (ISteamUGC_m_GetItemDownloadInfo, 61);
    (ISteamUGC_m_DownloadItem, 62);
    (ISteamUGC_m_BInitWorkshopForGameServer, 63);
    (ISteamUGC_m_SuspendDownloads, 64);
    (ISteamUGC_m_StartPlaytimeTracking, 65);
    (ISteamUGC_m_StopPlaytimeTracking, 66);
    (ISteamUGC_m_StopPlaytimeTrackingForAllItems, 67);
    (ISteamUGC_m_AddDependency, 68);
    (ISteamUGC_m_RemoveDependency, 69);
    (ISteamUGC_m_AddAppDependency, 70);
    (ISteamUGC_m_RemoveAppDependency, 71);
    (ISteamUGC_m_GetAppDependencies, 72);
    (ISteamUGC_m_DeleteItem, 73)
  ].

Definition STEAMUGC_INTERFACE_VERSION009_vm_idxs : list (ISteamUGC_m * Z) :=
  [
    (ISteamUGC_m_CreateQueryUserUGCRequest, 0);
    (ISteamUGC_m_CreateQueryAllUGCRequestPage, 1);
    (ISteamUGC_m_CreateQueryUGCDetailsRequest, 2);
    (ISteamUGC_m_SendQueryUGCRequest, 3);
    (ISteamUGC_m_GetQueryUGCResult, 4);
    (ISteamUGC_m_GetQueryUGCPreviewURL, 5);
    (ISteamUGC_m_GetQueryUGCMetadata, 6);
    (ISteamUGC_m_GetQueryUGCChildren, 7);
    (ISteamUGC_m_GetQueryUGCStatistic, 8);
    (ISteamUGC_m_GetQueryUGCNumAdditionalPreviews, 9);
    (ISteamUGC_m_GetQueryUGCAdditionalPreview, 10);
    (ISteamUGC_m_GetQueryUGCNumKeyValueTags, 11);
    (ISteamUGC_m_GetQueryUGCKeyValueTag, 12);
    (ISteamUGC_m_ReleaseQueryUGCRequest, 13);
    (ISteamUGC_m_AddRequiredTag, 14);
    (ISteamUGC_m_AddExcludedTag, 15);
    (ISteamUGC_m_SetReturnOnlyIDs, 16);
    (ISteamUGC_m_SetReturnKeyValueTags, 17);
    (ISteamUGC_m_SetReturnLongDescription, 18);
    (ISteamUGC_m_SetReturnMetadata, 19);
    (ISteamUGC_m_SetReturnChildren, 20);
    (ISteamUGC_m_SetReturnAdditionalPreviews, 21);
    (ISteamUGC_m_SetReturnTotalOnly, 22);
    (ISteamUGC_m_SetLanguage, 23);
    (ISteamUGC_m_SetAllowCachedResponse, 24);
    (ISteamUGC_m_SetCloudFileNameFilter, 25);
    (ISteamUGC_m_SetMatchAnyTag, 26);
    (ISteamUGC_m_SetSearchText, 27);
    (ISteamUGC_m_SetRankedByTrendDays, 28);
    (ISteamUGC_m_AddRequiredKeyValueTag, 29);
    (ISteamUGC_m_RequestUGCDetails, 30);
    (ISteamUGC_m_CreateItem, 31);
    (ISteamUGC_m_StartItemUpdate, 32);
    (ISteamUGC_m_SetItemTitle, 33);
    (ISteamUGC_m_SetItemDescription, 34);
    (ISteamUGC_m_SetItemUpdateLanguage, 35);
    (ISteamUGC_m_SetItemMetadata, 36);
    (ISteamUGC_m_SetItemVisibility, 37);
    (ISteamUGC_m_SetItemTags, 38);
    (ISteamUGC_m_SetItemContent, 39);
    (ISteamUGC_m_SetItemPreview, 40);
    (ISteamUGC_m_RemoveItemKeyValueTags, 41);
    (ISteamUGC_m_AddItemKeyValueTag, 42);
    (ISteamUGC_m_AddItemPreviewFile, 43);
    (ISteamUGC_m_AddItemPreviewVideo, 44);
    (ISteamUGC_m_UpdateItemPreviewFile, 45);
    (ISteamUGC_m_UpdateItemPreviewVideo, 46);
    (ISteamUGC_m_RemoveItemPreview, 47);
    (ISteamUGC_m_SubmitItemUpdate, 48);
    (ISteamUGC_m_GetItemUpdateProgress, 49);
    (ISteamUGC_m_SetUserItemVote, 50);
    (ISteamUGC_m_GetUserItemVote, 51);
    (ISteamUGC_m_AddItemToFavorites, 52);
    (ISteamUGC_m_RemoveItemFromFavorites, 53);
    (ISteamUGC_m_SubscribeItem, 54);
    (ISteamUGC_m_UnsubscribeItem, 55);
    (ISteamUGC_m_GetNumSubscribedItems, 56);
    (ISteamUGC_m_GetSubscribedItems, 57);
    (ISteamUGC_m_GetItemState, 58);
    (ISteamUGC_m_GetItemInstallInfo, 59);
    (ISteamUGC_m_GetItemDownloadInfo, 60);
    (ISteamUGC_m_DownloadItem, 61);
    (ISteamUGC_m_BInitWorkshopForGameServer, 62);
    (ISteamUGC_m_SuspendDownloads, 63);
    (ISteamUGC_m_StartPlaytimeTracking, 64);
    (ISteamUGC_m_StopPlaytimeTracking, 65);
    (ISteamUGC_m_StopPlaytimeTrackingForAllItems, 66)
  ].

Definition STEAMUGC_INTERFACE_VERSION008_vm_idxs : list (ISteamUGC_m * Z) :=
  [
    (ISteamUGC_m_CreateQueryUserUGCRequest, 0);
    (ISteamUGC_m_CreateQueryAllUGCRequestPage, 1);
    (ISteamUGC_m_CreateQueryUGCDetailsRequest, 2);
    (ISteamUGC_m_SendQueryUGCRequest, 3);
    (ISteamUGC_m_GetQueryUGCResult, 4);
    (ISteamUGC_m_GetQueryUGCPreviewURL, 5);
    (ISteamUGC_m_GetQueryUGCMetadata, 6);
    (ISteamUGC_m_GetQueryUGCChildren, 7);
    (ISteamUGC_m_GetQueryUGCStatistic, 8);
    (ISteamUGC_m_GetQueryUGCNumAdditionalPreviews, 9);
    (ISteamUGC_m_GetQueryUGCAdditionalPreview, 10);
    (ISteamUGC_m_GetQueryUGCNumKeyValueTags, 11);
    (ISteamUGC_m_GetQueryUGCKeyValueTag, 12);
    (ISteamUGC_m_ReleaseQueryUGCRequest, 13);
    (ISteamUGC_m_AddRequiredTag, 14);
    (ISteamUGC_m_AddExcludedTag, 15);
    (ISteamUGC_m_SetReturnKeyValueTags, 16);
    (ISteamUGC_m_SetReturnLongDescription, 17);
    (ISteamUGC_m_SetReturnMetadata, 18);
    (ISteamUGC_m_SetReturnChildren, 19);
    (ISteamUGC_m_SetReturnAdditionalPreviews, 20);
    (ISteamUGC_m_SetReturnTotalOnly, 21);
    (ISteamUGC_m_SetLanguage, 22);
    (ISteamUGC_m_SetAllowCachedResponse, 23);
    (ISteamUGC_m_SetCloudFileNameFilter, 24);
    (ISteamUGC_m_SetMatchAnyTag, 25);
    (ISteamUGC_m_SetSearchText, 26);
    (ISteamUGC_m_SetRankedByTrendDays, 27);
    (ISteamUGC_m_AddRequiredKeyValueTag, 28);
    (ISteamUGC_m_RequestUGCDetails, 29);
    (ISteamUGC_m_CreateItem, 30);
    (ISteamUGC_m_StartItemUpdate, 31);
    (ISteamUGC_m_SetItemTitle, 32);
    (ISteamUGC_m_SetItemDescription, 33);
    (ISteamUGC_m_SetItemUpdateLanguage, 34);
    (ISteamUGC_m_SetItemMetadata, 35);
    (ISteamUGC_m_SetItemVisibility, 36);
    (ISteamUGC_m_SetItemTags, 37);
    (ISteamUGC_m_SetItemContent, 38);
    (ISteamUGC_m_SetItemPreview, 39);
    (ISteamUGC_m_RemoveItemKeyValueTags, 40);
    (ISteamUGC_m_AddItemKeyValueTag, 41);
    (ISteamUGC_m_AddItemPreviewFile, 42);
    (ISteamUGC_m_AddItemPreviewVideo, 43);
    (ISteamUGC_m_UpdateItemPreviewFile, 44);
    (ISteamUGC_m_UpdateItemPreviewVideo, 45);
    (ISteamUGC_m_RemoveItemPreview, 46);
    (ISteamUGC_m_SubmitItemUpdate, 47);
    (ISteamUGC_m_GetItemUpdateProgress, 48);
    (ISteamUGC_m_SetUserItemVote, 49);
    (ISteamUGC_m_GetUserItemVote, 50);
    (ISteamUGC_m_AddItemToFavorites, 51);
    (ISteamUGC_m_RemoveItemFromFavorites, 52);
    (ISteamUGC_m_SubscribeItem, 53);
    (ISteamUGC_m_UnsubscribeItem, 54);
    (ISteamUGC_m_GetNumSubscribedItems, 55);
    (ISteamUGC_m_GetSubscribedItems, 56);
    (ISteamUGC_m_GetItemState, 57);
    (ISteamUGC_m_GetItemInstallInfo, 58);
    (ISteamUGC_m_GetItemDownloadInfo, 59);
    (ISteamUGC_m_DownloadItem, 60);
    (ISteamUGC_m_BInitWorkshopForGameServer, 61);
    (ISteamUGC_m_SuspendDownloads, 62)
  ].

Definition STEAMUGC_INTERFACE_VERSION007_vm_idxs : list (ISteamUGC_m * Z) :=
  [
    (ISteamUGC_m_CreateQueryUserUGCRequest, 0);
    (ISteamUGC_m_CreateQueryAllUGCRequestPage, 1);
    (ISteamUGC_m_CreateQueryUGCDetailsRequest, 2);
    (ISteamUGC_m_SendQueryUGCRequest, 3);
    (ISteamUGC_m_GetQueryUGCResult, 4);
    (ISteamUGC_m_GetQueryUGCPreviewURL, 5);
    (ISteamUGC_m_GetQueryUGCMetadata, 6);
    (ISteamUGC_m_GetQueryUGCChildren, 7);
    (ISteamUGC_m_GetQueryUGCStatistic, 8);
    (ISteamUGC_m_GetQueryUGCNumAdditionalPreviews, 9);
    (ISteamUGC_m_GetQueryUGCAdditionalPreview, 10);
    (ISteamUGC_m_GetQueryUGCNumKeyValueTags, 11);
    (ISteamUGC_m_GetQueryUGCKeyValueTag, 12);
    (ISteamUGC_m_ReleaseQueryUGCRequest, 13);
    (ISteamUGC_m_AddRequiredTag, 14);
    (ISteamUGC_m_AddExcludedTag, 15);
    (ISteamUGC_m_SetReturnKeyValueTags, 16);
    (ISteamUGC_m_SetReturnLongDescription, 17);
    (ISteamUGC_m_SetReturnMetadata, 18);
    (ISteamUGC_m_SetReturnChildren, 19);
    (ISteamUGC_m_SetReturnAdditionalPreviews, 20);
    (ISteamUGC_m_SetReturnTotalOnly, 21);
    (ISteamUGC_m_SetLanguage, 22);
    (ISteamUGC_m_SetAllowCachedResponse, 23);
    (ISteamUGC_m_SetCloudFileNameFilter, 24);
    (ISteamUGC_m_SetMatchAnyTag, 25);
    (ISteamUGC_m_SetSearchText, 26);
    (ISteamUGC_m_SetRankedByTrendDays, 27);
    (ISteamUGC_m_AddRequiredKeyValueTag, 28);
    (ISteamUGC_m_RequestUGCDetails, 29);
    (ISteamUGC_m_CreateItem, 30);
    (ISteamUGC_m_StartItemUpdate, 31);
    (ISteamUGC_m_SetItemTitle, 32);
    (ISteamUGC_m_SetItemDescription, 33);
    (ISteamUGC_m_SetItemUpdateLanguage, 34);
    (ISteamUGC_m_SetItemMetadata, 35);
    (ISteamUGC_m_SetItemVisibility, 36);
    (ISteamUGC_m_SetItemTags, 37);
    (ISteamUGC_m_SetItemContent, 38);
    (ISteamUGC_m_SetItemPreview, 39);
    (ISteamUGC_m_RemoveItemKeyValueTags, 40);
    (ISteamUGC_m_AddItemKeyValueTag, 41);
    (ISteamUGC_m_SubmitItemUpdate, 42);
    (ISteamUGC_m_GetItemUpdateProgress, 43);
    (ISteamUGC_m_SetUserItemVote, 44);
    (ISteamUGC_m_GetUserItemVote, 45);
    (ISteamUGC_m_AddItemToFavorites, 46);
    (ISteamUGC_m_RemoveItemFromFavorites, 47);
    (ISteamUGC_m_SubscribeItem, 48);
    (ISteamUGC_m_UnsubscribeItem, 49);
    (ISteamUGC_m_GetNumSubscribedItems, 50);
    (ISteamUGC_m_GetSubscribedItems, 51);
    (ISteamUGC_m_GetItemState, 52);
    (ISteamUGC_m_GetItemInstallInfo, 53);
    (ISteamUGC_m_GetItemDownloadInfo, 54);
    (ISteamUGC_m_DownloadItem, 55);
    (ISteamUGC_m_BInitWorkshopForGameServer, 56);
    (ISteamUGC_m_SuspendDownloads, 57)
  ].

Definition STEAMUGC_INTERFACE_VERSION005_vm_idxs : list (ISteamUGC_m * Z) :=
  [
    (ISteamUGC_m_CreateQueryUserUGCRequest, 0);
    (ISteamUGC_m_CreateQueryAllUGCRequestPage, 1);
    (ISteamUGC_m_CreateQueryUGCDetailsRequest, 2);
    (ISteamUGC_m_SendQueryUGCRequest, 3);
    (ISteamUGC_m_GetQueryUGCResult, 4);
    (ISteamUGC_m_GetQueryUGCPreviewURL, 5);
    (ISteamUGC_m_GetQueryUGCMetadata, 6);
    (ISteamUGC_m_GetQueryUGCChildren, 7);
    (ISteamUGC_m_GetQueryUGCStatistic, 8);
    (ISteamUGC_m_GetQueryUGCNumAdditionalPreviews, 9);
    (ISteamUGC_m_GetQueryUGCAdditionalPreview, 10);
    (ISteamUGC_m_ReleaseQueryUGCRequest, 11);
    (ISteamUGC_m_AddRequiredTag, 12);
    (ISteamUGC_m_AddExcludedTag, 13);
    (ISteamUGC_m_SetReturnLongDescription, 14);
    (ISteamUGC_m_SetReturnMetadata, 15);
    (ISteamUGC_m_SetReturnChildren, 16);
    (ISteamUGC_m_SetReturnAdditionalPreviews, 17);
    (ISteamUGC_m_SetReturnTotalOnly, 18);
    (ISteamUGC_m_SetAllowCachedResponse, 19);
    (ISteamUGC_m_SetCloudFileNameFilter, 20);
    (ISteamUGC_m_SetMatchAnyTag, 21);
    (ISteamUGC_m_SetSearchText, 22);
    (ISteamUGC_m_SetRankedByTrendDays, 23);
    (ISteamUGC_m_RequestUGCDetails, 24);
    (ISteamUGC_m_CreateItem, 25);
    (ISteamUGC_m_StartItemUpdate, 26);
    (ISteamUGC_m_SetItemTitle, 27);
    (ISteamUGC_m_SetItemDescription, 28);
    (ISteamUGC_m_SetItemMetadata, 29);
    (ISteamUGC_m_SetItemVisibility, 30);
    (ISteamUGC_m_SetItemTags, 31);
    (ISteamUGC_m_SetItemContent, 32);
    (ISteamUGC_m_SetItemPreview, 33);
    (ISteamUGC_m_SubmitItemUpdate, 34);
    (ISteamUGC_m_GetItemUpdateProgress, 35);
    (ISteamUGC_m_AddItemToFavorites, 36);
    (ISteamUGC_m_RemoveItemFromFavorites, 37);
    (ISteamUGC_m_SubscribeItem, 38);
    (ISteamUGC_m_UnsubscribeItem, 39);
    (ISteamUGC_m_GetNumSubscribedItems, 40);
    (ISteamUGC_m_GetSubscribedItems, 41);
    (ISteamUGC_m_GetItemState, 42);
    (ISteamUGC_m_GetItemInstallInfo, 43);
    (ISteamUGC_m_GetItemDownloadInfo, 44);
    (ISteamUGC_m_DownloadItem, 45)
  ].

Definition STEAMUGC_INTERFACE_VERSION002_vm_idxs : list (ISteamUGC_m * Z) :=
  [
    (ISteamUGC_m_CreateQueryUserUGCRequest, 0);
    (ISteamUGC_m_CreateQueryAllUGCRequestPage, 1);
    (ISteamUGC_m_SendQueryUGCRequest, 2);
    (ISteamUGC_m_GetQueryUGCResult, 3);
    (ISteamUGC_m_ReleaseQueryUGCRequest, 4);
    (ISteamUGC_m_AddRequiredTag, 5);
    (ISteamUGC_m_AddExcludedTag, 6);
    (ISteamUGC_m_SetReturnLongDescription, 7);
    (ISteamUGC_m_SetReturnTotalOnly, 8);
    (ISteamUGC_m_SetAllowCachedResponse, 9);
    (ISteamUGC_m_SetCloudFileNameFilter, 10);
    (ISteamUGC_m_SetMatchAnyTag, 11);
    (ISteamUGC_m_SetSearchText, 12);
    (ISteamUGC_m_SetRankedByTrendDays, 13);
    (ISteamUGC_m_RequestUGCDetails, 14);
    (ISteamUGC_m_CreateItem, 15);
    (ISteamUGC_m_StartItemUpdate, 16);
    (ISteamUGC_m_SetItemTitle, 17);
    (ISteamUGC_m_SetItemDescription, 18);
    (ISteamUGC_m_SetItemVisibility, 19);
    (ISteamUGC_m_SetItemTags, 20);
    (ISteamUGC_m_SetItemContent, 21);
    (ISteamUGC_m_SetItemPreview, 22);
    (ISteamUGC_m_SubmitItemUpdate, 23);
    (ISteamUGC_m_GetItemUpdateProgress, 24);
    (ISteamUGC_m_SubscribeItem, 25);
    (ISteamUGC_m_UnsubscribeItem, 26);
    (ISteamUGC_m_GetNumSubscribedItems, 27);
    (ISteamUGC_m_GetSubscribedItems, 28);
    (ISteamUGC_m_GetItemInstallInfo, 29);
    (ISteamUGC_m_GetItemUpdateInfo, 30)
  ].

Definition STEAMUGC_INTERFACE_VERSION001_vm_idxs : list (ISteamUGC_m * Z) :=
  [
    (ISteamUGC_m_CreateQueryUserUGCRequest, 0);
    (ISteamUGC_m_CreateQueryAllUGCRequestPage, 1);
    (ISteamUGC_m_SendQueryUGCRequest, 2);
    (ISteamUGC_m_GetQueryUGCResult, 3);
    (ISteamUGC_m_ReleaseQueryUGCRequest, 4);
    (ISteamUGC_m_AddRequiredTag, 5);
    (ISteamUGC_m_AddExcludedTag, 6);
    (ISteamUGC_m_SetReturnLongDescription, 7);
    (ISteamUGC_m_SetReturnTotalOnly, 8);
    (ISteamUGC_m_SetCloudFileNameFilter, 9);
    (ISteamUGC_m_SetMatchAnyTag, 10);
    (ISteamUGC_m_SetSearchText, 11);
    (ISteamUGC_m_SetRankedByTrendDays, 12);
    (ISteamUGC_m_RequestUGCDetails, 13)
  ].

Definition SteamUser021_vm_idxs : list (ISteamUser_m * Z) :=
  [
    (ISteamUser_m_GetHSteamUser, 0);
    (ISteamUser_m_BLoggedOn, 1);
    (ISteamUser_m_GetSteamID, 2);
    (ISteamUser_m_InitiateGameConnection, 3);
    (ISteamUser_m_TerminateGameConnection, 4);
    (ISteamUser_m_TrackAppUsageEvent, 5);
    (ISteamUser_m_GetUserDataFolder, 6);
    (ISteamUser_m_StartVoiceRecording, 7);
    (ISteamUser_m_StopVoiceRecording, 8);
    (ISteamUser_m_GetAvailableVoice, 9);
    (ISteamUser_m_GetVoice, 10);
    (ISteamUser_m_DecompressVoice, 11);
    (ISteamUser_m_GetVoiceOptimalSampleRate, 12);
    (ISteamUser_m_GetAuthSessionTicket, 13);
    (ISteamUser_m_BeginAuthSession, 14);
    (ISteamUser_m_EndAuthSession, 15);
    (ISteamUser_m_CancelAuthTicket, 16);
    (ISteamUser_m_UserHasLicenseForApp, 17);
    (ISteamUser_m_BIsBehindNAT, 18);
    (ISteamUser_m_AdvertiseGame, 19);
    (ISteamUser_m_RequestEncryptedAppTicket, 20);
    (ISteamUser_m_GetEncryptedAppTicket, 21);
    (ISteamUser_m_GetGameBadgeLevel, 22);
    (ISteamUser_m_GetPlayerSteamLevel, 23);
    (ISteamUser_m_RequestStoreAuthURL, 24);
    (ISteamUser_m_BIsPhoneVerified, 25);
    (ISteamUser_m_BIsTwoFactorEnabled, 26);
    (ISteamUser_m_BIsPhoneIdentifying, 27);
    (ISteamUser_m_BIsPhoneRequiringVerification, 28);
    (ISteamUser_m_GetMarketEligibility, 29);
    (ISteamUser_m_GetDurationControl, 30);
    (ISteamUser_m_BSetDurationControlOnlineState, 31)
  ].

Definition SteamUser020_vm_idxs : list (ISteamUser_m * Z) :=
  [
    (ISteamUser_m_GetHSteamUser, 0);
    (ISteamUser_m_BLoggedOn, 1);
    (ISteamUser_m_GetSteamID, 2);
    (ISteamUser_m_InitiateGameConnection, 3);
    (ISteamUser_m_TerminateGameConnection, 4);
    (ISteamUser_m_TrackAppUsageEvent, 5);
    (ISteamUser_m_GetUserDataFolder, 6);
    (ISteamUser_m_StartVoiceRecording, 7);
    (ISteamUser_m_StopVoiceRecording, 8);
    (ISteamUser_m_GetAvailableVoice, 9);
    (ISteamUser_m_GetVoice, 10);
    (ISteamUser_m_DecompressVoice, 11);
    (ISteamUser_m_GetVoiceOptimalSampleRate, 12);
    (ISteamUser_m_GetAuthSessionTicket, 13);
    (ISteamUser_m_BeginAuthSession, 14);
    (ISteamUser_m_EndAuthSession, 15);
    (ISteamUser_m_CancelAuthTicket, 16);
    (ISteamUser_m_UserHasLicenseForApp, 17);
    (ISteamUser_m_BIsBehindNAT, 18);
    (ISteamUser_m_AdvertiseGame, 19);
    (ISteamUser_m_RequestEncryptedAppTicket, 20);
    (ISteamUser_m_GetEncryptedAppTicket, 21);
    (ISteamUser_m_GetGameBadgeLevel, 22);
    (ISteamUser_m_GetPlayerSteamLevel, 23);
    (ISteamUser_m_RequestStoreAuthURL, 24);
    (ISteamUser_m_BIsPhoneVerified, 25);
    (ISteamUser_m_BIsTwoFactorEnabled, 26);
    (ISteamUser_m_BIsPhoneIdentifying, 27);
    (ISteamUser_m_BIsPhoneRequiringVerification, 28);
    (ISteamUser_m_GetMarketEligibility, 29);
    (ISteamUser_m_GetDurationControl, 30)
  ].

Definition SteamUser019_vm_idxs : list (ISteamUser_m * Z) :=
  [
    (ISteamUser_m_GetHSteamUser, 0);
    (ISteamUser_m_BLoggedOn, 1);
    (ISteamUser_m_GetSteamID, 2);
    (ISteamUser_m_InitiateGameConnection, 3);
    (ISteamUser_m_TerminateGameConnection, 4);
    (ISteamUser_m_TrackAppUsageEvent, 5);
    (ISteamUser_m_GetUserDataFolder, 6);
    (ISteamUser_m_StartVoiceRecording, 7);
    (ISteamUser_m_StopVoiceRecording, 8);
    (ISteamUser_m_GetAvailableVoice, 9);
    (ISteamUser_m_GetVoice, 10);
    (ISteamUser_m_DecompressVoice, 11);
    (ISteamUser_m_GetVoiceOptimalSampleRate, 12);
    (ISteamUser_m_GetAuthSessionTicket, 13);
    (ISteamUser_m_BeginAuthSession, 14);
    (ISteamUser_m_EndAuthSession, 15);
    (ISteamUser_m_CancelAuthTicket, 16);
    (ISteamUser_m_UserHasLicenseForApp, 17);
    (ISteamUser_m_BIsBehindNAT, 18);
    (ISteamUser_m_AdvertiseGame, 19);
    (ISteamUser_m_RequestEncryptedAppTicket, 20);
    (ISteamUser_m_GetEncryptedAppTicket, 21);
    (ISteamUser_m_GetGameBadgeLevel, 22);
    (ISteamUser_m_GetPlayerSteamLevel, 23);
    (ISteamUser_m_RequestStoreAuthURL, 24);
    (ISteamUser_m_BIsPhoneVerified, 25);
    (ISteamUser_m_BIsTwoFactorEnabled, 26);
    (ISteamUser_m_BIsPhoneIdentifying, 27);
    (ISteamUser_m_BIsPhoneRequiringVerification, 28)
  ].

Definition SteamUser018_vm_idxs : list (ISteamUser_m * Z) :=
  [
    (ISteamUser_m_GetHSteamUser, 0);
    (ISteamUser_m_BLoggedOn, 1);
    (ISteamUser_m_GetSteamID, 2);
    (ISteamUser_m_InitiateGameConnection, 3);
    (ISteamUser_m_TerminateGameConnection, 4);
    (ISteamUser_m_TrackAppUsageEvent, 5);
    (ISteamUser_m_GetUserDataFolder, 6);
    (ISteamUser_m_StartVoiceRecording, 7);
    (ISteamUser_m_StopVoiceRecording, 8);
    (ISteamUser_m_GetAvailableVoice, 9);
    (ISteamUser_m_GetVoice, 10);
    (ISteamUser_m_DecompressVoice, 11);
    (ISteamUser_m_GetVoiceOptimalSampleRate, 12);
    (ISteamUser_m_GetAuthSessionTicket, 13);
    (ISteamUser_m_BeginAuthSession, 14);
    (ISteamUser_m_EndAuthSession, 15);
    (ISteamUser_m_CancelAuthTicket, 16);
    (ISteamUser_m_UserHasLicenseForApp, 17);
    (ISteamUser_m_BIsBehindNAT, 18);
    (ISteamUser_m_AdvertiseGame, 19);
    (ISteamUser_m_RequestEncryptedAppTicket, 20);
    (ISteamUser_m_GetEncryptedAppTicket, 21);
    (ISteamUser_m_GetGameBadgeLevel, 22);
    (ISteamUser_m_GetPlayerSteamLevel, 23);
    (ISteamUser_m_RequestStoreAuthURL, 24)
  ].

Definition SteamUser017_vm_idxs : list (ISteamUser_m * Z) :=
  [
    (ISteamUser_m_GetHSteamUser, 0);
    (ISteamUser_m_BLoggedOn, 1);
    (ISteamUser_m_GetSteamID, 2);
    (ISteamUser_m_InitiateGameConnection, 3);
    (ISteamUser_m_TerminateGameConnection, 4);
    (ISteamUser_m_TrackAppUsageEvent, 5);
    (ISteamUser_m_GetUserDataFolder, 6);
    (ISteamUser_m_StartVoiceRecording, 7);
    (ISteamUser_m_StopVoiceRecording, 8);
    (ISteamUser_m_GetAvailableVoice, 9);
    (ISteamUser_m_GetVoice, 10);
    (ISteamUser_m_DecompressVoice, 11);
    (ISteamUser_m_GetVoiceOptimalSampleRate, 12);
    (ISteamUser_m_GetAuthSessionTicket, 13);
    (ISteamUser_m_BeginAuthSession, 14);
    (ISteamUser_m_EndAuthSession, 15);
    (ISteamUser_m_CancelAuthTicket, 16);
    (ISteamUser_m_UserHasLicenseForApp, 17);
    (ISteamUser_m_BIsBehindNAT, 18);
    (ISteamUser_m_AdvertiseGame, 19);
    (ISteamUser_m_RequestEncryptedAppTicket, 20);
    (ISteamUser_m_GetEncryptedAppTicket, 21);
    (ISteamUser_m_GetGameBadgeLevel, 22);
    (ISteamUser_m_GetPlayerSteamLevel, 23)
  ].

Definition SteamUser016_vm_idxs : list (ISteamUser_m * Z) :=
  [
    (ISteamUser_m_GetHSteamUser, 0);
    (ISteamUser_m_BLoggedOn, 1);
    (ISteamUser_m_GetSteamID, 2);
    (ISteamUser_m_InitiateGameConnection, 3);
    (ISteamUser_m_TerminateGameConnection, 4);
    (ISteamUser_m_TrackAppUsageEvent, 5);
    (ISteamUser_m_GetUserDataFolder, 6);
    (ISteamUser_m_StartVoiceRecording, 7);
    (ISteamUser_m_StopVoiceRecording, 8);
    (ISteamUser_m_GetAvailableVoice, 9);
    (ISteamUser_m_GetVoice, 10);
    (ISteamUser_m_DecompressVoice, 11);
    (ISteamUser_m_GetVoiceOptimalSampleRate, 12);
    (ISteamUser_m_GetAuthSessionTicket, 13);
    (ISteamUser_m_BeginAuthSession, 14);
    (ISteamUser_m_EndAuthSession, 15);
    (ISteamUser_m_CancelAuthTicket, 16);
    (ISteamUser_m_UserHasLicenseForApp, 17);
    (ISteamUser_m_BIsBehindNAT, 18);
    (ISteamUser_m_AdvertiseGame, 19);
    (ISteamUser_m_RequestEncryptedAppTicket, 20);
    (ISteamUser_m_GetEncryptedAppTicket, 21)
  ].

Definition SteamUser014_vm_idxs : list (ISteamUser_m * Z) :=
  [
    (ISteamUser_m_GetHSteamUser, 0);
    (ISteamUser_m_BLoggedOn, 1);
    (ISteamUser_m_GetSteamID, 2);
    (ISteamUser_m_InitiateGameConnection, 3);
    (ISteamUser_m_TerminateGameConnection, 4);
    (ISteamUser_m_TrackAppUsageEvent, 5);
    (ISteamUser_m_GetUserDataFolder, 6);
    (ISteamUser_m_StartVoiceRecording, 7);
    (ISteamUser_m_StopVoiceRecording, 8);
    (ISteamUser_m_GetAvailableVoice, 9);
    (ISteamUser_m_GetVoice, 10);
    (ISteamUser_m_DecompressVoice, 11);
    (ISteamUser_m_GetAuthSessionTicket, 12);
    (ISteamUser_m_BeginAuthSession, 13);
    (ISteamUser_m_EndAuthSession, 14);
    (ISteamUser_m_CancelAuthTicket, 15);
    (ISteamUser_m_UserHasLicenseForApp, 16);
    (ISteamUser_m_BIsBehindNAT, 17);
    (ISteamUser_m_AdvertiseGame, 18);
    (ISteamUser_m_RequestEncryptedAppTicket, 19);
    (ISteamUser_m_GetEncryptedAppTicket, 20)
  ].

(** How a version branch fills [vm_idxs]: not at all (the caller runs the
    identity loop after shadowing), by the identity loop, or by explicit
    assignments. *)
Inductive vm_idxs_init : Type :=
  | vm_untouched
  | vm_identity
  | vm_explicit (l : list (Z * Z)).

(** What one version branch of [SteamAPI_Init] selects for an interface. *)
Record shape := {
  shape_num_methods : Z;
  shape_vm_idxs : vm_idxs_init
}.

(** Enumerators used as array subscripts convert to their integer value. *)
Definition slots {E} (value : E -> Z) (l : list (E * Z)) : list (Z * Z) :=
  map (fun p => (value p.1, p.2)) l.

(** The version ladders of [SteamAPI_Init], one per interface, as the
    if-else chains of the source.  Thresholds are [steam_api64.dll] file
    versions; the comment gives the dotted form. *)

Definition ISteamApps_shape (ver : Z) : shape :=
  if ver >=? 0x0003002A003D0042 then (* 03.42.61.66 *)
    {| shape_num_methods := 33; shape_vm_idxs := vm_untouched |}
  else if ver >=? 0x0002003B0033002B then (* 02.59.51.43 *)
    {| shape_num_methods := 24; shape_vm_idxs := vm_untouched |}
  else if ver >=? 0x00010062001F0049 then (* 01.98.31.73 *)
    {| shape_num_methods := 22; shape_vm_idxs := vm_untouched |}
  else if ver >=? 0x0001001E0032002E then (* 01.30.50.46 *)
    {| shape_num_methods := 20; shape_vm_idxs := vm_untouched |}
  else if ver >=? 0x0000006000210030 then (* 00.96.33.48 *)
    {| shape_num_methods := 14; shape_vm_idxs := vm_untouched |}
  else
    {| shape_num_methods := 8; shape_vm_idxs := vm_untouched |}.

Definition ISteamMatchmaking_shape (ver : Z) : shape :=
  if ver >=? 0x00010017002D005D then (* 01.23.45.93 *)
    {| shape_num_methods := 38; shape_vm_idxs := vm_identity |}
  else
    {| shape_num_methods := 36;
       shape_vm_idxs := vm_explicit
         (slots ISteamMatchmaking_m_value SteamMatchMaking008_vm_idxs) |}.

Definition ISteamUGC_shape (ver : Z) : shape :=
  if ver >=? 0x0009003C002C000A then (* 09.60.44.10 *)
    {| shape_num_methods := 96; shape_vm_idxs := vm_identity |}
  else if ver >=? 0x0008006100630046 then (* 08.97.99.70 *)
    {| shape_num_methods := 94; shape_vm_idxs := vm_identity |}
  else if ver >=? 0x0008002100090017 then (* 08.33.09.23 *)
    {| shape_num_methods := 90;
       shape_vm_idxs := vm_explicit
         (slots ISteamUGC_m_value STEAMUGC_INTERFACE_VERSION018_vm_idxs) |}
  else if ver >=? 0x000700600000002C then (* 07.96.00.44 *)
    {| shape_num_methods := 89;
       shape_vm_idxs := vm_explicit
         (slots ISteamUGC_m_value STEAMUGC_INTERFACE_VERSION017_vm_idxs) |}
  else if ver >=? 0x0006005B00150039 then (* 06.91.21.57 *)
    {| shape_num_methods := 86;
       shape_vm_idxs := vm_explicit
         (slots ISteamUGC_m_value STEAMUGC_INTERFACE_VERSION016_vm_idxs) |}
  else if ver >=? 0x0006001C00120056 then (* 06.28.18.86 *)
    {| shape_num_methods := 84;
       shape_vm_idxs := vm_explicit
         (slots ISteamUGC_m_value STEAMUGC_INTERFACE_VERSION015_vm_idxs) |}
  else if ver >=? 0x000500350021004E then (* 05.53.33.78 *)
    {| shape_num_methods := 79;
       shape_vm_idxs := vm_explicit
         (slots ISteamUGC_m_value STEAMUGC_INTERFACE_VERSION014_vm_idxs) |}
  else if ver >=? 0x000500130026003E then (* 05.19.38.62 *)
    {| shape_num_methods := 78;
       shape_vm_idxs := vm_explicit
         (slots ISteamUGC_m_value STEAMUGC_INTERFACE_VERSION013_vm_idxs) |}
  else if ver >=? 0x0004005F0014001E then (* 04.95.20.30 *)
    {| shape_num_methods := 76;
       shape_vm_idxs := vm_explicit
         (slots ISteamUGC_m_value STEAMUGC_INTERFACE_VERSION012_vm_idxs) |}
  else if ver >=? 0x0003005C0048003A then (* 03.92.72.58 *)
    {| shape_num_methods := 74;
       shape_vm_idxs := vm_explicit
         (slots ISteamUGC_m_value STEAMUGC_INTERFACE_VERSION010_vm_idxs) |}
  else if ver >=? 0x0003003E00520052 then (* 03.62.82.82 *)
    {| shape_num_methods := 67;
       shape_vm_idxs := vm_explicit
         (slots ISteamUGC_m_value STEAMUGC_INTERFACE_VERSION009_vm_idxs) |}
  else if ver >=? 0x0003002A003D0042 then (* 03.42.61.66 *)
    {| shape_num_methods := 63;
       shape_vm_idxs := vm_explicit
         (slots ISteamUGC_m_value STEAMUGC_INTERFACE_VERSION008_vm_idxs) |}
  else if ver >=? 0x00020059002D0004 then (* 02.89.45.04 *)
    {| shape_num_methods := 58;
       shape_vm_idxs := vm_explicit
         (slots ISteamUGC_m_value STEAMUGC_INTERFACE_VERSION007_vm_idxs) |}
  else if ver >=? 0x0002004D00250052 then (* 02.77.37.82 *)
    {| shape_num_methods := 46;
       shape_vm_idxs := vm_explicit
         (slots ISteamUGC_m_value STEAMUGC_INTERFACE_VERSION005_vm_idxs) |}
  else if ver >=? 0x000200130022005D then (* 02.19.34.93 *)
    {| shape_num_methods := 31;
       shape_vm_idxs := vm_explicit
         (slots ISteamUGC_m_value STEAMUGC_INTERFACE_VERSION002_vm_idxs) |}
  else
    {| shape_num_methods := 14;
       shape_vm_idxs := vm_explicit
         (slots ISteamUGC_m_value STEAMUGC_INTERFACE_VERSION001_vm_idxs) |}.

Definition ISteamUser_shape (ver : Z) : shape :=
  if ver >=? 0x000800020015005F then (* 08.02.21.95 *)
    {| shape_num_methods := 33; shape_vm_idxs := vm_identity |}
  else if ver >=? 0x0005005C0024004B then (* 05.92.36.75 *)
    {| shape_num_methods := 32;
       shape_vm_idxs := vm_explicit
         (slots ISteamUser_m_value SteamUser021_vm_idxs) |}
  else if ver >=? 0x0004005F0014001E then (* 04.95.20.30 *)
    {| shape_num_methods := 31;
       shape_vm_idxs := vm_explicit
         (slots ISteamUser_m_value SteamUser020_vm_idxs) |}
  else if ver >=? 0x0003002A003D0042 then (* 03.42.61.66 *)
    {| shape_num_methods := 29;
       shape_vm_idxs := vm_explicit
         (slots ISteamUser_m_value SteamUser019_vm_idxs) |}
  else if ver >=? 0x0002003B0033002B then (* 02.59.51.43 *)
    {| shape_num_methods := 25;
       shape_vm_idxs := vm_explicit
         (slots ISteamUser_m_value SteamUser018_vm_idxs) |}
  else if ver >=? 0x00010053001F0025 then (* 01.83.31.37 *)
    {| shape_num_methods := 24;
       shape_vm_idxs := vm_explicit
         (slots ISteamUser_m_value SteamUser017_vm_idxs) |}
  else if ver >=? 0x000100060063003D then (* 01.06.99.61 *)
    {| shape_num_methods := 22;
       shape_vm_idxs := vm_explicit
         (slots ISteamUser_m_value SteamUser016_vm_idxs) |}
  else
    {| shape_num_methods := 21;
       shape_vm_idxs := vm_explicit
         (slots ISteamUser_m_value SteamUser014_vm_idxs) |}.

Definition ISteamUtils_shape (ver : Z) : shape :=
  if ver >=? 0x000600060063003B then (* 06.06.99.59 *)
    {| shape_num_methods := 39; shape_vm_idxs := vm_untouched |}
  else if ver >=? 0x0003005C0048003A then (* 03.92.72.58 *)
    {| shape_num_methods := 34; shape_vm_idxs := vm_untouched |}
  else if ver >=? 0x0003002A003D0042 then (* 03.42.61.66 *)
    {| shape_num_methods := 28; shape_vm_idxs := vm_untouched |}
  else if ver >=? 0x000200130022005D then (* 02.19.34.93 *)
    {| shape_num_methods := 26; shape_vm_idxs := vm_untouched |}
  else if ver >=? 0x00010053001F0025 then (* 01.83.31.37 *)
    {| shape_num_methods := 25; shape_vm_idxs := vm_untouched |}
  else
    {| shape_num_methods := 23; shape_vm_idxs := vm_untouched |}.

(** [ISteamMatchmakingServers] has the same layout in every supported
    version. *)
Definition ISteamMatchmakingServers_shape (ver : Z) : shape :=
  {| shape_num_methods := 17; shape_vm_idxs := vm_untouched |}.

Definition shape_of (X : interface) (ver : Z) : shape :=
  match X with
  | ISteamApps => ISteamApps_shape ver
  | ISteamMatchmaking => ISteamMatchmaking_shape ver
  | ISteamMatchmakingServers => ISteamMatchmakingServers_shape ver
  | ISteamUGC => ISteamUGC_shape ver
  | ISteamUser => ISteamUser_shape ver
  | ISteamUtils => ISteamUtils_shape ver
  end.

(** ** The Interface Shape Table of the specification

    The specification describes shape resolution as a scan of an ordered list
    of records, first match wins.  These definitions follow its wording; the
    theorems compare them with the if-else chains above. *)

Record ShapeRecord := {
  min_version : Z;
  record_shape : shape
}.

(** [resolve]: scan top to bottom and return the first record whose
    threshold is at most [version]. *)
Fixpoint resolve (table : list ShapeRecord) (version : Z)
    : option ShapeRecord :=
  match table with
  | [] => None
  | r :: rest =>
      if min_version r <=? version then Some r else resolve rest version
  end.

(** A record matches a version when its threshold is at most the version and
    no record above it has such a threshold. *)
Inductive matches (version : Z) : list ShapeRecord -> ShapeRecord -> Prop :=
  | matches_here r rest :
      min_version r <= version -> matches version (r :: rest) r
  | matches_later r0 rest r :
      version < min_version r0 -> matches version rest r ->
      matches version (r0 :: rest) r.

Definition ISteamApps_table : list ShapeRecord :=
  [
    {| min_version := 0x0003002A003D0042;
       record_shape :=
         {| shape_num_methods := 33;
            shape_vm_idxs := vm_untouched |} |};
    {| min_version := 0x0002003B0033002B;
       record_shape :=
         {| shape_num_methods := 24;
            shape_vm_idxs := vm_untouched |} |};
    {| min_version := 0x00010062001F0049;
       record_shape :=
         {| shape_num_methods := 22;
            shape_vm_idxs := vm_untouched |} |};
    {| min_version := 0x0001001E0032002E;
       record_shape :=
         {| shape_num_methods := 20;
            shape_vm_idxs := vm_untouched |} |};
    {| min_version := 0x0000006000210030;
       record_shape :=
         {| shape_num_methods := 14;
            shape_vm_idxs := vm_untouched |} |};
    {| min_version := 0;
       record_shape :=
         {| shape_num_methods := 8;
            shape_vm_idxs := vm_untouched |} |}
  ].

Definition ISteamMatchmaking_table : list ShapeRecord :=
  [
    {| min_version := 0x00010017002D005D;
       record_shape :=
         {| shape_num_methods := 38;
            shape_vm_idxs := vm_identity |} |};
    {| min_version := 0;
       record_shape :=
         {| shape_num_methods := 36;
            shape_vm_idxs := vm_explicit
              (slots ISteamMatchmaking_m_value SteamMatchMaking008_vm_idxs) |} |}
  ].

Definition ISteamMatchmakingServers_table : list ShapeRecord :=
  [
    {| min_version := 0;
       record_shape :=
         {| shape_num_methods := 17;
            shape_vm_idxs := vm_untouched |} |}
  ].

Definition ISteamUGC_table : list ShapeRecord :=
  [
    {| min_version := 0x0009003C002C000A;
       record_shape :=
         {| shape_num_methods := 96;
            shape_vm_idxs := vm_identity |} |};
    {| min_version := 0x0008006100630046;
       record_shape :=
         {| shape_num_methods := 94;
            shape_vm_idxs := vm_identity |} |};
    {| min_version := 0x0008002100090017;
       record_shape :=
         {| shape_num_methods := 90;
            shape_vm_idxs := vm_explicit
              (slots ISteamUGC_m_value STEAMUGC_INTERFACE_VERSION018_vm_idxs) |} |};
    {| min_version := 0x000700600000002C;
       record_shape :=
         {| shape_num_methods := 89;
            shape_vm_idxs := vm_explicit
              (slots ISteamUGC_m_value STEAMUGC_INTERFACE_VERSION017_vm_idxs) |} |};
    {| min_version := 0x0006005B00150039;
       record_shape :=
         {| shape_num_methods := 86;
            shape_vm_idxs := vm_explicit
              (slots ISteamUGC_m_value STEAMUGC_INTERFACE_VERSION016_vm_idxs) |} |};
    {| min_version := 0x0006001C00120056;
       record_shape :=
         {| shape_num_methods := 84;
            shape_vm_idxs := vm_explicit
              (slots ISteamUGC_m_value STEAMUGC_INTERFACE_VERSION015_vm_idxs) |} |};
    {| min_version := 0x000500350021004E;
       record_shape :=
         {| shape_num_methods := 79;
            shape_vm_idxs := vm_explicit
              (slots ISteamUGC_m_value STEAMUGC_INTERFACE_VERSION014_vm_idxs) |} |};
    {| min_version := 0x000500130026003E;
       record_shape :=
         {| shape_num_methods := 78;
            shape_vm_idxs := vm_explicit
              (slots ISteamUGC_m_value STEAMUGC_INTERFACE_VERSION013_vm_idxs) |} |};
    {| min_version := 0x0004005F0014001E;
       record_shape :=
         {| shape_num_methods := 76;
            shape_vm_idxs := vm_explicit
              (slots ISteamUGC_m_value STEAMUGC_INTERFACE_VERSION012_vm_idxs) |} |};
    {| min_version := 0x0003005C0048003A;
       record_shape :=
         {| shape_num_methods := 74;
            shape_vm_idxs := vm_explicit
              (slots ISteamUGC_m_value STEAMUGC_INTERFACE_VERSION010_vm_idxs) |} |};
    {| min_version := 0x0003003E00520052;
       record_shape :=
         {| shape_num_methods := 67;
            shape_vm_idxs := vm_explicit
              (slots ISteamUGC_m_value STEAMUGC_INTERFACE_VERSION009_vm_idxs) |} |};
    {| min_version := 0x0003002A003D0042;
       record_shape :=
         {| shape_num_methods := 63;
            shape_vm_idxs := vm_explicit
              (slots ISteamUGC_m_value STEAMUGC_INTERFACE_VERSION008_vm_idxs) |} |};
    {| min_version := 0x00020059002D0004;
       record_shape :=
         {| shape_num_methods := 58;
            shape_vm_idxs := vm_explicit
              (slots ISteamUGC_m_value STEAMUGC_INTERFACE_VERSION007_vm_idxs) |} |};
    {| min_version := 0x0002004D00250052;
       record_shape :=
         {| shape_num_methods := 46;
            shape_vm_idxs := vm_explicit
              (slots ISteamUGC_m_value STEAMUGC_INTERFACE_VERSION005_vm_idxs) |} |};
    {| min_version := 0x000200130022005D;
       record_shape :=
         {| shape_num_methods := 31;
            shape_vm_idxs := vm_explicit
              (slots ISteamUGC_m_value STEAMUGC_INTERFACE_VERSION002_vm_idxs) |} |};
    {| min_version := 0;
       record_shape :=
         {| shape_num_methods := 14;
            shape_vm_idxs := vm_explicit
              (slots ISteamUGC_m_value STEAMUGC_INTERFACE_VERSION001_vm_idxs) |} |}
  ].

Definition ISteamUser_table : list ShapeRecord :=
  [
    {| min_version := 0x000800020015005F;
       record_shape :=
         {| shape_num_methods := 33;
            shape_vm_idxs := vm_identity |} |};
    {| min_version := 0x0005005C0024004B;
       record_shape :=
         {| shape_num_methods := 32;
            shape_vm_idxs := vm_explicit
              (slots ISteamUser_m_value SteamUser021_vm_idxs) |} |};
    {| min_version := 0x0004005F0014001E;
       record_shape :=
         {| shape_num_methods := 31;
            shape_vm_idxs := vm_explicit
              (slots ISteamUser_m_value SteamUser020_vm_idxs) |} |};
    {| min_version := 0x0003002A003D0042;
       record_shape :=
         {| shape_num_methods := 29;
            shape_vm_idxs := vm_explicit
              (slots ISteamUser_m_value SteamUser019_vm_idxs) |} |};
    {| min_version := 0x0002003B0033002B;
       record_shape :=
         {| shape_num_methods := 25;
            shape_vm_idxs := vm_explicit
              (slots ISteamUser_m_value SteamUser018_vm_idxs) |} |};
    {| min_version := 0x00010053001F0025;
       record_shape :=
         {| shape_num_methods := 24;
            shape_vm_idxs := vm_explicit
              (slots ISteamUser_m_value SteamUser017_vm_idxs) |} |};
    {| min_version := 0x000100060063003D;
       record_shape :=
         {| shape_num_methods := 22;
            shape_vm_idxs := vm_explicit
              (slots ISteamUser_m_value SteamUser016_vm_idxs) |} |};
    {| min_version := 0;
       record_shape :=
         {| shape_num_methods := 21;
            shape_vm_idxs := vm_explicit
              (slots ISteamUser_m_value SteamUser014_vm_idxs) |} |}
  ].

Definition ISteamUtils_table : list ShapeRecord :=
  [
    {| min_version := 0x000600060063003B;
       record_shape :=
         {| shape_num_methods := 39;
            shape_vm_idxs := vm_untouched |} |};
    {| min_version := 0x0003005C0048003A;
       record_shape :=
         {| shape_num_methods := 34;
            shape_vm_idxs := vm_untouched |} |};
    {| min_version := 0x0003002A003D0042;
       record_shape :=
         {| shape_num_methods := 28;
            shape_vm_idxs := vm_untouched |} |};
    {| min_version := 0x000200130022005D;
       record_shape :=
         {| shape_num_methods := 26;
            shape_vm_idxs := vm_untouched |} |};
    {| min_version := 0x00010053001F0025;
       record_shape :=
         {| shape_num_methods := 25;
            shape_vm_idxs := vm_untouched |} |};
    {| min_version := 0;
       record_shape :=
         {| shape_num_methods := 23;
            shape_vm_idxs := vm_untouched |} |}
  ].

Definition table_of (X : interface) : list ShapeRecord :=
  match X with
  | ISteamApps => ISteamApps_table
  | ISteamMatchmaking => ISteamMatchmaking_table
  | ISteamMatchmakingServers => ISteamMatchmakingServers_table
  | ISteamUGC => ISteamUGC_table
  | ISteamUser => ISteamUser_table
  | ISteamUtils => ISteamUtils_table
  end.

(** ** Loops and the shadowing steps *)

Fixpoint for_each {A} (l : list A) (body : A -> M unit) : M unit :=
  match l with
  | [] => mret tt
  | x :: rest => body x ;; for_each rest body
  end.

(** [for (std::size_t i{}; i < X_desc.num_methods; ++i) X_desc.vm_idxs[i] = i;] *)
Definition vm_idxs_identity (X : interface) : M unit :=
  n ← gets (fun s => num_methods (descs s X));
  for_each (seqZ 0 n) (fun i => store_vm_idx X i i).

(** The body of one version branch: set [num_methods], then fill [vm_idxs]
    the way the branch does. *)
Definition select_shape (X : interface) (sh : shape) : M unit :=
  update_desc X (set_num_methods (shape_num_methods sh)) ;;
  match shape_vm_idxs sh with
  | vm_untouched => mret tt
  | vm_identity => vm_idxs_identity X
  | vm_explicit l => for_each l (fun p => store_vm_idx X p.1 p.2)
  end.

(** [std::ranges::copy_n(src, n, X_desc.vtable.begin())] *)
Definition copy_n (src : vtable_ptr) (n : Z) (X : interface) : M unit :=
  for_each (seqZ 0 n) (fun i =>
    f ← load_table src i;
    store_vtable_entry X i f).

(** The four statements that [SteamAPI_Init] runs for every interface once
    [num_methods] is known:
<<
  X_desc.orig_vtable = X_ptr->vtable;
  X_desc.iface = X_ptr;
  std::ranges::copy_n(X_ptr->vtable, X_desc.num_methods, X_desc.vtable.begin());
  X_ptr->vtable = X_desc.vtable.data();
>> *)
Definition shadow (X : interface) (X_ptr : Z) : M unit :=
  t ← load_vtable X_ptr;
  update_desc X (set_orig_vtable (Some t)) ;;
  update_desc X (set_iface X_ptr) ;;
  t ← load_vtable X_ptr;
  n ← gets (fun s => num_methods (descs s X));
  copy_n t n X ;;
  store_vtable X_ptr (desc_table X).

(** [X_desc.vtable[X_desc.vm_idxs[m]] = f], without a test of the index. *)
Definition install (X : interface) (m : Z) (f : fnptr) : M unit :=
  idx ← load_vm_idx X m;
  store_vtable_entry X idx f.

(** [idx = X_desc.vm_idxs[m]; if (idx >= 0) { X_desc.vtable[idx] = f; }] *)
Definition install_if_available (X : interface) (m : Z) (f : fnptr)
    : M unit :=
  idx ← load_vm_idx X m;
  if idx >=? 0 then store_vtable_entry X idx f else mret tt.

(** [X_desc.orig_vtable[X_desc.vm_idxs[m]]] *)
Definition original (X : interface) (m : Z) : M fnptr :=
  idx ← load_vm_idx X m;
  load_orig_entry X idx.

(** ** tek-steamclient.cpp *)

Module steamclient.

(** [load]: nothing when already loaded; otherwise the library is loaded,
    its entry points are resolved and the library context is created, and
    [loaded] is set only when all of that succeeds. *)
Definition load (w : world) : M unit :=
  l ← gets steamclient_loaded;
  if (l : bool) then mret tt
  else if w_steamclient_load w then modify (with_steamclient_loaded true)
  else mret tt.

(** [update_dlc]: the network exchange ends in [cb_dlc_info], which appends
    every discovered entry to [dlc] and adds its ID to [installed_dlc]. *)
Definition update_dlc (w : world) : M unit :=
  modify (with_settings (fun o =>
    settings.set_dlc (settings.dlc o ++ w_update_dlc w)
      (settings.installed_dlc o ∪ list_to_set (w_update_dlc w).*1) o)).

(** [install_workshop_item].  The header declares a leading [am_dir]
    parameter that the definition in tek-steamclient.cpp does not have; the
    body below is the definition's, which creates the application manager
    from [ws_dir]. *)
Definition install_workshop_item (w : world) (am_dir ws_dir : string)
    (id : Z) (item_desc : Z) : M bool :=
  am ← gets steamclient_am;
  created ←
    (if am =? 0 then
       modify (with_steamclient_am (w_am_create w ws_dir)) ;;
       mret (negb (w_am_create w ws_dir =? 0))
     else mret true);
  if negb created then mret false
  else
    (if w_beginthreadex w id then
       modify (with_threads (fun l =>
         l ++ [{| job_id := id; job_item_desc := item_desc |}]))
     else mret tt) ;;
    mret true.

End steamclient.

(** ** steam/346110.cpp *)

Module app_346110.
Import app_346110_vars.

Definition with_unavailable_dlc (f : list string -> list string)
    (g : globals) : globals :=
  {| show_be_servers := show_be_servers g;
     show_unavailable_servers := show_unavailable_servers g;
     ws_dir_path := ws_dir_path g; ws_am_path := ws_am_path g;
     unavailable_dlc := f (unavailable_dlc g); mods := mods g;
     ws_descs := ws_descs g;
     SteamMatchmakingServers_CancelServerQuery_orig :=
       SteamMatchmakingServers_CancelServerQuery_orig g;
     SteamMatchmakingServers_RequestInternetServerList_orig :=
       SteamMatchmakingServers_RequestInternetServerList_orig g;
     SteamMatchmakingServers_ServerRules_orig :=
       SteamMatchmakingServers_ServerRules_orig g;
     SteamUtils_IsAPICallCompleted_orig :=
       SteamUtils_IsAPICallCompleted_orig g;
     SteamUtils_GetAPICallResult_orig := SteamUtils_GetAPICallResult_orig g
  |}.

Definition with_mods (f : list Z -> list Z) (g : globals) : globals :=
  {| show_be_servers := show_be_servers g;
     show_unavailable_servers := show_unavailable_servers g;
     ws_dir_path := ws_dir_path g; ws_am_path := ws_am_path g;
     unavailable_dlc := unavailable_dlc g; mods := f (mods g);
     ws_descs := ws_descs g;
     SteamMatchmakingServers_CancelServerQuery_orig :=
       SteamMatchmakingServers_CancelServerQuery_orig g;
     SteamMatchmakingServers_RequestInternetServerList_orig :=
       SteamMatchmakingServers_RequestInternetServerList_orig g;
     SteamMatchmakingServers_ServerRules_orig :=
       SteamMatchmakingServers_ServerRules_orig g;
     SteamUtils_IsAPICallCompleted_orig :=
       SteamUtils_IsAPICallCompleted_orig g;
     SteamUtils_GetAPICallResult_orig := SteamUtils_GetAPICallResult_orig g
  |}.

Definition with_ws_descs (f : gmap Z Z -> gmap Z Z) (g : globals)
    : globals :=
  {| show_be_servers := show_be_servers g;
     show_unavailable_servers := show_unavailable_servers g;
     ws_dir_path := ws_dir_path g; ws_am_path := ws_am_path g;
     unavailable_dlc := unavailable_dlc g; mods := mods g;
     ws_descs := f (ws_descs g);
     SteamMatchmakingServers_CancelServerQuery_orig :=
       SteamMatchmakingServers_CancelServerQuery_orig g;
     SteamMatchmakingServers_RequestInternetServerList_orig :=
       SteamMatchmakingServers_RequestInternetServerList_orig g;
     SteamMatchmakingServers_ServerRules_orig :=
       SteamMatchmakingServers_ServerRules_orig g;
     SteamUtils_IsAPICallCompleted_orig :=
       SteamUtils_IsAPICallCompleted_orig g;
     SteamUtils_GetAPICallResult_orig := SteamUtils_GetAPICallResult_orig g
  |}.

(** The five captured original-method pointers, set together. *)
Definition with_origs (cancel request rules completed result : fnptr)
    (g : globals) : globals :=
  {| show_be_servers := show_be_servers g;
     show_unavailable_servers := show_unavailable_servers g;
     ws_dir_path := ws_dir_path g; ws_am_path := ws_am_path g;
     unavailable_dlc := unavailable_dlc g; mods := mods g;
     ws_descs := ws_descs g;
     SteamMatchmakingServers_CancelServerQuery_orig := cancel;
     SteamMatchmakingServers_RequestInternetServerList_orig := request;
     SteamMatchmakingServers_ServerRules_orig := rules;
     SteamUtils_IsAPICallCompleted_orig := completed;
     SteamUtils_GetAPICallResult_orig := result
  |}.

Definition set_CancelServerQuery_orig (p : fnptr) (g : globals) : globals :=
  with_origs p (SteamMatchmakingServers_RequestInternetServerList_orig g)
    (SteamMatchmakingServers_ServerRules_orig g)
    (SteamUtils_IsAPICallCompleted_orig g)
    (SteamUtils_GetAPICallResult_orig g) g.

Definition set_RequestInternetServerList_orig (p : fnptr) (g : globals)
    : globals :=
  with_origs (SteamMatchmakingServers_CancelServerQuery_orig g) p
    (SteamMatchmakingServers_ServerRules_orig g)
    (SteamUtils_IsAPICallCompleted_orig g)
    (SteamUtils_GetAPICallResult_orig g) g.

Definition set_ServerRules_orig (p : fnptr) (g : globals) : globals :=
  with_origs (SteamMatchmakingServers_CancelServerQuery_orig g)
    (SteamMatchmakingServers_RequestInternetServerList_orig g) p
    (SteamUtils_IsAPICallCompleted_orig g)
    (SteamUtils_GetAPICallResult_orig g) g.

Definition set_IsAPICallCompleted_orig (p : fnptr) (g : globals) : globals :=
  with_origs (SteamMatchmakingServers_CancelServerQuery_orig g)
    (SteamMatchmakingServers_RequestInternetServerList_orig g)
    (SteamMatchmakingServers_ServerRules_orig g) p
    (SteamUtils_GetAPICallResult_orig g) g.

Definition set_GetAPICallResult_orig (p : fnptr) (g : globals) : globals :=
  with_origs (SteamMatchmakingServers_CancelServerQuery_orig g)
    (SteamMatchmakingServers_RequestInternetServerList_orig g)
    (SteamMatchmakingServers_ServerRules_orig g)
    (SteamUtils_IsAPICallCompleted_orig g) p g.

(** [ws_descs.try_emplace(id)]: insert a null descriptor pointer unless the
    key is present; tell whether the insertion happened. *)
Definition try_emplace (id : Z) : M bool :=
  present ← gets (fun s => ws_descs (game_346110 s) !! id);
  match present with
  | Some _ => mret false
  | None =>
      modify (with_game_346110 (with_ws_descs (insert id 0))) ;;
      mret true
  end.

(** Wrapper for [ISteamUGC::SubscribeItem]: start a tek-steamclient
    application manager job.  The two path conversions have no effect on
    the state; the mutex is held around [try_emplace] only. *)
Definition SteamUGC_SubscribeItem (w : world) (id : Z) : M Z :=
  am_path ← gets (fun s => ws_am_path (game_346110 s));
  dir_path ← gets (fun s => ws_dir_path (game_346110 s));
  emplaced ← try_emplace id;
  (if (emplaced : bool) then
     _ ← steamclient.install_workshop_item w am_path dir_path id id;
     mret tt
   else mret tt) ;;
  mret id.

(** Wrapper for [ISteamUGC::GetNumSubscribedItems]. *)
Definition SteamUGC_GetNumSubscribedItems : M Z :=
  g ← gets game_346110;
  mret (cxx.wrap 32 (Z.of_nat (length (mods g)) + Z.of_nat (size (ws_descs g)))).

(** The DLC maps probed by [steam_api_init_346110], in source order: the
    app ID asked about and the map names recorded when it is not owned. *)
Definition dlc_maps : list (Z * list string) :=
  [ (473850, ["TheCenter"]);
    (512540, ["ScorchedEarth"]);
    (642250, ["Ragnarok"]);
    (708770, ["Aberration"]);
    (887380, ["Extinction"]);
    (1100810, ["Valguero_P"]);
    (1113410, ["Genesis"; "Gen2"]);
    (1270830, ["CrystalIsles"]);
    (1691800, ["LostIsland"]);
    (1887560, ["Fjordur"]);
    (3537070, ["Aquatica"]) ].

(** [steam_api_init_346110], the game callback run at the end of
    [SteamAPI_Init]. *)
Definition steam_api_init_346110 (w : world) : M unit :=
  g ← gets game_346110;
  spoof_app_id ← gets (fun s => settings.spoof_app_id (g_settings s));
  (if negb (show_be_servers g) || negb (show_unavailable_servers g) then
     (if negb (show_unavailable_servers g) && (spoof_app_id =? 346110) then
        (* Get the list of unowned DLC maps *)
        ISteamApps_BIsSubscribedApp ←
          original ISteamApps ISteamApps_m_BIsSubscribedApp;
        ISteamApps_ptr ← gets (fun s => iface (descs s ISteamApps));
        for_each dlc_maps (fun p =>
          owned ← call_vendor_bool w ISteamApps_BIsSubscribedApp
                    ISteamApps_ptr p.1;
          if (owned : bool) then mret tt
          else modify (with_game_346110
                         (with_unavailable_dlc (fun l => l ++ p.2))))
      else mret tt) ;;
     (* Setup wrappers for ISteamMatchmakingServers *)
     f ← original ISteamMatchmakingServers
           ISteamMatchmakingServers_m_RequestInternetServerList;
     modify (with_game_346110 (set_RequestInternetServerList_orig f)) ;;
     install ISteamMatchmakingServers
       ISteamMatchmakingServers_m_RequestInternetServerList
       fn_SteamMatchmakingServers_RequestInternetServerList ;;
     f ← original ISteamMatchmakingServers
           ISteamMatchmakingServers_m_ServerRules;
     modify (with_game_346110 (set_ServerRules_orig f)) ;;
     install ISteamMatchmakingServers ISteamMatchmakingServers_m_ServerRules
       fn_SteamMatchmakingServers_ServerRules ;;
     f ← original ISteamMatchmakingServers
           ISteamMatchmakingServers_m_CancelServerQuery;
     modify (with_game_346110 (set_CancelServerQuery_orig f))
   else mret tt) ;;
  if negb (spoof_app_id =? 346110) then
    (if negb (String.eqb (ws_dir_path g) "") then
       if w_fs_exists w (ws_dir_path g) then
         (* Get initial mod list *)
         modify (with_game_346110
                   (with_mods (fun l =>
                      l ++ w_workshop_dirs w (ws_dir_path g)))) ;;
         steamclient.load w
       else mret tt
     else mret tt) ;;
    (* Setup wrappers for ISteamUGC *)
    install ISteamUGC ISteamUGC_m_GetNumSubscribedItems
      fn_SteamUGC_GetNumSubscribedItems ;;
    install ISteamUGC ISteamUGC_m_GetSubscribedItems
      fn_SteamUGC_GetSubscribedItems ;;
    install ISteamUGC ISteamUGC_m_GetItemInstallInfo
      fn_SteamUGC_GetItemInstallInfo ;;
    loaded ← gets steamclient_loaded;
    if negb (String.eqb (ws_dir_path g) "") && loaded then
      (* Setup wrappers for making mod downloads work *)
      install ISteamUGC ISteamUGC_m_SubscribeItem
        fn_SteamUGC_SubscribeItem ;;
      install ISteamUGC ISteamUGC_m_GetItemUpdateInfo
        fn_SteamUGC_GetItemUpdateInfo ;;
      f ← original ISteamUtils ISteamUtils_m_IsAPICallCompleted;
      modify (with_game_346110 (set_IsAPICallCompleted_orig f)) ;;
      install ISteamUtils ISteamUtils_m_IsAPICallCompleted
        fn_SteamUtils_IsAPICallCompleted ;;
      f ← original ISteamUtils ISteamUtils_m_GetAPICallResult;
      modify (with_game_346110 (set_GetAPICallResult_orig f)) ;;
      install ISteamUtils ISteamUtils_m_GetAPICallResult
        fn_SteamUtils_GetAPICallResult
    else mret tt
  else mret tt.

End app_346110.

(** ** steam/2399830.cpp and game_cbs.hpp *)

Module app_2399830.

(** [steam_api_init_2399830] formats [steam_id] into a file-scope character
    buffer that nothing in the modelled code reads; it stores into no
    descriptor. *)
Definition steam_api_init_2399830 : M unit := mret tt.

End app_2399830.

(** [get_steam_api_init_cb]: the callback for the configured application,
    if it has one ([store] is always [store_type::steam]). *)
Definition get_steam_api_init_cb (w : world) (s : state) : option (M unit) :=
  let app_id := settings.app_id (g_settings s) in
  if app_id =? 346110 then Some (app_346110.steam_api_init_346110 w)
  else if app_id =? 2399830 then Some app_2399830.steam_api_init_2399830
  else None.

(** ** steam_api.cpp *)

Module steam_api.

(** Highest supported steam_api64.dll file version, [09.60.44.10]. *)
Definition max_supported_ver : Z := 0x0009003C002C000A.

(** *** Common Steam API method wrappers *)

(** Wrapper for [ISteamApps::BIsSubscribed]: always [true]. *)
Definition SteamApps_BIsSubscribed : M bool := mret true.

(** Wrapper for [ISteamApps::BIsSubscribedApp]: [true] for the current
    application ID and the DLC listed in the settings, the original method
    otherwise. *)
Definition SteamApps_BIsSubscribedApp (w : world) (iface app_id : Z)
    : M bool :=
  o ← gets g_settings;
  if (app_id =? settings.app_id o)
     || bool_decide (app_id ∈ (settings.dlc o).*1)
  then mret true
  else
    orig ← gets SteamApps_BIsSubscribedApp_orig;
    call_vendor_bool w orig iface app_id.

(** Wrapper for [ISteamApps::BIsDlcInstalled]. *)
Definition SteamApps_BIsDlcInstalled (app_id : Z) : M bool :=
  o ← gets g_settings;
  mret (bool_decide (app_id ∈ settings.installed_dlc o)).

(** Wrapper for [ISteamApps::BIsSubscribedFromFreeWeekend]. *)
Definition SteamApps_BIsSubscribedFromFreeWeekend : M bool := mret false.

(** Wrapper for [ISteamApps::GetDLCCount]: the number of DLC entries in
    the settings, as an [int]. *)
Definition SteamApps_GetDLCCount : M Z :=
  o ← gets g_settings;
  mret (cxx.static_cast_int (Z.of_nat (length (settings.dlc o)))).

(** A store through one of the output pointers of
    [SteamApps_BGetDLCDataByIndex]. *)
Inductive dlc_write : Type :=
  | write_app_id (id : Z)
  | write_available (b : bool)
  | write_name_buf (text : string).

(** Wrapper for [ISteamApps::BGetDLCDataByIndex].  The result is the
    returned value and the stores made through [app_id], [available] and
    [name_buf], in order; [name_buf] tells whether that pointer is
    non-null.  The subscript of [dlc] is converted to [std::size_t]. *)
Definition SteamApps_BGetDLCDataByIndex (idx : Z) (name_buf : bool)
    (name_buf_size : Z) : M (bool * list dlc_write) :=
  o ← gets g_settings;
  if idx <? cxx.static_cast_int (Z.of_nat (length (settings.dlc o)))
  then mret (false, [])
  else
    entry ← defined "dlc[idx] outside the bounds of the vector"
              (cxx.array_get (settings.dlc o) (cxx.wrap 64 idx));
    if name_buf_size >? 0 then
      if name_buf then
        mret (true,
              [write_app_id entry.1; write_available true;
               write_name_buf
                 (substring 0 (Z.to_nat (name_buf_size - 1)) entry.2)])
      else undefined "store through a null name_buf"
    else mret (true, [write_app_id entry.1; write_available true]).

(** Wrapper for [ISteamApps::BIsAppInstalled]. *)
Definition SteamApps_BIsAppInstalled (w : world) (iface app_id : Z)
    : M bool :=
  o ← gets g_settings;
  if (app_id =? settings.app_id o)
     || bool_decide (app_id ∈ settings.installed_dlc o)
  then mret true
  else
    orig ← gets SteamApps_BIsAppInstalled_orig;
    call_vendor_bool w orig iface app_id.

(** Wrapper for [ISteamUtils::GetAppID]. *)
Definition SteamUtils_GetAppID : M Z :=
  gets (fun s => settings.app_id (g_settings s)).

(** *** SteamAPI_Init wrapping *)

(** A call of the real [SteamAPI_Init]. *)
Definition SteamAPI_Init_orig (w : world) : M bool :=
  k ← gets init_calls;
  id ← gets (fun s => environment s !! "SteamAppId");
  modify (with_init_calls (S k)) ;;
  mret (w_SteamAPI_Init_orig w k id).

(** The version probe: [FindResourceW], [LoadResource], [LockResource] and
    [VerQueryValueW] in turn, any failure leading to [version_fail]; the
    result is [dwFileVersionLS | (uint64_t(dwFileVersionMS) << 32)]. *)
Definition probe_version (w : world) : option Z :=
  let rsrc := w_FindResourceW w in
  if rsrc =? 0 then None
  else
    let ver_res := w_LoadResource w rsrc in
    if ver_res =? 0 then None
    else
      let ver_data := w_LockResource w ver_res in
      if ver_data =? 0 then None
      else
        match w_VerQueryValueW w ver_data with
        | None => None
        | Some (dwFileVersionMS, dwFileVersionLS) =>
            Some (Z.lor (cxx.wrap 32 dwFileVersionLS)
                    (Z.shiftl (cxx.wrap 32 dwFileVersionMS) 32))
        end.

(** [{:02}] of one 16-bit word of the version. *)
Definition fmt02 (n : Z) : string :=
  if n <? 10 then "0" +:+ pretty n else pretty n.

Definition unsupported_version_message (ver : Z) : string :=
  let word k := Z.land (Z.shiftr ver (16 * k)) 0xFFFF in
  "Unsupported steam_api64.dll file version " +:+ fmt02 (word 3) +:+ "."
    +:+ fmt02 (word 2) +:+ "." +:+ fmt02 (word 1) +:+ "."
    +:+ fmt02 (word 0).

(** The interface pointers obtained from the vendor library. *)
Record interface_ptrs := {
  ISteamApps_ptr : Z;
  ISteamMatchmaking_ptr : Z;
  ISteamMatchmakingServers_ptr : Z;
  ISteamUGC_ptr : Z;
  ISteamUser_ptr : Z;
  ISteamUtils_ptr : Z
}.

(** A call of an exported getter found with [GetProcAddress]. *)
Definition call_export (w : world) (name : string) : M Z :=
  defined "call through a null GetProcAddress result"
    (w_export_getter w name).

(** "Obtain interface pointers" (lines 216-361). *)
Definition obtain_interface_pointers (w : world) (ver : Z)
    : M interface_ptrs :=
  if ver >=? 0x0003002A003D0042 then
    (* Steamworks SDK v1.37+: everything comes from ISteamClient *)
    let interface_ver :=
      if ver >=? 0x0008003F000B0054 then "SteamClient021"
      else if ver >=? 0x000500350021004E then "SteamClient020"
      else if ver >=? 0x0005001900410015 then "SteamClient019"
      else if ver >=? 0x0004005F0014001E then "SteamClient018"
      else "SteamClient017" in
    let ISteamClient_ptr := w_SteamInternal_CreateInterface w interface_ver in
    t ← load_vtable ISteamClient_ptr;
    ISteamClient_GetISteamGenericInterface ← load_table t 12;
    let pipe := w_SteamAPI_GetHSteamPipe w in
    let user := w_SteamAPI_GetHSteamUser w in
    let get (name : string) : M Z :=
      match ISteamClient_GetISteamGenericInterface with
      | fn_vendor a =>
          mret (w_GetISteamGenericInterface w a ISteamClient_ptr user pipe
                  name)
      | fn_null => undefined "call through a null function pointer"
      | fn_wrapper _ =>
          undefined "re-entrant call of an interception function"
      end in
    apps ← get "STEAMAPPS_INTERFACE_VERSION008";
    matchmaking ← get "SteamMatchMaking009";
    servers ← get "SteamMatchMakingServers002";
    (* ISteamUGC is requested while interface_ver still names the
       ISteamClient version; the UGC version name chosen afterwards is
       overwritten before any use. *)
    ugc ← get interface_ver;
    let interface_ver :=
      if ver >=? 0x000800020015005F then "SteamUser023"
      else if ver >=? 0x000700600000002C then "SteamUser022"
      else if ver >=? 0x0005005C0024004B then "SteamUser021"
      else if ver >=? 0x0004005F0014001E then "SteamUser020"
      else "SteamUser019" in
    user_iface ← get interface_ver;
    let interface_ver :=
      if ver >=? 0x000600060063003B then "SteamUtils010"
      else if ver >=? 0x0003005C0048003A then "SteamUtils009"
      else "SteamUtils008" in
    utils ← get interface_ver;
    mret {| ISteamApps_ptr := apps; ISteamMatchmaking_ptr := matchmaking;
            ISteamMatchmakingServers_ptr := servers; ISteamUGC_ptr := ugc;
            ISteamUser_ptr := user_iface; ISteamUtils_ptr := utils |}
  else
    (* older SDK versions export the interface getters *)
    apps ← call_export w "SteamApps";
    matchmaking ← call_export w "SteamMatchmaking";
    servers ← call_export w "SteamMatchmakingServers";
    ugc ← (if ver >=? 0x00010062001F0049 then call_export w "SteamUGC"
           else mret 0);
    user_iface ← call_export w "SteamUser";
    utils ← call_export w "SteamUtils";
    mret {| ISteamApps_ptr := apps; ISteamMatchmaking_ptr := matchmaking;
            ISteamMatchmakingServers_ptr := servers; ISteamUGC_ptr := ugc;
            ISteamUser_ptr := user_iface; ISteamUtils_ptr := utils |}.

(** "Setup interface wrappers based on current version" (lines 362-1714). *)
Definition setup_interface_wrappers (ver : Z) (p : interface_ptrs)
    : M unit :=
  (* ISteamApps *)
  select_shape ISteamApps (ISteamApps_shape ver) ;;
  shadow ISteamApps (ISteamApps_ptr p) ;;
  vm_idxs_identity ISteamApps ;;
  (* ISteamMatchmaking *)
  select_shape ISteamMatchmaking (ISteamMatchmaking_shape ver) ;;
  shadow ISteamMatchmaking (ISteamMatchmaking_ptr p) ;;
  (* ISteamMatchmakingServers *)
  select_shape ISteamMatchmakingServers
    (ISteamMatchmakingServers_shape ver) ;;
  shadow ISteamMatchmakingServers (ISteamMatchmakingServers_ptr p) ;;
  vm_idxs_identity ISteamMatchmakingServers ;;
  (* ISteamUGC *)
  (if negb (ISteamUGC_ptr p =? 0) then
     select_shape ISteamUGC (ISteamUGC_shape ver) ;;
     shadow ISteamUGC (ISteamUGC_ptr p)
   else mret tt) ;;
  (* ISteamUser *)
  select_shape ISteamUser (ISteamUser_shape ver) ;;
  shadow ISteamUser (ISteamUser_ptr p) ;;
  (* ISteamUtils *)
  select_shape ISteamUtils (ISteamUtils_shape ver) ;;
  shadow ISteamUtils (ISteamUtils_ptr p) ;;
  vm_idxs_identity ISteamUtils.

(** "Get current user Steam ID" (lines 1715-1719). *)
Definition get_steam_id (w : world) (p : interface_ptrs) : M unit :=
  f ← original ISteamUser ISteamUser_m_GetSteamID;
  match f with
  | fn_vendor a =>
      modify (with_steam_id (w_GetSteamID w a (ISteamUser_ptr p)))
  | fn_null => undefined "call through a null function pointer"
  | fn_wrapper _ => undefined "re-entrant call of an interception function"
  end.

(** "Setup common function wrappers" (lines 1720-1776). *)
Definition setup_common_wrappers : M unit :=
  install ISteamApps ISteamApps_m_BIsSubscribed fn_SteamApps_BIsSubscribed ;;
  f ← original ISteamApps ISteamApps_m_BIsSubscribedApp;
  modify (with_SteamApps_BIsSubscribedApp_orig f) ;;
  install ISteamApps ISteamApps_m_BIsSubscribedApp
    fn_SteamApps_BIsSubscribedApp ;;
  install ISteamApps ISteamApps_m_BIsDlcInstalled
    fn_SteamApps_BIsDlcInstalled ;;
  install_if_available ISteamApps ISteamApps_m_BIsSubscribedFromFreeWeekend
    fn_SteamApps_BIsSubscribedFromFreeWeekend ;;
  install_if_available ISteamApps ISteamApps_m_GetDLCCount
    fn_SteamApps_GetDLCCount ;;
  install_if_available ISteamApps ISteamApps_m_BGetDLCDataByIndex
    fn_SteamApps_BGetDLCDataByIndex ;;
  idx ← load_vm_idx ISteamApps ISteamApps_m_BIsAppInstalled;
  (if idx >=? 0 then
     f ← load_orig_entry ISteamApps idx;
     modify (with_SteamApps_BIsAppInstalled_orig f) ;;
     store_vtable_entry ISteamApps idx fn_SteamApps_BIsAppInstalled
   else mret tt) ;;
  install_if_available ISteamApps ISteamApps_m_GetAppOwner
    fn_SteamApps_GetAppOwner ;;
  install_if_available ISteamApps
    ISteamApps_m_BIsSubscribedFromFamilySharing
    fn_SteamApps_BIsSubscribedFromFamilySharing ;;
  install_if_available ISteamApps ISteamApps_m_BIsTimedTrial
    fn_SteamApps_BIsTimedTrial ;;
  install ISteamUser ISteamUser_m_UserHasLicenseForApp
    fn_SteamUser_UserHasLicenseForApp ;;
  install ISteamUtils ISteamUtils_m_GetAppID fn_SteamUtils_GetAppID.

(** "Perform game-specific setup" (lines 1784-1790). *)
Definition game_specific_setup (w : world) : M unit :=
  cb ← gets (get_steam_api_init_cb w);
  match cb with
  | Some cb => cb
  | None => mret tt
  end.

(** Everything [SteamAPI_Init] does once the version is known to be
    supported (lines 216-1791). *)
Definition setup (w : world) (ver : Z) : M bool :=
  p ← obtain_interface_pointers w ver;
  setup_interface_wrappers ver p ;;
  get_steam_id w p ;;
  setup_common_wrappers ;;
  auto_update ← gets (fun s => settings.auto_update_dlc (g_settings s));
  (if (auto_update : bool) then
     (* Attempt to load tek-steamclient and update the DLC list. *)
     steamclient.load w ;;
     loaded ← gets steamclient_loaded;
     if (loaded : bool) then steamclient.update_dlc w else mret tt
   else mret tt) ;;
  game_specific_setup w ;;
  mret true.

(** Wrapper for [SteamAPI_Init]. *)
Definition SteamAPI_Init (w : world) : M bool :=
  app_id ← gets (fun s => settings.app_id (g_settings s));
  spoof_app_id ← gets (fun s => settings.spoof_app_id (g_settings s));
  SetEnvironmentVariableW "SteamAppId"
    (pretty (if spoof_app_id =? 0 then app_id else spoof_app_id)) ;;
  res ← SteamAPI_Init_orig w;
  res ←
    (if spoof_app_id =? 0 then
       if (res : bool) then
         modify (with_settings (settings.set_spoof_app_id app_id)) ;;
         mret res
       else
         (* User probably doesn't have license for app_id, try again with
            480 *)
         SetEnvironmentVariableW "SteamAppId" "480" ;;
         res ← SteamAPI_Init_orig w;
         (if (res : bool) then
            modify (with_settings (settings.set_spoof_app_id 480))
          else mret tt) ;;
         mret res
     else mret res);
  if negb res then
    display_error
      ("SteamAPI_Init() returned false. Make sure that Steam is running; "
       +:+ "if it is, try signing out of your account then signing back in.") ;;
    mret false
  else
    (* Get Steam API file version *)
    match probe_version w with
    | None =>
        (* version_fail: *)
        display_error
          ("Couldn't load steam_api64.dll file version, no changes will "
           +:+ "be applied") ;;
        mret false
    | Some v =>
        modify (with_ver v) ;;
        if v >? max_supported_ver then
          display_error (unsupported_version_message v) ;;
          mret false
        else setup w v
    end.

(** *** The import patcher: wrap_init *)

(** Sizes fixed by the PE format (Windows SDK, 64-bit image). *)
Definition sizeof_IMAGE_IMPORT_DESCRIPTOR : Z := 20.
Definition sizeof_IMAGE_DELAYLOAD_DESCRIPTOR : Z := 32.
Definition sizeof_IMAGE_THUNK_DATA : Z := 8.
Definition IMAGE_ORDINAL_FLAG : Z := 0x8000000000000000.
(** Offset of [Name] inside [IMAGE_IMPORT_BY_NAME] (after the 16-bit
    hint). *)
Definition offsetof_Name : Z := 2.

(** The fields of the two descriptor types that [wrap_init] reads; all are
    offsets from the image base. *)
Record IMAGE_IMPORT_DESCRIPTOR := {
  OriginalFirstThunk : Z;
  Name : Z;
  FirstThunk : Z
}.

Record IMAGE_DELAYLOAD_DESCRIPTOR := {
  DllNameRVA : Z;
  ImportAddressTableRVA : Z;
  ImportNameTableRVA : Z
}.

(** The host image as [wrap_init] sees it.  A data directory is what
    [ImageDirectoryEntryToDataEx] yields: nothing, or the directory size in
    bytes and the descriptors that start at the returned address.  The
    other fields give the image content by offset from the base. *)
Record image := {
  import_directory : option (Z * list IMAGE_IMPORT_DESCRIPTOR);
  delay_import_directory : option (Z * list IMAGE_DELAYLOAD_DESCRIPTOR);
  (** the null-terminated strings of the image *)
  strings_at : gmap Z string;
  (** the [u1.AddressOfData] fields of the thunk array that starts at an
      offset (import lookup tables and import name tables) *)
  thunks_at : gmap Z (list Z);
  (** the function-pointer cells ([u1.Function]) of the address tables *)
  cells : gmap Z fnptr
}.

Definition set_cells (c : gmap Z fnptr) (img : image) : image :=
  {| import_directory := import_directory img;
     delay_import_directory := delay_import_directory img;
     strings_at := strings_at img; thunks_at := thunks_at img;
     cells := c |}.

#[global] Instance result_ret : MRet result := fun A a => Ok a.

#[global] Instance result_bind : MBind result := fun A B f m =>
  match m with
  | Ok a => f a
  | Undefined e => Undefined e
  end.

Definition string_at (img : image) (rva : Z) : result string :=
  match strings_at img !! rva with
  | Some s => Ok s
  | None => Undefined "read of a string outside the mapped image"
  end.

(** [std::span{base, (dir_size / sizeof *base) - 1}], computed in
    [std::size_t]. *)
Definition span {A} (dir_size elem_size : Z) (base : list A)
    : result (list A) :=
  let n := cxx.wrap 64 (dir_size / elem_size - 1) in
  if n <=? Z.of_nat (length base) then Ok (take (Z.to_nat n) base)
  else Undefined "descriptor span reaches outside the directory".

(** [std::ranges::find(descs, "steam_api64.dll", name_of)] *)
Fixpoint find_descriptor {A} (img : image) (name_rva : A -> Z)
    (descs : list A) : result (option A) :=
  match descs with
  | [] => Ok None
  | d :: rest =>
      name ← string_at img (name_rva d);
      if String.eqb name "steam_api64.dll" then Ok (Some d)
      else find_descriptor img name_rva rest
  end.

(** The loop over a thunk array: stop at the null entry; skip ordinal
    imports when [skip_ordinals]; compare the imported name with
    "SteamAPI_Init" and yield the position of the first match. *)
Fixpoint find_thunk (img : image) (skip_ordinals : bool)
    (thunks : list Z) (pos : Z) : result (option Z) :=
  match thunks with
  | [] => Undefined "thunk array without a terminating null entry"
  | AddressOfData :: rest =>
      if AddressOfData =? 0 then Ok None
      else if skip_ordinals
              && negb (Z.land AddressOfData IMAGE_ORDINAL_FLAG =? 0)
      then find_thunk img skip_ordinals rest (pos + 1)
      else
        name ← string_at img (AddressOfData + offsetof_Name);
        if String.eqb name "SteamAPI_Init" then Ok (Some pos)
        else find_thunk img skip_ordinals rest (pos + 1)
  end.

Definition thunk_array (img : image) (rva : Z) : result (list Z) :=
  match thunks_at img !! rva with
  | Some l => Ok l
  | None => Undefined "read of a thunk array outside the mapped image"
  end.

(** First strategy: the regular import descriptor of steam_api64.dll.
    Yields the address of the cell to patch, if found. *)
Definition find_in_imports (img : image) : result (option Z) :=
  match import_directory img with
  | None => Ok None
  | Some (dir_size, import_desc_base) =>
      import_descs ←
        span dir_size sizeof_IMAGE_IMPORT_DESCRIPTOR import_desc_base;
      import_desc ← find_descriptor img Name import_descs;
      match import_desc with
      | None => Ok None
      | Some d =>
          ilt ← thunk_array img (OriginalFirstThunk d);
          pos ← find_thunk img true ilt 0;
          Ok ((fun i => FirstThunk d + sizeof_IMAGE_THUNK_DATA * i)
                <$> (pos : option Z))
      end
  end.

(** Second strategy: the delay-load descriptor of steam_api64.dll. *)
Definition find_in_delay_imports (img : image) : result (option Z) :=
  match delay_import_directory img with
  | None => Ok None
  | Some (dir_size, delay_load_desc_base) =>
      delay_load_descs ←
        span dir_size sizeof_IMAGE_DELAYLOAD_DESCRIPTOR delay_load_desc_base;
      delay_desc ← find_descriptor img DllNameRVA delay_load_descs;
      match delay_desc with
      | None => Ok None
      | Some d =>
          int ← thunk_array img (ImportNameTableRVA d);
          pos ← find_thunk img false int 0;
          Ok ((fun i => ImportAddressTableRVA d + sizeof_IMAGE_THUNK_DATA * i)
                <$> (pos : option Z))
      end
  end.

(** Install the IAT hook for [SteamAPI_Init]. *)
Definition wrap_init (img : image) : result image :=
  thunk_ptr ← find_in_imports img;
  thunk_ptr ←
    match thunk_ptr with
    | Some c => Ok (Some c)
    | None => find_in_delay_imports img
    end;
  match thunk_ptr with
  | Some c =>
      Ok (set_cells (<[c := fn_wrapper fn_SteamAPI_Init]> (cells img)) img)
  | None => Ok img
  end.

End steam_api.

(** ** Pure readings of the table-filling loops

    The loops of [SteamAPI_Init] over [vm_idxs], read as functions on the
    array alone.  The lemmas of the second half of the file relate them to
    the monadic code; the stated properties are then checked on these
    functions by computation, one version branch at a time. *)

(** A run of [vm_idxs[m] = v] assignments, in order. *)
Fixpoint assign_all (l : list (Z * Z)) (t : list Z) : option (list Z) :=
  match l with
  | [] => Some t
  | p :: rest =>
      match cxx.array_set t p.1 p.2 with
      | Some t' => assign_all rest t'
      | None => None
      end
  end.

(** What a version branch leaves in [vm_idxs]. *)
Definition fill_vm_idxs (i : vm_idxs_init) (n : Z) (t : list Z)
    : option (list Z) :=
  match i with
  | vm_untouched => Some t
  | vm_identity => assign_all (map (fun i => (i, i)) (seqZ 0 n)) t
  | vm_explicit l => assign_all l t
  end.

(** Whether [SteamAPI_Init] runs the identity loop of an interface after
    shadowing it. *)
Definition identity_after_shadow (X : interface) : bool :=
  match X with
  | ISteamApps | ISteamMatchmakingServers | ISteamUtils => true
  | ISteamMatchmaking | ISteamUGC | ISteamUser => false
  end.

(** [num_methods] and [vm_idxs] of a descriptor that started out freshly
    constructed, once [SteamAPI_Init] has set it up for version [ver]. *)
Definition resolved_vm_idxs (X : interface) (ver : Z)
    : option (Z * list Z) :=
  let sh := shape_of X ver in
  let n := shape_num_methods sh in
  t ← fill_vm_idxs (shape_vm_idxs sh) n
        (replicate (Z.to_nat (max_num_methods X)) (-1));
  t ← (if identity_after_shadow X then fill_vm_idxs vm_identity n t
       else Some t);
  Some (n, t).

(** The part of a descriptor that the version ladders decide. *)
Definition layout (X : interface) (s : state) : Z * list Z :=
  (num_methods (descs s X), vm_idxs (descs s X)).

(** The slot invariant: [num_methods] does not exceed the size of the
    arrays, and every entry of [vm_idxs] other than -1 is an index below
    [num_methods]. *)
Definition slots_in_bounds (max : Z) (l : Z * list Z) : Prop :=
  0 <= l.1 <= max /\
  forall m idx, l.2 !! m = Some idx -> idx <> -1 -> 0 <= idx < l.1.

Definition slots_in_boundsb (max : Z) (l : Z * list Z) : bool :=
  (0 <=? l.1) && (l.1 <=? max)
  && forallb (fun idx => (idx =? -1) || ((0 <=? idx) && (idx <? l.1))) l.2.

(** A freshly constructed descriptor, as at process start. *)
Definition fresh (X : interface) (d : wrapper_desc) : Prop :=
  d = wrapper_desc_init (max_num_methods X).

(** ** Readings of the init wrapper's first lines *)

Definition spoof (s : state) : Z := settings.spoof_app_id (g_settings s).

(** The result of the first call of the real [SteamAPI_Init], made with
    SteamAppId set to [spoof_app_id], or to [app_id] when that is zero. *)
Definition first_attempt (w : world) (s : state) : bool :=
  w_SteamAPI_Init_orig w (init_calls s)
    (Some (pretty (if spoof s =? 0 then settings.app_id (g_settings s)
                   else spoof s))).

(** The result of the second call, made with SteamAppId set to 480. *)
Definition fallback_attempt (w : world) (s : state) : bool :=
  w_SteamAPI_Init_orig w (S (init_calls s)) (Some "480").

(** Whether the real initialisation succeeds during a run of the wrapper:
    at the first attempt, or at the fallback attempt that is made only when
    [spoof_app_id] is zero. *)
Definition real_init_succeeds (w : world) (s : state) : bool :=
  first_attempt w s || ((spoof s =? 0) && fallback_attempt w s).

(** The value that the first lines of the wrapper leave in
    [spoof_app_id]. *)
Definition spoof_after_init (w : world) (s : state) : Z :=
  if spoof s =? 0 then
    if first_attempt w s then settings.app_id (g_settings s)
    else if fallback_attempt w s then 480
    else 0
  else spoof s.

(** ** Readings of a host image *)

(** A descriptor list none of whose entries names steam_api64.dll. *)
Definition no_descriptor_for_module {A} (img : steam_api.image)
    (name_rva : A -> Z) (ds : list A) : Prop :=
  forall d, d ∈ ds ->
    exists n, steam_api.strings_at img !! name_rva d = Some n /\ n <> "steam_api64.dll".

(** Name-table entries before the wanted one whose names the loop can
    read: by-name imports of other symbols. *)
Definition other_symbols (img : steam_api.image) (thunks : list Z) : Prop :=
  forall a, a ∈ thunks ->
    a <> 0 /\
    exists n, steam_api.strings_at img !! (a + steam_api.offsetof_Name) = Some n /\
              n <> "SteamAPI_Init".

(** Lookup-table entries that the regular loop passes over: imports by
    ordinal, whose name it does not read, and by-name imports of other
    symbols. *)
Definition passed_over (img : steam_api.image) (thunks : list Z) : Prop :=
  forall a, a ∈ thunks ->
    a <> 0 /\
    (Z.land a steam_api.IMAGE_ORDINAL_FLAG <> 0 \/
     exists n, steam_api.strings_at img !! (a + steam_api.offsetof_Name) = Some n /\
               n <> "SteamAPI_Init").

(** The regular search finds no cell: the image has no import directory, or
    no descriptor of it names steam_api64.dll, or the first one that does
    has a lookup table without a by-name entry for "SteamAPI_Init" before
    its null entry. *)
Definition regular_search_finds_nothing (img : steam_api.image) : Prop :=
  match steam_api.import_directory img with
  | None => True
  | Some (dir_size, base) =>
      exists ds,
        steam_api.span dir_size steam_api.sizeof_IMAGE_IMPORT_DESCRIPTOR base = Ok ds /\
        (no_descriptor_for_module img steam_api.Name ds \/
         exists pre d post tpre rest,
           ds = pre ++ d :: post /\
           no_descriptor_for_module img steam_api.Name pre /\
           steam_api.strings_at img !! steam_api.Name d = Some "steam_api64.dll" /\
           steam_api.thunks_at img !! steam_api.OriginalFirstThunk d
           = Some (tpre ++ 0 :: rest) /\
           passed_over img tpre)
  end.

(** The delay-load search finds no cell, in the same way; its loop reads
    the name of every entry, so the entries before the null one are by-name
    imports of other symbols. *)
Definition delay_search_finds_nothing (img : steam_api.image) : Prop :=
  match steam_api.delay_import_directory img with
  | None => True
  | Some (dir_size, base) =>
      exists ds,
        steam_api.span dir_size steam_api.sizeof_IMAGE_DELAYLOAD_DESCRIPTOR base
        = Ok ds /\
        (no_descriptor_for_module img steam_api.DllNameRVA ds \/
         exists pre d post tpre rest,
           ds = pre ++ d :: post /\
           no_descriptor_for_module img steam_api.DllNameRVA pre /\
           steam_api.strings_at img !! steam_api.DllNameRVA d
           = Some "steam_api64.dll" /\
           steam_api.thunks_at img !! steam_api.ImportNameTableRVA d
           = Some (tpre ++ 0 :: rest) /\
           other_symbols img tpre)
  end.

(** The image with the wrapper for [SteamAPI_Init] stored in one cell. *)
Definition patched_at (img : steam_api.image) (c : Z)
    : result steam_api.image :=
  Ok (steam_api.set_cells
        (<[c := fn_wrapper fn_SteamAPI_Init]> (steam_api.cells img)) img).

(** ** Readings of the shadow table *)

(** A run of [vtable[i] = f] stores, in order. *)
Definition stores (l : list (Z * fnptr)) (t : list fnptr) : list fnptr :=
  foldl (fun t o => <[Z.to_nat o.1 := o.2]> t) t l.

(** The stores that [copy_n] makes out of a foreign table. *)
Definition copies (mem : Z -> fnptr) (n : Z) : list (Z * fnptr) :=
  map (fun i => (i, mem i)) (seqZ 0 n).

(** The state with the [vtable] array of one descriptor replaced. *)
Definition put_vtable (X : interface) (t : list fnptr) (s : state) : state :=
  with_descs
    (fun ds => set_descriptor X (set_vtable t (descriptor X ds)) ds) s.

(** The overrides applied to a shadow table: stores into the [vtable] array
    of the descriptor. *)
Definition override (X : interface) (l : list (Z * fnptr)) : M unit :=
  for_each l (fun o => store_vtable_entry X o.1 o.2).

(** The state that shadowing leaves when instance [p] points at the foreign
    table [a]: [orig_vtable] and [iface] recorded, the first [num_methods]
    foreign slots copied, the instance repointed. *)
Definition shadowed (X : interface) (p a : Z) (s : state) : state :=
  with_cpp_objects (insert p (desc_table X))
    (put_vtable X
       (stores (copies (vendor_mem s a) (num_methods (descs s X)))
          (vtable (descs s X)))
       (with_descs
          (fun ds => set_descriptor X (set_iface p (descriptor X ds)) ds)
          (with_descs
             (fun ds =>
                set_descriptor X
                  (set_orig_vtable (Some (vendor_table a)) (descriptor X ds))
                  ds)
             s))).

(** ** Readings of the wrapper installation *)

(** The index that [vm_idxs] holds for a method once an interface is set up
    for a version; -1 marks an unavailable method. *)
Definition resolved_index (X : interface) (ver : Z) (m : Z) : option Z :=
  l ← resolved_vm_idxs X ver;
  cxx.array_get l.2 m.

(** The installations that [SteamAPI_Init] itself makes without testing the
    index (lines 1721-1732 and 1772-1776). *)
Definition untested_installs_of_SteamAPI_Init : list (interface * Z) :=
  [ (ISteamApps, ISteamApps_m_BIsSubscribed : Z);
    (ISteamApps, ISteamApps_m_BIsSubscribedApp : Z);
    (ISteamApps, ISteamApps_m_BIsDlcInstalled : Z);
    (ISteamUser, ISteamUser_m_UserHasLicenseForApp : Z);
    (ISteamUtils, ISteamUtils_m_GetAppID : Z) ].

(** The installations of [steam_api_init_346110], none of which tests the
    index: those into ISteamMatchmakingServers and ISteamUtils, and those
    into ISteamUGC. *)
Definition untested_installs_of_346110 : list (interface * Z) :=
  [ (ISteamMatchmakingServers,
     ISteamMatchmakingServers_m_RequestInternetServerList : Z);
    (ISteamMatchmakingServers, ISteamMatchmakingServers_m_ServerRules : Z);
    (ISteamUtils, ISteamUtils_m_IsAPICallCompleted : Z);
    (ISteamUtils, ISteamUtils_m_GetAPICallResult : Z) ].

Definition untested_ISteamUGC_installs_of_346110 : list (interface * Z) :=
  [ (ISteamUGC, ISteamUGC_m_GetNumSubscribedItems : Z);
    (ISteamUGC, ISteamUGC_m_GetSubscribedItems : Z);
    (ISteamUGC, ISteamUGC_m_GetItemInstallInfo : Z);
    (ISteamUGC, ISteamUGC_m_SubscribeItem : Z);
    (ISteamUGC, ISteamUGC_m_GetItemUpdateInfo : Z) ].

(** Whether a method is available (its index is not negative). *)
Definition available (ver : Z) (i : interface * Z) : bool :=
  match resolved_index i.1 ver i.2 with
  | Some idx => 0 <=? idx
  | None => false
  end.

(** ** A sample process

    A concrete vendor library and start-up state, used to run the model. *)

Module example.

(** A vendor library of a given file version whose real [SteamAPI_Init]
    answers [init k] at its [k]-th call, with a version resource behind
    handle [resource] (0: none), and whose interface getters return six
    distinct instances. *)
Definition library (init : nat -> bool) (resource : Z) (ms ls : Z) : world :=
  {| w_SteamAPI_Init_orig := fun k _ => init k;
     w_FindResourceW := resource;
     w_LoadResource := fun h => h + 1;
     w_LockResource := fun h => h + 1;
     w_VerQueryValueW := fun _ => Some (ms, ls);
     w_export_getter := fun name =>
       if String.eqb name "SteamApps" then Some 100
       else if String.eqb name "SteamMatchmaking" then Some 101
       else if String.eqb name "SteamMatchmakingServers" then Some 102
       else if String.eqb name "SteamUGC" then Some 103
       else if String.eqb name "SteamUser" then Some 104
       else if String.eqb name "SteamUtils" then Some 105
       else None;
     w_SteamInternal_CreateInterface := fun _ => 99;
     w_SteamAPI_GetHSteamPipe := 1;
     w_SteamAPI_GetHSteamUser := 1;
     w_GetISteamGenericInterface := fun _ _ _ _ name =>
       if String.eqb name "STEAMAPPS_INTERFACE_VERSION008" then 100
       else if String.eqb name "SteamMatchMaking009" then 101
       else if String.eqb name "SteamMatchMakingServers002" then 102
       else if String.prefix "SteamUser" name then 104
       else if String.prefix "SteamUtils" name then 105
       else 0;
     w_GetSteamID := fun _ _ => 76561197960287930;
     w_vendor_bool := fun _ _ app_id => app_id =? 99;
     w_steamclient_load := false;
     w_update_dlc := [];
     w_am_create := fun _ => 7;
     w_beginthreadex := fun _ => true;
     w_fs_exists := fun _ => false;
     w_workshop_dirs := fun _ => [] |}.

Definition game : app_346110_vars.globals :=
  {| app_346110_vars.show_be_servers := true;
     app_346110_vars.show_unavailable_servers := true;
     app_346110_vars.ws_dir_path := "";
     app_346110_vars.ws_am_path := "";
     app_346110_vars.unavailable_dlc := [];
     app_346110_vars.mods := [];
     app_346110_vars.ws_descs := ∅;
     app_346110_vars.SteamMatchmakingServers_CancelServerQuery_orig :=
       fn_null;
     app_346110_vars.SteamMatchmakingServers_RequestInternetServerList_orig :=
       fn_null;
     app_346110_vars.SteamMatchmakingServers_ServerRules_orig := fn_null;
     app_346110_vars.SteamUtils_IsAPICallCompleted_orig := fn_null;
     app_346110_vars.SteamUtils_GetAPICallResult_orig := fn_null |}.

(** The process right after the settings were loaded: descriptors freshly
    constructed, the vendor's instances pointing at the vendor's tables,
    the owned DLC list holding add-on 42. *)
Definition process (app_id spoof_app_id : Z) : state :=
  {| g_settings :=
       {| settings.app_id := app_id;
          settings.spoof_app_id := spoof_app_id;
          settings.dlc := [(42, "Add-on")];
          settings.installed_dlc := ∅;
          settings.tek_sc_path := "";
          settings.auto_update_dlc := false |};
     environment := ∅;
     cpp_objects :=
       list_to_map
         [(99, vendor_table 900); (100, vendor_table 1000);
          (101, vendor_table 2000); (102, vendor_table 3000);
          (103, vendor_table 4000); (104, vendor_table 5000);
          (105, vendor_table 6000)];
     vendor_mem := fun table slot => fn_vendor (table + 8 * slot);
     ver := 0;
     steam_id := 0;
     steam_api_descs :=
       {| ISteamApps_desc := wrapper_desc_init ISteamApps_num_methods;
          ISteamMatchmaking_desc :=
            wrapper_desc_init ISteamMatchmaking_num_methods;
          ISteamMatchmakingServers_desc :=
            wrapper_desc_init ISteamMatchmakingServers_num_methods;
          ISteamUGC_desc := wrapper_desc_init ISteamUGC_num_methods;
          ISteamUser_desc := wrapper_desc_init ISteamUser_num_methods;
          ISteamUtils_desc := wrapper_desc_init ISteamUtils_num_methods |};
     SteamApps_BIsSubscribedApp_orig := fn_null;
     SteamApps_BIsAppInstalled_orig := fn_null;
     game_346110 := game;
     steamclient_loaded := false;
     steamclient_am := 0;
     messages := [];
     vendor_calls := [];
     threads := [];
     init_calls := 0 |}.

(** Scenario D: a host image with no import directory and a delay-load
    directory of two descriptors and the null terminator; the second
    descriptor is for steam_api64.dll and imports "SteamAPI_Shutdown" and
    "SteamAPI_Init" by name. *)
Definition delay_only_image : steam_api.image :=
  {| steam_api.import_directory := None;
     steam_api.delay_import_directory :=
       Some (96,
             [ {| steam_api.DllNameRVA := 0x5000;
                  steam_api.ImportAddressTableRVA := 0x7000;
                  steam_api.ImportNameTableRVA := 0x6000 |};
               {| steam_api.DllNameRVA := 0x5020;
                  steam_api.ImportAddressTableRVA := 0x7100;
                  steam_api.ImportNameTableRVA := 0x6100 |};
               {| steam_api.DllNameRVA := 0;
                  steam_api.ImportAddressTableRVA := 0;
                  steam_api.ImportNameTableRVA := 0 |} ]);
     steam_api.strings_at :=
       list_to_map
         [ (0x5000, "EOSSDK-Win64-Shipping.dll");
           (0x5020, "steam_api64.dll");
           (0x5102, "EOS_Platform_Create");
           (0x5202, "SteamAPI_Shutdown");
           (0x5302, "SteamAPI_Init") ];
     steam_api.thunks_at :=
       list_to_map [ (0x6000, [0x5100; 0]); (0x6100, [0x5200; 0x5300; 0]) ];
     steam_api.cells :=
       list_to_map
         [ (0x7000, fn_vendor 0x11000); (0x7100, fn_vendor 0x12000);
           (0x7108, fn_vendor 0x12010) ] |}.

(** A host image with no import directory whose delay-load descriptor for
    steam_api64.dll imports ordinal 5 before it imports "SteamAPI_Init" by
    name. *)
Definition ordinal_delay_image : steam_api.image :=
  {| steam_api.import_directory := None;
     steam_api.delay_import_directory :=
       Some (64,
             [ {| steam_api.DllNameRVA := 0x5020;
                  steam_api.ImportAddressTableRVA := 0x7100;
                  steam_api.ImportNameTableRVA := 0x6100 |};
               {| steam_api.DllNameRVA := 0;
                  steam_api.ImportAddressTableRVA := 0;
                  steam_api.ImportNameTableRVA := 0 |} ]);
     steam_api.strings_at :=
       list_to_map [ (0x5020, "steam_api64.dll"); (0x5302, "SteamAPI_Init") ];
     steam_api.thunks_at :=
       list_to_map [ (0x6100, [0x8000000000000005; 0x5300; 0]) ];
     steam_api.cells :=
       list_to_map
         [ (0x7100, fn_vendor 0x12000); (0x7108, fn_vendor 0x12010) ] |}.

(** The same image with a regular import descriptor for steam_api64.dll
    besides, over a lookup table with the same entries and the address
    table at 0x7200. *)
Definition both_image : steam_api.image :=
  {| steam_api.import_directory :=
       Some (40,
             [ {| steam_api.OriginalFirstThunk := 0x6200;
                  steam_api.Name := 0x5020;
                  steam_api.FirstThunk := 0x7200 |};
               {| steam_api.OriginalFirstThunk := 0;
                  steam_api.Name := 0;
                  steam_api.FirstThunk := 0 |} ]);
     steam_api.delay_import_directory :=
       steam_api.delay_import_directory ordinal_delay_image;
     steam_api.strings_at := steam_api.strings_at ordinal_delay_image;
     steam_api.thunks_at :=
       list_to_map
         [ (0x6100, [0x8000000000000005; 0x5300; 0]);
           (0x6200, [0x8000000000000005; 0x5300; 0]) ];
     steam_api.cells :=
       list_to_map
         [ (0x7100, fn_vendor 0x12000); (0x7108, fn_vendor 0x12010);
           (0x7200, fn_vendor 0x12000); (0x7208, fn_vendor 0x12010) ] |}.

(** The state a run ends in (the start state when the run is undefined). *)
Definition final {A} (r : result (A * state)) (s : state) : state :=
  match r with
  | Ok (_, s') => s'
  | Undefined _ => s
  end.

End example.


(** ** Readings of a finished run of the init wrapper *)

(** The value of the SteamAppId environment variable. *)
Definition SteamAppId (s : state) : option string :=
  environment s !! "SteamAppId".

(** No two available methods share a slot: distinct enumerators never map
    to the same non-negative index. *)
Definition slots_distinct (t : list Z) : Prop :=
  forall m1 m2 idx,
    cxx.array_get t m1 = Some idx -> cxx.array_get t m2 = Some idx ->
    0 <= idx -> m1 = m2.

Fixpoint slots_distinctb (t : list Z) : bool :=
  match t with
  | [] => true
  | x :: rest =>
      ((x <? 0) || forallb (fun y => negb (x =? y)) rest)
      && slots_distinctb rest
  end.

(** The shadow table of interface [X] sends method [m] to [f] whenever the
    method is available: if [vm_idxs] holds a non-negative index for [m],
    the [vtable] array holds [f] at that index. *)
Definition dispatches (X : interface) (m : Z) (f : fnptr) (s : state)
    : Prop :=
  forall idx,
    cxx.array_get (vm_idxs (descs s X)) m = Some idx -> 0 <= idx ->
    cxx.array_get (vtable (descs s X)) idx = Some f.

(** The wrappers that [SteamAPI_Init] installs for every game
    (lines 1720-1776), in source order. *)
Definition common_wrappers : list (interface * Z * fnptr) :=
  [ (ISteamApps, ISteamApps_m_BIsSubscribed : Z,
     fn_wrapper fn_SteamApps_BIsSubscribed);
    (ISteamApps, ISteamApps_m_BIsSubscribedApp : Z,
     fn_wrapper fn_SteamApps_BIsSubscribedApp);
    (ISteamApps, ISteamApps_m_BIsDlcInstalled : Z,
     fn_wrapper fn_SteamApps_BIsDlcInstalled);
    (ISteamApps, ISteamApps_m_BIsSubscribedFromFreeWeekend : Z,
     fn_wrapper fn_SteamApps_BIsSubscribedFromFreeWeekend);
    (ISteamApps, ISteamApps_m_GetDLCCount : Z,
     fn_wrapper fn_SteamApps_GetDLCCount);
    (ISteamApps, ISteamApps_m_BGetDLCDataByIndex : Z,
     fn_wrapper fn_SteamApps_BGetDLCDataByIndex);
    (ISteamApps, ISteamApps_m_BIsAppInstalled : Z,
     fn_wrapper fn_SteamApps_BIsAppInstalled);
    (ISteamApps, ISteamApps_m_GetAppOwner : Z,
     fn_wrapper fn_SteamApps_GetAppOwner);
    (ISteamApps, ISteamApps_m_BIsSubscribedFromFamilySharing : Z,
     fn_wrapper fn_SteamApps_BIsSubscribedFromFamilySharing);
    (ISteamApps, ISteamApps_m_BIsTimedTrial : Z,
     fn_wrapper fn_SteamApps_BIsTimedTrial);
    (ISteamUser, ISteamUser_m_UserHasLicenseForApp : Z,
     fn_wrapper fn_SteamUser_UserHasLicenseForApp);
    (ISteamUtils, ISteamUtils_m_GetAppID : Z,
     fn_wrapper fn_SteamUtils_GetAppID) ].

(** ** steam/346110.cpp: the method wrappers

    The wrappers that [steam_api_init_346110] installs.  They work on the
    file-scope variables of steam/346110.cpp, which [game_346110] holds;
    the mutexes guard single reads and updates, which the sequential model
    performs atomically. *)

(** Constants of the tek-steamclient headers (am.h, cm.h) that the code
    names; their numeric values are fixed by those headers. *)
Record tek_sc_constants := {
  TEK_SC_AM_UPD_TYPE_state : Z;
  TEK_SC_AM_JOB_STATE_stopped : Z;
  TEK_SC_AM_JOB_STAGE_downloading : Z;
  TEK_SC_CM_ERESULT_ok : Z
}.

(** The fields of [tek_sc_am_item_desc] that the code reads. *)
Record tek_sc_am_item_desc := {
  id_ws_item_id : Z;
  current_manifest_id : Z;
  job_state : Z;
  job_stage : Z;
  job_progress_current : Z;
  job_progress_total : Z
}.

(** [matchmaking_kv_pair] of steam_api.hpp: two null-terminated strings in
    arrays of 256 characters. *)
Record matchmaking_kv_pair := {
  key : string;
  value : string
}.

(** The foreign ISteamMatchmakingServers and ISteamUtils methods that the
    wrappers forward to.  Each takes the callee first; the methods with a
    [failed] output give the value they store there, if any. *)
Record foreign_346110 := {
  w_RequestInternetServerList :
    Z -> Z -> Z -> list (option matchmaking_kv_pair) -> Z -> Z -> Z;
  w_IsAPICallCompleted : Z -> Z -> Z -> bool * option bool;
  w_GetAPICallResult : Z -> Z -> Z -> Z -> Z -> bool * option bool;
  (** the job descriptors of the application manager, by address *)
  w_item_desc : Z -> tek_sc_am_item_desc
}.

Module app_346110_methods.
Import app_346110_vars.
Import app_346110.

Section wrappers.
Context (c : tek_sc_constants) (fw : foreign_346110).

(** *** ISteamMatchmakingServers *)

(** [sizeof] of the character arrays of a [matchmaking_kv_pair]. *)
Definition kv_capacity : Z := 256.

(** A string that fits such an array together with its terminator. *)
Definition fits_kv (s : string) : Prop :=
  (String.length s < Z.to_nat kv_capacity)%nat.

(** [new_filters[i] = {k, v}], both strings with their terminators. *)
Definition put_filter (i : Z) (k v : string)
    (a : list (option matchmaking_kv_pair))
    : result (list (option matchmaking_kv_pair)) :=
  if (Z.of_nat (String.length k) <? kv_capacity)
     && (Z.of_nat (String.length v) <? kv_capacity)
  then
    match cxx.array_set a i (Some {| key := k; value := v |}) with
    | Some a' => Ok a'
    | None => Undefined "write outside the bounds of new_filters"
    end
  else Undefined "write outside the bounds of a matchmaking_kv_pair array".

(** The loop over [unavailable_dlc]: [++cur_filter] and one "map" entry per
    name. *)
Fixpoint put_maps (names : list string) (cur_filter : Z)
    (a : list (option matchmaking_kv_pair))
    : result (list (option matchmaking_kv_pair)) :=
  match names with
  | [] => Ok a
  | dlc :: rest =>
      a ← put_filter (cur_filter + 1) "map" dlc a;
      put_maps rest (cur_filter + 1) a
  end.

(** Lines 134-187 of [SteamMatchmakingServers_RequestInternetServerList]:
    the number of filters and the filter array handed to the original
    method.  [filters] is [None] for a null pointer; an entry of the result
    is [None] while nothing has been stored into it (the array is allocated
    with [make_unique_for_overwrite]). *)
Definition new_filters (g : globals) (spoof_app_id : Z)
    (filters : option (list matchmaking_kv_pair)) (num_filters : Z)
    : result (Z * list (option matchmaking_kv_pair)) :=
  let num_new_filters := num_filters in
  let num_new_filters :=
    if negb (show_be_servers g) then cxx.wrap 32 (num_new_filters + 1)
    else num_new_filters in
  let num_new_filters :=
    if negb (show_unavailable_servers g) then
      cxx.wrap 32
        (num_new_filters
         + match unavailable_dlc g with
           | [] =>
               if show_be_servers g && negb (spoof_app_id =? 346110)
               then 1 else 0
           | _ => 3 + Z.of_nat (length (unavailable_dlc g))
           end)
    else num_new_filters in
  match filters with
  | None => Undefined "dereference of a null filters pointer"
  | Some filters =>
      if (Z.of_nat (length filters) <? num_filters)
         || (num_new_filters <? num_filters)
      then Undefined "copy_n outside the bounds of an array"
      else
        let a :=
          (Some <$> take (Z.to_nat num_filters) filters)
          ++ replicate (Z.to_nat (num_new_filters - num_filters)) None in
        let cur_filter := num_filters in
        '(a, cur_filter) ←
          (if negb (show_be_servers g) then
             a ← put_filter cur_filter "gamedataand"
                   (if negb (show_unavailable_servers g)
                       && negb (spoof_app_id =? 346110)
                    then "SERVERUSESBATTLEYE_b:false,TEKWrapper:1"
                    else "SERVERUSESBATTLEYE_b:false") a;
             Ok (a, cur_filter + 1)
           else Ok (a, cur_filter));
        a ←
          (if negb (show_unavailable_servers g) then
             match unavailable_dlc g with
             | [] =>
                 if show_be_servers g && negb (spoof_app_id =? 346110)
                 then put_filter cur_filter "gamedataand" "TEKWrapper:1" a
                 else Ok a
             | _ =>
                 a ← put_filter cur_filter "or"
                       (pretty (Z.of_nat (length (unavailable_dlc g)) + 2)) a;
                 a ← put_filter (cur_filter + 1) "gamedataand"
                       "TEKWrapper:1" a;
                 a ← put_filter (cur_filter + 2) "nor"
                       (pretty (Z.of_nat (length (unavailable_dlc g)))) a;
                 put_maps (unavailable_dlc g) (cur_filter + 2) a
             end
           else Ok a);
        Ok (num_new_filters, a)
  end.

(** The entries that the wrapper appends to the caller's filters, read off
    the same lines: the BattlEye filter, then either the TEK Wrapper filter
    or the "or" group over the TEK Wrapper filter and the "nor" group of
    the maps that the user does not own. *)
Definition extra_filters (g : globals) (spoof_app_id : Z)
    : list matchmaking_kv_pair :=
  (if negb (show_be_servers g) then
     [ {| key := "gamedataand";
          value :=
            if negb (show_unavailable_servers g)
               && negb (spoof_app_id =? 346110)
            then "SERVERUSESBATTLEYE_b:false,TEKWrapper:1"
            else "SERVERUSESBATTLEYE_b:false" |} ]
   else [])
  ++ (if negb (show_unavailable_servers g) then
        match unavailable_dlc g with
        | [] =>
            if show_be_servers g && negb (spoof_app_id =? 346110)
            then [ {| key := "gamedataand"; value := "TEKWrapper:1" |} ]
            else []
        | _ =>
            [ {| key := "or";
                 value :=
                   pretty (Z.of_nat (length (unavailable_dlc g)) + 2) |};
              {| key := "gamedataand"; value := "TEKWrapper:1" |};
              {| key := "nor";
                 value := pretty (Z.of_nat (length (unavailable_dlc g))) |} ]
            ++ ((fun dlc => {| key := "map"; value := dlc |})
                  <$> unavailable_dlc g)
        end
      else []).

(** Wrapper for [ISteamMatchmakingServers::RequestInternetServerList]:
    apply extra search filters based on the settings. *)
Definition SteamMatchmakingServers_RequestInternetServerList
    (iface app_id : Z) (filters : option (list matchmaking_kv_pair))
    (num_filters response_handler : Z) : M Z :=
  g ← gets game_346110;
  spoof_app_id ← gets (fun s => settings.spoof_app_id (g_settings s));
  match new_filters g spoof_app_id filters num_filters with
  | Undefined e => undefined e
  | Ok (num_new_filters, a) =>
      match SteamMatchmakingServers_RequestInternetServerList_orig g with
      | fn_vendor callee =>
          modify (with_vendor_calls (fun l =>
            l ++ [{| callee := callee; this_ptr := iface;
                     argument := app_id |}])) ;;
          mret (w_RequestInternetServerList fw callee iface app_id a
                  num_new_filters response_handler)
      | fn_null => undefined "call through a null function pointer"
      | fn_wrapper _ =>
          undefined "re-entrant call of an interception function"
      end
  end.

(** *** ISteamUGC *)

(** [job_upd_handler]: when a job reaches the stopped state its item
    leaves [ws_descs], and enters [mods] if it has a manifest. *)
Definition job_upd_handler (desc : tek_sc_am_item_desc) (upd_mask : Z)
    : M unit :=
  if negb (Z.land upd_mask (TEK_SC_AM_UPD_TYPE_state c) =? 0)
     && (job_state desc =? TEK_SC_AM_JOB_STATE_stopped c)
  then
    (if negb (current_manifest_id desc =? 0) then
       modify (with_game_346110
                 (with_mods (fun l => l ++ [id_ws_item_id desc])))
     else mret tt) ;;
    modify (with_game_346110 (with_ws_descs (delete (id_ws_item_id desc))))
  else mret tt.

(** Wrapper for [ISteamUGC::GetSubscribedItems].  The result is the
    returned count and the IDs stored through [ids], in order.  The keys of
    [ws_descs] come in the iteration order of the map. *)
Definition SteamUGC_GetSubscribedItems (max_entries : Z)
    : M (Z * list Z) :=
  g ← gets game_346110;
  let total_copied := 0 in
  let n := Z.min (Z.of_nat (length (mods g))) max_entries in
  let ids1 := take (Z.to_nat n) (mods g) in
  let max_entries := cxx.wrap 32 (max_entries - n) in
  let total_copied := cxx.wrap 32 (total_copied + n) in
  let n := Z.min (Z.of_nat (size (ws_descs g))) max_entries in
  let ids2 := take (Z.to_nat n) (map_to_list (ws_descs g)).*1 in
  let total_copied := cxx.wrap 32 (total_copied + n) in
  mret (total_copied, ids1 ++ ids2).

(** A store through one of the output pointers of
    [SteamUGC_GetItemInstallInfo]; [write_folder] is the text stored at
    [folder], which a terminator follows. *)
Inductive install_info_write : Type :=
  | write_size_on_disk (n : Z)
  | write_legacy_item (b : bool)
  | write_folder (text : string).

(** Wrapper for [ISteamUGC::GetItemInstallInfo].  [folder] tells whether
    that pointer is non-null; the buffer behind it has [folder_size]
    bytes.  [format_to_n] is given the [uint32_t] value [folder_size - 1]
    as its limit. *)
Definition SteamUGC_GetItemInstallInfo (id : Z) (folder : bool)
    (folder_size : Z) : M (bool * list install_info_write) :=
  g ← gets game_346110;
  if bool_decide (id ∈ mods g) then
    let text := ws_dir_path g +:+ "\" +:+ pretty id in
    let limit := cxx.wrap 32 (folder_size - 1) in
    let written :=
      substring 0 (Z.to_nat (Z.min limit (Z.of_nat (String.length text))))
        text in
    if folder && (Z.of_nat (String.length written) + 1 <=? folder_size)
    then mret (true, [write_size_on_disk 0; write_legacy_item false;
                      write_folder written])
    else undefined "store outside the folder buffer"
  else if negb (folder_size =? 0) then
    if folder then mret (false, [write_size_on_disk 0; write_folder ""])
    else undefined "store through a null folder"
  else mret (false, [write_size_on_disk 0]).

Inductive update_info_write : Type :=
  | write_need_update (b : bool)
  | write_is_downloading (b : bool)
  | write_bytes_downloaded (n : Z)
  | write_bytes_total (n : Z).

(** Wrapper for [ISteamUGC::GetItemUpdateInfo]. *)
Definition SteamUGC_GetItemUpdateInfo (id : Z)
    : M (bool * list update_info_write) :=
  g ← gets game_346110;
  match ws_descs g !! id with
  | None => mret (false, [])
  | Some desc =>
      let downloading :=
        negb (desc =? 0)
        && (job_stage (w_item_desc fw desc)
            =? TEK_SC_AM_JOB_STAGE_downloading c) in
      mret (true,
            [ write_need_update true; write_is_downloading true;
              write_bytes_downloaded
                (if downloading
                 then job_progress_current (w_item_desc fw desc) else 0);
              write_bytes_total
                (if downloading
                 then job_progress_total (w_item_desc fw desc) else 0) ])
  end.

(** *** ISteamUtils *)

(** A call of a foreign ISteamUtils method through a captured pointer. *)
Definition call_utils {A} (f : fnptr) (iface call : Z)
    (method : Z -> A) : M A :=
  match f with
  | fn_vendor callee =>
      modify (with_vendor_calls (fun l =>
        l ++ [{| callee := callee; this_ptr := iface;
                 argument := call |}])) ;;
      mret (method callee)
  | fn_null => undefined "call through a null function pointer"
  | fn_wrapper _ => undefined "re-entrant call of an interception function"
  end.

(** Wrapper for [ISteamUtils::IsAPICallCompleted].  The result is the
    returned value and the value stored through [failed], if any. *)
Definition SteamUtils_IsAPICallCompleted (iface call : Z)
    : M (bool * option bool) :=
  g ← gets game_346110;
  match ws_descs g !! call with
  | Some desc => mret (true, Some (desc =? 0))
  | None =>
      call_utils (SteamUtils_IsAPICallCompleted_orig g) iface call
        (fun callee => w_IsAPICallCompleted fw callee iface call)
  end.

(** [sizeof(steam_api::remote_storage_sub_result)]: an enumeration and a
    [uint64_t] aligned to eight bytes. *)
Definition sizeof_remote_storage_sub_result : Z := 16.

(** The [remote_storage_sub_result] stored through [callback]. *)
Record remote_storage_sub_result := {
  sub_result : Z;
  sub_id : Z
}.

(** Wrapper for [ISteamUtils::GetAPICallResult].  The result is the
    returned value, the structure stored through [callback] by the wrapper,
    if any, and the value stored through [failed], if any. *)
Definition SteamUtils_GetAPICallResult (iface call callback_size
    callback_idx : Z)
    : M (bool * option remote_storage_sub_result * option bool) :=
  g ← gets game_346110;
  let forward :=
    r ← call_utils (SteamUtils_GetAPICallResult_orig g) iface call
          (fun callee =>
             w_GetAPICallResult fw callee iface call callback_size
               callback_idx);
    mret (r.1, None, r.2) in
  if callback_idx =? 1313 then
    match ws_descs g !! call with
    | Some desc =>
        mret (true,
              if callback_size >=? sizeof_remote_storage_sub_result
              then Some {| sub_result := TEK_SC_CM_ERESULT_ok c;
                           sub_id := call |}
              else None,
              Some (desc =? 0))
    | None => forward
    end
  else forward.

End wrappers.

End app_346110_methods.

(** The number of subscribed items that [SteamUGC_GetNumSubscribedItems]
    reports in a state. *)
Definition subscribed_items (s : state) : Z :=
  Z.of_nat (length (app_346110_vars.mods (game_346110 s)))
  + Z.of_nat (size (app_346110_vars.ws_descs (game_346110 s))).

(** ** Sample states of the game code

    Concrete values used to run the model of steam/346110.cpp. *)

Module example_346110.

(** Sample values for the header constants. *)
Definition constants : tek_sc_constants :=
  {| TEK_SC_AM_UPD_TYPE_state := 1;
     TEK_SC_AM_JOB_STATE_stopped := 0;
     TEK_SC_AM_JOB_STAGE_downloading := 4;
     TEK_SC_CM_ERESULT_ok := 1 |}.

(** Foreign methods that answer with what they were given. *)
Definition foreign : foreign_346110 :=
  {| w_RequestInternetServerList := fun _ _ _ _ num_filters _ => num_filters;
     w_IsAPICallCompleted := fun _ _ call => (call =? 1, Some false);
     w_GetAPICallResult := fun _ _ call _ _ => (call =? 1, Some false);
     w_item_desc := fun p =>
       {| id_ws_item_id := p; current_manifest_id := 0; job_state := 0;
          job_stage := 0; job_progress_current := 0;
          job_progress_total := 0 |} |}.

(** Three installed Workshop items and one tracked job. *)
Definition subscribed : state :=
  with_game_346110
    (fun g =>
       app_346110.with_mods (fun _ => [11; 12; 13])
         (app_346110.with_ws_descs (fun _ => {[ 7 := 0 ]}) g))
    (example.process 346110 480).

(** A job that has stopped and left a manifest for item 21. *)
Definition finished_job : tek_sc_am_item_desc :=
  {| id_ws_item_id := 21; current_manifest_id := 5; job_state := 0;
     job_stage := 0; job_progress_current := 0; job_progress_total := 0 |}.

(** Both server filters requested, two maps not owned, the effective
    application ID being the game's. *)
Definition filtering : state :=
  with_game_346110
    (fun g =>
       {| app_346110_vars.show_be_servers := false;
          app_346110_vars.show_unavailable_servers := false;
          app_346110_vars.ws_dir_path := "";
          app_346110_vars.ws_am_path := "";
          app_346110_vars.unavailable_dlc := ["TheCenter"; "Ragnarok"];
          app_346110_vars.mods := [];
          app_346110_vars.ws_descs := ∅;
          app_346110_vars.SteamMatchmakingServers_CancelServerQuery_orig :=
            fn_vendor 3128;
          app_346110_vars.SteamMatchmakingServers_RequestInternetServerList_orig :=
            fn_vendor 3000;
          app_346110_vars.SteamMatchmakingServers_ServerRules_orig :=
            fn_vendor 3096;
          app_346110_vars.SteamUtils_IsAPICallCompleted_orig := fn_null;
          app_346110_vars.SteamUtils_GetAPICallResult_orig := fn_null |})
    (example.process 346110 346110).

End example_346110.

(** ** settings.cpp: loading and saving the settings *)

(** A RapidJSON value, as far as the code inspects one. *)
Module json.

#[warnings="-register-all"]
Inductive value : Type :=
  | JNull
  | JBool (b : bool)
  (** a number written as an integer that fits 64 bits *)
  | JInteger (z : Z)
  (** any other number *)
  | JReal
  | JString (s : string)
  | JArray (elements : list value)
  (** members in document order; names may repeat *)
  | JObject (members : list (string * value)).

Definition IsObject (v : value) : bool :=
  match v with JObject _ => true | _ => false end.

Definition IsArray (v : value) : bool :=
  match v with JArray _ => true | _ => false end.

Definition IsString (v : value) : bool :=
  match v with JString _ => true | _ => false end.

Definition IsBool (v : value) : bool :=
  match v with JBool _ => true | _ => false end.

(** [IsUint]: an integer that fits an unsigned 32-bit number. *)
Definition IsUint (v : value) : bool :=
  match v with
  | JInteger z => (0 <=? z) && (z <? 2 ^ 32)
  | _ => false
  end.

(** [FindMember]: the first member of that name, [None] standing for
    [MemberEnd()]. *)
Fixpoint FindMember (name : string) (members : list (string * value))
    : option value :=
  match members with
  | [] => None
  | (n, v) :: rest =>
      if String.eqb n name then Some v else FindMember name rest
  end.

(** The members of a value when it is an object. *)
Definition members_of (v : value) : list (string * value) :=
  match v with JObject m => m | _ => [] end.

End json.

(** [std::from_chars] into a [std::uint32_t], base ten, on the whole of a
    string view: the value of the longest run of digits at the start;
    [None] when there is no digit (invalid_argument) or the value does not
    fit (result_out_of_range).  Characters after the digits are left
    unread, and no sign or white space is accepted. *)
Module charconv.

Definition digit (a : Ascii.ascii) : option Z :=
  let n := Z.of_nat (Ascii.nat_of_ascii a) in
  if (48 <=? n) && (n <=? 57) then Some (n - 48) else None.

(** The digits at the start of a string, most significant first. *)
Fixpoint leading_digits (s : string) : list Z :=
  match s with
  | EmptyString => []
  | String a rest =>
      match digit a with
      | Some d => d :: leading_digits rest
      | None => []
      end
  end.

Definition number (ds : list Z) : Z :=
  foldl (fun acc d => 10 * acc + d) 0 ds.

Definition from_chars (s : string) : option Z :=
  match leading_digits s with
  | [] => None
  | ds => if number ds <? 2 ^ 32 then Some (number ds) else None
  end.

(** [std::to_chars] of an unsigned integer into a buffer of [size]
    characters: the decimal digits, [None] when they do not fit. *)
Definition to_chars (size : Z) (n : Z) : option string :=
  if Z.of_nat (String.length (pretty n)) <=? size then Some (pretty n)
  else None.

End charconv.

(** File-scope variables of steam/2399830.cpp. *)
Module app_2399830_vars.
Record globals := {
  force_egs_auth : bool;
  cf_api_wrapper : string;
  (** [steam_id_str]: the text before the terminator *)
  steam_id_str : string;
  (** [eos_auth_iface] *)
  eos_auth_iface : Z
}.
End app_2399830_vars.

Module settings_cpp.

(** The values of [enum class load_type]. *)
Definition load_type_file_path : Z := 0.
Definition load_type_pipe : Z := 1.

(** [pipe_header] as received: the type field may hold any integer. *)
Record pipe_header := {
  type : Z;
  size : Z
}.

(** What [settings::load] and [settings::save] obtain from the operating
    system and from RapidJSON. *)
Record settings_world := {
  (** [CreateFileW] on the pipe succeeds *)
  w_pipe : bool;
  w_GetLastError : Z;
  (** the first [ReadFile]: the header it stores, [None] when it fails *)
  w_header : option pipe_header;
  (** the following [ReadFile] calls, in order: the bytes stored, [None]
      for a failed call; a call beyond the list fails *)
  w_reads : list (option string);
  (** [_wfopen] for reading: the content of the file *)
  w_file : string -> option string;
  (** the document RapidJSON parses from a text, [None] on a parse error *)
  w_parse : string -> option json.value;
  (** [_wfopen] for writing succeeds *)
  w_writable : string -> bool
}.

(** [g_settings], the file-scope [file_path], the settings variables of
    the game files, and the messages shown. *)
Record variables := {
  (** [g_settings.steam]; [None] is the null pointer *)
  steam : option settings.steam_options;
  file_path : string;
  statics_346110 : app_346110_vars.globals;
  statics_2399830 : app_2399830_vars.globals;
  shown : list string
}.

Definition set_steam (o : option settings.steam_options) (st : variables)
    : variables :=
  {| steam := o; file_path := file_path st;
     statics_346110 := statics_346110 st;
     statics_2399830 := statics_2399830 st; shown := shown st |}.

Definition set_file_path (p : string) (st : variables) : variables :=
  {| steam := steam st; file_path := p;
     statics_346110 := statics_346110 st;
     statics_2399830 := statics_2399830 st; shown := shown st |}.

Definition set_statics_346110 (g : app_346110_vars.globals) (st : variables)
    : variables :=
  {| steam := steam st; file_path := file_path st; statics_346110 := g;
     statics_2399830 := statics_2399830 st; shown := shown st |}.

Definition set_statics_2399830 (g : app_2399830_vars.globals)
    (st : variables) : variables :=
  {| steam := steam st; file_path := file_path st;
     statics_346110 := statics_346110 st; statics_2399830 := g;
     shown := shown st |}.

(** [display_error(msg); return false;] *)
Definition fail (msg : string) (st : variables) : bool * variables :=
  (false,
   {| steam := steam st; file_path := file_path st;
      statics_346110 := statics_346110 st;
      statics_2399830 := statics_2399830 st; shown := shown st ++ [msg] |}).

(** The loop that fills [data]: [ReadFile] is asked for what is still
    missing and stores at most that much. *)
Fixpoint read_data (reads : list (option string)) (size : Z)
    : option string :=
  if size =? 0 then Some ""
  else
    match reads with
    | [] => None
    | None :: _ => None
    | Some bytes :: rest =>
        let stored := substring 0 (Z.to_nat size) bytes in
        rest ← read_data rest (size - Z.of_nat (String.length stored));
        Some (stored +:+ rest)
    end.

(** The quotation mark. *)
Definition quote : string := String (Ascii.ascii_of_nat 34) EmptyString.

(** *** The game callbacks for the settings (steam/346110.cpp,
    steam/2399830.cpp) *)

Import app_346110_vars.

Definition settings_load_346110 (doc : list (string * json.value))
    (g : app_346110_vars.globals) : app_346110_vars.globals :=
  let show_be_servers' :=
    match json.FindMember "show_be_servers" doc with
    | Some (json.JBool b) => b
    | _ => show_be_servers g
    end in
  let show_unavailable_servers' :=
    match json.FindMember "show_unavailable_servers" doc with
    | Some (json.JBool b) => b
    | _ => show_unavailable_servers g
    end in
  let ws_dir_path' :=
    match json.FindMember "workshop_dir_path" doc with
    | Some (json.JString p) => p
    | _ => ws_dir_path g
    end in
  let ws_am_path' :=
    match json.FindMember "workshop_am_path" doc with
    | Some (json.JString p) => p
    | _ => ws_dir_path'
    end in
  {| show_be_servers := show_be_servers';
     show_unavailable_servers := show_unavailable_servers';
     ws_dir_path := ws_dir_path'; ws_am_path := ws_am_path';
     unavailable_dlc := unavailable_dlc g; mods := mods g;
     ws_descs := ws_descs g;
     SteamMatchmakingServers_CancelServerQuery_orig :=
       SteamMatchmakingServers_CancelServerQuery_orig g;
     SteamMatchmakingServers_RequestInternetServerList_orig :=
       SteamMatchmakingServers_RequestInternetServerList_orig g;
     SteamMatchmakingServers_ServerRules_orig :=
       SteamMatchmakingServers_ServerRules_orig g;
     SteamUtils_IsAPICallCompleted_orig :=
       SteamUtils_IsAPICallCompleted_orig g;
     SteamUtils_GetAPICallResult_orig := SteamUtils_GetAPICallResult_orig g
  |}.

(** The members that [settings_save_346110] writes. *)
Definition settings_save_346110 (g : app_346110_vars.globals)
    : list (string * json.value) :=
  [ ("show_be_servers", json.JBool (show_be_servers g));
    ("show_unavailable_servers", json.JBool (show_unavailable_servers g)) ]
  ++ (if negb (String.eqb (ws_dir_path g) "")
      then [("workshop_dir_path", json.JString (ws_dir_path g))] else [])
  ++ (if negb (String.eqb (ws_am_path g) "")
      then [("workshop_am_path", json.JString (ws_am_path g))] else []).

Import app_2399830_vars.

Definition settings_load_2399830 (doc : list (string * json.value))
    (g : app_2399830_vars.globals) : app_2399830_vars.globals :=
  {| force_egs_auth :=
       match json.FindMember "force_egs_auth" doc with
       | Some (json.JBool b) => b
       | _ => force_egs_auth g
       end;
     cf_api_wrapper :=
       match json.FindMember "cf_api_wrapper" doc with
       | Some (json.JString s) => s
       | _ => cf_api_wrapper g
       end;
     steam_id_str := steam_id_str g;
     eos_auth_iface := eos_auth_iface g |}.

Definition settings_save_2399830 (g : app_2399830_vars.globals)
    : list (string * json.value) :=
  [ ("force_egs_auth", json.JBool (force_egs_auth g)) ]
  ++ (if negb (String.eqb (cf_api_wrapper g) "")
      then [("cf_api_wrapper", json.JString (cf_api_wrapper g))] else []).

(** [get_settings_load_cb] of game_cbs.hpp, applied. *)
Definition settings_load_cb (app_id : Z) (doc : list (string * json.value))
    (st : variables) : variables :=
  if app_id =? 346110 then
    set_statics_346110 (settings_load_346110 doc (statics_346110 st)) st
  else if app_id =? 2399830 then
    set_statics_2399830 (settings_load_2399830 doc (statics_2399830 st)) st
  else st.

(** [get_settings_save_cb] of game_cbs.hpp, applied. *)
Definition settings_save_cb (app_id : Z) (st : variables)
    : list (string * json.value) :=
  if app_id =? 346110 then settings_save_346110 (statics_346110 st)
  else if app_id =? 2399830 then settings_save_2399830 (statics_2399830 st)
  else [].

(** *** settings::load *)

(** The loop over the members of "dlc": a member whose name does not start
    with a number that fits 32 bits, or whose value is not a string, is
    skipped. *)
Fixpoint load_dlc (members : list (string * json.value))
    : list (Z * string) :=
  match members with
  | [] => []
  | (name, v) :: rest =>
      match charconv.from_chars name, v with
      | Some id, json.JString s => (id, s) :: load_dlc rest
      | _, _ => load_dlc rest
      end
  end.

(** The loop over the elements of "installed_dlc". *)
Fixpoint load_installed_dlc (elements : list json.value) : gset Z :=
  match elements with
  | [] => ∅
  | json.JInteger z :: rest =>
      if json.IsUint (json.JInteger z)
      then {[ z ]} ∪ load_installed_dlc rest
      else load_installed_dlc rest
  | _ :: rest => load_installed_dlc rest
  end.

(** Lines 149-225: what [load] does with the parsed document. *)
Definition load_document (doc : option json.value) (st : variables)
    : bool * variables :=
  match doc with
  | Some (json.JObject doc) =>
      match json.FindMember "store" doc with
      | Some (json.JString view) =>
          if String.eqb view "steam" then
            (* Load Steam-specific options *)
            match json.FindMember "app_id" doc with
            | Some (json.JInteger app_id) =>
                if json.IsUint (json.JInteger app_id) then
                  let spoof_app_id :=
                    match json.FindMember "spoof_app_id" doc with
                    | Some (json.JInteger z) =>
                        if json.IsUint (json.JInteger z) then z else 0
                    | _ => 0
                    end in
                  let dlc :=
                    match json.FindMember "dlc" doc with
                    | Some (json.JObject members) => load_dlc members
                    | _ => []
                    end in
                  let installed_dlc :=
                    match json.FindMember "installed_dlc" doc with
                    | Some (json.JArray elements) =>
                        load_installed_dlc elements
                    | _ => list_to_set dlc.*1
                    end in
                  let tek_sc_path :=
                    match json.FindMember "tek_sc_path" doc with
                    | Some (json.JString p) => p
                    | _ => ""
                    end in
                  let auto_update_dlc :=
                    match json.FindMember "auto_update_dlc" doc with
                    | Some (json.JBool b) => b
                    | _ => false
                    end in
                  let st :=
                    set_steam
                      (Some {| settings.app_id := app_id;
                               settings.spoof_app_id := spoof_app_id;
                               settings.dlc := dlc;
                               settings.installed_dlc := installed_dlc;
                               settings.tek_sc_path := tek_sc_path;
                               settings.auto_update_dlc := auto_update_dlc |})
                      st in
                  (* Load game-specific options *)
                  (true, settings_load_cb app_id doc st)
                else
                  fail ("Failed to load settings: " +:+ quote +:+ "app_id"
                        +:+ quote +:+ " field not found or is not a number")
                    st
            | _ =>
                fail ("Failed to load settings: " +:+ quote +:+ "app_id"
                      +:+ quote +:+ " field not found or is not a number")
                  st
            end
          else
            fail ("Failed to load settings: unknown store " +:+ quote
                  +:+ view +:+ quote) st
      | _ =>
          fail ("Failed to load settings: " +:+ quote +:+ "store" +:+ quote
                +:+ " field not found or is not a string") st
      end
  | _ => fail "Failed to load settings: JSON parsing error" st
  end.

(** [settings::load]. *)
Definition load (w : settings_world) (st : variables) : bool * variables :=
  if negb (w_pipe w) then
    fail ("Failed to connect to the pipe, got error code "
          +:+ pretty (w_GetLastError w)) st
  else
    match w_header w with
    | None =>
        fail ("Failed to read header from the pipe, got error code "
              +:+ pretty (w_GetLastError w)) st
    | Some hdr =>
        match read_data (w_reads w) (size hdr) with
        | None =>
            fail ("Failed to read data from the pipe, got error code "
                  +:+ pretty (w_GetLastError w)) st
        | Some data =>
            if type hdr =? load_type_file_path then
              let st :=
                set_file_path
                  (if String.eqb data "" then "tek-gr-settings.json"
                   else data) st in
              match w_file w (file_path st) with
              | None =>
                  fail "Failed to load settings: unable to open settings file"
                    st
              | Some text => load_document (w_parse w text) st
              end
            else if type hdr =? load_type_pipe then
              load_document (w_parse w data) st
            else fail "Unknown load type specified in the header" st
        end
    end.

(** *** settings::save *)

(** The loop over [dlc]: an ID whose digits do not fit the buffer of ten
    characters is skipped. *)
Fixpoint save_dlc (dlc : list (Z * string)) : list (string * json.value) :=
  match dlc with
  | [] => []
  | (id, name) :: rest =>
      match charconv.to_chars 10 id with
      | Some str => (str, json.JString name) :: save_dlc rest
      | None => save_dlc rest
      end
  end.

(** The document that [settings::save] writes: the calls made on the
    writer between [StartObject] and [EndObject], read as the members of
    an object.  A [std::set] is traversed in ascending order. *)
Definition save_document (o : settings.steam_options) (st : variables)
    : json.value :=
  json.JObject
    ([ ("store", json.JString "steam");
       ("app_id", json.JInteger (settings.app_id o)) ]
     ++ (if negb (settings.spoof_app_id o =? 0)
            && negb (settings.spoof_app_id o =? settings.app_id o)
         then [("spoof_app_id", json.JInteger (settings.spoof_app_id o))]
         else [])
     ++ (match settings.dlc o with
         | [] => []
         | dlc => [("dlc", json.JObject (save_dlc dlc))]
         end)
     ++ (if decide (settings.installed_dlc o = ∅) then []
         else [("installed_dlc",
                json.JArray
                  (json.JInteger
                     <$> merge_sort Z.le (elements (settings.installed_dlc o))))])
     ++ (if negb (String.eqb (settings.tek_sc_path o) "")
         then [("tek_sc_path", json.JString (settings.tek_sc_path o))]
         else [])
     ++ [("auto_update_dlc", json.JBool (settings.auto_update_dlc o))]
     (* Save game-specific options *)
     ++ settings_save_cb (settings.app_id o) st).

(** [settings::save]: the file written and the document in it, if any.
    Nothing is written when no settings file is in use or when it cannot be
    opened. *)
Definition save (w : settings_world) (st : variables)
    : result (option (string * json.value)) :=
  if String.eqb (file_path st) "" then Ok None
  else if negb (w_writable w (file_path st)) then Ok None
  else
    match steam st with
    | None => Undefined "dereference of a null g_settings.steam"
    | Some o => Ok (Some (file_path st, save_document o st))
    end.

(** The state of the variables when the process starts: static storage is
    zero-initialised. *)
Definition at_start : variables :=
  {| steam := None;
     file_path := "";
     statics_346110 :=
       {| show_be_servers := false; show_unavailable_servers := false;
          ws_dir_path := ""; ws_am_path := ""; unavailable_dlc := [];
          mods := []; ws_descs := ∅;
          SteamMatchmakingServers_CancelServerQuery_orig := fn_null;
          SteamMatchmakingServers_RequestInternetServerList_orig := fn_null;
          SteamMatchmakingServers_ServerRules_orig := fn_null;
          SteamUtils_IsAPICallCompleted_orig := fn_null;
          SteamUtils_GetAPICallResult_orig := fn_null |};
     statics_2399830 :=
       {| force_egs_auth := false; cf_api_wrapper := "";
          steam_id_str := ""; eos_auth_iface := 0 |};
     shown := [] |}.

End settings_cpp.

(** *** Readings of the settings *)

(** The values a [std::uint32_t] can hold. *)
Definition uint32 (z : Z) : Prop := 0 <= z < 2 ^ 32.

(** Steam options whose numbers are values of their C++ types. *)
Definition representable (o : settings.steam_options) : Prop :=
  uint32 (settings.app_id o) /\ uint32 (settings.spoof_app_id o) /\
  Forall (fun entry => uint32 entry.1) (settings.dlc o) /\
  set_Forall uint32 (settings.installed_dlc o).

(** The names that [settings::save] writes itself. *)
Definition steam_names : list string :=
  [ "store"; "app_id"; "spoof_app_id"; "dlc"; "installed_dlc";
    "tek_sc_path"; "auto_update_dlc" ].

(** What a run of [settings::load] leaves behind: with [true], allocated
    options and no message; with [false], one more message, the options
    pointer and the game options as before. *)
Definition outcome (st : settings_cpp.variables)
    (r : bool * settings_cpp.variables) : Prop :=
  let '(b, st') := r in
  if b then
    is_Some (settings_cpp.steam st') /\
    settings_cpp.shown st' = settings_cpp.shown st
  else
    settings_cpp.steam st' = settings_cpp.steam st /\
    settings_cpp.statics_346110 st' = settings_cpp.statics_346110 st /\
    settings_cpp.statics_2399830 st' = settings_cpp.statics_2399830 st /\
    exists msg, settings_cpp.shown st' = settings_cpp.shown st ++ [msg].

(** ** Sample settings

    Concrete values used to run the model of settings.cpp. *)

Module example_settings.
Import settings_cpp.

(** The game 346110 spoofed under its own ID, two owned DLC, none marked as
    installed. *)
Definition options : settings.steam_options :=
  {| settings.app_id := 346110;
     settings.spoof_app_id := 346110;
     settings.dlc := [(512540, "Scorched Earth"); (1646700, "Genesis")];
     settings.installed_dlc := ∅;
     settings.tek_sc_path := "";
     settings.auto_update_dlc := true |}.

(** The variables of a process that loaded [options] from the default
    file and keeps its Workshop items under "mods". *)
Definition loaded : variables :=
  set_statics_346110
    (settings_load_346110
       [ ("show_be_servers", json.JBool true);
         ("workshop_dir_path", json.JString "mods") ]
       (statics_346110 at_start))
    (set_file_path "tek-gr-settings.json"
       (set_steam (Some options) at_start)).

(** The text of a settings file, standing for itself. *)
Definition text : string := "{...}".

(** A launcher that sends an empty file path, and a file system that holds
    [doc] in the default settings file. *)
Definition by_file (doc : json.value) : settings_world :=
  {| w_pipe := true; w_GetLastError := 0;
     w_header := Some {| type := load_type_file_path; size := 0 |};
     w_reads := [];
     w_file := fun path =>
       if String.eqb path "tek-gr-settings.json" then Some text else None;
     w_parse := fun t => if String.eqb t text then Some doc else None;
     w_writable := fun _ => true |}.

(** A launcher that sends the settings themselves, in two pieces. *)
Definition by_pipe (doc : json.value) : settings_world :=
  {| w_pipe := true; w_GetLastError := 0;
     w_header := Some {| type := load_type_pipe; size := 5 |};
     w_reads := [Some "{.."; Some ".}"];
     w_file := fun _ => None;
     w_parse := fun t => if String.eqb t text then Some doc else None;
     w_writable := fun _ => true |}.

(** A launcher whose pipe breaks after the header. *)
Definition broken_pipe : settings_world :=
  {| w_pipe := true; w_GetLastError := 109;
     w_header := Some {| type := load_type_pipe; size := 5 |};
     w_reads := [Some "{.."; None];
     w_file := fun _ => None;
     w_parse := fun _ => None;
     w_writable := fun _ => true |}.

(** A document with DLC and without the list of the installed ones. *)
Definition document : json.value :=
  json.JObject
    [ ("store", json.JString "steam");
      ("app_id", json.JInteger 346110);
      ("dlc",
       json.JObject
         [ ("512540", json.JString "Scorched Earth");
           ("1646700 (Genesis)", json.JString "Genesis");
           ("season pass", json.JString "Season Pass");
           ("4294967296", json.JString "Too large");
           ("473850", json.JInteger 1) ]) ].

End example_settings.

(** ** tek-steamclient.cpp in detail

    The loader, the unloader and the callbacks of the DLC update, over the
    variables of the translation unit, a heap for the objects that the
    callbacks allocate, and a log of the calls made into the operating
    system and into the library. *)

(** A node of a parsed VDF text ([tyti::vdf::object]). *)
#[warnings="-register-all"]
Inductive vdf_object : Type :=
  | Vdf (attribs : gmap string string) (childs : gmap string vdf_object).

Module steamclient_cpp.

Definition attribs (o : vdf_object) : gmap string string :=
  let 'Vdf a _ := o in a.

Definition childs (o : vdf_object) : gmap string vdf_object :=
  let 'Vdf _ c := o in c.

(** [tek_sc_cm_pics_entry], as far as the callbacks use it: the ID, the
    data with its size, and the result, which only [tek_sc_err_success]
    looks into. *)
Record pics_entry := {
  (** [id] *)
  entry_id : Z;
  (** [data], [data_size] *)
  entry_data : string;
  (** [result] *)
  entry_result : Z
}.

(** [tek_sc_cm_data_pics], as far as the callbacks use it. *)
Record data_pics := {
  app_entries : Z;
  num_app_entries : Z;
  pics_result : Z;
  timeout_ms : Z
}.

(** What a [new] expression of this file returns a pointer to. *)
Inductive block : Type :=
  (** [new tek_sc_cm_pics_entry()] *)
  | one_entry (e : pics_entry)
  (** [new tek_sc_cm_pics_entry[n]()] *)
  | entry_array (l : list pics_entry)
  (** [new tek_sc_cm_data_pics{}] *)
  | one_data_pics (d : data_pics).

Inductive callback : Type :=
  | cb_connected_fn
  | cb_disconnected_fn
  | cb_signed_in_fn
  | cb_access_token_fn
  | cb_app_info_fn
  | cb_dlc_access_token_fn
  | cb_dlc_info_fn.

(** Calls into the operating system and the library, and the store into
    the futex. *)
Inductive call : Type :=
  | call_LoadLibraryW (name : string)
  | call_FreeLibrary (h : Z)
  | call_lib_init
  | call_lib_cleanup (ctx : Z)
  | call_am_destroy (am : Z)
  | call_cm_connect (client : Z) (connection_cb : callback) (timeout : Z)
      (disconnection_cb : callback)
  | call_cm_disconnect (client : Z)
  | call_cm_sign_in_anon (client : Z) (cb : callback) (timeout : Z)
  | call_cm_get_access_token (client data : Z) (cb : callback) (timeout : Z)
  | call_cm_get_product_info (client data : Z) (cb : callback) (timeout : Z)
  (** [done.store(true)] followed by [WakeByAddressSingle] *)
  | call_done_store
  (** [g_settings.save()], with what it wrote *)
  | call_save (written : option (string * json.value)).

(** What the library stores for a PICS request: the result of the request
    and, per entry, a result and the data. *)
Record answer := {
  ans_result : Z;
  ans_entries : list (Z * string)
}.

(** What the code obtains from outside. *)
Record sc_world := {
  (** [LoadLibraryW] (0 is a null handle) *)
  w_LoadLibraryW : string -> Z;
  (** [GetProcAddress]: module, name *)
  w_GetProcAddress : Z -> string -> Z;
  (** [tek_sc_lib_init(true, true)] *)
  w_lib_init : Z;
  (** [tek_sc_err_success] *)
  w_tek_sc_err_success : Z -> bool;
  (** [tyti::vdf::read], [None] when it sets the error code *)
  w_vdf_read : string -> option vdf_object;
  (** the files of [settings::save] *)
  w_settings : settings_cpp.settings_world;
  (** the result of the connection attempt *)
  w_connect : Z;
  (** the result of the sign-in attempt *)
  w_sign_in : Z;
  (** what the library stores for its [k]-th PICS request *)
  w_answer : nat -> answer
}.

(** The variables of the translation unit, [g_settings], the heap and the
    log. *)
Record variables := {
  settings_vars : settings_cpp.variables;
  loaded : bool;
  (** [module] (0 is [nullptr]) *)
  module : Z;
  lib_ctx : Z;
  am : Z;
  (** the function pointer variables [lib_init] ... [am_run_job], by the
      name of the entry point they are resolved from; a missing key is a
      null pointer *)
  entry : gmap string Z;
  heap : gmap Z block;
  trace : list call
}.

Definition set_settings_vars (x : settings_cpp.variables) (v : variables)
    : variables :=
  {| settings_vars := x; loaded := loaded v; module := module v;
     lib_ctx := lib_ctx v; am := am v; entry := entry v; heap := heap v;
     trace := trace v |}.

Definition set_loaded (x : bool) (v : variables) : variables :=
  {| settings_vars := settings_vars v; loaded := x; module := module v;
     lib_ctx := lib_ctx v; am := am v; entry := entry v; heap := heap v;
     trace := trace v |}.

Definition set_module (x : Z) (v : variables) : variables :=
  {| settings_vars := settings_vars v; loaded := loaded v; module := x;
     lib_ctx := lib_ctx v; am := am v; entry := entry v; heap := heap v;
     trace := trace v |}.

Definition set_lib_ctx (x : Z) (v : variables) : variables :=
  {| settings_vars := settings_vars v; loaded := loaded v;
     module := module v; lib_ctx := x; am := am v; entry := entry v;
     heap := heap v; trace := trace v |}.

Definition set_entry (x : gmap string Z) (v : variables) : variables :=
  {| settings_vars := settings_vars v; loaded := loaded v;
     module := module v; lib_ctx := lib_ctx v; am := am v; entry := x;
     heap := heap v; trace := trace v |}.

Definition set_heap (x : gmap Z block) (v : variables) : variables :=
  {| settings_vars := settings_vars v; loaded := loaded v;
     module := module v; lib_ctx := lib_ctx v; am := am v; entry := entry v;
     heap := x; trace := trace v |}.

Definition set_trace (x : list call) (v : variables) : variables :=
  {| settings_vars := settings_vars v; loaded := loaded v;
     module := module v; lib_ctx := lib_ctx v; am := am v; entry := entry v;
     heap := heap v; trace := x |}.

(** State passing with undefined behaviour, over [variables]. *)
Definition P (A : Type) : Type :=
  variables -> result (A * variables)%type.

#[export] Instance P_ret : MRet P := fun A a v => Ok (a, v).

#[export] Instance P_bind : MBind P := fun A B f m v =>
  match m v with
  | Ok (a, v') => f a v'
  | Undefined what => Undefined what
  end.

Definition get {A} (f : variables -> A) : P A := fun v => Ok (f v, v).
Definition put (f : variables -> variables) : P unit :=
  fun v => Ok (tt, f v).
Definition ub {A} (what : string) : P A := fun _ => Undefined what.

Definition log (c : call) : P unit :=
  put (fun v => set_trace (trace v ++ [c]) v).

(** *** The heap *)

(** A [new] expression: a pointer that is neither null nor in use. *)
Definition new (b : block) : P Z := fun v =>
  let p := base.fresh (({[ 0 ]} ∪ dom (heap v)) : gset Z) in
  Ok (p, set_heap (<[ p := b ]> (heap v)) v).

(** [delete p] on a [tek_sc_cm_pics_entry *]: nothing for a null pointer,
    defined only for what [new tek_sc_cm_pics_entry()] returned. *)
Definition delete_entry (p : Z) : P unit :=
  if p =? 0 then mret tt
  else
    h ← get heap;
    match h !! p with
    | Some (one_entry _) => put (set_heap (delete p h))
    | _ => ub "delete of a pointer that new did not return"
    end.

(** [delete[] p] on a [tek_sc_cm_pics_entry *]. *)
Definition delete_array (p : Z) : P unit :=
  if p =? 0 then mret tt
  else
    h ← get heap;
    match h !! p with
    | Some (entry_array _) => put (set_heap (delete p h))
    | _ => ub "delete[] of a pointer that new[] did not return"
    end.

(** [delete &data_pics]. *)
Definition delete_data_pics (p : Z) : P unit :=
  h ← get heap;
  match h !! p with
  | Some (one_data_pics _) => put (set_heap (delete p h))
  | _ => ub "delete of a pointer that new did not return"
  end.

(** [*reinterpret_cast<tek_sc_cm_data_pics *>(data)] *)
Definition load_data_pics (p : Z) : P data_pics :=
  h ← get heap;
  match h !! p with
  | Some (one_data_pics d) => mret d
  | _ => ub "data does not point to a tek_sc_cm_data_pics"
  end.

Definition store_data_pics (p : Z) (d : data_pics) : P unit :=
  h ← get heap;
  match h !! p with
  | Some (one_data_pics _) => put (set_heap (<[ p := one_data_pics d ]> h))
  | _ => ub "data does not point to a tek_sc_cm_data_pics"
  end.

(** [*p] for a [tek_sc_cm_pics_entry *p]. *)
Definition first_entry (p : Z) : P pics_entry :=
  h ← get heap;
  match h !! p with
  | Some (one_entry e) => mret e
  | Some (entry_array (e :: _)) => mret e
  | _ => ub "app_entries does not point to an entry"
  end.

(** [std::span{p, n}], read. *)
Definition span (p : Z) (n : Z) : P (list pics_entry) :=
  h ← get heap;
  let l := match h !! p with
           | Some (one_entry e) => [e]
           | Some (entry_array l) => l
           | _ => []
           end in
  if n <=? Z.of_nat (length l) then mret (take (Z.to_nat n) l)
  else ub "span beyond the entries allocated".

(** *** The settings *)

(** [*g_settings.steam] *)
Definition steam_options : P settings.steam_options :=
  o ← get (fun v => settings_cpp.steam (settings_vars v));
  match o with
  | Some o => mret o
  | None => ub "dereference of a null g_settings.steam"
  end.

Definition set_steam_options (o : settings.steam_options) : P unit :=
  put (fun v =>
         set_settings_vars
           (settings_cpp.set_steam (Some o) (settings_vars v)) v).

(** [g_settings.save()] *)
Definition settings_save (w : sc_world) : P unit :=
  st ← get settings_vars;
  match settings_cpp.save (w_settings w) st with
  | Ok written => log (call_save written)
  | Undefined what => ub what
  end.

(** *** CM client callbacks *)

(** The three statements that end a callback which gives up. *)
Definition release_array (client data : Z) (d : data_pics) : P unit :=
  delete_array (app_entries d) ;;
  delete_data_pics data ;;
  log (call_cm_disconnect client).

Definition release_entry (client data : Z) (d : data_pics) : P unit :=
  delete_entry (app_entries d) ;;
  delete_data_pics data ;;
  log (call_cm_disconnect client).

(** The loop of [cb_dlc_info] over the entries; the result is
    [save_settings]. *)
Fixpoint add_dlc (w : sc_world) (entries : list pics_entry)
    (save_settings : bool) : P bool :=
  match entries with
  | [] => mret save_settings
  | e :: rest =>
      if negb (w_tek_sc_err_success w (entry_result e)) then
        add_dlc w rest save_settings
      else
        match w_vdf_read w (entry_data e) with
        | None => add_dlc w rest save_settings
        | Some vdf =>
            match childs vdf !! "common" with
            | Some common_m =>
                match attribs common_m !! "name" with
                | Some name =>
                    o ← steam_options;
                    set_steam_options
                      (settings.set_dlc
                         (settings.dlc o ++ [(entry_id e, name)])
                         (settings.installed_dlc o ∪ {[ entry_id e ]}) o) ;;
                    add_dlc w rest true
                | None => add_dlc w rest save_settings
                end
            | None => add_dlc w rest save_settings
            end
        end
  end.

(** [cb_dlc_info] *)
Definition cb_dlc_info (w : sc_world) (client data : Z) : P unit :=
  d ← load_data_pics data;
  if negb (w_tek_sc_err_success w (pics_result d)) then
    release_array client data d
  else
    entries ← span (app_entries d) (cxx.wrap 64 (num_app_entries d));
    save_settings ← add_dlc w entries false;
    (if (save_settings : bool) then settings_save w else mret tt) ;;
    release_array client data d.

(** [cb_dlc_access_token] *)
Definition cb_dlc_access_token (w : sc_world) (client data : Z) : P unit :=
  d ← load_data_pics data;
  if negb (w_tek_sc_err_success w (pics_result d)) then
    release_array client data d
  else log (call_cm_get_product_info client data cb_dlc_info_fn 2500).

(** [std::views::split] of a string at a character. *)
Fixpoint split_at (sep : Ascii.ascii) (s : string) : list string :=
  match s with
  | EmptyString => [EmptyString]
  | String a rest =>
      if Ascii.eqb a sep then EmptyString :: split_at sep rest
      else
        match split_at sep rest with
        | seg :: segs => String a seg :: segs
        | [] => [String a EmptyString]
        end
  end.

Definition views_split (sep : Ascii.ascii) (s : string) : list string :=
  match s with
  | EmptyString => []
  | _ => split_at sep s
  end.

(** The comma. *)
Definition comma : Ascii.ascii := Ascii.ascii_of_nat 44.

(** The loop of [cb_app_info] over the segments of "listofdlc": the IDs
    that parse and are not among the keys of [dlc]. *)
Fixpoint new_ids (owned : list Z) (segments : list string) : list Z :=
  match segments with
  | [] => []
  | id_view :: rest =>
      match charconv.from_chars id_view with
      | Some id =>
          if bool_decide (id ∈ owned) then new_ids owned rest
          else id :: new_ids owned rest
      | None => new_ids owned rest
      end
  end.

(** A value-initialised entry that received an ID. *)
Definition entry_for (id : Z) : pics_entry :=
  {| entry_id := id; entry_data := ""; entry_result := 0 |}.

(** [cb_app_info] *)
Definition cb_app_info (w : sc_world) (client data : Z) : P unit :=
  d ← load_data_pics data;
  ok ← (if negb (w_tek_sc_err_success w (pics_result d)) then mret false
        else
          e ← first_entry (app_entries d);
          mret (w_tek_sc_err_success w (entry_result e)));
  if negb ok then release_entry client data d
  else
    e ← first_entry (app_entries d);
    match w_vdf_read w (entry_data e) with
    | None => release_entry client data d
    | Some vdf =>
        new_dlc ←
          match childs vdf !! "extended" with
          | Some extended_m =>
              match attribs extended_m !! "listofdlc" with
              | Some listofdlc =>
                  o ← steam_options;
                  mret (new_ids (settings.dlc o).*1
                          (views_split comma listofdlc))
              | None => mret []
              end
          | None => mret []
          end;
        match new_dlc with
        | [] => release_entry client data d
        | _ =>
            delete_entry (app_entries d) ;;
            p ← new (entry_array (entry_for <$> new_dlc));
            store_data_pics data
              {| app_entries := p;
                 num_app_entries :=
                   cxx.static_cast_int (Z.of_nat (length new_dlc));
                 pics_result := pics_result d;
                 timeout_ms := timeout_ms d |} ;;
            log (call_cm_get_access_token client data
                   cb_dlc_access_token_fn 2500)
        end
    end.

(** [cb_access_token] *)
Definition cb_access_token (w : sc_world) (client data : Z) : P unit :=
  d ← load_data_pics data;
  ok ← (if negb (w_tek_sc_err_success w (pics_result d)) then mret false
        else
          e ← first_entry (app_entries d);
          mret (w_tek_sc_err_success w (entry_result e)));
  if negb ok then release_entry client data d
  else log (call_cm_get_product_info client data cb_app_info_fn 2500).

(** [cb_signed_in]; [err] is the result that [data] points to. *)
Definition cb_signed_in (w : sc_world) (client err : Z) : P unit :=
  if negb (w_tek_sc_err_success w err) then log (call_cm_disconnect client)
  else
    data ← new (one_data_pics
                  {| app_entries := 0; num_app_entries := 0;
                     pics_result := 0; timeout_ms := 0 |});
    p ← new (one_entry (entry_for 0));
    o ← steam_options;
    h ← get heap;
    put (set_heap (<[ p := one_entry (entry_for (settings.app_id o)) ]> h)) ;;
    store_data_pics data
      {| app_entries := p; num_app_entries := 1; pics_result := 0;
         timeout_ms := 2500 |} ;;
    log (call_cm_get_access_token client data cb_access_token_fn 2500).

(** [cb_connected] *)
Definition cb_connected (w : sc_world) (client err : Z) : P unit :=
  if w_tek_sc_err_success w err then
    log (call_cm_sign_in_anon client cb_signed_in_fn 2500)
  else log call_done_store.

(** [cb_disconnected] *)
Definition cb_disconnected : P unit := log call_done_store.

(** *** The library's side of the exchange

    The CM client calls the callback of a request once, after storing the
    results of the request in the structure that the request named; it
    changes neither the pointers of the structure nor the IDs of the
    entries.  After [tek_sc_cm_disconnect] it calls the disconnection
    callback. *)

Definition fill (e : pics_entry) (a : option (Z * string)) : pics_entry :=
  match a with
  | Some (r, text) => {| entry_id := entry_id e; entry_data := text; entry_result := r |}
  | None => e
  end.

Fixpoint fill_all (l : list pics_entry) (a : list (Z * string))
    : list pics_entry :=
  match l with
  | [] => []
  | e :: rest => fill e (head a) :: fill_all rest (tail a)
  end.

Definition answer_request (a : answer) (data : Z) : P unit :=
  d ← load_data_pics data;
  store_data_pics data
    {| app_entries := app_entries d; num_app_entries := num_app_entries d;
       pics_result := ans_result a; timeout_ms := timeout_ms d |} ;;
  h ← get heap;
  match h !! app_entries d with
  | Some (one_entry e) =>
      put (set_heap
             (<[ app_entries d := one_entry (fill e (head (ans_entries a))) ]>
                h))
  | Some (entry_array l) =>
      put (set_heap
             (<[ app_entries d := entry_array (fill_all l (ans_entries a)) ]>
                h))
  | _ => mret tt
  end.

(** The callbacks that take a [tek_sc_cm_data_pics]. *)
Definition pics_callback (w : sc_world) (cb : callback) (client data : Z)
    : P unit :=
  match cb with
  | cb_access_token_fn => cb_access_token w client data
  | cb_app_info_fn => cb_app_info w client data
  | cb_dlc_access_token_fn => cb_dlc_access_token w client data
  | cb_dlc_info_fn => cb_dlc_info w client data
  | _ => ub "callback of another signature"
  end.

(** The exchange from a pending call on: the library answers it and runs
    its callback, and goes on with the call that the callback ended with,
    until the futex is stored.  [k] counts the PICS requests.  The result
    is [false] when [fuel] calls were not enough. *)
Fixpoint serve (fuel : nat) (w : sc_world) (k : nat) (pending : call)
    : P bool :=
  match fuel with
  | O => mret false
  | S fuel =>
      match pending with
      | call_done_store => mret true
      | call_cm_connect client cb_connected_fn _ cb_disconnected_fn =>
          cb_connected w client (w_connect w) ;;
          t ← get trace;
          from_option (serve fuel w k) (ub "no call was made") (last t)
      | call_cm_sign_in_anon client cb_signed_in_fn _ =>
          cb_signed_in w client (w_sign_in w) ;;
          t ← get trace;
          from_option (serve fuel w k) (ub "no call was made") (last t)
      | call_cm_get_access_token client data cb _
      | call_cm_get_product_info client data cb _ =>
          answer_request (w_answer w k) data ;;
          pics_callback w cb client data ;;
          t ← get trace;
          from_option (serve fuel w (S k)) (ub "no call was made") (last t)
      | call_cm_disconnect client =>
          cb_disconnected ;;
          t ← get trace;
          from_option (serve fuel w k) (ub "no call was made") (last t)
      | _ => ub "not a call that the library answers"
      end
  end.

(** *** load and unload *)

(** The entry points in the order [load] resolves them. *)
Definition entry_points : list string :=
  [ "tek_sc_lib_init"; "tek_sc_lib_cleanup"; "tek_sc_cm_client_create";
    "tek_sc_cm_client_destroy"; "tek_sc_cm_connect"; "tek_sc_cm_disconnect";
    "tek_sc_cm_sign_in_anon"; "tek_sc_cm_get_access_token";
    "tek_sc_cm_get_product_info"; "tek_sc_am_create"; "tek_sc_am_destroy";
    "tek_sc_am_set_ws_dir"; "tek_sc_am_get_item_desc";
    "tek_sc_am_create_job"; "tek_sc_am_run_job" ].

(** The label [free_lib]. *)
Definition free_lib : P unit :=
  h ← get module;
  log (call_FreeLibrary h) ;;
  put (set_module 0).

(** The chain of assignments from [GetProcAddress], each followed by
    [goto free_lib] when the pointer is null: the result tells whether all
    of [names] resolved. *)
Fixpoint resolve (w : sc_world) (names : list string) : P bool :=
  match names with
  | [] => mret true
  | name :: rest =>
      h ← get module;
      let p := w_GetProcAddress w h name in
      put (fun v => set_entry (<[ name := p ]> (entry v)) v) ;;
      if p =? 0 then mret false else resolve w rest
  end.

(** A call through one of the function pointer variables. *)
Definition through (name : string) : P unit :=
  e ← get entry;
  if default 0 (e !! name) =? 0 then ub "call through a null function pointer"
  else mret tt.

(** [load] *)
Definition load (w : sc_world) : P unit :=
  l ← get loaded;
  if (l : bool) then mret tt
  else
    o ← steam_options;
    let name :=
      if String.eqb (settings.tek_sc_path o) "" then "libtek-steamclient-1.dll"
      else settings.tek_sc_path o in
    log (call_LoadLibraryW name) ;;
    put (set_module (w_LoadLibraryW w name)) ;;
    if w_LoadLibraryW w name =? 0 then mret tt
    else
      resolved ← resolve w entry_points;
      if negb resolved then free_lib
      else
        through "tek_sc_lib_init" ;;
        log call_lib_init ;;
        put (set_lib_ctx (w_lib_init w)) ;;
        if w_lib_init w =? 0 then free_lib
        else put (set_loaded true).

(** [unload] *)
Definition unload : P unit :=
  put (set_loaded false) ;;
  h ← get module;
  if h =? 0 then mret tt
  else
    a ← get am;
    (if negb (a =? 0) then
       through "tek_sc_am_destroy" ;; log (call_am_destroy a)
     else mret tt) ;;
    ctx ← get lib_ctx;
    (if ctx =? 0 then mret tt
     else
       through "tek_sc_lib_cleanup" ;;
       log (call_lib_cleanup ctx) ;;
       put (set_lib_ctx 0)) ;;
    free_lib.

(** The variables when the process starts, around given settings. *)
Definition at_start (st : settings_cpp.variables) : variables :=
  {| settings_vars := st; loaded := false; module := 0; lib_ctx := 0;
     am := 0; entry := ∅; heap := ∅; trace := [] |}.

End steamclient_cpp.

(** *** Readings of the loader *)

(** Every function pointer variable is set while the module is. *)
Definition resolved (v : steamclient_cpp.variables) : Prop :=
  steamclient_cpp.module v <> 0 ->
  forall name, name ∈ steamclient_cpp.entry_points ->
    exists p, steamclient_cpp.entry v !! name = Some p /\ p <> 0.

(** The name that [load] hands to [LoadLibraryW]. *)
Definition library_name (o : settings.steam_options) : string :=
  if String.eqb (settings.tek_sc_path o) "" then "libtek-steamclient-1.dll"
  else settings.tek_sc_path o.

(** Whether the library at [h] exports all of [names]. *)
Definition exports (w : steamclient_cpp.sc_world) (h : Z)
    (names : list string) : bool :=
  forallb (fun name => negb (steamclient_cpp.w_GetProcAddress w h name =? 0))
    names.

(** *** Readings of the exchange *)

(** The calls by which a callback goes on with the exchange, and the
    save. *)
Definition is_request (c : steamclient_cpp.call) : bool :=
  match c with
  | steamclient_cpp.call_cm_sign_in_anon _ _ _
  | steamclient_cpp.call_cm_get_access_token _ _ _ _
  | steamclient_cpp.call_cm_get_product_info _ _ _ _
  | steamclient_cpp.call_save _ => true
  | _ => false
  end.

Definition is_save (c : steamclient_cpp.call) : bool :=
  match c with
  | steamclient_cpp.call_save _ => true
  | _ => false
  end.

(** An exchange in flight: the structure at [data] and the entries it
    points to are the only blocks on top of the heap [h0]. *)
Definition in_flight (h0 : gmap Z steamclient_cpp.block) (data : Z)
    (d : steamclient_cpp.data_pics) (b : steamclient_cpp.block)
    (v : steamclient_cpp.variables) : Prop :=
  let p := steamclient_cpp.app_entries d in
  h0 !! data = None /\ h0 !! p = None /\ data <> p /\ p <> 0 /\
  steamclient_cpp.heap v !! data = Some (steamclient_cpp.one_data_pics d) /\
  steamclient_cpp.heap v !! p = Some b /\
  forall q, q <> data -> q <> p -> steamclient_cpp.heap v !! q = h0 !! q.

(** Every "listofdlc" that the reader can return names fewer than 2^31
    segments, so that their number fits [num_app_entries]. *)
Definition listofdlc_fits (w : steamclient_cpp.sc_world) : Prop :=
  forall text vdf extended_m listofdlc,
    steamclient_cpp.w_vdf_read w text = Some vdf ->
    steamclient_cpp.childs vdf !! "extended" = Some extended_m ->
    steamclient_cpp.attribs extended_m !! "listofdlc" = Some listofdlc ->
    Z.of_nat (length (steamclient_cpp.views_split steamclient_cpp.comma
                        listofdlc)) < 2 ^ 31.

(** The settings after an update that added the entries [added]. *)
Definition with_added (added : list (Z * string))
    (st : settings_cpp.variables) (o : settings.steam_options)
    : settings_cpp.variables :=
  settings_cpp.set_steam
    (Some (settings.set_dlc (settings.dlc o ++ added)
             (settings.installed_dlc o ∪ list_to_set added.*1) o)) st.

(** The end of an exchange that went as far as signing in, seen from the
    variables [v] at an earlier moment: the heap is [h0] again, the log
    grew by requests, one disconnect and the store of the futex, and the
    Steam options [o] grew by entries whose IDs were not among the DLC of
    [o]; the settings were saved exactly when entries were added. *)
Definition updated (h0 : gmap Z steamclient_cpp.block)
    (o : settings.steam_options) (client : Z)
    (v v' : steamclient_cpp.variables) : Prop :=
  steamclient_cpp.heap v' = h0 /\
  exists requests added,
    steamclient_cpp.trace v'
    = steamclient_cpp.trace v ++ requests
      ++ [steamclient_cpp.call_cm_disconnect client;
          steamclient_cpp.call_done_store] /\
    forallb is_request requests = true /\
    settings_cpp.steam (steamclient_cpp.settings_vars v')
    = Some (settings.set_dlc (settings.dlc o ++ added)
              (settings.installed_dlc o ∪ list_to_set added.*1) o) /\
    Forall (fun e => e.1 ∉ (settings.dlc o).*1) added /\
    existsb is_save requests = negb (bool_decide (added = [])).

(** Two blocks of entries of the same kind that hold the same IDs. *)
Definition same_entries (b b' : steamclient_cpp.block) : Prop :=
  match b, b' with
  | steamclient_cpp.one_entry e, steamclient_cpp.one_entry e' =>
      steamclient_cpp.entry_id e' = steamclient_cpp.entry_id e
  | steamclient_cpp.entry_array l, steamclient_cpp.entry_array l' =>
      steamclient_cpp.entry_id <$> l' = steamclient_cpp.entry_id <$> l
  | _, _ => False
  end.

(** ** A sample library and a sample exchange

    Concrete values used to run the model of tek-steamclient.cpp. *)

Module example_steamclient.
Import steamclient_cpp.

(** What the PICS requests of the sample exchange store: tokens for the
    application, its product information, tokens for the two DLC that are
    new, and their product information, the second of which failed. *)
Definition answers (k : nat) : answer :=
  match k with
  | 0%nat => {| ans_result := 0; ans_entries := [(0, "")] |}
  | 1%nat => {| ans_result := 0; ans_entries := [(0, "appinfo")] |}
  | 2%nat => {| ans_result := 0; ans_entries := [(0, ""); (0, "")] |}
  | _ => {| ans_result := 0; ans_entries := [(0, "dlcinfo"); (5, "")] |}
  end.

(** A library with every entry point, an error value that is a success
    when zero, and a VDF reader that knows two texts. *)
Definition library (writable : bool) : sc_world :=
  {| w_LoadLibraryW := fun name =>
       if String.eqb name "libtek-steamclient-1.dll" then 4096 else 0;
     w_GetProcAddress := fun h name =>
       if h =? 4096 then 4096 + Z.of_nat (String.length name) else 0;
     w_lib_init := 77;
     w_tek_sc_err_success := fun e => e =? 0;
     w_vdf_read := fun text =>
       if String.eqb text "appinfo" then
         Some (Vdf ∅
                 {[ "extended" :=
                      Vdf {[ "listofdlc" := "512540,1646700,,1887560" ]} ∅ ]})
       else if String.eqb text "dlcinfo" then
         Some (Vdf ∅ {[ "common" := Vdf {[ "name" := "Genesis" ]} ∅ ]})
       else None;
     w_settings :=
       {| settings_cpp.w_pipe := false; settings_cpp.w_GetLastError := 0;
          settings_cpp.w_header := None; settings_cpp.w_reads := [];
          settings_cpp.w_file := fun _ => None;
          settings_cpp.w_parse := fun _ => None;
          settings_cpp.w_writable := fun _ => writable |};
     w_connect := 0;
     w_sign_in := 0;
     w_answer := answers |}.

(** The same library without [tek_sc_am_run_job]. *)
Definition old_library : sc_world :=
  {| w_LoadLibraryW := w_LoadLibraryW (library true);
     w_GetProcAddress := fun h name =>
       if String.eqb name "tek_sc_am_run_job" then 0
       else w_GetProcAddress (library true) h name;
     w_lib_init := 77;
     w_tek_sc_err_success := w_tek_sc_err_success (library true);
     w_vdf_read := w_vdf_read (library true);
     w_settings := w_settings (library true);
     w_connect := 0; w_sign_in := 0; w_answer := answers |}.

(** Options with one DLC known. *)
Definition options : settings.steam_options :=
  {| settings.app_id := 346110;
     settings.spoof_app_id := 0;
     settings.dlc := [(512540, "Scorched Earth")];
     settings.installed_dlc := {[ 512540 ]};
     settings.tek_sc_path := "";
     settings.auto_update_dlc := true |}.

(** A process that loaded them from the default settings file. *)
Definition process : variables :=
  at_start (settings_cpp.set_steam (Some options) example_settings.loaded).

End example_steamclient.

(** ** steam/2399830.cpp: the EOS SDK wrappers *)

Module eos_2399830.

Definition EOS_EExternalCredentialType_epic : Z := 0.
Definition EOS_EExternalCredentialType_epic_id_token : Z := 16.
Definition EOS_ELoginCredentialType_persistent_auth : Z := 2.
Definition EOS_ELoginCredentialType_account_portal : Z := 6.
Definition EOS_EAuthScopeFlags_no_flags : Z := 0.


(** What [account_id] points to: a string of the SDK, or the buffer
    [steam_id_str]. *)
Inductive chars : Type :=
  | sdk_chars (p : Z)
  | steam_id_str_data.

Record EOS_Connect_ExternalAccountInfo := {
  info_api_version : Z;
  (** in an instance of the SDK this is padding *)
  magic : Z;
  product_user_id : Z;
  display_name : Z;
  account_id : chars;
  account_id_type : Z;
  last_login_time : Z;
  (** in an instance of the SDK this lies behind the structure *)
  orig : Z
}.

Record EOS_Auth_Credentials := {
  ac_api_version : Z;
  ac_id : Z;
  ac_token : Z;
  ac_type : Z;
  system_auth_credentials_options : Z;
  external_type : Z
}.

Record EOS_Connect_Credentials := {
  cc_api_version : Z;
  cc_token : Z;
  cc_type : Z
}.

(** [EOS_Connect_LoginOptions] with what [credentials] points to. *)
Record EOS_Connect_LoginOptions := {
  lo_api_version : Z;
  credentials : EOS_Connect_Credentials;
  user_login_info : Z
}.

(** The options handed to the original [EOS_Connect_Login]: the game's own
    structure, or a local copy whose credentials are those of a
    [login_ctx]. *)
Inductive options_arg : Type :=
  | game_options (p : Z)
  | local_options (o : EOS_Connect_LoginOptions).

(** Who completes an [EOS_Connect_Login]: a function of the game, or
    [connect_login_complete]. *)
Inductive connect_delegate : Type :=
  | game_delegate (p : Z)
  | connect_login_complete_fn.

Record login_ctx := {
  handle : Z;
  (** [options], a pointer into the game's memory *)
  options : Z;
  client_data : Z;
  completion_delegate : Z;
  token : Z;
  auth_creds : EOS_Auth_Credentials;
  connect_creds : EOS_Connect_Credentials
}.

Definition set_token (t : Z) (c : login_ctx) : login_ctx :=
  {| handle := handle c; options := options c;
     client_data := client_data c;
     completion_delegate := completion_delegate c; token := t;
     auth_creds := auth_creds c; connect_creds := connect_creds c |}.

Definition set_auth_type (t : Z) (c : login_ctx) : login_ctx :=
  {| handle := handle c; options := options c;
     client_data := client_data c;
     completion_delegate := completion_delegate c; token := token c;
     auth_creds :=
       {| ac_api_version := ac_api_version (auth_creds c);
          ac_id := ac_id (auth_creds c);
          ac_token := ac_token (auth_creds c); ac_type := t;
          system_auth_credentials_options :=
            system_auth_credentials_options (auth_creds c);
          external_type := external_type (auth_creds c) |};
     connect_creds := connect_creds c |}.

Definition set_connect_creds (cc : EOS_Connect_Credentials) (c : login_ctx)
    : login_ctx :=
  {| handle := handle c; options := options c;
     client_data := client_data c;
     completion_delegate := completion_delegate c; token := token c;
     auth_creds := auth_creds c; connect_creds := cc |}.

(** What a [new] expression of this file returns a pointer to. *)
Inductive block : Type :=
  | info_copy (i : EOS_Connect_ExternalAccountInfo)
  | ctx_block (c : login_ctx).

(** The names of the function pointer variables. *)
Inductive orig_fn : Type :=
  | EOS_Auth_CopyIdToken_orig
  | EOS_Auth_IdToken_Release_orig
  | EOS_Auth_Login_orig
  | EOS_Connect_Login_orig
  | EOS_Connect_CopyProductUserInfo_orig
  | EOS_Connect_ExternalAccountInfo_Release_orig.

#[export] Instance orig_fn_eq_dec : EqDecision orig_fn.
Proof. solve_decision. Defined.

(** Calls into the SDK, into the game and into the operating system. *)
Inductive call : Type :=
  | call_CopyProductUserInfo (handle options : Z)
  | call_ExternalAccountInfo_Release (info : Z)
  (** [EOS_Auth_Login_orig]: interface, the credentials that the options
      point to, the scope and login flags, client data; the delegate is
      always [auth_login_complete] *)
  | call_Auth_Login (iface : Z) (creds : EOS_Auth_Credentials)
      (scope_flags login_flags : Z) (client_data : Z)
  (** [EOS_Connect_Login_orig]: handle, options, client data, delegate *)
  | call_Connect_Login (handle : Z) (opts : options_arg)
      (client_data : Z) (delegate : connect_delegate)
  | call_Auth_CopyIdToken (iface account_id : Z)
  | call_Auth_IdToken_Release (token : Z)
  (** the game's completion delegate, with the result code and the client
      data of the structure it is handed *)
  | call_delegate (p : Z) (result_code client_data : Z)
  | call_MessageBoxW
  | call_Platform_Create (options : Z)
  | call_Platform_GetAuthInterface (platform : Z).

(** What the wrappers obtain from the SDK and from the game's memory. *)
Record eos_world := {
  (** [GetModuleHandleW] of the SDK library *)
  w_module : Z;
  (** [GetProcAddress] on it, by export name *)
  w_export : string -> Z;
  w_Platform_Create : Z -> Z;
  w_Platform_GetAuthInterface : Z -> Z;
  (** the original [EOS_Connect_CopyProductUserInfo]: the result and the
      pointer it leaves in [*external_account_info] *)
  w_CopyProductUserInfo : Z -> Z -> Z * Z;
  (** the instances of [EOS_Connect_ExternalAccountInfo] in the SDK's
      memory *)
  w_info : Z -> option EOS_Connect_ExternalAccountInfo;
  (** the game's [EOS_Connect_LoginOptions], by address *)
  w_options : Z -> option EOS_Connect_LoginOptions;
  (** the result code of the [k]-th [EOS_Auth_Login] and the user it
      reports *)
  w_auth_login : nat -> Z * Z;
  (** the original [EOS_Auth_CopyIdToken] for a user: the result, what it
      leaves in [*id_token] (which was null) and the [jwt] of that token *)
  w_CopyIdToken : Z -> Z * Z * Z;
  (** the result code of an [EOS_Connect_Login] made with given options *)
  w_connect_login : options_arg -> Z
}.

(** The variables of the translation unit, [g_settings], the heap and the
    log. *)
Record variables := {
  settings_vars : settings_cpp.variables;
  origs : orig_fn -> Z;
  heap : gmap Z block;
  trace : list call
}.

Definition set_settings_vars (x : settings_cpp.variables) (v : variables)
    : variables :=
  {| settings_vars := x; origs := origs v; heap := heap v;
     trace := trace v |}.

Definition set_origs (x : orig_fn -> Z) (v : variables) : variables :=
  {| settings_vars := settings_vars v; origs := x; heap := heap v;
     trace := trace v |}.

Definition set_heap (x : gmap Z block) (v : variables) : variables :=
  {| settings_vars := settings_vars v; origs := origs v; heap := x;
     trace := trace v |}.

Definition set_trace (x : list call) (v : variables) : variables :=
  {| settings_vars := settings_vars v; origs := origs v; heap := heap v;
     trace := x |}.

(** State passing with undefined behaviour, over [variables]. *)
Definition E (A : Type) : Type :=
  variables -> result (A * variables)%type.

#[export] Instance E_ret : MRet E := fun A a v => Ok (a, v).

#[export] Instance E_bind : MBind E := fun A B f m v =>
  match m v with
  | Ok (a, v') => f a v'
  | Undefined what => Undefined what
  end.

Definition get {A} (f : variables -> A) : E A := fun v => Ok (f v, v).
Definition put (f : variables -> variables) : E unit :=
  fun v => Ok (tt, f v).
Definition ub {A} (what : string) : E A := fun _ => Undefined what.

Definition log (c : call) : E unit :=
  put (fun v => set_trace (trace v ++ [c]) v).

(** A call through a function pointer variable. *)
Definition through (f : orig_fn) (c : call) : E unit :=
  o ← get origs;
  if o f =? 0 then ub "call through a null function pointer" else log c.

(** The statics of the settings. *)
Definition statics : E app_2399830_vars.globals :=
  get (fun v => settings_cpp.statics_2399830 (settings_vars v)).

Definition set_statics (g : app_2399830_vars.globals) : E unit :=
  put (fun v =>
         set_settings_vars
           (settings_cpp.set_statics_2399830 g (settings_vars v)) v).

(** *** The heap *)

Definition new (b : block) : E Z := fun v =>
  let p := base.fresh (({[ 0 ]} ∪ dom (heap v)) : gset Z) in
  Ok (p, set_heap (<[ p := b ]> (heap v)) v).

(** [delete p], [p] not null. *)
Definition delete_block (p : Z) : E unit :=
  h ← get heap;
  match h !! p with
  | Some _ => put (set_heap (delete p h))
  | None => ub "delete of a pointer that new did not return"
  end.


Definition load_ctx (p : Z) : E login_ctx :=
  h ← get heap;
  match h !! p with
  | Some (ctx_block c) => mret c
  | _ => ub "client_data does not point to a login_ctx"
  end.

Definition store_ctx (p : Z) (c : login_ctx) : E unit :=
  h ← get heap;
  match h !! p with
  | Some (ctx_block _) => put (set_heap (<[ p := ctx_block c ]> h))
  | _ => ub "client_data does not point to a login_ctx"
  end.

(** *** The account information wrappers *)



(** *** The login wrappers *)

(** [connect_login_complete]: [data] with its result code and client
    data. *)
Definition connect_login_complete (result_code data_client_data : Z)
    : E unit :=
  ctx ← load_ctx data_client_data;
  through EOS_Auth_IdToken_Release_orig
    (call_Auth_IdToken_Release (token ctx)) ;;
  (if completion_delegate ctx =? 0
   then ub "call through a null function pointer"
   else log (call_delegate (completion_delegate ctx) result_code
               (client_data ctx))) ;;
  delete_block data_client_data.

(** [auth_login_complete]: [data] with its result code, client data and
    local user. *)
Definition auth_login_complete (w : eos_world)
    (result_code data_client_data local_user_id : Z) : E unit :=
  ctx ← load_ctx data_client_data;
  iface ← get (fun v =>
                 app_2399830_vars.eos_auth_iface
                   (settings_cpp.statics_2399830 (settings_vars v)));
  if negb (result_code =? 0)
     && (ac_type (auth_creds ctx)
         =? EOS_ELoginCredentialType_persistent_auth)
  then
    (* Login failed *)
    log call_MessageBoxW ;;
    store_ctx data_client_data
      (set_auth_type EOS_ELoginCredentialType_account_portal ctx) ;;
    through EOS_Auth_Login_orig
      (call_Auth_Login iface
         (auth_creds
            (set_auth_type EOS_ELoginCredentialType_account_portal ctx))
         EOS_EAuthScopeFlags_no_flags 0 data_client_data)
  else
    ctx ←
      (if result_code =? 0 then
         (* Login succeeded *)
         through EOS_Auth_CopyIdToken_orig
           (call_Auth_CopyIdToken iface local_user_id) ;;
         let '(res, tok, jwt) := w_CopyIdToken w local_user_id in
         if res =? 0 then
           if tok =? 0 then ub "dereference of a null ctx.token"
           else
             let ctx' :=
               set_connect_creds
                 {| cc_api_version := cc_api_version (connect_creds ctx);
                    cc_token := jwt;
                    cc_type := EOS_EExternalCredentialType_epic_id_token |}
                 (set_token tok ctx) in
             store_ctx data_client_data ctx' ;;
             mret ctx'
         else
           store_ctx data_client_data (set_token tok ctx) ;;
           mret (set_token tok ctx)
       else mret ctx);
    if negb (token ctx =? 0) then
      match w_options w (options ctx) with
      | None => ub "ctx.options does not point to login options"
      | Some o =>
          through EOS_Connect_Login_orig
            (call_Connect_Login (handle ctx)
               (local_options
                  {| lo_api_version := lo_api_version o;
                     credentials := connect_creds ctx;
                     user_login_info := user_login_info o |})
               data_client_data connect_login_complete_fn)
      end
    else
      through EOS_Connect_Login_orig
        (call_Connect_Login (handle ctx) (game_options (options ctx))
           (client_data ctx) (game_delegate (completion_delegate ctx))) ;;
      delete_block data_client_data.

(** [force_egs_auth || g_settings.steam->spoof_app_id != 2399830] *)
Definition use_epic : E bool :=
  g ← statics;
  if app_2399830_vars.force_egs_auth g then mret true
  else
    o ← get (fun v => settings_cpp.steam (settings_vars v));
    match o with
    | Some o => mret (negb (settings.spoof_app_id o =? 2399830))
    | None => ub "dereference of a null g_settings.steam"
    end.

(** Wrapper for [EOS_Connect_Login]. *)
Definition EOS_Connect_Login (w : eos_world)
    (handle options client_data completion_delegate : Z) : E unit :=
  g ← statics;
  forced ← use_epic;
  if (forced : bool) then
    match w_options w options with
    | None => ub "options does not point to login options"
    | Some o =>
        ctx ← new (ctx_block
                     {| handle := handle; options := options;
                        client_data := client_data;
                        completion_delegate := completion_delegate;
                        token := 0;
                        auth_creds :=
                          {| ac_api_version := 4; ac_id := 0; ac_token := 0;
                             ac_type :=
                               EOS_ELoginCredentialType_persistent_auth;
                             system_auth_credentials_options := 0;
                             external_type :=
                               EOS_EExternalCredentialType_epic |};
                        connect_creds := credentials o |});
        through EOS_Auth_Login_orig
          (call_Auth_Login (app_2399830_vars.eos_auth_iface g)
             {| ac_api_version := 4; ac_id := 0; ac_token := 0;
                ac_type := EOS_ELoginCredentialType_persistent_auth;
                system_auth_credentials_options := 0;
                external_type := EOS_EExternalCredentialType_epic |}
             EOS_EAuthScopeFlags_no_flags 0 ctx)
    end
  else
    through EOS_Connect_Login_orig
      (call_Connect_Login handle (game_options options) client_data
         (game_delegate completion_delegate)).

(** Wrapper for [EOS_Platform_Create]: the platform handle. *)
Definition EOS_Platform_Create (w : eos_world) (options : Z) : E Z :=
  let module := w_module w in
  put (set_origs (fun f =>
         match f with
         | EOS_Auth_CopyIdToken_orig => w_export w "EOS_Auth_CopyIdToken"
         | EOS_Auth_IdToken_Release_orig =>
             w_export w "EOS_Auth_IdToken_Release"
         | EOS_Auth_Login_orig => w_export w "EOS_Auth_Login"
         | EOS_Connect_CopyProductUserInfo_orig =>
             w_export w "EOS_Connect_CopyProductUserInfo"
         | EOS_Connect_ExternalAccountInfo_Release_orig =>
             w_export w "EOS_Connect_ExternalAccountInfo_Release"
         | EOS_Connect_Login_orig => w_export w "EOS_Connect_Login"
         end)) ;;
  (if w_export w "EOS_Platform_Create" =? 0
   then ub "call through a null function pointer"
   else log (call_Platform_Create options)) ;;
  let platform := w_Platform_Create w options in
  (if w_export w "EOS_Platform_GetAuthInterface" =? 0
   then ub "call through a null function pointer"
   else log (call_Platform_GetAuthInterface platform)) ;;
  g ← statics;
  set_statics
    {| app_2399830_vars.force_egs_auth := app_2399830_vars.force_egs_auth g;
       app_2399830_vars.cf_api_wrapper := app_2399830_vars.cf_api_wrapper g;
       app_2399830_vars.steam_id_str := app_2399830_vars.steam_id_str g;
       app_2399830_vars.eos_auth_iface :=
         w_Platform_GetAuthInterface w platform |} ;;
  mret platform.

(** [steam_api_init_2399830], for the value of [steam_api::steam_id]: the
    digits go into the 21 characters of [steam_id_str] and the terminator
    right behind them. *)
Definition steam_api_init_2399830 (steam_id : Z) : E unit :=
  match charconv.to_chars 21 steam_id with
  | Some digits =>
      if Z.of_nat (String.length digits) <? 21 then
        g ← statics;
        set_statics
          {| app_2399830_vars.force_egs_auth :=
               app_2399830_vars.force_egs_auth g;
             app_2399830_vars.cf_api_wrapper :=
               app_2399830_vars.cf_api_wrapper g;
             app_2399830_vars.steam_id_str := digits;
             app_2399830_vars.eos_auth_iface :=
               app_2399830_vars.eos_auth_iface g |}
      else ub "store of the terminator behind steam_id_str"
  | None => ub "store of the terminator behind steam_id_str"
  end.

(** *** The SDK's side of a login

    The SDK completes a login by calling its delegate once, with the
    client data it was given. *)
Fixpoint serve (fuel : nat) (w : eos_world) (k : nat) (pending : call)
    : E bool :=
  match fuel with
  | O => mret false
  | S fuel =>
      match pending with
      | call_Auth_Login _ _ _ _ client_data =>
          let '(result_code, user) := w_auth_login w k in
          auth_login_complete w result_code client_data user ;;
          t ← get trace;
          from_option (serve fuel w (S k)) (ub "no call was made") (last t)
      | call_Connect_Login _ opts client_data connect_login_complete_fn =>
          connect_login_complete (w_connect_login w opts) client_data ;;
          mret true
      | call_Connect_Login _ opts client_data (game_delegate p) =>
          (if p =? 0 then ub "call through a null function pointer"
           else log (call_delegate p (w_connect_login w opts) client_data)) ;;
          mret true
      | _ => ub "not a call that the SDK completes"
      end
  end.


(** *** The wrappers as the game uses them *)

(** A login from the wrapper to its completion: the wrapper, then the
    SDK's side of the calls it leads to. *)
Definition login (w : eos_world)
    (handle options client_data completion_delegate : Z)
    : E bool :=
  EOS_Connect_Login w handle options client_data
    completion_delegate ;;
  t ← get trace;
  from_option (serve 3 w 0)
    (ub "no call was made") (last t).


End eos_2399830.

(** *** Readings of the wrappers *)

Definition is_delegate (c : eos_2399830.call) : bool :=
  match c with
  | eos_2399830.call_delegate _ _ _ => true
  | _ => false
  end.

Definition is_auth_login (c : eos_2399830.call) : bool :=
  match c with
  | eos_2399830.call_Auth_Login _ _ _ _ _ => true
  | _ => false
  end.

Definition is_token_release (c : eos_2399830.call) : bool :=
  match c with
  | eos_2399830.call_Auth_IdToken_Release _ => true
  | _ => false
  end.

(** A call of [EOS_Auth_CopyIdToken] that leaves a token. *)
Definition leaves_token (w : eos_2399830.eos_world) (c : eos_2399830.call)
    : bool :=
  match c with
  | eos_2399830.call_Auth_CopyIdToken _ user =>
      negb ((eos_2399830.w_CopyIdToken w user).1.2 =? 0)
  | _ => false
  end.


(** ** A sample SDK

    Concrete values used to run the model of the EOS wrappers. *)

Module example_eos.
Import eos_2399830.

(** The account that the sample SDK knows: an Epic one. *)
Definition account : EOS_Connect_ExternalAccountInfo :=
  {| info_api_version := 1; magic := 0; product_user_id := 77;
     display_name := 600; account_id := sdk_chars 601;
     account_id_type := 0; last_login_time := 1700000000;
     orig := 0 |}.

(** An SDK that exports everything, knows one Epic account at 500, fails
    the first [EOS_Auth_Login] and accepts the second for user 42, whose
    token it stores at 900. *)
Definition sdk : eos_world :=
  {| w_module := 8192;
     w_export := fun name => 8192 + Z.of_nat (String.length name);
     w_Platform_Create := fun _ => 300;
     w_Platform_GetAuthInterface := fun platform => platform + 1;
     w_CopyProductUserInfo := fun _ _ => (0, 500);
     w_info := fun p =>
       if p =? 500 then Some account else None;
     w_options := fun p =>
       if p =? 700 then
         Some {| lo_api_version := 2;
                 credentials :=
                   {| cc_api_version := 1; cc_token := 701; cc_type := 18 |};
                 user_login_info := 0 |}
       else None;
     w_auth_login := fun k =>
       match k with
       | O => (10, 0)
       | _ => (0, 42)
       end;
     w_CopyIdToken := fun user =>
       if user =? 42 then (0, 900, 901) else (1, 0, 0);
     w_connect_login := fun _ => 0 |}.

(** The variables after [steam_api_init_2399830] and
    [EOS_Platform_Create], for a game that runs under application 480. *)
Definition started : variables :=
  {| settings_vars :=
       settings_cpp.set_statics_2399830
         {| app_2399830_vars.force_egs_auth := false;
            app_2399830_vars.cf_api_wrapper := "";
            app_2399830_vars.steam_id_str := "76561197960287930";
            app_2399830_vars.eos_auth_iface := 301 |}
         (settings_cpp.set_steam
            (Some {| settings.app_id := 2399830;
                     settings.spoof_app_id := 480;
                     settings.dlc := [];
                     settings.installed_dlc := ∅;
                     settings.tek_sc_path := "";
                     settings.auto_update_dlc := false |})
            settings_cpp.at_start);
     origs := fun _ => 8200;
     heap := ∅;
     trace := [] |}.

End example_eos.

(** ** steam/2399830.cpp: dllmain_2399830 *)

Module app_2399830_dllmain.

Definition PAGE_READWRITE : Z := 0x04.

(** The fields of a section header that [dllmain_2399830] reads.  [Name]
    holds the eight bytes of the field; the other two are a [DWORD]
    each. *)
Record IMAGE_SECTION_HEADER := {
  sec_Name : string;
  VirtualAddress : Z;
  VirtualSize : Z
}.

(** What [dllmain_2399830] obtains from the executable and from the
    operating system, besides the import tables of [steam_api.image].
    Addresses are offsets from the base of the executable. *)
Record host := {
  (** the [NumberOfSections] headers that lie behind what
      [ImageNtHeader] returns; [None] when it returns null *)
  nt_sections : option (list IMAGE_SECTION_HEADER);
  (** so many bytes of the image at an offset; [None] when they are not
      all mapped *)
  bytes_at : Z -> Z -> option (list Z);
  (** [VirtualProtect] on an address with a size and a protection: whether
      it succeeds, and what it stores in [*lpflOldProtect], if anything *)
  h_VirtualProtect : Z -> Z -> Z -> bool * option Z;
  h_GetLastError : Z
}.

(** The wrappers whose addresses go into the import address table. *)
Inductive wrapper : Type :=
  | EOS_Connect_Login_wrapper
  | EOS_Connect_CopyProductUserInfo_wrapper
  | EOS_Connect_ExternalAccountInfo_Release_wrapper
  | EOS_Platform_Create_wrapper.

#[export] Instance wrapper_eq_dec : EqDecision wrapper.
Proof. solve_decision. Defined.

(** What the function does to the process, in order. *)
Inductive event : Type :=
  | display_error (msg : string)
  | VirtualProtect (address size protect : Z)
  (** [MultiByteToWideChar(CP_UTF8, 0, src, -1, dest, cch)] *)
  | MultiByteToWideChar (src : string) (dest cch : Z)
  (** a store to the [u1.Function] field at an address *)
  | store_Function (cell : Z) (f : wrapper).

(** [cf_api_domain] and its size in bytes. *)
Definition cf_api_domain : string := "api.curseforge.com".
Definition cf_api_domain_raw_size : Z :=
  Z.of_nat (String.length cf_api_domain) * 2.

(** The bytes of a wide string literal with characters below 256. *)
Definition wide (s : string) : list Z :=
  flat_map (fun c => [Z.of_nat (Ascii.nat_of_ascii c); 0])
    (list_ascii_of_string s).

(** [std::ranges::find(sections, ".rdata", name_of)], where [name_of]
    yields the first [section_name.length()] bytes of [Name]. *)
Fixpoint find_section (sections : list IMAGE_SECTION_HEADER)
    : option IMAGE_SECTION_HEADER :=
  match sections with
  | [] => None
  | sec :: rest =>
      if String.eqb (substring 0 6 (sec_Name sec)) ".rdata" then Some sec
      else find_section rest
  end.

Fixpoint starts_with (pattern text : list Z) : bool :=
  match pattern, text with
  | [], _ => true
  | _ :: _, [] => false
  | p :: pattern, t :: text => (p =? t) && starts_with pattern text
  end.

(** [std::string_view::find]: the first position at which the pattern
    occurs, [None] for [npos]. *)
Fixpoint find (pattern text : list Z) (pos : Z) : option Z :=
  match text with
  | [] => if starts_with pattern [] then Some pos else None
  | _ :: rest =>
      if starts_with pattern text then Some pos
      else find pattern rest (pos + 1)
  end.

(** The wrapper that replaces an import, by the name of the import. *)
Definition wrapper_for (name : string) : option wrapper :=
  if String.eqb name "EOS_Connect_Login" then
    Some EOS_Connect_Login_wrapper
  else if String.eqb name "EOS_Connect_CopyProductUserInfo" then
    Some EOS_Connect_CopyProductUserInfo_wrapper
  else if String.eqb name "EOS_Connect_ExternalAccountInfo_Release" then
    Some EOS_Connect_ExternalAccountInfo_Release_wrapper
  else if String.eqb name "EOS_Platform_Create" then
    Some EOS_Platform_Create_wrapper
  else None.

(** [std::ranges::find(delay_load_descs, "EOSSDK-Win64-Shipping.dll",
    name_of)] *)
Fixpoint find_descriptor (img : steam_api.image)
    (descs : list steam_api.IMAGE_DELAYLOAD_DESCRIPTOR)
    : result (option steam_api.IMAGE_DELAYLOAD_DESCRIPTOR) :=
  match descs with
  | [] => Ok None
  | d :: rest =>
      name ← steam_api.string_at img (steam_api.DllNameRVA d);
      if String.eqb name "EOSSDK-Win64-Shipping.dll" then Ok (Some d)
      else find_descriptor img rest
  end.

(** The loop over the import name table: it stops at the null entry and
    stores a wrapper at the position of each of the four names; [pos] is
    [std::distance(int_desc_base, int_desc)]. *)
Fixpoint wrap_thunks (img : steam_api.image) (iat : Z) (thunks : list Z)
    (pos : Z) : result (list event) :=
  match thunks with
  | [] => Undefined "thunk array without a terminating null entry"
  | AddressOfData :: rest =>
      if AddressOfData =? 0 then Ok []
      else
        name ← steam_api.string_at img
                 (AddressOfData + steam_api.offsetof_Name);
        stores ← wrap_thunks img iat rest (pos + 1);
        Ok (match wrapper_for name with
            | Some f =>
                [store_Function
                   (iat + steam_api.sizeof_IMAGE_THUNK_DATA * pos) f]
            | None => []
            end ++ stores)
  end.

(** The part of [dllmain_2399830] behind the CF API block; [done] is what
    that block did. *)
Definition wrap_eos_functions (img : steam_api.image) (done : list event)
    : result (bool * list event) :=
  (* Locate delay load descriptor for EOSSDK-Win64-Shipping.dll *)
  match steam_api.delay_import_directory img with
  | None => Ok (false, done ++ [display_error "Delay load descriptor not found"])
  | Some (dir_size, delay_load_desc_base) =>
      delay_load_descs ←
        steam_api.span dir_size steam_api.sizeof_IMAGE_DELAYLOAD_DESCRIPTOR
          delay_load_desc_base;
      delay_desc ← find_descriptor img delay_load_descs;
      match delay_desc with
      | None =>
          Ok (false,
              done ++ [display_error
                         "Delay load descriptor for EOSSDK-Win64-Shipping.dll not found"])
      | Some d =>
          (* Wrap EOS SDK functions *)
          int ← steam_api.thunk_array img (steam_api.ImportNameTableRVA d);
          stores ← wrap_thunks img (steam_api.ImportAddressTableRVA d) int 0;
          Ok (true, done ++ stores)
      end
  end.

(** [dllmain_2399830]: its result and what it did.  The text that
    [MultiByteToWideChar] stores is not read again here; the import tables
    are taken to lie elsewhere. *)
Definition dllmain_2399830 (h : host) (img : steam_api.image)
    (g : app_2399830_vars.globals) : result (bool * list event) :=
  let cf_api_wrapper := app_2399830_vars.cf_api_wrapper g in
  if negb (String.eqb cf_api_wrapper "") then
    let too_long :=
      if Z.of_nat (String.length cf_api_domain)
         <? Z.of_nat (String.length cf_api_wrapper)
      then [display_error
              ("The length of cf_api_wrapper string cannot exceed the number of characters in "
               +:+ settings_cpp.quote +:+ cf_api_domain
               +:+ settings_cpp.quote)]
      else [] in
    match nt_sections h with
    | None => Undefined "dereference of a null NT header"
    | Some sections =>
        match find_section sections with
        | None =>
            Ok (false,
                too_long
                ++ [display_error
                      "Unable to apply CF API wrapper: .rdata section not found in the executable"])
        | Some rdata =>
            match bytes_at h (VirtualAddress rdata) (VirtualSize rdata) with
            | None => Undefined "read outside the mapped image"
            | Some text =>
                match find (wide cf_api_domain) text 0 with
                | None =>
                    Ok (false,
                        too_long
                        ++ [display_error
                              ("Unable to apply CF API wrapper: The string "
                               +:+ settings_cpp.quote +:+ cf_api_domain
                               +:+ settings_cpp.quote
                               +:+ " is not found in .rdata")])
                | Some idx =>
                    let str := VirtualAddress rdata + idx in
                    let '(ok, prev_protect) :=
                      h_VirtualProtect h str cf_api_domain_raw_size
                        PAGE_READWRITE in
                    let failed :=
                      if ok then []
                      else [display_error
                              ("Unable to apply CF API wrapper: VirtualProtect call failed with error code "
                               +:+ pretty (h_GetLastError h))] in
                    match prev_protect with
                    | None => Undefined "read of an uninitialised prev_protect"
                    | Some prev_protect =>
                        wrap_eos_functions img
                          (too_long
                           ++ [VirtualProtect str cf_api_domain_raw_size
                                 PAGE_READWRITE]
                           ++ failed
                           ++ [MultiByteToWideChar cf_api_wrapper str
                                 (Z.of_nat (String.length cf_api_domain) + 1);
                               VirtualProtect str cf_api_domain_raw_size
                                 prev_protect])
                    end
                end
            end
        end
    end
  else wrap_eos_functions img [].

End app_2399830_dllmain.

(** ** main.cpp *)

Module main_cpp.

Definition DLL_PROCESS_DETACH : Z := 0.
Definition DLL_PROCESS_ATTACH : Z := 1.

(** The variables of the library, the import tables of the executable, and
    what [dllmain_2399830] did. *)
Record process := {
  vars : steamclient_cpp.variables;
  image : steam_api.image;
  events : list app_2399830_dllmain.event
}.

(** [get_dllmain_cb] of game_cbs.hpp, applied; [store] is always
    [store_type::steam]. *)
Definition dllmain_cb (h : app_2399830_dllmain.host) (img : steam_api.image)
    (st : settings_cpp.variables)
    : result (bool * list app_2399830_dllmain.event) :=
  match settings_cpp.steam st with
  | None => Undefined "dereference of a null g_settings.steam"
  | Some o =>
      if settings.app_id o =? 2399830 then
        app_2399830_dllmain.dllmain_2399830 h img
          (settings_cpp.statics_2399830 st)
      else Ok (true, [])
  end.

(** [DllMain] for a [reason]. *)
Definition DllMain (w : settings_cpp.settings_world)
    (h : app_2399830_dllmain.host) (reason : Z) (p : process)
    : result (bool * process) :=
  if reason =? DLL_PROCESS_ATTACH then
    let '(loaded, st) :=
      settings_cpp.load w (steamclient_cpp.settings_vars (vars p)) in
    let v := steamclient_cpp.set_settings_vars st (vars p) in
    if negb loaded then
      Ok (false, {| vars := v; image := image p; events := events p |})
    else
      '(ok, did) ← dllmain_cb h (image p) st;
      if negb ok then
        Ok (false,
            {| vars := v; image := image p; events := events p ++ did |})
      else
        img ← steam_api.wrap_init (image p);
        Ok (true, {| vars := v; image := img; events := events p ++ did |})
  else if reason =? DLL_PROCESS_DETACH then
    match steamclient_cpp.unload (vars p) with
    | Ok (_, v) =>
        Ok (true, {| vars := v; image := image p; events := events p |})
    | Undefined what => Undefined what
    end
  else Ok (true, p).

End main_cpp.

(** *** Readings of the events *)

Definition is_store (e : app_2399830_dllmain.event) : bool :=
  match e with
  | app_2399830_dllmain.store_Function _ _ => true
  | _ => false
  end.

Definition is_display_error (e : app_2399830_dllmain.event) : bool :=
  match e with
  | app_2399830_dllmain.display_error _ => true
  | _ => false
  end.

(** ** A sample executable

    Concrete values used to run the model of [dllmain_2399830] and
    [DllMain]. *)

Module example_dllmain.
Import app_2399830_dllmain.

Definition nul : string := String (Ascii.ascii_of_nat 0) "".

(** An executable that delay-loads the EOS SDK with three imports by name,
    behind a descriptor for another library. *)
Definition exe : steam_api.image :=
  {| steam_api.import_directory := None;
     steam_api.delay_import_directory :=
       Some (96,
             [ {| steam_api.DllNameRVA := 0x5020;
                  steam_api.ImportAddressTableRVA := 0x7100;
                  steam_api.ImportNameTableRVA := 0x6100 |};
               {| steam_api.DllNameRVA := 0x5000;
                  steam_api.ImportAddressTableRVA := 0x7000;
                  steam_api.ImportNameTableRVA := 0x6000 |};
               {| steam_api.DllNameRVA := 0;
                  steam_api.ImportAddressTableRVA := 0;
                  steam_api.ImportNameTableRVA := 0 |} ]);
     steam_api.strings_at :=
       list_to_map
         [ (0x5000, "EOSSDK-Win64-Shipping.dll");
           (0x5020, "steam_api64.dll");
           (0x5102, "EOS_Platform_Create");
           (0x5202, "EOS_Initialize");
           (0x5302, "EOS_Connect_Login");
           (0x5402, "SteamAPI_Init") ];
     steam_api.thunks_at :=
       list_to_map
         [ (0x6000, [0x5100; 0x5200; 0x5300; 0]); (0x6100, [0x5400; 0]) ];
     steam_api.cells := list_to_map [ (0x7100, fn_vendor 0x12000) ] |}.

(** Its sections; the read-only data hold the domain at offset 4. *)
Definition sections_and_memory : host :=
  {| nt_sections :=
       Some [ {| sec_Name := ".text" +:+ nul +:+ nul +:+ nul;
                 VirtualAddress := 0x1000; VirtualSize := 0x800 |};
              {| sec_Name := ".rdata" +:+ nul +:+ nul;
                 VirtualAddress := 0x2000; VirtualSize := 44 |} ];
     bytes_at := fun address size =>
       if (address =? 0x2000) && (size =? 44) then
         Some ([1; 2; 3; 4] ++ wide cf_api_domain ++ [0; 0; 9; 9])
       else None;
     h_VirtualProtect := fun _ _ _ => (true, Some 2);
     h_GetLastError := 0 |}.

(** The statics of steam/2399830.cpp with a wrapper domain set. *)
Definition statics : app_2399830_vars.globals :=
  {| app_2399830_vars.force_egs_auth := false;
     app_2399830_vars.cf_api_wrapper := "cf.example.org";
     app_2399830_vars.steam_id_str := "";
     app_2399830_vars.eos_auth_iface := 0 |}.

(** A settings document for application 2399830. *)
Definition document : json.value :=
  json.JObject
    [ ("store", json.JString "steam");
      ("app_id", json.JInteger 2399830);
      ("cf_api_wrapper", json.JString "cf.example.org") ].

(** The process when the library is mapped. *)
Definition at_start : main_cpp.process :=
  {| main_cpp.vars := steamclient_cpp.at_start settings_cpp.at_start;
     main_cpp.image := exe;
     main_cpp.events := [] |}.

(** The process after [DllMain] has run for [DLL_PROCESS_ATTACH], with
    [document] in the default settings file. *)
Definition attached : main_cpp.process :=
  match main_cpp.DllMain (example_settings.by_file document)
          sections_and_memory main_cpp.DLL_PROCESS_ATTACH at_start with
  | Ok (_, p) => p
  | Undefined _ => at_start
  end.

End example_dllmain.

(** ** steam/346110.cpp: the server rules wrappers *)

Module server_rules.
Import app_346110_vars.

(** An instance of [rules_response_wrapper]; [query] holds nothing until it
    is assigned. *)
Record rules_response_wrapper := {
  base : Z;
  query : option Z
}.

(** Calls into Steam and into the game's response handler. *)
Inductive call : Type :=
  (** the original [ServerRules]: callee, interface, address, port and the
      response handler it is given *)
  | call_ServerRules (callee iface ip port response_handler : Z)
  (** the original [CancelServerQuery]: callee, interface, query *)
  | call_CancelServerQuery (callee iface query : Z)
  | base_RulesResponded (base : Z) (key value : string)
  | base_RulesFailedToRespond (base : Z)
  | base_RulesRefreshComplete (base : Z).

(** [g_settings] and the statics of the file,
    [steam_api::ISteamMatchmakingServers_desc.iface], the wrappers on the
    heap and the log. *)
Record variables := {
  settings_vars : settings_cpp.variables;
  servers_iface : Z;
  heap : gmap Z rules_response_wrapper;
  trace : list call
}.

Definition set_heap (x : gmap Z rules_response_wrapper) (v : variables)
    : variables :=
  {| settings_vars := settings_vars v; servers_iface := servers_iface v;
     heap := x; trace := trace v |}.

Definition set_trace (x : list call) (v : variables) : variables :=
  {| settings_vars := settings_vars v; servers_iface := servers_iface v;
     heap := heap v; trace := x |}.

(** State passing with undefined behaviour, over [variables]. *)
Definition R (A : Type) : Type :=
  variables -> result (A * variables)%type.

#[export] Instance R_ret : MRet R := fun A a v => Ok (a, v).

#[export] Instance R_bind : MBind R := fun A B f m v =>
  match m v with
  | Ok (a, v') => f a v'
  | Undefined what => Undefined what
  end.

Definition get {A} (f : variables -> A) : R A := fun v => Ok (f v, v).
Definition put (f : variables -> variables) : R unit :=
  fun v => Ok (tt, f v).
Definition ub {A} (what : string) : R A := fun _ => Undefined what.

Definition log (c : call) : R unit :=
  put (fun v => set_trace (trace v ++ [c]) v).

(** A call of a foreign method through a captured pointer. *)
Definition through (f : fnptr) (c : Z -> call) : R unit :=
  match f with
  | fn_vendor callee => log (c callee)
  | fn_null => ub "call through a null function pointer"
  | fn_wrapper _ => ub "re-entrant call of an interception function"
  end.

(** A call of a virtual method of the game's handler. *)
Definition to_base (base : Z) (c : Z -> call) : R unit :=
  if base =? 0 then ub "call through a null handler" else log (c base).

Definition new (w : rules_response_wrapper) : R Z := fun v =>
  let p := base.fresh (({[ 0 ]} ∪ dom (heap v)) : gset Z) in
  Ok (p, set_heap (<[ p := w ]> (heap v)) v).

(** [*this] *)
Definition load (this : Z) : R rules_response_wrapper :=
  h ← get heap;
  match h !! this with
  | Some w => mret w
  | None => ub "use of a rules_response_wrapper that is not alive"
  end.

(** [delete this] *)
Definition delete_this (this : Z) : R unit :=
  h ← get heap;
  match h !! this with
  | Some _ => put (set_heap (delete this h))
  | None => ub "delete of a pointer that new did not return"
  end.

(** The condition of [RulesResponded], with its short-circuit
    evaluation. *)
Definition hide (key value : string) : R bool :=
  g ← get (fun v => settings_cpp.statics_346110 (settings_vars v));
  if negb (show_be_servers g) && String.eqb key "SERVERUSESBATTLEYE_b"
     && negb (String.eqb value "false")
  then mret true
  else if negb (show_unavailable_servers g) then
    o ← get (fun v => settings_cpp.steam (settings_vars v));
    match o with
    | None => ub "dereference of a null g_settings.steam"
    | Some o =>
        mret (negb (settings.spoof_app_id o =? 346110)
              && String.eqb key "SEARCHKEYWORDS_s"
              && negb (String.prefix "TEKWrapper" value))
    end
  else mret false.

(** [rules_response_wrapper::RulesResponded] *)
Definition RulesResponded (this : Z) (key value : string) : R unit :=
  w ← load this;
  hidden ← hide key value;
  if (hidden : bool) then
    g ← get (fun v => settings_cpp.statics_346110 (settings_vars v));
    iface ← get servers_iface;
    match query w with
    | None => ub "read of an uninitialised query"
    | Some q =>
        through (SteamMatchmakingServers_CancelServerQuery_orig g)
          (fun callee => call_CancelServerQuery callee iface q) ;;
        to_base (base w) base_RulesFailedToRespond ;;
        delete_this this
    end
  else to_base (base w) (fun b => base_RulesResponded b key value).

(** [rules_response_wrapper::RulesFailedToRespond] *)
Definition RulesFailedToRespond (this : Z) : R unit :=
  w ← load this;
  to_base (base w) base_RulesFailedToRespond ;;
  delete_this this.

(** [rules_response_wrapper::RulesRefreshComplete] *)
Definition RulesRefreshComplete (this : Z) : R unit :=
  w ← load this;
  to_base (base w) base_RulesRefreshComplete ;;
  delete_this this.

(** Wrapper for [ISteamMatchmakingServers::ServerRules]; [handle] is what
    the original method returns.  Steam calls the handler later, not from
    inside the original method. *)
Definition SteamMatchmakingServers_ServerRules (handle : Z)
    (iface ip port response_handler : Z) : R Z :=
  wrapper ← new {| base := response_handler; query := None |};
  g ← get (fun v => settings_cpp.statics_346110 (settings_vars v));
  through (SteamMatchmakingServers_ServerRules_orig g)
    (fun callee => call_ServerRules callee iface ip port wrapper) ;;
  w ← load wrapper;
  put (fun v =>
         set_heap (<[ wrapper := {| base := base w; query := Some handle |} ]>
                     (heap v)) v) ;;
  mret handle.

(** *** Steam's side of a query

    Steam hands the rules of the server to the handler one by one and then
    ends the query with [RulesRefreshComplete] or [RulesFailedToRespond];
    after [CancelServerQuery] for the query it calls nothing more. *)

Definition is_cancel (q : Z) (c : call) : bool :=
  match c with
  | call_CancelServerQuery _ _ q' => q' =? q
  | _ => false
  end.

Fixpoint respond (this q : Z) (rules : list (string * string))
    (complete : bool) : R unit :=
  match rules with
  | [] =>
      if complete then RulesRefreshComplete this
      else RulesFailedToRespond this
  | (key, value) :: rest =>
      before ← get (fun v => length (trace v));
      RulesResponded this key value ;;
      t ← get trace;
      if existsb (is_cancel q) (drop before t) then mret tt
      else respond this q rest complete
  end.

(** A query from the wrapper to its end: the wrapper, then Steam's side
    for the handler that the original method was given. *)
Definition query_rules (handle : Z) (iface ip port response_handler : Z)
    (rules : list (string * string)) (complete : bool) : R Z :=
  q ← SteamMatchmakingServers_ServerRules handle iface ip port
        response_handler;
  t ← get trace;
  match last t with
  | Some (call_ServerRules _ _ _ _ this) =>
      respond this q rules complete ;; mret q
  | _ => ub "no query was made"
  end.

End server_rules.

(** *** Readings of the rules *)

(** A rule that makes [RulesResponded] give the server up. *)
Definition hidden_rule (g : app_346110_vars.globals)
    (o : settings.steam_options) (rule : string * string) : bool :=
  (negb (app_346110_vars.show_be_servers g)
   && String.eqb rule.1 "SERVERUSESBATTLEYE_b"
   && negb (String.eqb rule.2 "false"))
  || (negb (app_346110_vars.show_unavailable_servers g)
      && negb (settings.spoof_app_id o =? 346110)
      && String.eqb rule.1 "SEARCHKEYWORDS_s"
      && negb (String.prefix "TEKWrapper" rule.2)).

(** ** Sample rules *)

Module example_rules.
Import server_rules.

(** The variables of a process that runs under application 480 with the
    default settings of the game, after [steam_api_init_346110]. *)
Definition started : variables :=
  {| settings_vars :=
       settings_cpp.set_statics_346110
         {| app_346110_vars.show_be_servers := false;
            app_346110_vars.show_unavailable_servers := false;
            app_346110_vars.ws_dir_path := "";
            app_346110_vars.ws_am_path := "";
            app_346110_vars.unavailable_dlc := [];
            app_346110_vars.mods := [];
            app_346110_vars.ws_descs := ∅;
            app_346110_vars.SteamMatchmakingServers_CancelServerQuery_orig :=
              fn_vendor 0x9100;
            app_346110_vars
              .SteamMatchmakingServers_RequestInternetServerList_orig :=
              fn_vendor 0x9200;
            app_346110_vars.SteamMatchmakingServers_ServerRules_orig :=
              fn_vendor 0x9300;
            app_346110_vars.SteamUtils_IsAPICallCompleted_orig :=
              fn_vendor 0x9400;
            app_346110_vars.SteamUtils_GetAPICallResult_orig :=
              fn_vendor 0x9500 |}
         (settings_cpp.set_steam
            (Some {| settings.app_id := 346110;
                     settings.spoof_app_id := 480;
                     settings.dlc := [];
                     settings.installed_dlc := ∅;
                     settings.tek_sc_path := "";
                     settings.auto_update_dlc := false |})
            settings_cpp.at_start);
     servers_iface := 0x8000;
     heap := ∅;
     trace := [] |}.

(** The rules of a server without the wrapper, which uses BattlEye. *)
Definition rules : list (string * string) :=
  [ ("MapName_s", "TheIsland");
    ("SERVERUSESBATTLEYE_b", "true");
    ("SEARCHKEYWORDS_s", "Custom") ].

End example_rules.
(** * Properties *)

(** ** Shape resolution (C1) *)

Section shape_resolution.

(** The scan of the specification and the [matches] relation agree, so a
    version is matched by at most one record. *)
Lemma resolve_matches table version r :
  resolve table version = Some r <-> matches version table r.
Proof.
  induction table as [|r0 rest IH]; simpl.
  - split; [discriminate | inversion 1].
  - destruct (Z.leb_spec (min_version r0) version) as [Hle|Hlt].
    + split.
      * intros [= <-]. by constructor.
      * inversion 1; subst; [done | lia].
    + rewrite IH. split.
      * intros Hm. by constructor.
      * inversion 1; subst; [lia | done].
Qed.

Lemma matches_unique table version r1 r2 :
  matches version table r1 -> matches version table r2 -> r1 = r2.
Proof.
  rewrite <- !resolve_matches. congruence.
Qed.

(** A table whose last record has threshold 0 resolves every unsigned
    version. *)
Lemma resolve_total table last version :
  min_version last = 0 -> 0 <= version ->
  is_Some (resolve (table ++ [last]) version).
Proof.
  intros H0 Hv. induction table as [|r0 rest IH]; simpl.
  - rewrite H0. destruct (Z.leb_spec 0 version); [eauto | lia].
  - destruct (min_version r0 <=? version); eauto.
Qed.

(** Each if-else chain of [SteamAPI_Init] is the scan of its table. *)
Lemma shape_of_resolve X ver :
  0 <= ver -> resolve (table_of X) ver = Some
    {| min_version := default 0 (min_version <$> resolve (table_of X) ver);
       record_shape := shape_of X ver |}.
Proof.
  intros Hv.
  destruct X; cbn [table_of shape_of];
    unfold ISteamApps_shape, ISteamMatchmaking_shape,
      ISteamMatchmakingServers_shape, ISteamUGC_shape, ISteamUser_shape,
      ISteamUtils_shape, ISteamApps_table, ISteamMatchmaking_table,
      ISteamMatchmakingServers_table, ISteamUGC_table, ISteamUser_table,
      ISteamUtils_table;
    cbn [resolve min_version record_shape];
    rewrite ?Z.geb_leb;
    repeat (match goal with
            | |- context [?c <=? ver] =>
                destruct (Z.leb_spec c ver); [reflexivity|]
            end);
    lia.
Qed.

End shape_resolution.

(** C1 (as amended).  Shape resolution is total and unique: for every
    interface and every 64-bit version word exactly one record of the
    interface's table matches, the scan of the specification returns it, and
    the if-else chain of [SteamAPI_Init] selects its shape.  For ISteamApps,
    version 0x0003002A003D0042 resolves to the 33-method shape, version
    0x0001000000000000 resolves to the 14-method shape, and the 8-method
    catch-all is selected exactly below 0x0000006000210030. *)
Theorem shape_resolution_total_unique :
  (forall X ver, 0 <= ver <= cxx.UINT64_MAX ->
     exists r,
       matches ver (table_of X) r /\
       (forall r', matches ver (table_of X) r' -> r' = r) /\
       resolve (table_of X) ver = Some r /\
       shape_of X ver = record_shape r) /\
  shape_num_methods (ISteamApps_shape 0x0003002A003D0042) = 33 /\
  shape_num_methods (ISteamApps_shape 0x0001000000000000) = 14 /\
  (forall ver, 0 <= ver <= cxx.UINT64_MAX ->
     shape_num_methods (ISteamApps_shape ver) = 8 <->
     ver < 0x0000006000210030).
Proof.
  split; [|split; [reflexivity|split; [reflexivity|]]].
  - intros X ver [Hv _].
    pose proof (shape_of_resolve X ver Hv) as Hr.
    eexists. split; [apply resolve_matches, Hr|].
    split; [|split; [exact Hr|reflexivity]].
    intros r' Hr'. apply resolve_matches in Hr'. congruence.
  - intros ver [Hv _]. unfold ISteamApps_shape. rewrite ?Z.geb_leb.
    repeat (match goal with
            | |- context [?c <=? ver] => destruct (Z.leb_spec c ver)
            end); cbn [shape_num_methods]; split; intros; lia.
Qed.

(** The theorem at ISteamUGC and version 02.19.34.93. *)
Lemma shape_resolution_total_unique_witness :
  exists r,
    matches 0x000200130022005D (table_of ISteamUGC) r /\
    (forall r', matches 0x000200130022005D (table_of ISteamUGC) r' -> r' = r) /\
    resolve (table_of ISteamUGC) 0x000200130022005D = Some r /\
    shape_of ISteamUGC 0x000200130022005D = record_shape r.
Proof.
  apply (proj1 shape_resolution_total_unique ISteamUGC 0x000200130022005D).
  unfold cxx.UINT64_MAX. lia.
Defined.

(** C1 as stated fails: version 0x0001000000000000 is not below every
    non-zero threshold of the ISteamApps ladder, so it does not reach the
    8-method catch-all. *)
Lemma ISteamApps_catch_all_counterexample :
  shape_num_methods (ISteamApps_shape 0x0001000000000000) <> 8.
Proof. vm_compute. discriminate. Qed.

(** ** Reasoning about the monad *)

Section monad_facts.

Lemma run_bind {A B} (m : M A) (f : A -> M B) s :
  (m ≫= f) s =
    match m s with
    | Ok (a, s') => f a s'
    | Undefined e => Undefined e
    end.
Proof. reflexivity. Qed.

Lemma bind_Ok {A B} (m : M A) (f : A -> M B) s b s' :
  (m ≫= f) s = Ok (b, s') <->
  exists a s1, m s = Ok (a, s1) /\ f a s1 = Ok (b, s').
Proof.
  rewrite run_bind. split.
  - destruct (m s) as [[a s1]|e]; [eauto | discriminate].
  - intros (a & s1 & -> & H). exact H.
Qed.

Lemma run_ret {A} (a : A) s : (mret a : M A) s = Ok (a, s).
Proof. reflexivity. Qed.

Lemma run_gets {A} (f : state -> A) s : gets f s = Ok (f s, s).
Proof. reflexivity. Qed.

Lemma run_modify f s : modify f s = Ok (tt, f s).
Proof. reflexivity. Qed.

Lemma defined_Ok {A} what (o : option A) s a s' :
  defined what o s = Ok (a, s') <-> o = Some a /\ s' = s.
Proof.
  destruct o; simpl; split.
  - intros [= -> ->]. done.
  - intros [[= ->] ->]. done.
  - discriminate.
  - intros [? _]. discriminate.
Qed.

End monad_facts.

(** Break a successful run of a sequence into its steps. *)
Ltac inv_run H :=
  repeat match type of H with
  | (_ ≫= _) _ = Ok _ =>
      let a := fresh "a" in let s := fresh "s" in
      let H1 := fresh "Hstep" in
      apply bind_Ok in H; destruct H as (a & s & H1 & H)
  end.

(** *** Frame rules: a projection of the state that a computation leaves
    alone *)

Definition preserves {A B} (f : state -> B) (m : M A) : Prop :=
  forall s a s', m s = Ok (a, s') -> f s' = f s.

Section frame_rules.
Context {B : Type} (f : state -> B).

Lemma preserves_ret {A} (a : A) : preserves f (mret a).
Proof. intros s a' s' [= _ ->]. done. Qed.

Lemma preserves_bind {A C} (m : M A) (k : A -> M C) :
  preserves f m -> (forall a, preserves f (k a)) -> preserves f (m ≫= k).
Proof.
  intros Hm Hk s c s' (a & s1 & H1 & H2)%bind_Ok.
  rewrite (Hk _ _ _ _ H2). eauto.
Qed.

Lemma preserves_gets {A} (g : state -> A) : preserves f (gets g).
Proof. intros s a s' [= _ ->]. done. Qed.

Lemma preserves_modify g :
  (forall s, f (g s) = f s) -> preserves f (modify g).
Proof. intros Hg s a s' [= _ <-]. apply Hg. Qed.

Lemma preserves_undefined {A} what : preserves f (undefined what : M A).
Proof. intros s a s'. discriminate. Qed.

Lemma preserves_defined {A} what (o : option A) :
  preserves f (defined what o).
Proof. intros s a s' [_ ->]%defined_Ok. done. Qed.

Lemma preserves_for_each {A} (l : list A) body :
  (forall x, preserves f (body x)) -> preserves f (for_each l body).
Proof.
  intros Hb. induction l as [|x l IH]; simpl.
  - apply preserves_ret.
  - apply preserves_bind; auto.
Qed.

End frame_rules.

(** The definitions a frame proof may look through. *)
Create HintDb steam_unfold discriminated.
#[global] Hint Unfold
  update_desc display_error SetEnvironmentVariableW load_vtable store_vtable
  load_table load_vm_idx store_vm_idx store_vtable_entry load_orig_entry
  call_vendor_bool vm_idxs_identity select_shape copy_n shadow install
  install_if_available original
  steamclient.load steamclient.update_dlc steamclient.install_workshop_item
  app_346110.try_emplace app_346110.SteamUGC_SubscribeItem
  app_346110.steam_api_init_346110 app_2399830.steam_api_init_2399830
  steam_api.SteamAPI_Init_orig steam_api.call_export
  steam_api.obtain_interface_pointers steam_api.setup_interface_wrappers
  steam_api.get_steam_id steam_api.setup_common_wrappers steam_api.setup
  : steam_unfold.

(** One step of a frame proof: a structural rule, a case split on the
    scrutinee of a conditional, or the unfolding of a program definition.
    [side] discharges the side condition of [modify]. *)
Ltac frame_step side :=
  lazymatch goal with
  | |- preserves _ (mret _) => apply preserves_ret
  | |- preserves _ (mbind _ _) => apply preserves_bind; [|intros ?]
  | |- preserves _ (gets _) => apply preserves_gets
  | |- preserves _ (modify _) => apply preserves_modify; intros ?; side
  | |- preserves _ (undefined _) => apply preserves_undefined
  | |- preserves _ (defined _ _) => apply preserves_defined
  | |- preserves _ (for_each _ _) => apply preserves_for_each; intros ?
  | |- preserves _ (let _ := _ in _) => cbv zeta
  | |- preserves _ (if ?b then _ else _) => destruct b
  | |- preserves _ (match ?x with _ => _ end) => destruct x
  | |- preserves _ _ => progress autounfold with steam_unfold
  end.

Ltac frame side := repeat frame_step side.

(** ** The init wrapper: what it does to [spoof_app_id] (C9) and how it
    fails closed (C6) *)

Section init_wrapper.
Import steam_api.
Context (w : world).

(** The game callbacks store into descriptors and into their own
    variables; a projection that both leave alone is left alone by the
    dispatch through [get_steam_api_init_cb]. *)
Lemma preserves_game_specific_setup {B} (f : state -> B) :
  preserves f (app_346110.steam_api_init_346110 w) ->
  preserves f app_2399830.steam_api_init_2399830 ->
  preserves f (game_specific_setup w).
Proof.
  intros H1 H2 s a s' (cb & s1 & [= <- <-] & Hcb)%bind_Ok.
  unfold get_steam_api_init_cb in Hcb. cbv zeta in Hcb.
  repeat case_match; simplify_eq;
    first [by eapply H1 | by eapply H2 | by eapply (preserves_ret f tt)].
Qed.

Lemma steam_api_init_346110_preserves_spoof :
  preserves spoof (app_346110.steam_api_init_346110 w).
Proof. frame ltac:(reflexivity). Qed.

Lemma setup_preserves_spoof v : preserves spoof (setup w v).
Proof.
  unfold setup.
  repeat first
    [ apply preserves_game_specific_setup;
        [apply steam_api_init_346110_preserves_spoof|]
    | frame_step ltac:(reflexivity) ].
Qed.

End init_wrapper.

(** Unfold the first lines of [SteamAPI_Init] down to the world's answers,
    splitting on every answer. *)
Ltac init_simpl H :=
  cbn [init_calls environment g_settings with_environment with_init_calls
       with_settings with_messages with_ver negb] in H;
  rewrite ?lookup_insert_eq in H.

Ltac init_cases H :=
  unfold steam_api.SteamAPI_Init, steam_api.SteamAPI_Init_orig,
    SetEnvironmentVariableW, display_error in H;
  cbv [mbind M_bind mret M_ret gets modify] in H;
  init_simpl H;
  repeat (match type of H with
          | context [if ?c then _ else _] => destruct c eqn:?
          | context [match steam_api.probe_version ?w with _ => _ end] =>
              destruct (steam_api.probe_version w) eqn:?
          end; init_simpl H).

Section init_wrapper_head.
Import steam_api.
Context (w : world).

(** Where a run of the wrapper ends, [spoof_app_id] holds the value chosen
    by the first lines; the wrapper reports success only if the real
    initialisation succeeded. *)
Lemma SteamAPI_Init_spoof s b s' :
  SteamAPI_Init w s = Ok (b, s') ->
  spoof s' = spoof_after_init w s /\
  (b = true -> real_init_succeeds w s = true).
Proof.
  intros H.
  unfold spoof_after_init, real_init_succeeds, first_attempt,
    fallback_attempt, spoof.
  init_cases H;
    try (apply setup_preserves_spoof in H; unfold spoof in H; cbn in H);
    try (injection H as <- <-); cbn;
    repeat match goal with
           | E : (_ =? 0) = true |- _ => apply Z.eqb_eq in E
           | E : negb _ = false |- _ =>
               apply negb_false_iff in E; rewrite ?E
           | E : negb _ = true |- _ =>
               apply negb_true_iff in E; rewrite ?E
           end;
    split; first [done | congruence].
Qed.

End init_wrapper_head.

(** C9 (as amended).  The init wrapper's effect on [spoof_app_id]: a nonzero
    value is never modified; a zero value becomes [app_id] when the first
    real initialisation succeeds, and 480 when the first fails and the
    fallback succeeds; hence after a successful run it is nonzero whenever
    [app_id] is nonzero; and after a run in which the real initialisation
    failed at every attempt it is unchanged (and the run reports failure). *)
Theorem SteamAPI_Init_spoof_app_id (w : world) (s s' : state) (b : bool) :
  steam_api.SteamAPI_Init w s = Ok (b, s') ->
  (spoof s <> 0 -> spoof s' = spoof s) /\
  (spoof s = 0 -> first_attempt w s = true ->
     spoof s' = settings.app_id (g_settings s)) /\
  (spoof s = 0 -> first_attempt w s = false -> fallback_attempt w s = true ->
     spoof s' = 480) /\
  (b = true -> settings.app_id (g_settings s) <> 0 -> spoof s' <> 0) /\
  (real_init_succeeds w s = false -> b = false /\ spoof s' = spoof s).
Proof.
  intros [Hs Hb]%SteamAPI_Init_spoof.
  unfold real_init_succeeds in *. unfold spoof_after_init in Hs.
  destruct (Z.eqb_spec (spoof s) 0) as [Hz|Hnz];
    destruct (first_attempt w s); destruct (fallback_attempt w s);
    cbn [andb orb] in *; rewrite Hs;
    repeat split; intros; try done; try lia;
    destruct b; try done; try (by specialize (Hb eq_refl)).
Qed.

(** The theorem on a run that falls back to 480. *)
Lemma SteamAPI_Init_spoof_app_id_witness :
  let w := example.library (fun k => bool_decide (k = 1%nat)) 1 0x00030000 0 in
  let s := example.process 1234 0 in
  let s' := example.final (steam_api.SteamAPI_Init w s) s in
  steam_api.SteamAPI_Init w s = Ok (true, s') /\
  spoof s' = 480.
Proof.
  intros w s s'.
  assert (H : steam_api.SteamAPI_Init w s = Ok (true, s'))
    by (vm_compute; reflexivity).
  split; [exact H|].
  apply (SteamAPI_Init_spoof_app_id w s s' true H); reflexivity.
Defined.

(** C9 as stated fails in its last part: a run that initialises the real
    API and then finds no version resource reports failure, yet leaves
    [spoof_app_id] changed from 0 to [app_id]. *)
Lemma SteamAPI_Init_failed_run_counterexample :
  let w := example.library (fun _ => true) 0 0x00030000 0 in
  let s := example.process 1234 0 in
  exists s',
    steam_api.SteamAPI_Init w s = Ok (false, s') /\ spoof s' <> spoof s.
Proof.
  intros w s. eexists. split.
  - vm_compute. reflexivity.
  - vm_compute. discriminate.
Qed.

(** C6.  Bootstrap fails closed on version problems: if the version
    resource cannot be read (no resource, no version block, or a failed
    query), or the probed version exceeds the highest supported one, the
    init wrapper returns [false], no descriptor is changed (no shadow table is
    set up), no instance's table pointer is changed, and no foreign table is
    written. *)
Theorem SteamAPI_Init_fails_closed (w : world) (s : state) :
  w_FindResourceW w = 0 \/
  w_LoadResource w (w_FindResourceW w) = 0 \/
  w_LockResource w (w_LoadResource w (w_FindResourceW w)) = 0 \/
  w_VerQueryValueW w
    (w_LockResource w (w_LoadResource w (w_FindResourceW w))) = None \/
  (exists v, steam_api.probe_version w = Some v /\
             v > steam_api.max_supported_ver) ->
  exists s',
    steam_api.SteamAPI_Init w s = Ok (false, s') /\
    steam_api_descs s' = steam_api_descs s /\
    cpp_objects s' = cpp_objects s /\
    vendor_mem s' = vendor_mem s.
Proof.
  intros Hfail.
  assert (Hprobe : steam_api.probe_version w = None \/
                   exists v, steam_api.probe_version w = Some v /\
                             (v >? steam_api.max_supported_ver) = true).
  { destruct Hfail as [H|[H|[H|[H|(v & Hv & Hgt)]]]];
      [left; unfold steam_api.probe_version; cbv zeta;
       rewrite H, ?Z.eqb_refl; by repeat (destruct (_ =? 0); try done) ..|].
    right. exists v. split; [done|]. by apply Z.gtb_gt. }
  destruct (steam_api.SteamAPI_Init w s) as [[b s']|e] eqn:H.
  - exists s'. init_cases H;
      try (injection H as <- <-; done);
      destruct Hprobe as [?|(v & ? & ?)]; congruence.
  - exfalso. init_cases H; try discriminate;
      destruct Hprobe as [?|(v & ? & ?)]; congruence.
Qed.

(** The theorem on a library of version 10.00.00.00, above the highest
    supported one. *)
Lemma SteamAPI_Init_fails_closed_witness :
  let w := example.library (fun _ => true) 1 0x000A0000 0 in
  let s := example.process 1234 0 in
  exists s',
    steam_api.SteamAPI_Init w s = Ok (false, s') /\
    steam_api_descs s' = steam_api_descs s /\
    cpp_objects s' = cpp_objects s /\
    vendor_mem s' = vendor_mem s.
Proof.
  intros w s. apply (SteamAPI_Init_fails_closed w s).
  do 4 right. eexists. split; [vm_compute; reflexivity | reflexivity].
Defined.

(** ** Interception functions (C3, C8, C10) *)

Section interception.
Import steam_api.

Lemma static_cast_int_small z :
  0 <= z <= cxx.INT_MAX -> cxx.static_cast_int z = z.
Proof.
  unfold cxx.static_cast_int, cxx.wrap, cxx.INT_MAX. intros Hz.
  rewrite Z.mod_small by lia.
  destruct (Z.ltb_spec z (2 ^ 31)); lia.
Qed.

Lemma array_get_None {A} (a : list A) i :
  cxx.array_get a i = None <-> i < 0 \/ Z.of_nat (length a) <= i.
Proof.
  unfold cxx.array_get.
  destruct (Z.leb_spec 0 i), (Z.ltb_spec i (Z.of_nat (length a)));
    cbn [andb]; try (split; [lia | done]).
  split; [|lia]. intros Hn%lookup_ge_None. lia.
Qed.

Lemma array_get_Some {A} (a : list A) i x :
  cxx.array_get a i = Some x <-> 0 <= i /\ a !! Z.to_nat i = Some x.
Proof.
  unfold cxx.array_get.
  destruct (Z.leb_spec 0 i), (Z.ltb_spec i (Z.of_nat (length a)));
    cbn [andb]; try (split; [done | lia]).
  - split; [intros ?; split; [lia | done] | by intros [_ ?]].
  - split; [done|]. intros [_ Hl%lookup_lt_Some]. lia.
Qed.

End interception.

(** C3.  For every settings DLC list (whose size fits an [int]) and every
    index [idx] with [0 <= idx < dlc.size()], [SteamApps_BGetDLCDataByIndex]
    returns [false] at once and stores nothing through [app_id], [available]
    or [name_buf]; any other outcome (a store, or the value [true]) occurs
    only for [idx >= dlc.size()], where the wrapper subscripts [dlc] with
    [idx], outside the vector. *)
Theorem SteamApps_BGetDLCDataByIndex_inverted_guard
    (s : state) (idx : Z) (name_buf : bool) (name_buf_size : Z) :
  let size := Z.of_nat (length (settings.dlc (g_settings s))) in
  size <= cxx.INT_MAX ->
  (0 <= idx < size ->
     steam_api.SteamApps_BGetDLCDataByIndex idx name_buf name_buf_size s
     = Ok ((false, []), s)) /\
  (forall r s',
     steam_api.SteamApps_BGetDLCDataByIndex idx name_buf name_buf_size s
     = Ok (r, s') ->
     r <> (false, []) -> idx >= size) /\
  (size <= idx <= cxx.INT_MAX ->
     steam_api.SteamApps_BGetDLCDataByIndex idx name_buf name_buf_size s
     = Undefined "dlc[idx] outside the bounds of the vector").
Proof.
  intros size Hsize.
  unfold steam_api.SteamApps_BGetDLCDataByIndex.
  rewrite run_bind, run_gets.
  rewrite static_cast_int_small by (subst size; lia). fold size.
  split; [|split].
  - intros Hidx. destruct (Z.ltb_spec idx size); [reflexivity | lia].
  - intros r s' H Hr. destruct (Z.ltb_spec idx size); [|lia].
    injection H as <- _. done.
  - intros Hidx. destruct (Z.ltb_spec idx size); [lia|].
    rewrite run_bind.
    assert (Hw : cxx.wrap 64 idx = idx).
    { unfold cxx.wrap. apply Z.mod_small. unfold cxx.INT_MAX in *. lia. }
    rewrite Hw.
    assert (Hn : cxx.array_get (settings.dlc (g_settings s)) idx = None)
      by (apply array_get_None; subst size; lia).
    rewrite Hn. reflexivity.
Qed.

(** The theorem on the sample process, whose DLC list has one entry. *)
Lemma SteamApps_BGetDLCDataByIndex_inverted_guard_witness :
  let s := example.process 1234 0 in
  steam_api.SteamApps_BGetDLCDataByIndex 0 true 64 s = Ok ((false, []), s) /\
  steam_api.SteamApps_BGetDLCDataByIndex 1 true 64 s
  = Undefined "dlc[idx] outside the bounds of the vector".
Proof.
  intros s.
  pose proof (SteamApps_BGetDLCDataByIndex_inverted_guard s 0 true 64) as H0.
  pose proof (SteamApps_BGetDLCDataByIndex_inverted_guard s 1 true 64) as H1.
  split.
  - apply H0; [vm_compute; discriminate | simpl; lia].
  - apply H1; [vm_compute; discriminate | vm_compute; split; discriminate].
Defined.

(** C8.  [SteamApps_BIsSubscribedApp] is wrap-and-forward: for an [app_id]
    equal to the configured application ID or present in the settings DLC
    list it returns [true] without any call into foreign code; for every
    other [app_id] it calls the captured original method once, with the same
    arguments, and returns that result unmodified. *)
Theorem SteamApps_BIsSubscribedApp_wrap_and_forward
    (w : world) (s : state) (iface app_id : Z) :
  (app_id = settings.app_id (g_settings s) \/
   app_id ∈ (settings.dlc (g_settings s)).*1 ->
     steam_api.SteamApps_BIsSubscribedApp w iface app_id s = Ok (true, s)) /\
  (app_id <> settings.app_id (g_settings s) ->
   app_id ∉ (settings.dlc (g_settings s)).*1 ->
   forall orig, SteamApps_BIsSubscribedApp_orig s = fn_vendor orig ->
     steam_api.SteamApps_BIsSubscribedApp w iface app_id s
     = Ok (w_vendor_bool w orig iface app_id,
           with_vendor_calls (fun l =>
             l ++ [{| callee := orig; this_ptr := iface;
                      argument := app_id |}]) s)).
Proof.
  unfold steam_api.SteamApps_BIsSubscribedApp.
  rewrite run_bind, run_gets. split.
  - intros [->|Hin].
    + by rewrite Z.eqb_refl.
    + rewrite (bool_decide_eq_true_2 _ Hin), orb_true_r. reflexivity.
  - intros Hne Hnin orig Horig.
    rewrite (proj2 (Z.eqb_neq _ _) Hne), (bool_decide_eq_false_2 _ Hnin).
    cbn [orb]. rewrite run_bind, run_gets, Horig. reflexivity.
Qed.

(** Scenario C: the settings own add-on 42; the original method is at
    address 1048 of the vendor library and answers [true] for 99. *)
Lemma SteamApps_BIsSubscribedApp_wrap_and_forward_witness :
  let w := example.library (fun _ => true) 1 0x00030000 0 in
  let s := with_SteamApps_BIsSubscribedApp_orig (fn_vendor 1048)
             (example.process 1234 0) in
  steam_api.SteamApps_BIsSubscribedApp w 100 42 s = Ok (true, s) /\
  steam_api.SteamApps_BIsSubscribedApp w 100 99 s
  = Ok (w_vendor_bool w 1048 100 99,
        with_vendor_calls (fun l =>
          l ++ [{| callee := 1048; this_ptr := 100; argument := 99 |}]) s).
Proof.
  intros w s. split.
  - apply (SteamApps_BIsSubscribedApp_wrap_and_forward w s 100 42).
    right. simpl. apply elem_of_cons. by left.
  - apply (SteamApps_BIsSubscribedApp_wrap_and_forward w s 100 99).
    + simpl. discriminate.
    + simpl. apply not_elem_of_cons. split; [discriminate|].
      apply not_elem_of_nil.
    + reflexivity.
Defined.

(** C10.  Workshop-item subscription is idempotent on the job-tracking map:
    [SteamUGC_SubscribeItem] always returns its argument; it starts a job
    thread only if [id] was absent from [ws_descs] (and [try_emplace] then
    inserted it); when [id] is present the call changes nothing at all, so a
    second call with the same [id] inserts nothing and starts no job. *)
Theorem SteamUGC_SubscribeItem_idempotent (w : world) (s : state) (id : Z) :
  exists s1,
    app_346110.SteamUGC_SubscribeItem w id s = Ok (id, s1) /\
    (threads s1 <> threads s ->
       app_346110_vars.ws_descs (game_346110 s) !! id = None) /\
    (app_346110_vars.ws_descs (game_346110 s) !! id = None ->
       app_346110_vars.ws_descs (game_346110 s1)
       = <[id := 0]> (app_346110_vars.ws_descs (game_346110 s))) /\
    (is_Some (app_346110_vars.ws_descs (game_346110 s) !! id) -> s1 = s) /\
    app_346110.SteamUGC_SubscribeItem w id s1 = Ok (id, s1).
Proof.
  assert (Hpresent : forall s0,
            is_Some (app_346110_vars.ws_descs (game_346110 s0) !! id) ->
            app_346110.SteamUGC_SubscribeItem w id s0 = Ok (id, s0)).
  { intros s0 [d Hd].
    unfold app_346110.SteamUGC_SubscribeItem, app_346110.try_emplace.
    cbv [mbind M_bind mret M_ret gets modify]. by rewrite Hd. }
  destruct (app_346110_vars.ws_descs (game_346110 s) !! id) as [d|] eqn:Hd.
  - exists s. rewrite Hpresent by (rewrite Hd; eauto).
    repeat split; done.
  - unfold app_346110.SteamUGC_SubscribeItem at 1, app_346110.try_emplace,
      steamclient.install_workshop_item.
    cbv [mbind M_bind mret M_ret gets modify]. rewrite Hd.
    cbn [steamclient_am with_game_346110 with_steamclient_am].
    repeat case_match; simplify_eq; eexists; (split; [reflexivity|]);
      (split; [done | split; [done | split; [by intros [? ?]|]]]);
      apply Hpresent; cbn; rewrite lookup_insert_eq; eauto.
Qed.

(** ** The import patcher (C5) *)

Section import_patcher.
Import steam_api.
Context (img : image).

Lemma find_descriptor_none {A} (name_rva : A -> Z) ds :
  no_descriptor_for_module img name_rva ds ->
  find_descriptor img name_rva ds = Ok None.
Proof.
  induction ds as [|d ds IH]; intros Hno; [reflexivity|].
  destruct (Hno d) as (n & Hn & Hne); [by left|].
  cbn [find_descriptor]. unfold string_at. rewrite Hn.
  cbn [mbind result_bind].
  rewrite (proj2 (String.eqb_neq _ _) Hne).
  apply IH. intros d' Hd'. apply Hno. by right.
Qed.

Lemma find_descriptor_first {A} (name_rva : A -> Z) pre d post :
  no_descriptor_for_module img name_rva pre ->
  strings_at img !! name_rva d = Some "steam_api64.dll" ->
  find_descriptor img name_rva (pre ++ d :: post) = Ok (Some d).
Proof.
  induction pre as [|d0 pre IH]; intros Hno Hd.
  - cbn [app find_descriptor]. unfold string_at. rewrite Hd. reflexivity.
  - destruct (Hno d0) as (n & Hn & Hne); [by left|].
    cbn [app find_descriptor]. unfold string_at. rewrite Hn.
    cbn [mbind result_bind].
    rewrite (proj2 (String.eqb_neq _ _) Hne).
    apply IH; [|done]. intros d' Hd'. apply Hno. by right.
Qed.

(** The delay-load loop reads the name of every entry up to the match. *)
Lemma find_thunk_first tpre a tpost pos :
  other_symbols img tpre ->
  a <> 0 ->
  strings_at img !! (a + offsetof_Name) = Some "SteamAPI_Init" ->
  find_thunk img false (tpre ++ a :: tpost) pos
  = Ok (Some (pos + Z.of_nat (length tpre))).
Proof.
  revert pos. induction tpre as [|a0 tpre IH]; intros pos Hpre Ha Hname.
  - cbn [app find_thunk length]. rewrite (proj2 (Z.eqb_neq _ _) Ha).
    cbn [andb]. unfold string_at. rewrite Hname. cbn [mbind result_bind].
    rewrite String.eqb_refl. do 2 f_equal. lia.
  - destruct (Hpre a0) as (Ha0 & n & Hn & Hne); [by left|].
    cbn [app find_thunk length]. rewrite (proj2 (Z.eqb_neq _ _) Ha0).
    cbn [andb]. unfold string_at. rewrite Hn. cbn [mbind result_bind].
    rewrite (proj2 (String.eqb_neq _ _) Hne).
    rewrite IH; [|intros a' Ha'; apply Hpre; by right|done|done].
    do 2 f_equal. lia.
Qed.

Lemma find_thunk_delay_none tpre rest pos :
  other_symbols img tpre ->
  find_thunk img false (tpre ++ 0 :: rest) pos = Ok None.
Proof.
  revert pos. induction tpre as [|a0 tpre IH]; intros pos Hpre.
  - reflexivity.
  - destruct (Hpre a0) as (Ha0 & n & Hn & Hne); [by left|].
    cbn [app find_thunk]. rewrite (proj2 (Z.eqb_neq _ _) Ha0).
    cbn [andb]. unfold string_at. rewrite Hn. cbn [mbind result_bind].
    rewrite (proj2 (String.eqb_neq _ _) Hne).
    apply IH. intros a' Ha'. apply Hpre. by right.
Qed.

(** One step of the regular loop over an entry that it passes over. *)
Lemma find_thunk_pass a thunks pos :
  a <> 0 ->
  Z.land a IMAGE_ORDINAL_FLAG <> 0 \/
  (exists n, strings_at img !! (a + offsetof_Name) = Some n /\
             n <> "SteamAPI_Init") ->
  find_thunk img true (a :: thunks) pos
  = find_thunk img true thunks (pos + 1).
Proof.
  intros Ha Hpass. cbn [find_thunk]. rewrite (proj2 (Z.eqb_neq _ _) Ha).
  destruct (Z.eqb_spec (Z.land a IMAGE_ORDINAL_FLAG) 0) as [Hflag|Hflag];
    cbn [negb andb]; [|reflexivity].
  destruct Hpass as [Hord|(n & Hn & Hne)]; [done|].
  unfold string_at. rewrite Hn. cbn [mbind result_bind].
  by rewrite (proj2 (String.eqb_neq _ _) Hne).
Qed.

(** The regular loop skips imports by ordinal without reading a name. *)
Lemma find_thunk_regular_first tpre a tpost pos :
  passed_over img tpre ->
  a <> 0 ->
  Z.land a IMAGE_ORDINAL_FLAG = 0 ->
  strings_at img !! (a + offsetof_Name) = Some "SteamAPI_Init" ->
  find_thunk img true (tpre ++ a :: tpost) pos
  = Ok (Some (pos + Z.of_nat (length tpre))).
Proof.
  revert pos. induction tpre as [|a0 tpre IH]; intros pos Hpre Ha Hflag Hname.
  - cbn [app find_thunk length]. rewrite (proj2 (Z.eqb_neq _ _) Ha), Hflag.
    cbn [Z.eqb negb andb]. unfold string_at. rewrite Hname.
    cbn [mbind result_bind]. rewrite String.eqb_refl. do 2 f_equal. lia.
  - destruct (Hpre a0) as (Ha0 & Hpass); [by left|].
    cbn [app length]. rewrite find_thunk_pass by done.
    rewrite IH; [|intros a' Ha'; apply Hpre; by right|done|done|done].
    do 2 f_equal. lia.
Qed.

Lemma find_thunk_regular_none tpre rest pos :
  passed_over img tpre ->
  find_thunk img true (tpre ++ 0 :: rest) pos = Ok None.
Proof.
  revert pos. induction tpre as [|a0 tpre IH]; intros pos Hpre.
  - reflexivity.
  - destruct (Hpre a0) as (Ha0 & Hpass); [by left|].
    cbn [app]. rewrite find_thunk_pass by done.
    apply IH. intros a' Ha'. apply Hpre. by right.
Qed.

Lemma find_in_imports_nothing :
  regular_search_finds_nothing img -> find_in_imports img = Ok None.
Proof.
  unfold regular_search_finds_nothing, find_in_imports.
  destruct (import_directory img) as [[dir_size base]|]; [|done].
  intros (ds & -> & [Hno|Hfound]); cbn [mbind result_bind].
  - by rewrite find_descriptor_none.
  - destruct Hfound as (pre & d & post & tpre & rest & -> & Hpre & Hd & Ht
                        & Hpassed).
    rewrite (find_descriptor_first _ _ _ _ Hpre Hd).
    cbn [mbind result_bind]. unfold thunk_array. rewrite Ht.
    cbn [mbind result_bind].
    by rewrite (find_thunk_regular_none _ _ _ Hpassed).
Qed.

Lemma find_in_delay_imports_nothing :
  delay_search_finds_nothing img -> find_in_delay_imports img = Ok None.
Proof.
  unfold delay_search_finds_nothing, find_in_delay_imports.
  destruct (delay_import_directory img) as [[dir_size base]|]; [|done].
  intros (ds & -> & [Hno|Hfound]); cbn [mbind result_bind].
  - by rewrite find_descriptor_none.
  - destruct Hfound as (pre & d & post & tpre & rest & -> & Hpre & Hd & Ht
                        & Hother).
    rewrite (find_descriptor_first _ _ _ _ Hpre Hd).
    cbn [mbind result_bind]. unfold thunk_array. rewrite Ht.
    cbn [mbind result_bind].
    by rewrite (find_thunk_delay_none _ _ _ Hother).
Qed.

(** A regular import of the symbol by name is found whatever the
    delay-load directory holds. *)
Lemma find_in_imports_found dir_size base pre d post tpre a tpost :
  import_directory img = Some (dir_size, base) ->
  span dir_size sizeof_IMAGE_IMPORT_DESCRIPTOR base = Ok (pre ++ d :: post) ->
  no_descriptor_for_module img Name pre ->
  strings_at img !! Name d = Some "steam_api64.dll" ->
  thunks_at img !! OriginalFirstThunk d = Some (tpre ++ a :: tpost) ->
  passed_over img tpre ->
  a <> 0 ->
  Z.land a IMAGE_ORDINAL_FLAG = 0 ->
  strings_at img !! (a + offsetof_Name) = Some "SteamAPI_Init" ->
  find_in_imports img
  = Ok (Some (FirstThunk d
              + sizeof_IMAGE_THUNK_DATA * Z.of_nat (length tpre))).
Proof.
  intros Hdir Hspan Hpre Hd Ht Hpassed Ha Hflag Hname.
  unfold find_in_imports. rewrite Hdir, Hspan. cbn [mbind result_bind].
  rewrite (find_descriptor_first _ _ _ _ Hpre Hd).
  cbn [mbind result_bind]. unfold thunk_array. rewrite Ht.
  cbn [mbind result_bind].
  rewrite (find_thunk_regular_first _ _ _ 0 Hpassed Ha Hflag Hname).
  cbn [mbind result_bind fmap option_fmap option_map].
  by rewrite Z.add_0_l.
Qed.

End import_patcher.

(** C5, with the image on which the code departs from it.  The import
    patcher tries the two search strategies in order.  (1) When the first
    regular import descriptor for steam_api64.dll imports "SteamAPI_Init"
    by name, behind entries that are imports by ordinal or by-name imports
    of other symbols, the cell of its address table at the same position
    is the one overwritten, whatever the delay-load directory holds: it is
    not consulted.  (2) When the regular search finds nothing and the
    first delay-load descriptor for the module imports the symbol behind
    by-name imports of other symbols, the cell of the delay-load address
    table at the same position is overwritten.  (3) When neither search
    finds the pair the image, with all its function-pointer cells, is left
    as it was.  (4) The delay-load loop has no test for imports by ordinal:
    in the image with only a delay-load descriptor whose name table holds
    an import by ordinal before the symbol, the loop reads a name at the
    ordinal value, outside the image, and the symbol's cell is not patched;
    with the same table behind a regular import descriptor the entry is
    skipped and the cell at 0x7208 is patched. *)
Theorem wrap_init_search_order :
  (forall img dir_size base pre d post tpre a tpost,
     steam_api.import_directory img = Some (dir_size, base) ->
     steam_api.span dir_size steam_api.sizeof_IMAGE_IMPORT_DESCRIPTOR base
     = Ok (pre ++ d :: post) ->
     no_descriptor_for_module img steam_api.Name pre ->
     steam_api.strings_at img !! steam_api.Name d = Some "steam_api64.dll" ->
     steam_api.thunks_at img !! steam_api.OriginalFirstThunk d
     = Some (tpre ++ a :: tpost) ->
     passed_over img tpre ->
     a <> 0 ->
     Z.land a steam_api.IMAGE_ORDINAL_FLAG = 0 ->
     steam_api.strings_at img !! (a + steam_api.offsetof_Name)
     = Some "SteamAPI_Init" ->
     steam_api.wrap_init img
     = patched_at img (steam_api.FirstThunk d
                       + steam_api.sizeof_IMAGE_THUNK_DATA
                         * Z.of_nat (length tpre))) /\
  (forall img dir_size base pre d post tpre a tpost,
     regular_search_finds_nothing img ->
     steam_api.delay_import_directory img = Some (dir_size, base) ->
     steam_api.span dir_size steam_api.sizeof_IMAGE_DELAYLOAD_DESCRIPTOR base
     = Ok (pre ++ d :: post) ->
     no_descriptor_for_module img steam_api.DllNameRVA pre ->
     steam_api.strings_at img !! steam_api.DllNameRVA d
     = Some "steam_api64.dll" ->
     steam_api.thunks_at img !! steam_api.ImportNameTableRVA d
     = Some (tpre ++ a :: tpost) ->
     other_symbols img tpre ->
     a <> 0 ->
     steam_api.strings_at img !! (a + steam_api.offsetof_Name)
     = Some "SteamAPI_Init" ->
     steam_api.wrap_init img
     = patched_at img (steam_api.ImportAddressTableRVA d
                       + steam_api.sizeof_IMAGE_THUNK_DATA
                         * Z.of_nat (length tpre))) /\
  (forall img,
     regular_search_finds_nothing img ->
     delay_search_finds_nothing img ->
     steam_api.wrap_init img = Ok img) /\
  steam_api.wrap_init example.ordinal_delay_image
  = Undefined "read of a string outside the mapped image" /\
  steam_api.wrap_init example.both_image
  = patched_at example.both_image 0x7208.
Proof.
  split; [|split; [|split; [|split]]].
  - intros img dir_size base pre d post tpre a tpost Hdir Hspan Hpre Hd Ht
      Hpassed Ha Hflag Hname.
    unfold steam_api.wrap_init.
    rewrite (find_in_imports_found img _ _ _ _ _ _ _ _ Hdir Hspan Hpre Hd Ht
               Hpassed Ha Hflag Hname).
    reflexivity.
  - intros img dir_size base pre d post tpre a tpost Hreg Hdir Hspan Hpre Hd
      Ht Htpre Ha Hname.
    unfold steam_api.wrap_init.
    rewrite (find_in_imports_nothing img Hreg).
    cbn [mbind steam_api.result_bind].
    unfold steam_api.find_in_delay_imports. rewrite Hdir, Hspan.
    cbn [mbind steam_api.result_bind].
    rewrite (find_descriptor_first img _ _ _ _ Hpre Hd).
    cbn [mbind steam_api.result_bind].
    unfold steam_api.thunk_array. rewrite Ht.
    cbn [mbind steam_api.result_bind].
    rewrite (find_thunk_first img _ _ _ 0 Htpre Ha Hname).
    cbn [mbind steam_api.result_bind fmap option_fmap option_map].
    rewrite Z.add_0_l. reflexivity.
  - intros img Hreg Hdelay. unfold steam_api.wrap_init.
    rewrite (find_in_imports_nothing img Hreg).
    cbn [mbind steam_api.result_bind].
    by rewrite (find_in_delay_imports_nothing img Hdelay).
  - vm_compute. reflexivity.
  - vm_compute. reflexivity.
Qed.

(** On the sample images: a regular import of the symbol behind an import
    by ordinal is patched at 0x7208 although the delay-load directory names
    the module too, and scenario D patches the cell at 0x7108 of the
    delay-load address table. *)
Lemma wrap_init_search_order_witness :
  steam_api.wrap_init example.both_image
  = patched_at example.both_image 0x7208 /\
  steam_api.wrap_init example.delay_only_image
  = patched_at example.delay_only_image 0x7108.
Proof.
  destruct wrap_init_search_order as (Hregular & Hdelay & _).
  split.
  - apply (Hregular example.both_image 40
             (default []
                (snd <$> steam_api.import_directory example.both_image))
             []
             {| steam_api.OriginalFirstThunk := 0x6200;
                steam_api.Name := 0x5020;
                steam_api.FirstThunk := 0x7200 |}
             [] [0x8000000000000005] 0x5300 [0]).
    + reflexivity.
    + reflexivity.
    + intros d []%elem_of_nil.
    + reflexivity.
    + reflexivity.
    + intros a [->|[]%elem_of_nil]%elem_of_cons. split; [discriminate|].
      left. discriminate.
    + discriminate.
    + reflexivity.
    + reflexivity.
  - apply (Hdelay example.delay_only_image 96
             (default []
                (snd <$> steam_api.delay_import_directory
                           example.delay_only_image))
             [{| steam_api.DllNameRVA := 0x5000;
                 steam_api.ImportAddressTableRVA := 0x7000;
                 steam_api.ImportNameTableRVA := 0x6000 |}]
             {| steam_api.DllNameRVA := 0x5020;
                steam_api.ImportAddressTableRVA := 0x7100;
                steam_api.ImportNameTableRVA := 0x6100 |}
             [] [0x5200] 0x5300 [0]).
    + exact I.
    + reflexivity.
    + reflexivity.
    + intros d [->|[]%elem_of_nil]%elem_of_cons. eexists.
      split; [reflexivity|]. discriminate.
    + reflexivity.
    + reflexivity.
    + intros a [->|[]%elem_of_nil]%elem_of_cons. split; [discriminate|].
      eexists. split; [reflexivity | discriminate].
    + discriminate.
    + reflexivity.
Defined.
(** ** Vtable shadowing (C2) *)

Section shadowing.
Context (X : interface).

Lemma stores_length l t : length (stores l t) = length t.
Proof.
  revert t. induction l as [|o l IH]; intros t; [reflexivity|].
  cbn [stores foldl]. fold (stores l (<[Z.to_nat o.1 := o.2]> t)).
  by rewrite IH, length_insert.
Qed.

(** A slot that no store names keeps its content. *)
Lemma stores_lookup_other l t (j : nat) :
  (forall o, o ∈ l -> Z.to_nat o.1 <> j) ->
  stores l t !! j = t !! j.
Proof.
  revert t. induction l as [|o l IH]; intros t Hl; [reflexivity|].
  cbn [stores foldl]. fold (stores l (<[Z.to_nat o.1 := o.2]> t)).
  rewrite IH by (intros o' Ho'; apply Hl; by right).
  apply list_lookup_insert_ne, Hl. by left.
Qed.

(** A slot that some store names, all stores to it agreeing on the value,
    ends up with that value. *)
Lemma stores_lookup_in l t (j : nat) v :
  (j < length t)%nat ->
  (exists o, o ∈ l /\ Z.to_nat o.1 = j) ->
  (forall o, o ∈ l -> Z.to_nat o.1 = j -> o.2 = v) ->
  stores l t !! j = Some v.
Proof.
  revert t. induction l as [|o l IH]; intros t Hj Hex Hall.
  - destruct Hex as (o & []%elem_of_nil & _).
  - cbn [stores foldl]. fold (stores l (<[Z.to_nat o.1 := o.2]> t)).
    destruct (decide (Exists (fun o' => Z.to_nat o'.1 = j) l)) as [He|Hne].
    + apply IH.
      * by rewrite length_insert.
      * apply Exists_exists in He as (o' & Ho' & Hoj). eauto.
      * intros o' Ho'. apply Hall. by right.
    + rewrite stores_lookup_other.
      * destruct Hex as (o' & [->|Ho']%elem_of_cons & Hoj).
        -- rewrite <- Hoj, list_lookup_insert_eq by lia.
           f_equal. apply Hall; [by left | done].
        -- exfalso. apply Hne, Exists_exists. eauto.
      * intros o' Ho' Hoj. apply Hne, Exists_exists. eauto.
Qed.

(** The copy of the first [n] foreign slots. *)
Lemma copies_lookup mem n t j :
  0 <= j < n -> n <= Z.of_nat (length t) ->
  stores (copies mem n) t !! Z.to_nat j = Some (mem j).
Proof.
  intros Hj Hn. apply stores_lookup_in.
  - lia.
  - exists (j, mem j). split; [|done].
    apply list_elem_of_fmap. exists j. split; [done|].
    apply elem_of_seqZ. lia.
  - intros o (i & -> & Hi%elem_of_seqZ)%list_elem_of_fmap Hij.
    cbn in *. f_equal. lia.
Qed.

Lemma copies_lookup_above mem n t (j : nat) :
  n <= Z.of_nat j -> stores (copies mem n) t !! j = t !! j.
Proof.
  intros Hj. apply stores_lookup_other.
  intros o (i & -> & Hi%elem_of_seqZ)%list_elem_of_fmap. cbn. lia.
Qed.

Lemma put_vtable_put_vtable t1 t2 s :
  put_vtable X t2 (put_vtable X t1 s) = put_vtable X t2 s.
Proof. destruct X; reflexivity. Qed.

Lemma put_vtable_same s : put_vtable X (vtable (descs s X)) s = s.
Proof.
  destruct s as [? ? ? ? ? ? [d1 d2 d3 d4 d5 d6] ? ? ? ? ? ? ? ? ?].
  destruct X; cbn;
    [destruct d1 | destruct d2 | destruct d3 | destruct d4 | destruct d5
     | destruct d6]; reflexivity.
Qed.

Lemma vtable_put_vtable t s : vtable (descs (put_vtable X t s) X) = t.
Proof. destruct X; reflexivity. Qed.

(** One store inside the array. *)
Lemma store_vtable_entry_in_bounds i f s :
  0 <= i < Z.of_nat (length (vtable (descs s X))) ->
  store_vtable_entry X i f s
  = Ok (tt, put_vtable X (<[Z.to_nat i := f]> (vtable (descs s X))) s).
Proof.
  intros Hi. unfold store_vtable_entry, cxx.array_set.
  rewrite run_bind, run_gets.
  destruct (Z.leb_spec 0 i); [|lia].
  destruct (Z.ltb_spec i (Z.of_nat (length (vtable (descs s X))))); [|lia].
  reflexivity.
Qed.

(** One store outside the array is undefined. *)
Lemma store_vtable_entry_out_of_bounds i f s :
  i < 0 \/ Z.of_nat (length (vtable (descs s X))) <= i ->
  store_vtable_entry X i f s
  = Undefined "write outside the bounds of a descriptor's vtable array".
Proof.
  intros Hi. unfold store_vtable_entry, cxx.array_set.
  rewrite run_bind, run_gets.
  destruct (Z.leb_spec 0 i);
    destruct (Z.ltb_spec i (Z.of_nat (length (vtable (descs s X)))));
    try lia; reflexivity.
Qed.

(** A run of stores inside the array. *)
Lemma override_in_bounds l s :
  (forall o, o ∈ l -> 0 <= o.1 < Z.of_nat (length (vtable (descs s X)))) ->
  override X l s = Ok (tt, put_vtable X (stores l (vtable (descs s X))) s).
Proof.
  unfold override. revert s. induction l as [|o l IH]; intros s Hl.
  - cbn [for_each stores foldl]. by rewrite put_vtable_same.
  - cbn [for_each]. rewrite run_bind.
    rewrite store_vtable_entry_in_bounds by (apply Hl; by left).
    rewrite IH.
    + by rewrite vtable_put_vtable, put_vtable_put_vtable.
    + intros o' Ho'. rewrite vtable_put_vtable, length_insert.
      apply Hl. by right.
Qed.

(** [copy_n] out of a foreign table. *)
Lemma copy_n_vendor a n s :
  n <= Z.of_nat (length (vtable (descs s X))) ->
  copy_n (vendor_table a) n X s
  = Ok (tt, put_vtable X
              (stores (copies (vendor_mem s a) n) (vtable (descs s X))) s).
Proof.
  intros Hn. unfold copy_n, copies.
  assert (Hin : forall i, i ∈ seqZ 0 n ->
            0 <= i < Z.of_nat (length (vtable (descs s X))))
    by (intros i Hi%elem_of_seqZ; lia).
  revert Hin. generalize (seqZ 0 n) as l.
  intros l. revert s Hn.
  induction l as [|i l IH]; intros s Hn Hin.
  - cbn [for_each map stores foldl]. by rewrite put_vtable_same.
  - cbn [for_each map]. rewrite !run_bind.
    unfold load_table at 1. rewrite run_bind, run_gets.
    cbn [read_table defined]. rewrite run_ret.
    rewrite store_vtable_entry_in_bounds by (apply Hin; by left).
    rewrite IH.
    + rewrite vtable_put_vtable, put_vtable_put_vtable. reflexivity.
    + by rewrite vtable_put_vtable, length_insert.
    + intros i' Hi'. rewrite vtable_put_vtable, length_insert.
      apply Hin. by right.
Qed.

End shadowing.

Section shadow_step.
Context (X : interface) (p a : Z) (s : state).
Hypothesis Hp : cpp_objects s !! p = Some (vendor_table a).
Hypothesis Hn :
  num_methods (descs s X) <= Z.of_nat (length (vtable (descs s X))).

Lemma shadow_vendor : shadow X p s = Ok (tt, shadowed X p a s).
Proof using Hp Hn.
  unfold shadow, load_vtable, store_vtable, load_vtable, update_desc.
  cbv [mbind M_bind mret M_ret gets modify defined].
  cbn [cpp_objects with_descs]. rewrite !Hp. cbv beta iota.
  rewrite copy_n_vendor by (destruct X; exact Hn).
  cbn [cpp_objects put_vtable with_descs]. rewrite Hp.
  unfold shadowed, put_vtable. destruct X; reflexivity.
Qed.

End shadow_step.

(** Replacing the [vtable] array of a descriptor writes no other table. *)
Lemma put_vtable_frame X t1 s t i :
  t <> desc_table X ->
  read_table (put_vtable X t1 s) t i = read_table s t i.
Proof.
  intros Ht. destruct t as [b|Y]; [reflexivity|].
  cbn [read_table]. f_equal. f_equal.
  destruct X, Y; try reflexivity; congruence.
Qed.

(** Shadowing writes no table other than the descriptor's own. *)
Lemma shadowed_frame X p a s t i :
  t <> desc_table X ->
  read_table (shadowed X p a s) t i = read_table s t i.
Proof.
  intros Ht. destruct t as [b|Y]; [reflexivity|].
  cbn [read_table]. f_equal. f_equal.
  destruct X, Y; try reflexivity; congruence.
Qed.

(** C2.  Vtable shadowing preserves the original.  Let instance [p] point at
    a foreign table and let the descriptor's [num_methods] fit its arrays.
    Then shadowing, followed by any overrides inside the array, succeeds and
    leaves [orig_vtable] equal to the table pointer the instance had before,
    the instance pointing at the descriptor's own table, every slot below
    [num_methods] that no override names equal to the original slot, and
    every other table, the original one included, unwritten. *)
Theorem shadow_preserves_original
    (X : interface) (p a : Z) (s : state) (ovs : list (Z * fnptr)) :
  cpp_objects s !! p = Some (vendor_table a) ->
  num_methods (descs s X) <= Z.of_nat (length (vtable (descs s X))) ->
  (forall o, o ∈ ovs -> 0 <= o.1 < Z.of_nat (length (vtable (descs s X)))) ->
  exists s',
    (shadow X p ;; override X ovs) s = Ok (tt, s') /\
    orig_vtable (descs s' X) = cpp_objects s !! p /\
    cpp_objects s' !! p = Some (desc_table X) /\
    (forall i, 0 <= i < num_methods (descs s X) -> i ∉ ovs.*1 ->
       read_table s' (desc_table X) i = read_table s (vendor_table a) i) /\
    (forall t i, t <> desc_table X -> read_table s' t i = read_table s t i).
Proof.
  intros Hp Hn Hovs.
  set (t0 := stores (copies (vendor_mem s a) (num_methods (descs s X)))
               (vtable (descs s X))).
  assert (Hv : vtable (descs (shadowed X p a s) X) = t0)
    by (destruct X; reflexivity).
  assert (Hlen : length t0 = length (vtable (descs s X)))
    by apply stores_length.
  exists (put_vtable X (stores ovs t0) (shadowed X p a s)).
  split; [|split; [|split; [|split]]].
  - rewrite run_bind, (shadow_vendor X p a s Hp Hn).
    rewrite override_in_bounds, Hv; [reflexivity|].
    intros o Ho. rewrite Hv, Hlen. by apply Hovs.
  - rewrite Hp. destruct X; reflexivity.
  - cbn. apply lookup_insert_eq.
  - intros i Hi Hnot. cbn [read_table]. rewrite vtable_put_vtable.
    unfold cxx.array_get. rewrite stores_length, Hlen.
    destruct (Z.leb_spec 0 i); [|lia].
    destruct (Z.ltb_spec i (Z.of_nat (length (vtable (descs s X))))); [|lia].
    cbn [andb]. rewrite stores_lookup_other.
    + subst t0. by rewrite copies_lookup.
    + intros o Ho Hoi. apply Hnot, list_elem_of_fmap. exists o.
      split; [|done]. destruct (Hovs o Ho). lia.
  - intros t i Ht.
    by rewrite put_vtable_frame, shadowed_frame.
Qed.

(** A test scenario: a foreign table of which five methods are
    shadowed, with two overrides (slots 1 and 3); the three other slots read
    through the shadow table as through the original. *)
Lemma shadow_preserves_original_witness :
  let X := ISteamMatchmakingServers in
  let s := with_descs
             (fun ds => set_descriptor X (set_num_methods 5 (descriptor X ds)) ds)
             (example.process 1234 0) in
  let ovs := [(1, fn_wrapper fn_SteamMatchmakingServers_ServerRules);
              (3, fn_wrapper fn_SteamMatchmakingServers_RequestInternetServerList)] in
  exists s',
    (shadow X 102 ;; override X ovs) s = Ok (tt, s') /\
    orig_vtable (descs s' X) = Some (vendor_table 3000) /\
    cpp_objects s' !! 102 = Some (desc_table X) /\
    (forall i, 0 <= i < 5 -> i ∉ ovs.*1 ->
       read_table s' (desc_table X) i = read_table s (vendor_table 3000) i) /\
    (forall t i, t <> desc_table X -> read_table s' t i = read_table s t i).
Proof.
  intros X s ovs.
  apply (shadow_preserves_original X 102 3000 s ovs).
  - reflexivity.
  - vm_compute. discriminate.
  - intros o [->|[->|[]%elem_of_nil]%elem_of_cons]%elem_of_cons;
      vm_compute; split; [discriminate | reflexivity | discriminate
                         | reflexivity].
Defined.

(** ** Slot tables stay inside the method tables (C7) *)

Section slot_tables.

Lemma slots_in_boundsb_correct max l :
  slots_in_boundsb max l = true -> slots_in_bounds max l.
Proof.
  unfold slots_in_boundsb, slots_in_bounds.
  intros [[H0 Hmax]%andb_prop Hall]%andb_prop. split; [lia|].
  intros m idx Hm Hne.
  rewrite forallb_forall in Hall.
  specialize (Hall idx). rewrite <- list_elem_of_In in Hall.
  specialize (Hall (list_elem_of_lookup_2 _ _ _ Hm)).
  apply orb_prop in Hall as [Heq|[? ?]%andb_prop]; lia.
Qed.

(** On every version branch of every interface the loops stay inside
    [vm_idxs], and what they leave satisfies the slot invariant. *)
Lemma resolved_layout_checked X ver :
  exists l, resolved_vm_idxs X ver = Some l /\
            slots_in_boundsb (max_num_methods X) l = true.
Proof.
  unfold resolved_vm_idxs.
  destruct X; cbn [shape_of identity_after_shadow max_num_methods];
    unfold ISteamApps_shape, ISteamMatchmaking_shape,
      ISteamMatchmakingServers_shape, ISteamUGC_shape, ISteamUser_shape,
      ISteamUtils_shape;
    repeat (match goal with
            | |- context [ver >=? ?c] => destruct (ver >=? c)
            end);
    (eexists; split; [vm_compute; reflexivity | vm_compute; reflexivity]).
Qed.

(** One assignment to [vm_idxs], read on the layout. *)
Lemma store_vm_idx_layout X m v s s1 :
  store_vm_idx X m v s = Ok (tt, s1) ->
  exists t, cxx.array_set (layout X s).2 m v = Some t /\
            layout X s1 = ((layout X s).1, t).
Proof.
  unfold store_vm_idx, layout at 1 2. cbn [fst snd]. rewrite run_bind, run_gets, run_bind.
  destruct (cxx.array_set _ m v) as [t|]; [|discriminate].
  cbn [defined]. rewrite run_ret. intros [= <-].
  exists t. split; [done|]. unfold layout. destruct X; reflexivity.
Qed.

(** A loop of assignments, read on the layout. *)
Lemma for_each_store_vm_idx_layout {A} X (k v : A -> Z) l s s1 :
  for_each l (fun x => store_vm_idx X (k x) (v x)) s = Ok (tt, s1) ->
  exists t, assign_all (map (fun x => (k x, v x)) l) (layout X s).2 = Some t /\
            layout X s1 = ((layout X s).1, t).
Proof.
  revert s. induction l as [|x l IH]; intros s.
  - cbn [for_each map assign_all]. intros [= <-]. eauto.
  - cbn [for_each map assign_all fst snd].
    intros (u & s0 & Hx & Hl)%bind_Ok. destruct u.
    apply store_vm_idx_layout in Hx as (t0 & -> & Hs0).
    apply IH in Hl as (t & Ht & Hs1).
    rewrite Hs0 in Ht, Hs1. cbn [fst snd] in Ht, Hs1. eauto.
Qed.

Lemma slots_eta (l : list (Z * Z)) : map (fun p => (p.1, p.2)) l = l.
Proof. induction l as [|[? ?] l IH]; [done|]. cbn. by rewrite IH. Qed.

Lemma vm_idxs_identity_layout X s s1 :
  vm_idxs_identity X s = Ok (tt, s1) ->
  exists t,
    fill_vm_idxs vm_identity (layout X s).1 (layout X s).2 = Some t /\
    layout X s1 = ((layout X s).1, t).
Proof.
  unfold vm_idxs_identity. rewrite run_bind, run_gets.
  apply (for_each_store_vm_idx_layout X (fun i => i) (fun i => i)).
Qed.

Lemma select_shape_layout X sh s s1 :
  select_shape X sh s = Ok (tt, s1) ->
  exists t,
    fill_vm_idxs (shape_vm_idxs sh) (shape_num_methods sh) (layout X s).2
    = Some t /\
    layout X s1 = (shape_num_methods sh, t).
Proof.
  unfold select_shape. intros (u & s0 & Hu & Hfill)%bind_Ok.
  injection Hu as _ <-.
  set (s0 := with_descs _ s) in *.
  assert (Hl0 : layout X s0 = (shape_num_methods sh, (layout X s).2))
    by (unfold layout; destruct X; reflexivity).
  unfold fill_vm_idxs. destruct (shape_vm_idxs sh) as [| |l].
  - injection Hfill as <-. eauto.
  - apply vm_idxs_identity_layout in Hfill as (t & Ht & Hl).
    rewrite Hl0 in Ht, Hl. eauto.
  - apply (for_each_store_vm_idx_layout X fst snd) in Hfill as (t & Ht & Hl).
    rewrite slots_eta, Hl0 in Ht. rewrite Hl0 in Hl. eauto.
Qed.

(** The layout of an interface is touched by its own version branch and
    identity loop only. *)
Ltac layout_side :=
  unfold layout, descs; cbn;
  match goal with
  | X : interface, Y : interface |- _ =>
      destruct X, Y; first [reflexivity | congruence]
  | X : interface |- _ => destruct X; reflexivity
  end.

Lemma shadow_preserves_layout X Y p : preserves (layout X) (shadow Y p).
Proof. frame ltac:(layout_side). Qed.

Lemma select_shape_preserves_layout X Y sh :
  X <> Y -> preserves (layout X) (select_shape Y sh).
Proof. intros Hne. frame ltac:(layout_side). Qed.

Lemma vm_idxs_identity_preserves_layout X Y :
  X <> Y -> preserves (layout X) (vm_idxs_identity Y).
Proof. intros Hne. frame ltac:(layout_side). Qed.

End slot_tables.


(** Use what the steps of [setup_interface_wrappers] do to the layout of
    interface [X], then chain the resulting equations from the start state. *)
Ltac layout_step X :=
  match goal with
  | u : unit |- _ => destruct u
  | H : mret tt _ = Ok _ |- _ => injection H as <-
  | H : (mbind _ _) _ = Ok _ |- _ => apply bind_Ok in H as (? & ? & ? & ?)
  | H : select_shape X _ _ = Ok _ |- _ =>
      apply select_shape_layout in H as (? & ? & ?)
  | H : vm_idxs_identity X _ = Ok _ |- _ =>
      apply vm_idxs_identity_layout in H as (? & ? & ?)
  | H : select_shape _ _ _ = Ok _ |- _ =>
      apply (select_shape_preserves_layout X) in H; [|discriminate]
  | H : vm_idxs_identity _ _ = Ok _ |- _ =>
      apply (vm_idxs_identity_preserves_layout X) in H; [|discriminate]
  | H : shadow _ _ _ = Ok _ |- _ =>
      apply (shadow_preserves_layout X) in H
  end.

Ltac layout_chain X :=
  repeat layout_step X;
  repeat match goal with
         | E1 : layout X ?a = _, E2 : context [layout X ?a] |- _ =>
             progress rewrite E1 in E2; cbn [fst snd] in E2
         end.

Ltac layout_resolved :=
  unfold resolved_vm_idxs;
  cbn [shape_of identity_after_shadow mbind option_bind];
  repeat match goal with
         | E : fill_vm_idxs _ _ _ = Some _ |- _ =>
             rewrite E; clear E; cbn [mbind option_bind]
         end;
  congruence.

(** The layout of every descriptor once the interfaces are set up, starting
    from freshly constructed descriptors: the one resolved for the version,
    except that the ISteamUGC descriptor stays as constructed when the vendor
    gave no ISteamUGC instance. *)
Lemma setup_interface_wrappers_layout ver p s s' X :
  (forall Y, fresh Y (descs s Y)) ->
  steam_api.setup_interface_wrappers ver p s = Ok (tt, s') ->
  resolved_vm_idxs X ver = Some (layout X s') \/
  (X = ISteamUGC /\ steam_api.ISteamUGC_ptr p = 0 /\
   layout X s' = layout X s).
Proof.
  intros Hfresh H. unfold steam_api.setup_interface_wrappers in H.
  assert (H0 : layout X s = (0, replicate (Z.to_nat (max_num_methods X)) (-1))).
  { unfold layout. rewrite (Hfresh X). reflexivity. }
  destruct (steam_api.ISteamUGC_ptr p =? 0) eqn:Hugc; cbn [negb] in H;
    inv_run H; repeat match goal with u : unit |- _ => destruct u end.
  - destruct X;
      try (right; split; [reflexivity|]; split; [by apply Z.eqb_eq|]);
      try left;
      match goal with
      | |- context [layout ?X s'] => layout_chain X
      end;
      first [layout_resolved | congruence].
  - left. destruct X;
      match goal with
      | |- context [layout ?X s'] => layout_chain X
      end;
      layout_resolved.
Qed.

(** C7.  For every interface and every version, what the version branch
    (and the identity loop, where one follows) leaves in the descriptor
    satisfies the slot invariant: [num_methods] does not exceed the
    compile-time size of the arrays, and every entry of [vm_idxs] other than
    -1 is an index strictly below [num_methods].  This holds of the tables
    read off the code, and of the descriptors that [SteamAPI_Init]'s
    interface set-up leaves when it starts from freshly constructed ones. *)
Theorem vm_idxs_in_bounds (X : interface) (ver : Z) :
  (exists l, resolved_vm_idxs X ver = Some l /\
             slots_in_bounds (max_num_methods X) l) /\
  (forall p s s',
     (forall Y, fresh Y (descs s Y)) ->
     steam_api.setup_interface_wrappers ver p s = Ok (tt, s') ->
     slots_in_bounds (max_num_methods X) (layout X s')).
Proof.
  destruct (resolved_layout_checked X ver) as (l & Hl & Hb).
  apply slots_in_boundsb_correct in Hb.
  split; [eauto|].
  intros p s s' Hfresh Hrun.
  destruct (setup_interface_wrappers_layout ver p s s' X Hfresh Hrun)
    as [Hres|(-> & _ & Hsame)].
  - rewrite Hl in Hres. by injection Hres as <-.
  - rewrite Hsame. unfold layout. rewrite (Hfresh ISteamUGC).
    apply slots_in_boundsb_correct. vm_compute. reflexivity.
Qed.

(** The theorem on the sample process with a library of version
    02.19.34.93: the ISteamUGC descriptor after the interface set-up. *)
Lemma vm_idxs_in_bounds_witness :
  let p := {| steam_api.ISteamApps_ptr := 100;
              steam_api.ISteamMatchmaking_ptr := 101;
              steam_api.ISteamMatchmakingServers_ptr := 102;
              steam_api.ISteamUGC_ptr := 103;
              steam_api.ISteamUser_ptr := 104;
              steam_api.ISteamUtils_ptr := 105 |} in
  let s := example.process 1234 0 in
  let r := steam_api.setup_interface_wrappers 0x000200130022005D p s in
  r = Ok (tt, example.final r s) /\
  slots_in_bounds (max_num_methods ISteamUGC)
    (layout ISteamUGC (example.final r s)).
Proof.
  intros p s r.
  assert (Hrun : r = Ok (tt, example.final r s)) by (vm_compute; reflexivity).
  split; [exact Hrun|].
  apply (proj2 (vm_idxs_in_bounds ISteamUGC 0x000200130022005D) p s).
  - intros []; reflexivity.
  - exact Hrun.
Defined.

(** ** Installation at unavailable methods (C4) *)

Section installation.

(** An installation that does not test the index is undefined behaviour at
    an unavailable method: the store goes to [vtable[-1]]. *)
Lemma install_unavailable X m f s :
  cxx.array_get (vm_idxs (descs s X)) m = Some (-1) ->
  install X m f s
  = Undefined "write outside the bounds of a descriptor's vtable array".
Proof.
  intros Hm. unfold install, load_vm_idx.
  rewrite !run_bind, run_gets, Hm. cbn [defined]. rewrite run_ret.
  apply store_vtable_entry_out_of_bounds. lia.
Qed.

(** A guarded installation leaves the state alone at an unavailable
    method. *)
Lemma install_if_available_unavailable X m f s :
  cxx.array_get (vm_idxs (descs s X)) m = Some (-1) ->
  install_if_available X m f s = Ok (tt, s).
Proof.
  intros Hm. unfold install_if_available, load_vm_idx.
  rewrite !run_bind, run_gets, Hm. reflexivity.
Qed.

(** Every method that [SteamAPI_Init] installs without a test is available
    in every version branch. *)
Lemma untested_installs_of_SteamAPI_Init_available ver :
  forallb (available ver) untested_installs_of_SteamAPI_Init = true.
Proof.
  unfold untested_installs_of_SteamAPI_Init, available, resolved_index,
    resolved_vm_idxs.
  cbn [forallb fst snd shape_of identity_after_shadow max_num_methods].
  unfold ISteamApps_shape, ISteamUser_shape, ISteamUtils_shape.
  repeat (match goal with
          | |- context [ver >=? ?c] => destruct (ver >=? c)
          end);
    vm_compute; reflexivity.
Qed.

(** So is every method of ISteamMatchmakingServers and ISteamUtils that the
    game callback installs. *)
Lemma untested_installs_of_346110_available ver :
  forallb (available ver) untested_installs_of_346110 = true.
Proof.
  unfold untested_installs_of_346110, available, resolved_index,
    resolved_vm_idxs.
  cbn [forallb fst snd shape_of identity_after_shadow max_num_methods].
  unfold ISteamMatchmakingServers_shape, ISteamUtils_shape.
  repeat (match goal with
          | |- context [ver >=? ?c] => destruct (ver >=? c)
          end);
    vm_compute; reflexivity.
Qed.

(** The ISteamUGC methods that the game callback installs are all absent
    from the oldest ISteamUGC layout. *)
Lemma untested_ISteamUGC_installs_unavailable ver :
  ver < 0x000200130022005D ->
  forallb (fun i => negb (available ver i))
    untested_ISteamUGC_installs_of_346110 = true.
Proof.
  intros Hver.
  unfold untested_ISteamUGC_installs_of_346110, available, resolved_index,
    resolved_vm_idxs.
  cbn [forallb fst snd shape_of identity_after_shadow max_num_methods].
  unfold ISteamUGC_shape.
  repeat (match goal with
          | |- context [ver >=? ?c] =>
              destruct (Z.geb_spec ver c); [lia|]
          end);
    vm_compute; reflexivity.
Qed.

End installation.

(** C4, evaluated where the code departs from it.  With application ID
    346110, a spoofed application ID other than 346110, and a vendor library
    of version 01.00.00.00 (which has no ISteamUGC, so that every entry of
    the ISteamUGC descriptor's [vm_idxs] is -1), the game callback's first
    ISteamUGC installation stores to [vtable[-1]]: the run of the init
    wrapper is undefined.  The same library under another application ID,
    where no callback runs, is set up without fault. *)
Theorem steam_api_init_346110_installs_at_absent_index :
  let w := example.library (fun _ => true) 1 0x00010000 0 in
  steam_api.SteamAPI_Init w (example.process 346110 480)
  = Undefined "write outside the bounds of a descriptor's vtable array" /\
  available 0x0001000000000000
    (ISteamUGC, ISteamUGC_m_GetNumSubscribedItems : Z) = false /\
  exists s', steam_api.SteamAPI_Init w (example.process 1234 480)
             = Ok (true, s').
Proof.
  intros w. split; [|split].
  - vm_compute. reflexivity.
  - vm_compute. reflexivity.
  - eexists. vm_compute. reflexivity.
Qed.


(** ** Decimal text *)

Section decimal.

(** Digits are produced one per division by ten. *)
Lemma pretty_N_go_length (k : nat) (x : N) (s : string) :
  (x < 10 ^ N.of_nat k)%N ->
  (String.length (pretty_N_go x s) <= k + String.length s)%nat.
Proof.
  revert x s. induction k as [|k IH]; intros x s Hx.
  - assert (x = 0%N) as -> by (cbn in Hx; lia).
    rewrite pretty_N_go_0. lia.
  - destruct (decide (x = 0%N)) as [->|Hne].
    + rewrite pretty_N_go_0. lia.
    + rewrite pretty_N_go_step by lia.
      etrans; [apply IH|cbn; lia].
      rewrite Nat2N.inj_succ, N.pow_succ_r' in Hx.
      apply N.Div0.div_lt_upper_bound. lia.
Qed.

(** A number below [10 ^ k] prints in at most [k] characters. *)
Lemma pretty_Z_length (k : nat) (z : Z) :
  0 <= z < 10 ^ Z.of_nat k -> (1 <= k)%nat ->
  (String.length (pretty z) <= k)%nat.
Proof.
  intros Hz Hk. destruct z as [|p|p]; [cbn; lia| |lia].
  change (pretty (Z.pos p)) with (pretty (N.pos p)).
  unfold pretty, pretty_N. destruct (decide (N.pos p = 0%N)); [done|].
  etrans; [apply (pretty_N_go_length k)|cbn; lia].
  apply N2Z.inj_lt. rewrite N2Z.inj_pow, nat_N_Z. cbn. lia.
Qed.

End decimal.

(** ** The init wrapper: what a whole run leaves behind *)

Section init_wrapper_run.
Import steam_api.
Context (w : world).

Lemma setup_preserves_environment v : preserves environment (setup w v).
Proof.
  unfold setup.
  repeat first
    [ apply preserves_game_specific_setup;
        [frame ltac:(reflexivity)|]
    | frame_step ltac:(reflexivity) ].
Qed.

Lemma setup_preserves_messages v : preserves messages (setup w v).
Proof.
  unfold setup.
  repeat first
    [ apply preserves_game_specific_setup;
        [frame ltac:(reflexivity)|]
    | frame_step ltac:(reflexivity) ].
Qed.

Lemma setup_preserves_init_calls v : preserves init_calls (setup w v).
Proof.
  unfold setup.
  repeat first
    [ apply preserves_game_specific_setup;
        [frame ltac:(reflexivity)|]
    | frame_step ltac:(reflexivity) ].
Qed.

End init_wrapper_run.

(** X1.  After every successful run of the init wrapper the SteamAppId
    environment variable holds the decimal form of the effective application
    ID that the run leaves in [spoof_app_id]. *)
Theorem SteamAPI_Init_SteamAppId_is_effective_id
    (w : world) (s s' : state) :
  steam_api.SteamAPI_Init w s = Ok (true, s') ->
  SteamAppId s' = Some (pretty (spoof s')).
Proof.
  intros H. unfold SteamAppId, spoof.
  init_cases H;
    try discriminate;
    pose proof (setup_preserves_environment w _ _ _ _ H) as He;
    pose proof (setup_preserves_spoof w _ _ _ _ H) as Hs;
    unfold spoof in Hs; cbn in He, Hs; rewrite He, Hs;
    rewrite ?lookup_insert_eq;
    repeat match goal with
           | E : (_ =? 0) = true |- _ => apply Z.eqb_eq in E
           end;
    first [reflexivity | congruence].
Qed.

Lemma SteamAPI_Init_SteamAppId_is_effective_id_witness :
  let w := example.library (fun k => bool_decide (k = 1%nat)) 1 0x00030000 0 in
  let s := example.process 1234 0 in
  let s' := example.final (steam_api.SteamAPI_Init w s) s in
  steam_api.SteamAPI_Init w s = Ok (true, s') /\
  SteamAppId s' = Some "480".
Proof.
  intros w s s'.
  assert (H : steam_api.SteamAPI_Init w s = Ok (true, s'))
    by (vm_compute; reflexivity).
  split; [exact H|].
  rewrite (SteamAPI_Init_SteamAppId_is_effective_id w s s' H).
  vm_compute. reflexivity.
Defined.

(** X2.  The real [SteamAPI_Init] is called once, and a second time exactly
    when [spoof_app_id] was zero and the first call failed. *)
Theorem SteamAPI_Init_attempts (w : world) (s s' : state) (b : bool) :
  steam_api.SteamAPI_Init w s = Ok (b, s') ->
  init_calls s' =
    ((if (spoof s =? 0)%Z && negb (first_attempt w s) then 2 else 1)
     + init_calls s)%nat.
Proof.
  intros H. unfold first_attempt, spoof.
  init_cases H;
    try (apply setup_preserves_init_calls in H; cbn in H; rewrite H);
    try (injection H as <- <-); cbn [init_calls];
    repeat match goal with
           | E : (_ =? 0) = _ |- _ => rewrite ?E in *; clear E
           end; cbn [andb negb];
    repeat match goal with
           | E : negb _ = false |- _ =>
               apply negb_false_iff in E; rewrite ?E
           | E : negb _ = true |- _ =>
               apply negb_true_iff in E; rewrite ?E
           end; cbn [negb]; reflexivity.
Qed.

(** X3.  A run that reports failure shows exactly one error message, and a run
    that reports success shows none. *)
Theorem SteamAPI_Init_reports_each_failure
    (w : world) (s s' : state) (b : bool) :
  steam_api.SteamAPI_Init w s = Ok (b, s') ->
  if b then messages s' = messages s
  else exists msg, messages s' = messages s ++ [msg].
Proof.
  intros H.
  init_cases H;
    try (assert (b = true) as ->
           by (unfold steam_api.setup in H; inv_run H; by injection H);
         apply setup_preserves_messages in H; cbn in H; exact H);
    injection H as <- <-; cbn; eauto.
Qed.

Lemma SteamAPI_Init_reports_each_failure_witness :
  let w := example.library (fun _ => false) 1 0x00030000 0 in
  let s := example.process 1234 0 in
  let s' := example.final (steam_api.SteamAPI_Init w s) s in
  steam_api.SteamAPI_Init w s = Ok (false, s') /\
  length (messages s') = 1%nat.
Proof.
  intros w s s'.
  assert (H : steam_api.SteamAPI_Init w s = Ok (false, s'))
    by (vm_compute; reflexivity).
  split; [exact H|].
  destruct (SteamAPI_Init_reports_each_failure w s s' false H) as [msg ->].
  reflexivity.
Defined.

(** The theorem on a run whose first attempt fails: two calls. *)
Lemma SteamAPI_Init_attempts_witness :
  let w := example.library (fun k => bool_decide (k = 1%nat)) 1 0x00030000 0 in
  let s := example.process 1234 0 in
  let s' := example.final (steam_api.SteamAPI_Init w s) s in
  steam_api.SteamAPI_Init w s = Ok (true, s') /\
  init_calls s' = 2%nat.
Proof.
  intros w s s'.
  assert (H : steam_api.SteamAPI_Init w s = Ok (true, s'))
    by (vm_compute; reflexivity).
  split; [exact H|].
  rewrite (SteamAPI_Init_attempts w s s' true H). reflexivity.
Defined.

(** ** Slots are never shared, and the common wrappers reach the shadow
    tables *)

Section slot_distinctness.

Lemma slots_distinctb_lookup t (i j : nat) idx :
  slots_distinctb t = true ->
  t !! i = Some idx -> t !! j = Some idx -> 0 <= idx -> i = j.
Proof.
  revert i j. induction t as [|x t IH]; intros i j Hb Hi Hj Hidx.
  - by rewrite lookup_nil in Hi.
  - cbn [slots_distinctb] in Hb.
    apply andb_prop in Hb as [Hx Ht].
    assert (Hfree : forall k, t !! k = Some idx -> x <> idx).
    { intros k Hk ->.
      apply orb_prop in Hx as [Hneg|Hall]; [lia|].
      rewrite forallb_forall in Hall.
      specialize (Hall idx). rewrite <- list_elem_of_In in Hall.
      specialize (Hall (list_elem_of_lookup_2 _ _ _ Hk)).
      rewrite Z.eqb_refl in Hall. discriminate. }
    destruct i as [|i], j as [|j]; cbn in Hi, Hj.
    + done.
    + injection Hi as ->. by destruct (Hfree j Hj).
    + injection Hj as ->. by destruct (Hfree i Hi).
    + f_equal. eauto.
Qed.

Lemma slots_distinctb_correct t :
  slots_distinctb t = true -> slots_distinct t.
Proof.
  intros Hb m1 m2 idx H1 H2 Hidx. unfold cxx.array_get in H1, H2.
  destruct (Z.leb_spec 0 m1), (Z.leb_spec 0 m2); try discriminate.
  destruct (_ <? _) in H1; [|discriminate].
  destruct (_ <? _) in H2; [|discriminate].
  cbn [andb] in H1, H2.
  pose proof (slots_distinctb_lookup t _ _ idx Hb H1 H2 Hidx). lia.
Qed.

(** On every version branch of every interface, what the loops leave in
    [vm_idxs] names no slot twice. *)
Lemma resolved_slots_distinct X ver :
  exists l, resolved_vm_idxs X ver = Some l /\ slots_distinctb l.2 = true.
Proof.
  unfold resolved_vm_idxs.
  destruct X; cbn [shape_of identity_after_shadow max_num_methods];
    unfold ISteamApps_shape, ISteamMatchmaking_shape,
      ISteamMatchmakingServers_shape, ISteamUGC_shape, ISteamUser_shape,
      ISteamUtils_shape;
    repeat (match goal with
            | |- context [ver >=? ?c] => destruct (ver >=? c)
            end);
    (eexists; split; [vm_compute; reflexivity | vm_compute; reflexivity]).
Qed.

Lemma setup_interface_wrappers_slots_distinct ver p s s' X :
  (forall Y, fresh Y (descs s Y)) ->
  steam_api.setup_interface_wrappers ver p s = Ok (tt, s') ->
  slots_distinct (vm_idxs (descs s' X)).
Proof.
  intros Hfresh Hrun.
  destruct (resolved_slots_distinct X ver) as (l & Hl & Hb).
  destruct (setup_interface_wrappers_layout ver p s s' X Hfresh Hrun)
    as [Hres|(-> & _ & Hsame)].
  - rewrite Hl in Hres. injection Hres as ->.
    by apply slots_distinctb_correct.
  - change (slots_distinct (layout ISteamUGC s').2). rewrite Hsame.
    unfold layout. rewrite (Hfresh ISteamUGC).
    apply slots_distinctb_correct. vm_compute. reflexivity.
Qed.

End slot_distinctness.

(** X4.  For every interface and every version, the slot table that the
    version branch leaves maps no two enumerators to the same non-negative
    index, so that installing the wrapper of one method never overwrites the
    slot of another.  This holds of the tables read off the code, and of the
    descriptors that the interface set-up leaves when it starts from freshly
    constructed ones. *)
Theorem vm_idxs_share_no_slot (X : interface) (ver : Z) :
  (exists l, resolved_vm_idxs X ver = Some l /\ slots_distinct l.2) /\
  (forall p s s',
     (forall Y, fresh Y (descs s Y)) ->
     steam_api.setup_interface_wrappers ver p s = Ok (tt, s') ->
     slots_distinct (vm_idxs (descs s' X))).
Proof.
  split.
  - destruct (resolved_slots_distinct X ver) as (l & Hl & Hb).
    exists l. split; [done|]. by apply slots_distinctb_correct.
  - intros p s s'. apply setup_interface_wrappers_slots_distinct.
Qed.

(** *** Assertions carried through a run *)

(** [keeps P Q m]: a run of [m] that starts where [P] holds and finishes,
    finishes where [Q] holds. *)
Definition keeps {A} (P Q : state -> Prop) (m : M A) : Prop :=
  forall s a s', P s -> m s = Ok (a, s') -> Q s'.

(** The assertion carried through the installation of wrappers: slots are
    not shared, and the wrappers listed so far are dispatched to. *)
Definition wrapped (ws : list (interface * Z * fnptr)) (s : state) : Prop :=
  (forall X, slots_distinct (vm_idxs (descs s X))) /\
  (forall X m f, (X, m, f) ∈ ws -> dispatches X m f s).

Section keeping.

Lemma keeps_ret {A} (a : A) P : keeps P P (mret a).
Proof. intros s a' s' HP [= _ <-]. done. Qed.

Lemma keeps_bind {A B} (m : M A) (k : A -> M B) P R Q :
  keeps P R m -> (forall a, keeps R Q (k a)) -> keeps P Q (m ≫= k).
Proof.
  intros Hm Hk s b s' HP (a & s1 & H1 & H2)%bind_Ok.
  eapply Hk; [|exact H2]. eapply Hm; eauto.
Qed.

Lemma wrapped_descs ws s s' :
  steam_api_descs s' = steam_api_descs s -> wrapped ws s -> wrapped ws s'.
Proof.
  unfold wrapped, dispatches, descs. intros ->. done.
Qed.

(** What leaves the descriptors alone keeps the assertion. *)
Lemma keeps_frame {A} (m : M A) ws :
  preserves steam_api_descs m -> keeps (wrapped ws) (wrapped ws) m.
Proof.
  intros Hm s a s' HP Hrun. eapply wrapped_descs; [|exact HP]. eauto.
Qed.

Lemma keeps_weaken {A} (m : M A) ws ws' :
  ws ⊆ ws' ->
  keeps (wrapped ws) (wrapped ws') m -> keeps (wrapped ws) (wrapped ws) m.
Proof.
  intros Hsub Hm s a s' HP Hrun.
  destruct (Hm s a s' HP Hrun) as [Hd Hw]. split; [done|].
  intros X x f Hin. apply Hw, Hsub, Hin.
Qed.

Lemma descs_put_vtable_ne X Y t s :
  X <> Y -> descs (put_vtable X t s) Y = descs s Y.
Proof. intros Hne. destruct X, Y; first [reflexivity | congruence]. Qed.

Lemma vm_idxs_put_vtable X Y t s :
  vm_idxs (descs (put_vtable X t s) Y) = vm_idxs (descs s Y).
Proof. destruct X, Y; reflexivity. Qed.

(** A successful store is a store inside the array. *)
Lemma store_vtable_entry_Ok X i f s s' :
  store_vtable_entry X i f s = Ok (tt, s') ->
  0 <= i < Z.of_nat (length (vtable (descs s X))) /\
  s' = put_vtable X (<[Z.to_nat i := f]> (vtable (descs s X))) s.
Proof.
  intros H.
  destruct (decide (0 <= i < Z.of_nat (length (vtable (descs s X)))))
    as [Hi|Hi].
  - rewrite store_vtable_entry_in_bounds in H by done.
    injection H as <-. done.
  - rewrite store_vtable_entry_out_of_bounds in H by lia. discriminate.
Qed.

Lemma array_get_insert_eq {A} (a : list A) i x :
  0 <= i < Z.of_nat (length a) ->
  cxx.array_get (<[Z.to_nat i := x]> a) i = Some x.
Proof.
  intros Hi. unfold cxx.array_get. rewrite length_insert.
  destruct (Z.leb_spec 0 i); [|lia].
  destruct (Z.ltb_spec i (Z.of_nat (length a))); [|lia].
  cbn [andb]. apply list_lookup_insert_eq. lia.
Qed.

Lemma array_get_insert_ne {A} (a : list A) i j x :
  0 <= i -> i <> j ->
  cxx.array_get (<[Z.to_nat i := x]> a) j = cxx.array_get a j.
Proof.
  intros Hi Hne. unfold cxx.array_get. rewrite length_insert.
  destruct (Z.leb_spec 0 j); [|done].
  destruct (Z.ltb_spec j (Z.of_nat (length a))); [|done].
  cbn [andb]. apply list_lookup_insert_ne. lia.
Qed.

(** A store at the slot of a method that has no wrapper yet adds that
    wrapper and disturbs none of the others. *)
Lemma wrapped_store X m f idx ws s s' :
  wrapped ws s ->
  cxx.array_get (vm_idxs (descs s X)) m = Some idx ->
  (forall f', (X, m, f') ∉ ws) ->
  store_vtable_entry X idx f s = Ok (tt, s') ->
  wrapped ((X, m, f) :: ws) s'.
Proof.
  intros [Hd Hw] Hm Hkey [Hidx ->]%store_vtable_entry_Ok. split.
  - intros Y. by rewrite vm_idxs_put_vtable.
  - intros Y m' f' Hin idx'. rewrite vm_idxs_put_vtable. intros Hm' Hidx'.
    destruct (decide (Y = X)) as [->|Hne].
    + rewrite vtable_put_vtable.
      apply elem_of_cons in Hin as [[= -> ->]|Hin].
      * assert (idx' = idx) as -> by congruence.
        by apply array_get_insert_eq.
      * assert (idx <> idx') as Hii.
        { intros ->. destruct (Hkey f').
          by rewrite (Hd X m m' idx' Hm Hm' Hidx'). }
        rewrite array_get_insert_ne by lia.
        by apply (Hw X m' f' Hin).
    + rewrite descs_put_vtable_ne by done.
      apply elem_of_cons in Hin as [[= -> _ _]|Hin]; [done|].
      by apply (Hw Y m' f' Hin).
Qed.

Lemma load_vm_idx_Ok X m s idx s' :
  load_vm_idx X m s = Ok (idx, s') ->
  cxx.array_get (vm_idxs (descs s X)) m = Some idx /\ s' = s.
Proof.
  unfold load_vm_idx. rewrite run_bind, run_gets.
  by intros ?%defined_Ok.
Qed.

Lemma keeps_install X m f ws :
  (forall f', (X, m, f') ∉ ws) ->
  keeps (wrapped ws) (wrapped ((X, m, f) :: ws)) (install X m f).
Proof.
  intros Hkey s [] s' HP (idx & s1 & [Hm ->]%load_vm_idx_Ok & Hst)%bind_Ok.
  eapply wrapped_store; eauto.
Qed.

(** An installation for a method outside the list disturbs none of the
    wrappers in it. *)
Lemma keeps_install_other X m f ws :
  (forall f', (X, m, f') ∉ ws) ->
  keeps (wrapped ws) (wrapped ws) (install X m f).
Proof.
  intros Hkey. eapply keeps_weaken; [|by apply keeps_install].
  by apply list_subseteq_cons.
Qed.

Lemma wrapped_unavailable X m f idx ws s :
  wrapped ws s ->
  cxx.array_get (vm_idxs (descs s X)) m = Some idx -> idx < 0 ->
  wrapped ((X, m, f) :: ws) s.
Proof.
  intros [Hd Hw] Hm Hneg. split; [done|].
  intros Y m' f' [[= -> -> ->]|Hin]%elem_of_cons; [|by apply Hw].
  intros idx' Hm' Hidx'. assert (idx' = idx) by congruence. lia.
Qed.

Lemma keeps_install_if_available X m f ws :
  (forall f', (X, m, f') ∉ ws) ->
  keeps (wrapped ws) (wrapped ((X, m, f) :: ws)) (install_if_available X m f).
Proof.
  intros Hkey s [] s' HP (idx & s1 & [Hm ->]%load_vm_idx_Ok & Hst)%bind_Ok.
  destruct (Z.geb_spec idx 0).
  - eapply wrapped_store; eauto.
  - injection Hst as <-. eapply wrapped_unavailable; eauto.
Qed.

End keeping.

(** A method that is not in the list built so far. *)
Ltac fresh_key :=
  let f' := fresh "f'" in
  let Hin := fresh "Hin" in
  intros f' Hin;
  repeat (apply elem_of_cons in Hin as [Hin|Hin];
          [vm_compute in Hin; discriminate|]);
  by apply elem_of_nil in Hin.

(** One step through a program that installs wrappers. *)
Ltac keeps_step :=
  lazymatch goal with
  | |- keeps _ _ (mret _) => apply keeps_ret
  | |- keeps _ _ (install _ _ _) =>
      apply keeps_install_other; fresh_key
  | |- keeps _ _ (install_if_available _ _ _) =>
      apply keeps_install_if_available; fresh_key
  | |- keeps _ _ (mbind _ _) => eapply keeps_bind; [|intros ?]
  | |- keeps _ _ (if ?b then _ else _) => destruct b
  | |- keeps _ _ (match ?x with _ => _ end) => destruct x
  | |- keeps _ _ _ => apply keeps_frame; frame ltac:(reflexivity)
  end.

(** The layout of a descriptor is untouched by stores into method tables
    and by updates of other variables. *)
Ltac layout_untouched :=
  unfold layout, descs; cbn;
  match goal with
  | X : interface |- _ => destruct X; reflexivity
  end.

Section common_wrappers_installed.
Import steam_api.
Context (w : world).

Lemma load_orig_entry_Ok X i s f s' :
  load_orig_entry X i s = Ok (f, s') -> s' = s.
Proof.
  unfold load_orig_entry, load_table.
  intros (o & s1 & [= _ <-] & (t & s2 & [_ ->]%defined_Ok
            & (o' & s3 & [= _ <-] & [_ ->]%defined_Ok)%bind_Ok)%bind_Ok)%bind_Ok.
  done.
Qed.

(** Reading an index makes it known to what follows. *)
Lemma keeps_load_vm_idx {A} X m (k : Z -> M A) P Q :
  (forall idx,
     keeps (fun s => P s /\ cxx.array_get (vm_idxs (descs s X)) m = Some idx)
       Q (k idx)) ->
  keeps P Q (load_vm_idx X m ≫= k).
Proof.
  intros Hk s a s' HP (idx & s1 & [Hm ->]%load_vm_idx_Ok & Hrun)%bind_Ok.
  eapply Hk; [|exact Hrun]. done.
Qed.

(** The installation of [SteamApps_BIsAppInstalled], which also captures
    the original method. *)
Lemma keeps_install_BIsAppInstalled idx ws :
  (forall f', (ISteamApps, ISteamApps_m_BIsAppInstalled : Z, f') ∉ ws) ->
  keeps
    (fun s =>
       wrapped ws s /\
       cxx.array_get (vm_idxs (descs s ISteamApps))
         ISteamApps_m_BIsAppInstalled = Some idx)
    (wrapped ((ISteamApps, ISteamApps_m_BIsAppInstalled : Z,
               fn_wrapper fn_SteamApps_BIsAppInstalled) :: ws))
    (if idx >=? 0 then
       f ← load_orig_entry ISteamApps idx;
       modify (with_SteamApps_BIsAppInstalled_orig f) ;;
       store_vtable_entry ISteamApps idx fn_SteamApps_BIsAppInstalled
     else mret tt).
Proof.
  intros Hkey s [] s' [HP Hm] Hrest.
  destruct (Z.geb_spec idx 0).
  - apply bind_Ok in Hrest as (f & s2 & ->%load_orig_entry_Ok & Hrest).
    apply bind_Ok in Hrest as ([] & s3 & [= <-] & Hst).
    eapply wrapped_store; [| |exact Hkey|exact Hst].
    + eapply wrapped_descs; [|exact HP]. reflexivity.
    + exact Hm.
  - injection Hrest as <-. eapply wrapped_unavailable; eauto.
Qed.

Lemma keeps_setup_common_wrappers :
  keeps (wrapped []) (wrapped (rev common_wrappers)) setup_common_wrappers.
Proof.
  unfold setup_common_wrappers. cbv [rev common_wrappers app].
  eapply keeps_bind; [apply keeps_install; fresh_key|intros ?].
  eapply keeps_bind; [apply keeps_frame; frame ltac:(reflexivity)|intros ?].
  eapply keeps_bind; [apply keeps_frame; frame ltac:(reflexivity)|intros ?].
  eapply keeps_bind; [apply keeps_install; fresh_key|intros ?].
  eapply keeps_bind; [apply keeps_install; fresh_key|intros ?].
  eapply keeps_bind; [apply keeps_install_if_available; fresh_key|intros ?].
  eapply keeps_bind; [apply keeps_install_if_available; fresh_key|intros ?].
  eapply keeps_bind; [apply keeps_install_if_available; fresh_key|intros ?].
  apply keeps_load_vm_idx; intros idx.
  eapply keeps_bind; [apply keeps_install_BIsAppInstalled; fresh_key|intros ?].
  eapply keeps_bind; [apply keeps_install_if_available; fresh_key|intros ?].
  eapply keeps_bind; [apply keeps_install_if_available; fresh_key|intros ?].
  eapply keeps_bind; [apply keeps_install_if_available; fresh_key|intros ?].
  eapply keeps_bind; [apply keeps_install; fresh_key|intros ?].
  apply keeps_install; fresh_key.
Qed.

(** The game callbacks install into slots of their own. *)
Lemma keeps_steam_api_init_346110 :
  keeps (wrapped (rev common_wrappers)) (wrapped (rev common_wrappers))
    (app_346110.steam_api_init_346110 w).
Proof.
  unfold app_346110.steam_api_init_346110. cbv [rev common_wrappers app].
  repeat keeps_step.
Qed.

Lemma keeps_game_specific_setup :
  keeps (wrapped (rev common_wrappers)) (wrapped (rev common_wrappers))
    (game_specific_setup w).
Proof.
  intros s a s' HP (cb & s1 & [= <- <-] & Hcb)%bind_Ok.
  unfold get_steam_api_init_cb in Hcb. cbv zeta in Hcb.
  repeat case_match; simplify_eq.
  - by eapply keeps_steam_api_init_346110.
  - eapply (keeps_ret tt); [exact HP|exact Hcb].
  - eapply (keeps_ret tt); [exact HP|exact Hcb].
Qed.

(** Everything after the interface set-up, as one assertion. *)
Lemma setup_wrapped v s s' :
  (forall Y, fresh Y (descs s Y)) ->
  setup w v s = Ok (true, s') ->
  wrapped (rev common_wrappers) s'.
Proof.
  intros Hfresh H. unfold setup in H.
  apply bind_Ok in H as (p & s1 & Hp & H).
  assert (Hd1 : steam_api_descs s1 = steam_api_descs s).
  { assert (Hpres : preserves steam_api_descs (obtain_interface_pointers w v))
      by frame ltac:(reflexivity).
    exact (Hpres _ _ _ Hp). }
  apply bind_Ok in H as ([] & s2 & Hsetup & H).
  assert (Hw : wrapped [] s2).
  { split.
    - intros X. eapply setup_interface_wrappers_slots_distinct; [|exact Hsetup].
      intros Y. unfold descs. rewrite Hd1. apply Hfresh.
    - intros X m f []%elem_of_nil. }
  apply bind_Ok in H as ([] & s3 & H3 & H).
  assert (Hw3 : wrapped [] s3).
  { revert Hw H3. apply keeps_frame. frame ltac:(reflexivity). }
  apply bind_Ok in H as ([] & s4 & H4 & H).
  pose proof (keeps_setup_common_wrappers _ _ _ Hw3 H4) as Hw4.
  apply bind_Ok in H as (au & s5 & [= <- <-] & H).
  apply bind_Ok in H as ([] & s6 & H6 & H).
  assert (Hw6 : wrapped (rev common_wrappers) s6).
  { revert Hw4 H6. apply keeps_frame. frame ltac:(reflexivity). }
  apply bind_Ok in H as ([] & s7 & H7 & H).
  pose proof (keeps_game_specific_setup _ _ _ Hw6 H7) as Hw7.
  by injection H as <-.
Qed.

(** The layout that the interface set-up resolved is the layout at the
    end of the run. *)
Lemma setup_layout v s s' X :
  (forall Y, fresh Y (descs s Y)) ->
  setup w v s = Ok (true, s') ->
  X <> ISteamUGC ->
  resolved_vm_idxs X v = Some (layout X s').
Proof.
  intros Hfresh H HX. unfold setup in H.
  apply bind_Ok in H as (p & s1 & Hp & H).
  assert (Hd1 : steam_api_descs s1 = steam_api_descs s).
  { assert (Hpres : preserves steam_api_descs (obtain_interface_pointers w v))
      by frame ltac:(reflexivity).
    exact (Hpres _ _ _ Hp). }
  apply bind_Ok in H as ([] & s2 & Hsetup & H).
  assert (Hl : resolved_vm_idxs X v = Some (layout X s2)).
  { destruct (setup_interface_wrappers_layout v p s1 s2 X) as [Hl|(-> & _)];
      [|exact Hsetup|exact Hl|done].
    intros Y. unfold descs. rewrite Hd1. apply Hfresh. }
  rewrite Hl. f_equal. symmetry.
  assert (Hrest : preserves (layout X) (app_346110.steam_api_init_346110 w))
    by frame ltac:(layout_untouched).
  assert (Hpres : preserves (layout X)
            (get_steam_id w p ;; setup_common_wrappers ;;
             auto_update ← gets (fun s => settings.auto_update_dlc (g_settings s));
             (if (auto_update : bool) then
                steamclient.load w ;;
                loaded ← gets steamclient_loaded;
                if (loaded : bool) then steamclient.update_dlc w else mret tt
              else mret tt) ;;
             game_specific_setup w ;;
             mret true)).
  { repeat first
      [ apply preserves_game_specific_setup; [apply Hrest|]
      | frame_step ltac:(layout_untouched) ]. }
  exact (Hpres _ _ _ H).
Qed.

End common_wrappers_installed.

(** X5.  After a successful run of the init wrapper that started from freshly
    constructed descriptors, every common wrapper whose method exists in the
    detected interface version is in its slot of the shadow table, the game
    callback notwithstanding; and the five methods whose wrappers are
    installed without a test of the index do exist. *)
Theorem SteamAPI_Init_installs_common_wrappers (w : world) (s s' : state) :
  (forall Y, fresh Y (descs s Y)) ->
  steam_api.SteamAPI_Init w s = Ok (true, s') ->
  (forall X m f, (X, m, f) ∈ common_wrappers -> dispatches X m f s') /\
  (forall X m, (X, m) ∈ untested_installs_of_SteamAPI_Init ->
     exists idx, cxx.array_get (vm_idxs (descs s' X)) m = Some idx /\
                 0 <= idx).
Proof.
  intros Hfresh H.
  init_cases H; try discriminate.
  all: match type of H with
       | steam_api.setup _ ?v ?s0 = _ =>
           assert (Hfresh0 : forall Y, fresh Y (descs s0 Y))
             by (intros Y; exact (Hfresh Y));
           pose proof (setup_wrapped w v s0 s' Hfresh0 H) as [_ Hw];
           pose proof (fun X => setup_layout w v s0 s' X Hfresh0 H) as Hl;
           pose proof (untested_installs_of_SteamAPI_Init_available v) as Hav
       end.
  all: split;
    [ intros X m f Hin; apply Hw;
      by apply list_elem_of_In, in_rev, list_elem_of_In in Hin
    | intros X m Hin;
      assert (HX : X <> ISteamUGC) by
        (intros ->;
         repeat (apply elem_of_cons in Hin as [Hin|Hin]; [discriminate|]);
         by apply elem_of_nil in Hin);
      rewrite forallb_forall in Hav;
      apply list_elem_of_In, Hav in Hin;
      unfold available, resolved_index in Hin; cbn [fst snd] in Hin;
      rewrite (Hl X HX) in Hin; cbn [mbind option_bind] in Hin;
      change (layout X s').2 with (vm_idxs (descs s' X)) in Hin;
      destruct (cxx.array_get (vm_idxs (descs s' X)) m) as [idx|];
      [exists idx; split; [done|lia] | discriminate] ].
Qed.

(** The theorem on the sample process: the slot of
    [ISteamApps::BIsSubscribedApp] after a run against a library of version
    03.00.00.00. *)
Lemma SteamAPI_Init_installs_common_wrappers_witness :
  let w := example.library (fun _ => true) 1 0x00030000 0 in
  let s := example.process 1234 480 in
  let s' := example.final (steam_api.SteamAPI_Init w s) s in
  steam_api.SteamAPI_Init w s = Ok (true, s') /\
  cxx.array_get (vtable (descs s' ISteamApps)) 6
  = Some (fn_wrapper fn_SteamApps_BIsSubscribedApp).
Proof.
  intros w s s'.
  assert (H : steam_api.SteamAPI_Init w s = Ok (true, s'))
    by (vm_compute; reflexivity).
  assert (Hfresh : forall Y, fresh Y (descs s Y)) by (intros []; reflexivity).
  split; [exact H|].
  apply (proj1 (SteamAPI_Init_installs_common_wrappers w s s' Hfresh H)
           ISteamApps ISteamApps_m_BIsSubscribedApp).
  - repeat constructor.
  - vm_compute. reflexivity.
  - lia.
Defined.

(** ** The method wrappers of steam/346110.cpp *)

Section workshop_queries.
Import app_346110_vars app_346110 app_346110_methods.

Lemma wrap_small bits z : 0 <= z < 2 ^ bits -> cxx.wrap bits z = z.
Proof. intros Hz. unfold cxx.wrap. by apply Z.mod_small. Qed.

Lemma length_substring_0 n s :
  String.length (substring 0 n s) = Nat.min n (String.length s).
Proof.
  revert s. induction n as [|n IH]; intros s.
  - by destruct s.
  - destruct s as [|a s]; [reflexivity|]. cbn. by rewrite IH.
Qed.

Lemma substring_0_all n s :
  (String.length s <= n)%nat -> substring 0 n s = s.
Proof.
  revert s. induction n as [|n IH]; intros s Hn.
  - destruct s; [reflexivity | cbn in Hn; lia].
  - destruct s as [|a s]; [reflexivity|]. cbn in *. rewrite IH; [done|lia].
Qed.

End workshop_queries.

(** X6.  [SteamUGC_GetSubscribedItems] never stores more than [max_entries]
    IDs: it returns the number of IDs it stored, which is the smaller of
    [max_entries] and the number of subscribed items; what it stores is an
    initial part of the installed items followed by the tracked ones, and all
    of them when [max_entries] is large enough. *)
Theorem SteamUGC_GetSubscribedItems_bounded (s : state) (max_entries : Z) :
  0 <= max_entries < 2 ^ 32 ->
  let g := game_346110 s in
  let all := app_346110_vars.mods g
             ++ (map_to_list (app_346110_vars.ws_descs g)).*1 in
  exists ids,
    app_346110_methods.SteamUGC_GetSubscribedItems max_entries s
    = Ok ((Z.of_nat (length ids), ids), s) /\
    Z.of_nat (length ids) = Z.min max_entries (Z.of_nat (length all)) /\
    ids `prefix_of` all /\
    (Z.of_nat (length all) <= max_entries -> ids = all).
Proof.
  intros Hmax g all.
  unfold app_346110_methods.SteamUGC_GetSubscribedItems.
  rewrite run_bind, run_gets. fold g. cbv zeta. rewrite run_ret.
  set (m := app_346110_vars.mods g).
  set (keys := (map_to_list (app_346110_vars.ws_descs g)).*1).
  assert (Hsize : size (app_346110_vars.ws_descs g) = length keys).
  { unfold keys. by rewrite length_fmap, length_map_to_list. }
  rewrite Hsize.
  assert (Hall : length all = (length m + length keys)%nat)
    by (unfold all; by rewrite length_app).
  destruct (Z.le_gt_cases (Z.of_nat (length m)) max_entries) as [Hle|Hgt].
  - rewrite (Z.min_l (Z.of_nat (length m))) by lia.
    rewrite (wrap_small 32 (max_entries - _)) by lia.
    rewrite (wrap_small 32 (0 + _)) by lia.
    rewrite Nat2Z.id, firstn_all.
    set (n2 := Z.min (Z.of_nat (length keys))
                 (max_entries - Z.of_nat (length m))).
    rewrite wrap_small by lia.
    exists (m ++ take (Z.to_nat n2) keys).
    assert (Hlen : Z.of_nat (length (m ++ take (Z.to_nat n2) keys))
                   = 0 + Z.of_nat (length m) + n2).
    { rewrite length_app, length_take. lia. }
    rewrite <- Hlen. split; [reflexivity|]. split; [rewrite Hlen, Hall, Nat2Z.inj_add; unfold n2; lia|].
    split.
    + apply prefix_app. exists (drop (Z.to_nat n2) keys).
      by rewrite take_drop.
    + intros Hfit. unfold all. fold keys. f_equal. apply take_ge.
      rewrite Hall, Nat2Z.inj_add in Hfit. unfold n2.
      rewrite Z.min_l by lia. lia.
  - rewrite (Z.min_r (Z.of_nat (length m))) by lia.
    rewrite Z.sub_diag, (wrap_small 32 0) by lia.
    rewrite (wrap_small 32 (0 + _)) by lia.
    rewrite (Z.min_r _ 0) by lia.
    rewrite wrap_small by lia.
    exists (take (Z.to_nat max_entries) m).
    cbn [Z.to_nat take]. rewrite app_nil_r.
    assert (Hlen : Z.of_nat (length (take (Z.to_nat max_entries) m))
                   = 0 + max_entries + 0).
    { rewrite length_take. lia. }
    rewrite <- Hlen. split; [reflexivity|].
    split; [rewrite Hlen, Hall, Nat2Z.inj_add; lia|]. split.
    + exists (drop (Z.to_nat max_entries) m ++ keys).
      unfold all. by rewrite app_assoc, take_drop.
    + rewrite Hall, Nat2Z.inj_add. lia.
Qed.

(** The theorem on three installed items and one tracked job, with room
    for two IDs. *)
Lemma SteamUGC_GetSubscribedItems_bounded_witness :
  0 <= 2 < 2 ^ 32 /\
  exists ids,
    app_346110_methods.SteamUGC_GetSubscribedItems 2
      example_346110.subscribed
    = Ok ((Z.of_nat (length ids), ids), example_346110.subscribed) /\
    Z.of_nat (length ids) = 2.
Proof.
  split; [lia|].
  destruct (SteamUGC_GetSubscribedItems_bounded example_346110.subscribed 2)
    as (ids & Hrun & Hlen & _); [lia|].
  exists ids. split; [exact Hrun|]. rewrite Hlen. reflexivity.
Defined.


Section install_info.
Import app_346110_vars app_346110 app_346110_methods.

Lemma substring_0_min n s :
  substring 0 (Nat.min n (String.length s)) s = substring 0 n s.
Proof.
  revert s. induction n as [|n IH]; intros s.
  - by destruct s.
  - destruct s as [|a s]; [reflexivity|]. cbn. by rewrite IH.
Qed.

End install_info.

(** X7.  [SteamUGC_GetItemInstallInfo] stays inside a folder buffer of at
    least one byte: for an installed item it stores the first
    [folder_size - 1] characters of "<workshop directory>\<id>" and a
    terminator, the whole path when it fits; for any other item it stores
    the empty string and returns [false].  With [folder_size] zero and an installed item the limit
    handed to [format_to_n] wraps around to 4294967295 and the store runs past
    the buffer. *)
Theorem SteamUGC_GetItemInstallInfo_fits (s : state) (id folder_size : Z) :
  let g := game_346110 s in
  let text := app_346110_vars.ws_dir_path g +:+ "\" +:+ pretty id in
  (1 <= folder_size < 2 ^ 32 ->
   if bool_decide (id ∈ app_346110_vars.mods g) then
     exists written,
       app_346110_methods.SteamUGC_GetItemInstallInfo id true folder_size s
       = Ok ((true, [ app_346110_methods.write_size_on_disk 0;
                      app_346110_methods.write_legacy_item false;
                      app_346110_methods.write_folder written ]), s) /\
       written = substring 0 (Z.to_nat (folder_size - 1)) text /\
       Z.of_nat (String.length written) + 1 <= folder_size /\
       (Z.of_nat (String.length text) < folder_size -> written = text)
   else
     app_346110_methods.SteamUGC_GetItemInstallInfo id true folder_size s
     = Ok ((false, [ app_346110_methods.write_size_on_disk 0;
                     app_346110_methods.write_folder "" ]), s)) /\
  (id ∈ app_346110_vars.mods g ->
   app_346110_methods.SteamUGC_GetItemInstallInfo id true 0 s
   = Undefined "store outside the folder buffer").
Proof.
  intros g text. split.
  - intros Hsize.
    unfold app_346110_methods.SteamUGC_GetItemInstallInfo.
    rewrite run_bind, run_gets. fold g. cbv zeta. fold text.
    destruct (bool_decide (id ∈ app_346110_vars.mods g)).
    + rewrite wrap_small by lia.
      set (written := substring 0 _ text).
      assert (Hw : written = substring 0 (Z.to_nat (folder_size - 1)) text).
      { unfold written.
        replace (Z.to_nat (Z.min (folder_size - 1)
                             (Z.of_nat (String.length text))))
          with (Nat.min (Z.to_nat (folder_size - 1)) (String.length text))
          by lia.
        apply substring_0_min. }
      assert (Hlen : Z.of_nat (String.length written) + 1 <= folder_size).
      { rewrite Hw, length_substring_0. lia. }
      exists written. split; [|split; [done|split; [done|]]].
      * cbn [andb]. destruct (Z.leb_spec (Z.of_nat (String.length written) + 1)
                                folder_size); [reflexivity|lia].
      * intros Hfit. rewrite Hw. apply substring_0_all. lia.
    + destruct (Z.eqb_spec folder_size 0); [lia|]. reflexivity.
  - intros Hin.
    unfold app_346110_methods.SteamUGC_GetItemInstallInfo.
    rewrite run_bind, run_gets. fold g. cbv zeta.
    rewrite bool_decide_true by done. cbn [andb].
    destruct (Z.leb_spec
                (Z.of_nat (String.length
                   (substring 0
                      (Z.to_nat (Z.min (cxx.wrap 32 (0 - 1))
                                   (Z.of_nat (String.length
                                      (app_346110_vars.ws_dir_path g +:+ "\"
                                       +:+ pretty id)))))
                      (app_346110_vars.ws_dir_path g +:+ "\" +:+ pretty id)))
                 + 1) 0); [lia|reflexivity].
Qed.

(** The theorem on installed item 12 and a folder buffer of four bytes. *)
Lemma SteamUGC_GetItemInstallInfo_fits_witness :
  1 <= 4 < 2 ^ 32 /\
  exists written,
    app_346110_methods.SteamUGC_GetItemInstallInfo 12 true 4
      example_346110.subscribed
    = Ok ((true, [ app_346110_methods.write_size_on_disk 0;
                   app_346110_methods.write_legacy_item false;
                   app_346110_methods.write_folder written ]),
          example_346110.subscribed) /\
    Z.of_nat (String.length written) + 1 <= 4.
Proof.
  split; [lia|].
  pose proof (proj1 (SteamUGC_GetItemInstallInfo_fits
                       example_346110.subscribed 12 4)) as H.
  cbv zeta in H. specialize (H ltac:(lia)).
  rewrite bool_decide_true in H by (vm_compute; repeat constructor).
  destruct H as (written & Hrun & _ & Hlen & _).
  exists written. split; [exact Hrun | exact Hlen].
Defined.


(** ** The life cycle of a Workshop item *)

Section life_cycle.
Import app_346110_vars app_346110 app_346110_methods.
Context (c : tek_sc_constants) (fw : foreign_346110) (w : world).

(** Subscribing to an item that is not tracked yet starts tracking it,
    with a null descriptor pointer. *)
Lemma SteamUGC_SubscribeItem_untracked id s :
  ws_descs (game_346110 s) !! id = None ->
  exists s1,
    SteamUGC_SubscribeItem w id s = Ok (id, s1) /\
    game_346110 s1 = with_ws_descs (insert id 0) (game_346110 s).
Proof.
  intros Hid.
  unfold SteamUGC_SubscribeItem, try_emplace,
    steamclient.install_workshop_item.
  cbv [mbind M_bind mret M_ret gets modify]. rewrite Hid.
  cbn [game_346110 with_game_346110 steamclient_am with_steamclient_am].
  repeat match goal with
         | |- context [if ?b then _ else _] => destruct b
         end;
    eexists; split; reflexivity.
Qed.

Lemma SteamUGC_GetNumSubscribedItems_run s :
  SteamUGC_GetNumSubscribedItems s
  = Ok (cxx.wrap 32 (Z.of_nat (length (mods (game_346110 s)))
                     + Z.of_nat (size (ws_descs (game_346110 s)))), s).
Proof. reflexivity. Qed.

End life_cycle.

(** X8.  The life cycle of a Workshop item that is not tracked yet.
    [SteamUGC_SubscribeItem] returns its ID and starts tracking it; while it
    is tracked and the job thread has not stored a descriptor, the item counts
    as subscribed, [SteamUtils_IsAPICallCompleted] answers for the ID without
    calling the original (completed, failed), and [SteamUGC_GetItemUpdateInfo]
    reports a download with no progress.  When the job's update handler sees
    the job stopped, the item is no longer tracked; it has moved to the
    installed items if the job left a manifest (the count stays), and is gone
    otherwise (the count returns to what it was). *)
Theorem workshop_item_life_cycle
    (c : tek_sc_constants) (fw : foreign_346110) (w : world) (s : state)
    (id iface upd_mask : Z) (desc : tek_sc_am_item_desc) :
  app_346110_vars.ws_descs (game_346110 s) !! id = None ->
  subscribed_items s + 1 < 2 ^ 32 ->
  Z.land upd_mask (TEK_SC_AM_UPD_TYPE_state c) <> 0 ->
  job_state desc = TEK_SC_AM_JOB_STATE_stopped c ->
  id_ws_item_id desc = id ->
  exists s1 s2,
    app_346110.SteamUGC_SubscribeItem w id s = Ok (id, s1) /\
    app_346110.SteamUGC_GetNumSubscribedItems s1
    = Ok (subscribed_items s + 1, s1) /\
    app_346110_methods.SteamUtils_IsAPICallCompleted fw iface id s1
    = Ok ((true, Some true), s1) /\
    app_346110_methods.SteamUGC_GetItemUpdateInfo c fw id s1
    = Ok ((true, [ app_346110_methods.write_need_update true;
                   app_346110_methods.write_is_downloading true;
                   app_346110_methods.write_bytes_downloaded 0;
                   app_346110_methods.write_bytes_total 0 ]), s1) /\
    app_346110_methods.job_upd_handler c desc upd_mask s1 = Ok (tt, s2) /\
    app_346110_vars.ws_descs (game_346110 s2)
    = app_346110_vars.ws_descs (game_346110 s) /\
    (if current_manifest_id desc =? 0 then
       app_346110_vars.mods (game_346110 s2)
       = app_346110_vars.mods (game_346110 s) /\
       app_346110.SteamUGC_GetNumSubscribedItems s2
       = Ok (subscribed_items s, s2)
     else
       app_346110_vars.mods (game_346110 s2)
       = app_346110_vars.mods (game_346110 s) ++ [id] /\
       app_346110.SteamUGC_GetNumSubscribedItems s2
       = Ok (subscribed_items s + 1, s2)).
Proof.
  intros Hid Hcount Hmask Hstate Hdesc.
  destruct (SteamUGC_SubscribeItem_untracked w id s Hid) as (s1 & Hsub & Hg1).
  assert (Hpos : 0 <= subscribed_items s) by (unfold subscribed_items; lia).
  assert (Hn1 : subscribed_items s1 = subscribed_items s + 1).
  { unfold subscribed_items. rewrite Hg1.
    destruct (game_346110 s) as [? ? ? ? ? ms wd ? ? ? ? ?]. cbn in *.
    rewrite map_size_insert_None by done. lia. }
  set (s2 :=
         with_game_346110
           (app_346110.with_ws_descs (delete id))
           (if current_manifest_id desc =? 0 then s1
            else with_game_346110
                   (app_346110.with_mods (fun l => l ++ [id])) s1)).
  exists s1, s2. split; [exact Hsub|].
  split.
  { rewrite SteamUGC_GetNumSubscribedItems_run.
    fold (subscribed_items s1). rewrite Hn1, wrap_small by lia. done. }
  split.
  { unfold app_346110_methods.SteamUtils_IsAPICallCompleted.
    rewrite run_bind, run_gets, Hg1.
    destruct (game_346110 s); cbn. by rewrite lookup_insert_eq. }
  split.
  { unfold app_346110_methods.SteamUGC_GetItemUpdateInfo.
    rewrite run_bind, run_gets, Hg1.
    destruct (game_346110 s); cbn. by rewrite lookup_insert_eq. }
  split.
  { unfold app_346110_methods.job_upd_handler.
    rewrite Hstate, Z.eqb_refl, Hdesc.
    destruct (Z.eqb_spec (Z.land upd_mask (TEK_SC_AM_UPD_TYPE_state c)) 0);
      [done|].
    cbn [negb andb]. unfold s2.
    destruct (current_manifest_id desc =? 0); reflexivity. }
  assert (Hwd : app_346110_vars.ws_descs (game_346110 s2)
                = app_346110_vars.ws_descs (game_346110 s)).
  { unfold s2. destruct (current_manifest_id desc =? 0);
      cbn; rewrite Hg1; destruct (game_346110 s); cbn in *;
      by rewrite delete_insert_id. }
  split; [exact Hwd|].
  rewrite SteamUGC_GetNumSubscribedItems_run, Hwd.
  unfold s2. destruct (current_manifest_id desc =? 0); cbn; rewrite Hg1.
  - destruct (game_346110 s) eqn:Hg; cbn. split; [done|].
    unfold subscribed_items in *. rewrite Hg in *. cbn in *.
    rewrite wrap_small by lia. done.
  - destruct (game_346110 s) eqn:Hg; cbn. split; [done|].
    unfold subscribed_items in *. rewrite Hg in *. cbn in *.
    rewrite length_app. cbn. rewrite wrap_small by lia.
    do 2 f_equal. lia.
Qed.

(** The theorem on item 21, which is not tracked in the sample state. *)
Lemma workshop_item_life_cycle_witness :
  let s := example_346110.subscribed in
  let w := example.library (fun _ => true) 1 0x00030000 0 in
  app_346110_vars.ws_descs (game_346110 s) !! 21 = None /\
  exists s1 s2,
    app_346110.SteamUGC_SubscribeItem w 21 s = Ok (21, s1) /\
    app_346110_methods.job_upd_handler example_346110.constants
      example_346110.finished_job 1 s1 = Ok (tt, s2) /\
    app_346110_vars.mods (game_346110 s2) = [11; 12; 13; 21].
Proof.
  intros s w. split; [reflexivity|].
  destruct (workshop_item_life_cycle example_346110.constants
              example_346110.foreign w s 21 0 1 example_346110.finished_job)
    as (s1 & s2 & Hsub & _ & _ & _ & Hjob & _ & Hmods);
    [reflexivity | vm_compute; reflexivity | vm_compute; discriminate
    | reflexivity | reflexivity |].
  exists s1, s2. split; [exact Hsub|]. split; [exact Hjob|].
  exact (proj1 Hmods).
Defined.


(** ** The filter array of the server-list request *)

Section filters.
Import app_346110_vars app_346110 app_346110_methods.

Lemma fits_kv_length s : fits_kv s <-> (String.length s < 256)%nat.
Proof. reflexivity. Qed.

Lemma put_filter_at_end xs m i k v :
  i = Z.of_nat (length xs) -> fits_kv k -> fits_kv v ->
  put_filter i k v ((Some <$> xs) ++ replicate (S m) None)
  = Ok ((Some <$> (xs ++ [{| key := k; value := v |}]))
        ++ replicate m None).
Proof.
  intros -> Hk Hv.
  pose proof (proj1 (fits_kv_length k) Hk).
  pose proof (proj1 (fits_kv_length v) Hv).
  unfold put_filter, kv_capacity.
  destruct (Z.ltb_spec (Z.of_nat (String.length k)) 256); [|lia].
  destruct (Z.ltb_spec (Z.of_nat (String.length v)) 256); [|lia].
  cbn [andb]. unfold cxx.array_set.
  rewrite length_app, length_fmap, length_replicate.
  destruct (Z.leb_spec 0 (Z.of_nat (length xs))); [|lia].
  destruct (Z.ltb_spec (Z.of_nat (length xs))
              (Z.of_nat (length xs + S m))); [|lia].
  cbn [andb]. f_equal. rewrite Nat2Z.id.
  rewrite <- (length_fmap Some xs) at 1.
  rewrite <- (Nat.add_0_r (length (Some <$> xs))), insert_app_r.
  cbn. by rewrite fmap_app, <- app_assoc.
Qed.

Lemma put_maps_at_end names xs m cur :
  cur + 1 = Z.of_nat (length xs) -> Forall fits_kv names ->
  put_maps names cur ((Some <$> xs) ++ replicate (length names + m) None)
  = Ok ((Some <$> (xs ++ ((fun dlc => {| key := "map"; value := dlc |})
                            <$> names)))
        ++ replicate m None).
Proof.
  revert xs cur. induction names as [|dlc names IH]; intros xs cur Hcur Hs.
  - cbn. by rewrite app_nil_r.
  - apply Forall_cons in Hs as [Hd Hs]. cbn [put_maps length Nat.add].
    rewrite (put_filter_at_end xs _ (cur + 1) "map" dlc Hcur)
      by (done || (apply fits_kv_length; cbn; lia)).
    cbn [mbind steam_api.result_bind]. rewrite IH; [|rewrite length_app; cbn; lia|done].
    by rewrite fmap_cons, <- app_assoc.
Qed.

Lemma fits_kv_pretty z : 0 <= z < 2 ^ 32 -> fits_kv (pretty z).
Proof.
  intros Hz. apply fits_kv_length.
  assert (String.length (pretty z) <= 10)%nat; [|lia].
  apply pretty_Z_length; [|lia]. change (10 ^ Z.of_nat 10) with 10000000000.
  lia.
Qed.

(** The "or" group: three entries and one "map" entry per name. *)
Lemma put_group xs names cur :
  cur = Z.of_nat (length xs) -> Forall fits_kv names ->
  Z.of_nat (length names) + 2 < 2 ^ 32 ->
  (a ← put_filter cur "or" (pretty (Z.of_nat (length names) + 2))
         ((Some <$> xs) ++ replicate (3 + length names) None);
   a ← put_filter (cur + 1) "gamedataand" "TEKWrapper:1" a;
   a ← put_filter (cur + 2) "nor" (pretty (Z.of_nat (length names))) a;
   put_maps names (cur + 2) a)
  = Ok (Some <$>
          (xs ++ [ {| key := "or";
                      value := pretty (Z.of_nat (length names) + 2) |};
                   {| key := "gamedataand"; value := "TEKWrapper:1" |};
                   {| key := "nor";
                      value := pretty (Z.of_nat (length names)) |} ]
              ++ ((fun dlc => {| key := "map"; value := dlc |}) <$> names))).
Proof.
  intros Hcur Hnames Hsize. cbn [Nat.add].
  rewrite (put_filter_at_end xs _ cur) by
    first [done | apply fits_kv_pretty; lia | apply fits_kv_length; cbn; lia].
  cbn [mbind steam_api.result_bind].
  rewrite (put_filter_at_end _ _ (cur + 1)) by
    first [rewrite length_app; cbn; lia | apply fits_kv_length; cbn; lia].
  cbn [mbind steam_api.result_bind].
  rewrite (put_filter_at_end _ _ (cur + 2)) by
    first [rewrite !length_app; cbn; lia | apply fits_kv_pretty; lia
          | apply fits_kv_length; cbn; lia].
  cbn [mbind steam_api.result_bind].
  rewrite <- (Nat.add_0_r (length names)) at 3.
  rewrite put_maps_at_end by
    first [rewrite !length_app; cbn; lia | done].
  cbn [replicate]. rewrite app_nil_r, <- !app_assoc. reflexivity.
Qed.

End filters.

(** Side conditions of the lemmas above: positions, sizes and the lengths
    of literal strings. *)
Ltac filter_side :=
  first
    [ done
    | apply fits_kv_length; cbn; lia
    | subst; rewrite ?length_app; cbn [length] in *; lia ].

(** The array that lines 134-187 build holds the caller's filters followed
    by the extra entries, with every allocated slot written, and the count
    is its length. *)
Lemma new_filters_Ok
    (g : app_346110_vars.globals) (spoof_app_id : Z)
    (filters : list matchmaking_kv_pair) :
  let num_filters := Z.of_nat (length filters) in
  let extra := app_346110_methods.extra_filters g spoof_app_id in
  num_filters + 4 + Z.of_nat (length (app_346110_vars.unavailable_dlc g))
    < 2 ^ 32 ->
  Forall app_346110_methods.fits_kv (app_346110_vars.unavailable_dlc g) ->
  app_346110_methods.new_filters g spoof_app_id (Some filters) num_filters
  = Ok (num_filters + Z.of_nat (length extra), Some <$> (filters ++ extra)).
Proof.
  intros num_filters extra Hsize Hnames.
  unfold extra, app_346110_methods.new_filters,
    app_346110_methods.extra_filters.
  destruct (app_346110_vars.show_be_servers g),
    (app_346110_vars.show_unavailable_servers g),
    (app_346110_vars.unavailable_dlc g) as [|dlc names] eqn:Hdlc,
    (spoof_app_id =? 346110);
    cbn [negb andb orb app];
    cbv zeta;
    repeat match goal with
           | |- context [cxx.wrap 32 ?x] =>
               rewrite (wrap_small 32 x) by (cbn [length] in *; lia)
           end.
  all: repeat match goal with
              | |- context [?a <? ?b] =>
                  rewrite (proj2 (Z.ltb_ge a b)) by (unfold num_filters; lia)
              end;
       cbn [orb];
       replace (take (Z.to_nat num_filters) filters) with filters
         by (unfold num_filters; by rewrite Nat2Z.id, firstn_all).
  all: match goal with
       | |- context [replicate (Z.to_nat ?e) None] =>
           first
             [ replace (Z.to_nat e) with 0%nat by lia
             | replace (Z.to_nat e) with 1%nat by lia
             | replace (Z.to_nat e) with 2%nat by lia
             | replace (Z.to_nat e) with (3 + length (dlc :: names))%nat
                 by lia
             | replace (Z.to_nat e) with (S (3 + length (dlc :: names)))%nat
                 by lia ]
       end.
  all: cbn [mbind steam_api.result_bind].
  all: try change (S (length names)) with (length (dlc :: names)).
  all: repeat
         (first [ rewrite put_group by filter_side
                | rewrite put_filter_at_end by filter_side ];
          cbn [mbind steam_api.result_bind]).
  all: cbn [replicate]; rewrite ?app_nil_r, <- ?app_assoc.
  all: f_equal; f_equal;
       cbn [length app]; rewrite ?length_fmap; cbn [length]; lia.
Qed.

(** X9.  The wrapper for [ISteamMatchmakingServers::RequestInternetServerList]
    hands the original method a filter array that is written completely and
    counted correctly: the caller's filters followed by the extra entries, no
    allocated slot left unwritten, and a count equal to the length of the
    array; it calls the original once and returns its result. With both
    settings switched on the caller's filters are passed along unchanged.  A
    null [filters] pointer is dereferenced even when there are no filters. *)
Theorem RequestInternetServerList_passes_complete_filters
    (fw : foreign_346110) (s : state) (callee iface app_id handler : Z)
    (filters : list matchmaking_kv_pair) :
  let g := game_346110 s in
  let num_filters := Z.of_nat (length filters) in
  let extra :=
    app_346110_methods.extra_filters g
      (settings.spoof_app_id (g_settings s)) in
  num_filters + 4 + Z.of_nat (length (app_346110_vars.unavailable_dlc g))
    < 2 ^ 32 ->
  Forall app_346110_methods.fits_kv (app_346110_vars.unavailable_dlc g) ->
  app_346110_vars.SteamMatchmakingServers_RequestInternetServerList_orig g
  = fn_vendor callee ->
  app_346110_methods.SteamMatchmakingServers_RequestInternetServerList fw
    iface app_id (Some filters) num_filters handler s
  = Ok (w_RequestInternetServerList fw callee iface app_id
          (Some <$> (filters ++ extra))
          (num_filters + Z.of_nat (length extra)) handler,
        with_vendor_calls
          (fun l => l ++ [{| callee := callee; this_ptr := iface;
                             argument := app_id |}]) s) /\
  (app_346110_vars.show_be_servers g = true ->
   app_346110_vars.show_unavailable_servers g = true -> extra = []) /\
  app_346110_methods.SteamMatchmakingServers_RequestInternetServerList fw
    iface app_id None 0 handler s
  = Undefined "dereference of a null filters pointer".
Proof.
  intros g num_filters extra Hsize Hnames Horig.
  split; [|split].
  - unfold app_346110_methods.SteamMatchmakingServers_RequestInternetServerList.
    cbv [mbind M_bind gets]. fold g.
    pose proof (new_filters_Ok g (settings.spoof_app_id (g_settings s))
                  filters Hsize Hnames) as Hnf.
    cbv zeta in Hnf. unfold num_filters, extra.
    rewrite Hnf, Horig. reflexivity.
  - unfold extra, app_346110_methods.extra_filters. by intros -> ->.
  - reflexivity.
Qed.

(** The theorem on a request with one filter of the game's own. *)
Lemma RequestInternetServerList_passes_complete_filters_witness :
  let s := example_346110.filtering in
  let filters := [ {| key := "gamedir"; value := "ark_survival_evolved" |} ] in
  app_346110_vars.SteamMatchmakingServers_RequestInternetServerList_orig
    (game_346110 s) = fn_vendor 3000 /\
  exists s',
    app_346110_methods.SteamMatchmakingServers_RequestInternetServerList
      example_346110.foreign 102 346110 (Some filters) 1 7 s
    = Ok (7, s').
Proof.
  intros s filters. split; [reflexivity|].
  eexists. change 1 with (Z.of_nat (length filters)).
  rewrite (proj1 (RequestInternetServerList_passes_complete_filters
                    example_346110.foreign s 3000 102 346110 7 filters
                    ltac:(vm_compute; reflexivity)
                    ltac:(repeat constructor; vm_compute; lia)
                    eq_refl)).
  reflexivity.
Defined.


(** ** settings.cpp *)

Section charconv_lemmas.

Lemma digit_pretty_N_char (d : N) :
  (d < 10)%N -> charconv.digit (pretty_N_char d) = Some (Z.of_N d).
Proof.
  intros Hd.
  assert (d = 0 \/ d = 1 \/ d = 2 \/ d = 3 \/ d = 4 \/ d = 5 \/ d = 6
          \/ d = 7 \/ d = 8 \/ d = 9)%N as Hcases by lia.
  repeat (destruct Hcases as [->|Hcases]; [reflexivity|]).
  by subst.
Qed.

Lemma append_empty_r (s : string) : s +:+ "" = s.
Proof.
  induction s as [|a s IH]; [done|].
  change (String a s +:+ "") with (String a (s +:+ "")). by rewrite IH.
Qed.

Lemma pretty_N_go_app (x : N) (s t : string) :
  pretty_N_go x s +:+ t = pretty_N_go x (s +:+ t).
Proof.
  revert s. induction (N.lt_wf_0 x) as [x _ IH]; intros s.
  destruct (decide (x = 0%N)) as [->|Hne].
  - by rewrite !pretty_N_go_0.
  - rewrite (pretty_N_go_step x s), (pretty_N_go_step x (s +:+ t)) by lia.
    rewrite IH by (apply N.div_lt; lia). reflexivity.
Qed.

(** The digits of a printed number, read back. *)
Lemma leading_digits_pretty_N_go (x : N) (s : string) :
  exists ds,
    charconv.leading_digits (pretty_N_go x s)
    = ds ++ charconv.leading_digits s /\
    (forall acc,
       foldl (fun acc d => 10 * acc + d) acc ds
       = acc * 10 ^ Z.of_nat (length ds) + Z.of_N x) /\
    ((0 < x)%N -> ds <> []).
Proof.
  revert s. induction (N.lt_wf_0 x) as [x _ IH]; intros s.
  destruct (decide (x = 0%N)) as [->|Hne].
  - exists []. rewrite pretty_N_go_0. repeat split; [|lia].
    intros acc. cbn. lia.
  - rewrite pretty_N_go_step by lia.
    destruct (IH (x `div` 10)%N (N.div_lt x 10 ltac:(lia) eq_refl)
                (String (pretty_N_char (x `mod` 10)) s))
      as (ds & Hds & Hval & _).
    exists (ds ++ [Z.of_N (x `mod` 10)]). split; [|split].
    + rewrite Hds. cbn [charconv.leading_digits].
      rewrite digit_pretty_N_char by (apply N.mod_lt; lia).
      by rewrite <- app_assoc.
    + intros acc. rewrite foldl_app, Hval. cbn [foldl].
      rewrite length_app, Nat2Z.inj_add, Z.pow_add_r by lia.
      cbn [length]. change (10 ^ Z.of_nat 1) with 10.
      pose proof (N.div_mod x 10 ltac:(lia)) as Hx.
      apply (f_equal Z.of_N) in Hx.
      rewrite N2Z.inj_add, N2Z.inj_mul in Hx. lia.
    + intros _. by destruct ds.
Qed.

Lemma from_chars_pretty_any (z : Z) (rest : string) :
  0 <= z -> charconv.leading_digits rest = [] ->
  charconv.from_chars (pretty z +:+ rest)
  = if z <? 2 ^ 32 then Some z else None.
Proof.
  intros Hz0 Hrest. destruct z as [|p|p]; [| |lia].
  - unfold charconv.from_chars.
    change (pretty 0 +:+ rest) with (String (Ascii.ascii_of_nat 48) rest).
    cbn [charconv.leading_digits].
    change (charconv.digit (Ascii.ascii_of_nat 48)) with (Some 0).
    by rewrite Hrest.
  - change (pretty (Z.pos p)) with (pretty (N.pos p)).
    unfold pretty, pretty_N. destruct (decide (N.pos p = 0%N)); [done|].
    rewrite pretty_N_go_app. change ("" +:+ rest) with rest.
    destruct (leading_digits_pretty_N_go (N.pos p) rest)
      as (ds & Hds & Hval & Hne).
    unfold charconv.from_chars. rewrite Hds, Hrest, app_nil_r.
    destruct ds as [|d ds]; [by destruct Hne|].
    unfold charconv.number. by rewrite Hval, Z.mul_0_l, Z.add_0_l.
Qed.

Lemma from_chars_pretty (z : Z) (rest : string) :
  uint32 z -> charconv.leading_digits rest = [] ->
  charconv.from_chars (pretty z +:+ rest) = Some z.
Proof.
  intros [Hz0 Hz] Hrest. rewrite from_chars_pretty_any by done.
  destruct (Z.ltb_spec z (2 ^ 32)); [done|lia].
Qed.

Lemma to_chars_pretty (z : Z) :
  uint32 z -> charconv.to_chars 10 z = Some (pretty z).
Proof.
  intros [Hz0 Hz]. unfold charconv.to_chars.
  pose proof (pretty_Z_length 10 z) as Hlen.
  destruct (Z.leb_spec (Z.of_nat (String.length (pretty z))) 10);
    [done|].
  assert (String.length (pretty z) <= 10)%nat; [|lia].
  apply Hlen; [|lia]. split; [done|].
  eapply Z.lt_le_trans; [exact Hz|]. by vm_compute.
Qed.

End charconv_lemmas.

Section settings_lemmas.
Import settings_cpp.

Lemma load_dlc_save_dlc (dlc : list (Z * string)) :
  Forall (fun entry => uint32 entry.1) dlc ->
  load_dlc (save_dlc dlc) = dlc.
Proof.
  induction 1 as [|[id name] dlc Hid _ IH]; [done|].
  cbn [save_dlc]. rewrite to_chars_pretty by done.
  cbn [load_dlc].
  rewrite <- (append_empty_r (pretty id)) at 1.
  rewrite (from_chars_pretty id "") by done.
  by rewrite IH.
Qed.

Lemma load_installed_dlc_list (l : list Z) :
  Forall uint32 l ->
  load_installed_dlc (json.JInteger <$> l) = list_to_set l.
Proof.
  induction 1 as [|z l [Hz0 Hz] _ IH]; [done|].
  cbn [fmap list_fmap load_installed_dlc json.IsUint list_to_set].
  destruct (Z.leb_spec 0 z); [|lia]. destruct (Z.ltb_spec z (2 ^ 32)); [|lia].
  cbn [andb]. by rewrite IH.
Qed.

Lemma load_installed_dlc_saved (X : gset Z) :
  set_Forall uint32 X ->
  load_installed_dlc (json.JInteger <$> merge_sort Z.le (elements X)) = X.
Proof.
  intros HX. rewrite load_installed_dlc_list.
  - rewrite (merge_sort_Permutation Z.le (elements X)).
    apply list_to_set_elements_L.
  - rewrite (merge_sort_Permutation Z.le (elements X)).
    apply Forall_forall. intros z Hz. apply HX. by apply elem_of_elements.
Qed.

End settings_lemmas.

Section round_trip.
Import settings_cpp.

Lemma FindMember_app (name : string) (l1 l2 : list (string * json.value)) :
  json.FindMember name (l1 ++ l2)
  = match json.FindMember name l1 with
    | Some v => Some v
    | None => json.FindMember name l2
    end.
Proof.
  induction l1 as [|[n v] l1 IH]; [done|]. cbn.
  by destruct (String.eqb n name).
Qed.

(** No game callback writes a member under one of those names. *)
Lemma settings_save_cb_names (app_id : Z) (st : variables) (name : string) :
  name ∈ steam_names ->
  json.FindMember name (settings_save_cb app_id st) = None.
Proof.
  intros Hname. unfold settings_save_cb, settings_save_346110,
    settings_save_2399830.
  repeat match goal with |- context [if ?c then _ else _] => destruct c end;
    unfold steam_names in Hname;
    repeat (apply elem_of_cons in Hname as [->|Hname]; [reflexivity|]);
    by apply elem_of_nil in Hname.
Qed.

Lemma IsUint_uint32 (z : Z) :
  uint32 z -> json.IsUint (json.JInteger z) = true.
Proof.
  intros [Hz0 Hz]. cbn. destruct (Z.leb_spec 0 z); [|lia].
  destruct (Z.ltb_spec z (2 ^ 32)); [done|lia].
Qed.

Lemma steam_settings_load_cb app_id doc st :
  steam (settings_load_cb app_id doc st) = steam st.
Proof. unfold settings_load_cb. by repeat case_match. Qed.

Lemma shown_settings_load_cb app_id doc st :
  shown (settings_load_cb app_id doc st) = shown st.
Proof. unfold settings_load_cb. by repeat case_match. Qed.

Lemma file_path_settings_load_cb app_id doc st :
  file_path (settings_load_cb app_id doc st) = file_path st.
Proof. unfold settings_load_cb. by repeat case_match. Qed.

(** The members of the document saved, looked up by name. *)
Lemma saved_steam_members (o : settings.steam_options) (st : variables) :
  let D := json.members_of (save_document o st) in
  json.FindMember "store" D = Some (json.JString "steam") /\
  json.FindMember "app_id" D = Some (json.JInteger (settings.app_id o)) /\
  json.FindMember "spoof_app_id" D
  = (if negb (settings.spoof_app_id o =? 0)
        && negb (settings.spoof_app_id o =? settings.app_id o)
     then Some (json.JInteger (settings.spoof_app_id o)) else None) /\
  json.FindMember "dlc" D
  = (match settings.dlc o with
     | [] => None
     | dlc => Some (json.JObject (save_dlc dlc))
     end) /\
  json.FindMember "installed_dlc" D
  = (if decide (settings.installed_dlc o = ∅) then None
     else Some (json.JArray
                  (json.JInteger
                     <$> merge_sort Z.le
                           (elements (settings.installed_dlc o))))) /\
  json.FindMember "tek_sc_path" D
  = (if negb (String.eqb (settings.tek_sc_path o) "") then
       Some (json.JString (settings.tek_sc_path o))
     else None) /\
  json.FindMember "auto_update_dlc" D
  = Some (json.JBool (settings.auto_update_dlc o)).
Proof.
  intros D. unfold D, save_document, json.members_of.
  set (tail := settings_save_cb (settings.app_id o) st).
  assert (Htail : forall name, name ∈ steam_names ->
                    json.FindMember name tail = None)
    by (intros; by apply settings_save_cb_names).
  rewrite !FindMember_app.
  destruct (negb (settings.spoof_app_id o =? 0)
            && negb (settings.spoof_app_id o =? settings.app_id o)),
    (settings.dlc o), (decide (settings.installed_dlc o = ∅)),
    (negb (String.eqb (settings.tek_sc_path o) ""));
    cbn [json.FindMember String.eqb Ascii.eqb Bool.eqb];
    rewrite ?Htail by (vm_compute; repeat constructor);
    repeat split; reflexivity.
Qed.

Lemma FindMember_None (names : list string) (name : string)
    (l : list (string * json.value)) :
  Forall (fun m => m.1 ∈ names) l -> name ∉ names ->
  json.FindMember name l = None.
Proof.
  intros Hl Hname. induction Hl as [|[n v] l Hn _ IH]; [done|].
  cbn. destruct (String.eqb_spec n name) as [->|_]; [done|exact IH].
Qed.

(** A name that [settings::save] does not write itself is looked up among
    the members of the game callback. *)
Lemma saved_game_members (o : settings.steam_options) (st : variables)
    (name : string) :
  name ∉ steam_names ->
  json.FindMember name (json.members_of (save_document o st))
  = json.FindMember name (settings_save_cb (settings.app_id o) st).
Proof.
  intros Hname. unfold save_document, json.members_of.
  assert (Hskip : forall l rest,
            Forall (fun m => m.1 ∈ steam_names) l ->
            json.FindMember name (l ++ rest) = json.FindMember name rest).
  { intros l rest Hl.
    by rewrite FindMember_app, (FindMember_None steam_names). }
  rewrite !Hskip; [done|..]; repeat case_match;
    repeat (apply Forall_cons; split;
            [vm_compute; repeat constructor|]);
    apply Forall_nil; done.
Qed.

End round_trip.

(** X10.  What [settings::save] writes, [settings::load] reads back: the
    document saved for representable Steam options loads without a message and
    gives the same options, up to the two defaults of [load]: a spoofed ID
    equal to the application ID comes back as zero, and an empty installed set
    comes back as the set of the DLC IDs. *)
Theorem settings_survive_save_and_load (w : settings_cpp.settings_world)
    (st st0 : settings_cpp.variables) (o : settings.steam_options)
    (path : string) (doc : json.value) :
  settings_cpp.steam st = Some o -> representable o ->
  settings_cpp.save w st = Ok (Some (path, doc)) ->
  exists st',
    settings_cpp.load_document (Some doc) st0 = (true, st') /\
    settings_cpp.steam st'
    = Some {| settings.app_id := settings.app_id o;
              settings.spoof_app_id :=
                if settings.spoof_app_id o =? settings.app_id o then 0
                else settings.spoof_app_id o;
              settings.dlc := settings.dlc o;
              settings.installed_dlc :=
                if decide (settings.installed_dlc o = ∅)
                then list_to_set (settings.dlc o).*1
                else settings.installed_dlc o;
              settings.tek_sc_path := settings.tek_sc_path o;
              settings.auto_update_dlc := settings.auto_update_dlc o |} /\
    settings_cpp.shown st' = settings_cpp.shown st0.
Proof.
  intros Hsteam (Happ & Hspoof & Hdlc & Hinst) Hsave.
  unfold settings_cpp.save in Hsave. rewrite Hsteam in Hsave.
  destruct (String.eqb _ ""); [done|].
  destruct (negb _); [done|]. injection Hsave as _ <-.
  destruct (saved_steam_members o st)
    as (Hm1 & Hm2 & Hm3 & Hm4 & Hm5 & Hm6 & Hm7).
  change (settings_cpp.save_document o st)
    with (json.JObject (json.members_of (settings_cpp.save_document o st))).
  set (D := json.members_of (settings_cpp.save_document o st)) in *.
  unfold settings_cpp.load_document. cbv beta iota.
  rewrite Hm1. cbn [String.eqb Ascii.eqb Bool.eqb]. rewrite Hm2.
  rewrite IsUint_uint32 by done.
  eexists. split; [reflexivity|].
  rewrite steam_settings_load_cb, shown_settings_load_cb.
  split; [|reflexivity]. cbn [settings_cpp.steam settings_cpp.set_steam].
  rewrite Hm3, Hm4, Hm5, Hm6, Hm7.
  assert (Hd : match settings.dlc o with
               | [] => []
               | p :: l =>
                   settings_cpp.load_dlc (settings_cpp.save_dlc (p :: l))
               end = settings.dlc o).
  { pose proof (load_dlc_save_dlc _ Hdlc) as Hback.
    by destruct (settings.dlc o). }
  do 2 f_equal.
  - destruct (Z.eqb_spec (settings.spoof_app_id o) 0) as [->|_],
      (Z.eqb_spec (settings.spoof_app_id o) (settings.app_id o));
      cbn [negb andb]; rewrite ?IsUint_uint32 by done; try done;
      by destruct (0 =? _).
  - by destruct (settings.dlc o).
  - destruct (decide (settings.installed_dlc o = ∅)).
    + destruct (settings.dlc o); [done|]. cbv iota in *. by rewrite Hd.
    + by apply load_installed_dlc_saved.
  - by destruct (String.eqb_spec (settings.tek_sc_path o) "") as [->|_].
Qed.

Lemma settings_survive_save_and_load_witness :
  exists st',
    settings_cpp.load_document
      (Some (settings_cpp.save_document example_settings.options
               example_settings.loaded))
      settings_cpp.at_start = (true, st') /\
    settings_cpp.steam st'
    = Some {| settings.app_id := 346110;
              settings.spoof_app_id := 0;
              settings.dlc :=
                [(512540, "Scorched Earth"); (1646700, "Genesis")];
              settings.installed_dlc := list_to_set [512540; 1646700];
              settings.tek_sc_path := "";
              settings.auto_update_dlc := true |} /\
    settings_cpp.shown st' = [].
Proof.
  apply (settings_survive_save_and_load
           (example_settings.by_file json.JNull) example_settings.loaded
           settings_cpp.at_start example_settings.options
           "tek-gr-settings.json").
  - reflexivity.
  - unfold representable, uint32.
    split; [cbn; lia|]. split; [cbn; lia|]. split.
    + repeat constructor; cbn; lia.
    + intros z Hz. by apply elem_of_empty in Hz.
  - reflexivity.
Defined.

(** X11.  The game options survive as well.  For 346110 the two flags and the
    Workshop directory are read back as saved, and the item manager path comes
    back as the Workshop directory when it was empty; for 2399830 both options
    are read back as saved.  The path options are compared for a process that
    starts with them empty, since an empty path is not written. *)
Theorem game_settings_survive_save_and_load
    (w : settings_cpp.settings_world) (st st0 : settings_cpp.variables)
    (o : settings.steam_options) (path : string) (doc : json.value) :
  settings_cpp.steam st = Some o ->
  settings_cpp.save w st = Ok (Some (path, doc)) ->
  (settings.app_id o = 346110 ->
   app_346110_vars.ws_dir_path (settings_cpp.statics_346110 st0) = "" ->
   exists st',
     settings_cpp.load_document (Some doc) st0 = (true, st') /\
     let g := settings_cpp.statics_346110 st in
     let g' := settings_cpp.statics_346110 st' in
     app_346110_vars.show_be_servers g'
     = app_346110_vars.show_be_servers g /\
     app_346110_vars.show_unavailable_servers g'
     = app_346110_vars.show_unavailable_servers g /\
     app_346110_vars.ws_dir_path g' = app_346110_vars.ws_dir_path g /\
     app_346110_vars.ws_am_path g'
     = (if String.eqb (app_346110_vars.ws_am_path g) ""
        then app_346110_vars.ws_dir_path g
        else app_346110_vars.ws_am_path g)) /\
  (settings.app_id o = 2399830 ->
   app_2399830_vars.cf_api_wrapper (settings_cpp.statics_2399830 st0) = "" ->
   exists st',
     settings_cpp.load_document (Some doc) st0 = (true, st') /\
     let g := settings_cpp.statics_2399830 st in
     let g' := settings_cpp.statics_2399830 st' in
     app_2399830_vars.force_egs_auth g'
     = app_2399830_vars.force_egs_auth g /\
     app_2399830_vars.cf_api_wrapper g'
     = app_2399830_vars.cf_api_wrapper g).
Proof.
  intros Hsteam Hsave.
  unfold settings_cpp.save in Hsave. rewrite Hsteam in Hsave.
  destruct (String.eqb _ ""); [done|].
  destruct (negb _); [done|]. injection Hsave as _ <-.
  destruct (saved_steam_members o st) as (Hm1 & Hm2 & _).
  pose proof (saved_game_members o st) as Hgame.
  change (settings_cpp.save_document o st)
    with (json.JObject (json.members_of (settings_cpp.save_document o st))).
  set (D := json.members_of (settings_cpp.save_document o st)) in *.
  unfold settings_cpp.load_document. cbv beta iota.
  rewrite Hm1. cbn [String.eqb Ascii.eqb Bool.eqb]. rewrite Hm2.
  split; intros Happ Hempty; rewrite Happ in *;
    (rewrite IsUint_uint32 by (unfold uint32; lia));
    (eexists; split; [reflexivity|]).
  - unfold settings_cpp.settings_load_cb.
    change (346110 =? 346110) with true. cbv iota.
    cbn [settings_cpp.statics_346110 settings_cpp.set_statics_346110
         settings_cpp.set_steam].
    unfold settings_cpp.settings_load_346110.
    cbn [app_346110_vars.show_be_servers
         app_346110_vars.show_unavailable_servers
         app_346110_vars.ws_dir_path app_346110_vars.ws_am_path].
    rewrite !Hgame by (apply (bool_decide_unpack _); by vm_compute).
    unfold settings_cpp.settings_save_cb.
    change (346110 =? 346110) with true. cbv iota.
    unfold settings_cpp.settings_save_346110.
    set (g := settings_cpp.statics_346110 st). rewrite Hempty.
    destruct (String.eqb_spec (app_346110_vars.ws_dir_path g) "") as [Hd|_],
      (String.eqb_spec (app_346110_vars.ws_am_path g) "") as [Ha|_];
      cbn [negb app json.FindMember String.eqb Ascii.eqb Bool.eqb];
      rewrite ?Hd, ?Ha; done.
  - unfold settings_cpp.settings_load_cb.
    change (2399830 =? 346110) with false.
    change (2399830 =? 2399830) with true. cbv iota.
    cbn [settings_cpp.statics_2399830 settings_cpp.set_statics_2399830
         settings_cpp.set_steam].
    unfold settings_cpp.settings_load_2399830.
    cbn [app_2399830_vars.force_egs_auth app_2399830_vars.cf_api_wrapper].
    rewrite !Hgame by (apply (bool_decide_unpack _); by vm_compute).
    unfold settings_cpp.settings_save_cb.
    change (2399830 =? 346110) with false.
    change (2399830 =? 2399830) with true. cbv iota.
    unfold settings_cpp.settings_save_2399830.
    set (g := settings_cpp.statics_2399830 st). rewrite Hempty.
    destruct (String.eqb_spec (app_2399830_vars.cf_api_wrapper g) "")
      as [Hd|_];
      cbn [negb app json.FindMember String.eqb Ascii.eqb Bool.eqb];
      rewrite ?Hd; done.
Qed.

Lemma game_settings_survive_save_and_load_witness :
  exists st',
    settings_cpp.load_document
      (Some (settings_cpp.save_document example_settings.options
               example_settings.loaded))
      settings_cpp.at_start = (true, st') /\
    app_346110_vars.show_be_servers (settings_cpp.statics_346110 st')
    = true /\
    app_346110_vars.ws_dir_path (settings_cpp.statics_346110 st')
    = "mods" /\
    app_346110_vars.ws_am_path (settings_cpp.statics_346110 st') = "mods".
Proof.
  destruct (game_settings_survive_save_and_load
              (example_settings.by_file json.JNull) example_settings.loaded
              settings_cpp.at_start example_settings.options
              "tek-gr-settings.json" _ eq_refl eq_refl) as [H _].
  destruct (H eq_refl eq_refl) as (st' & Hload & Hbe & _ & Hdir & Ham).
  exists st'. split; [exact Hload|]. split; [exact Hbe|].
  split; [exact Hdir|exact Ham].
Defined.

Section load_outcome.
Import settings_cpp.

Lemma outcome_fail (msg : string) (st0 st : variables) :
  steam st = steam st0 -> statics_346110 st = statics_346110 st0 ->
  statics_2399830 st = statics_2399830 st0 -> shown st = shown st0 ->
  outcome st0 (fail msg st).
Proof.
  intros H1 H2 H3 H4. unfold outcome, fail.
  cbn. rewrite H1, H2, H3, H4. eauto.
Qed.

Lemma outcome_load_document (doc : option json.value) (st0 st : variables) :
  steam st = steam st0 -> statics_346110 st = statics_346110 st0 ->
  statics_2399830 st = statics_2399830 st0 -> shown st = shown st0 ->
  outcome st0 (load_document doc st).
Proof.
  intros H1 H2 H3 H4. unfold load_document.
  destruct doc as [[| | | | | |members]|]; try by apply outcome_fail.
  destruct (json.FindMember "store" members) as [[| | | |view| |]|];
    try by apply outcome_fail.
  destruct (String.eqb view "steam"); [|by apply outcome_fail].
  destruct (json.FindMember "app_id" members) as [[| |app| | | |]|];
    try by apply outcome_fail.
  destruct (json.IsUint (json.JInteger app)); [|by apply outcome_fail].
  unfold outcome. rewrite steam_settings_load_cb, shown_settings_load_cb.
  cbn [steam set_steam shown]. eauto.
Qed.

(** A successful load has allocated the options. *)
Lemma load_true_steam (w : settings_world) (st st' : variables) :
  load w st = (true, st') -> is_Some (steam st').
Proof.
  intros Hload.
  assert (Hout : outcome st (load w st)).
  { unfold load. repeat case_match;
      first [ by apply outcome_fail | by apply outcome_load_document ]. }
  rewrite Hload in Hout. by destruct Hout.
Qed.

End load_outcome.

(** X12.  [settings::load] is all or nothing: when it returns [true] the Steam
    options are allocated and no message was shown; when it returns [false] it
    showed exactly one message and left the options pointer and the game
    options as they were. *)
Theorem load_all_or_nothing (w : settings_cpp.settings_world)
    (st : settings_cpp.variables) :
  let '(b, st') := settings_cpp.load w st in
  if b then
    is_Some (settings_cpp.steam st') /\
    settings_cpp.shown st' = settings_cpp.shown st
  else
    settings_cpp.steam st' = settings_cpp.steam st /\
    settings_cpp.statics_346110 st' = settings_cpp.statics_346110 st /\
    settings_cpp.statics_2399830 st' = settings_cpp.statics_2399830 st /\
    exists msg, settings_cpp.shown st' = settings_cpp.shown st ++ [msg].
Proof.
  change (outcome st (settings_cpp.load w st)).
  unfold settings_cpp.load.
  destruct (negb (settings_cpp.w_pipe w)); [by apply outcome_fail|].
  destruct (settings_cpp.w_header w) as [hdr|]; [|by apply outcome_fail].
  destruct (settings_cpp.read_data _ _) as [data|];
    [|by apply outcome_fail].
  destruct (settings_cpp.type hdr =? settings_cpp.load_type_file_path).
  - destruct (settings_cpp.w_file w _); [|by apply outcome_fail].
    by apply outcome_load_document.
  - destruct (settings_cpp.type hdr =? settings_cpp.load_type_pipe);
      [by apply outcome_load_document|by apply outcome_fail].
Qed.

(** X13.  [settings::save] writes to the file the settings were loaded from,
    and nowhere when they came over the pipe.  After a successful load in a
    fresh process, with the launcher's header [hdr] and data [data]: if the
    header asks for a file, [save] writes the document of the current options
    to the path received, or to "tek-gr-settings.json" when the path was
    empty, provided the file can be opened; otherwise it does nothing.  It
    never dereferences a null options pointer. *)
Theorem save_targets_the_loaded_file (w w' : settings_cpp.settings_world)
    (st st' : settings_cpp.variables) (hdr : settings_cpp.pipe_header)
    (data : string) :
  settings_cpp.file_path st = "" ->
  settings_cpp.w_header w = Some hdr ->
  settings_cpp.read_data (settings_cpp.w_reads w) (settings_cpp.size hdr)
  = Some data ->
  settings_cpp.load w st = (true, st') ->
  exists o,
    settings_cpp.steam st' = Some o /\
    settings_cpp.save w' st'
    = if settings_cpp.type hdr =? settings_cpp.load_type_file_path then
        let p := if String.eqb data "" then "tek-gr-settings.json"
                 else data in
        if settings_cpp.w_writable w' p
        then Ok (Some (p, settings_cpp.save_document o st'))
        else Ok None
      else Ok None.
Proof.
  intros Hpath Hhdr Hdata Hload.
  destruct (load_true_steam w st st' Hload) as [o Ho].
  exists o. split; [done|].
  assert (Hdoc : forall doc st1 st2,
            settings_cpp.load_document doc st1 = (true, st2) ->
            settings_cpp.file_path st2 = settings_cpp.file_path st1).
  { intros doc st1 st2. unfold settings_cpp.load_document.
    destruct doc as [[| | | | | |members]|]; try discriminate.
    destruct (json.FindMember "store" members) as [[| | | |view| |]|];
      try discriminate.
    destruct (String.eqb view "steam"); [|discriminate].
    destruct (json.FindMember "app_id" members) as [[| |app| | | |]|];
      try discriminate.
    destruct (json.IsUint (json.JInteger app)); [|discriminate].
    intros [= <-]. by rewrite file_path_settings_load_cb. }
  unfold settings_cpp.load in Hload. rewrite Hhdr, Hdata in Hload.
  destruct (negb (settings_cpp.w_pipe w)); [discriminate|].
  unfold settings_cpp.save. rewrite Ho.
  destruct (settings_cpp.type hdr =? settings_cpp.load_type_file_path).
  - destruct (settings_cpp.w_file w _) as [text|]; [|discriminate].
    apply Hdoc in Hload. rewrite Hload.
    cbn [settings_cpp.file_path settings_cpp.set_file_path].
    cbv zeta.
    assert (Hne : String.eqb (if String.eqb data ""
                              then "tek-gr-settings.json" else data) ""
                  = false).
    { destruct (String.eqb_spec data ""); [done|].
      by apply String.eqb_neq. }
    rewrite Hne. by destruct (settings_cpp.w_writable w' _).
  - destruct (settings_cpp.type hdr =? settings_cpp.load_type_pipe);
      [|discriminate].
    apply Hdoc in Hload. by rewrite Hload, Hpath.
Qed.

Lemma save_targets_the_loaded_file_witness :
  exists o,
    settings_cpp.steam
      (settings_cpp.load
         (example_settings.by_file example_settings.document)
         settings_cpp.at_start).2 = Some o /\
    settings_cpp.save (example_settings.by_pipe json.JNull)
      (settings_cpp.load
         (example_settings.by_file example_settings.document)
         settings_cpp.at_start).2
    = Ok (Some ("tek-gr-settings.json",
                settings_cpp.save_document o
                  (settings_cpp.load
                     (example_settings.by_file example_settings.document)
                     settings_cpp.at_start).2)).
Proof.
  apply (save_targets_the_loaded_file
           (example_settings.by_file example_settings.document)
           (example_settings.by_pipe json.JNull) settings_cpp.at_start _
           {| settings_cpp.type := settings_cpp.load_type_file_path;
              settings_cpp.size := 0 |} "");
    reflexivity.
Defined.

(** X14.  Without a list of installed DLC, every owned DLC counts as
    installed: when the settings document has no "installed_dlc" array, the
    [BIsDlcInstalled] wrapper of a process running on the loaded options
    answers [true] exactly for the IDs of the "dlc" entries that were
    loaded. *)
Theorem owned_dlc_is_installed_by_default
    (members : list (string * json.value)) (st st' : settings_cpp.variables)
    (o : settings.steam_options) (s : state) (id : Z) :
  settings_cpp.load_document (Some (json.JObject members)) st
  = (true, st') ->
  (forall l, json.FindMember "installed_dlc" members <> Some (json.JArray l)) ->
  settings_cpp.steam st' = Some o ->
  g_settings s = o ->
  steam_api.SteamApps_BIsDlcInstalled id s
  = Ok (bool_decide (id ∈ (settings.dlc o).*1), s).
Proof.
  intros Hload Hnone Ho Hs.
  unfold steam_api.SteamApps_BIsDlcInstalled.
  rewrite run_bind, run_gets, run_ret, Hs. do 2 f_equal.
  unfold settings_cpp.load_document in Hload.
  destruct (json.FindMember "store" members) as [[| | | |view| |]|];
    try discriminate.
  destruct (String.eqb view "steam"); [|discriminate].
  destruct (json.FindMember "app_id" members) as [[| |app| | | |]|];
    try discriminate.
  destruct (json.IsUint (json.JInteger app)); [|discriminate].
  injection Hload as <-.
  rewrite steam_settings_load_cb in Ho. injection Ho as <-.
  cbn [settings.installed_dlc settings.dlc].
  destruct (json.FindMember "installed_dlc" members) as [[| | | | |l|]|];
    try (by edestruct Hnone);
    apply bool_decide_ext; by rewrite elem_of_list_to_set.
Qed.

Lemma owned_dlc_is_installed_by_default_witness :
  let s :=
    with_settings
      (fun _ =>
         {| settings.app_id := 346110; settings.spoof_app_id := 0;
            settings.dlc :=
              [(512540, "Scorched Earth"); (1646700, "Genesis")];
            settings.installed_dlc := list_to_set [512540; 1646700];
            settings.tek_sc_path := ""; settings.auto_update_dlc := false |})
      (example.process 0 0) in
  steam_api.SteamApps_BIsDlcInstalled 1646700 s = Ok (true, s).
Proof.
  intros s.
  pose proof (owned_dlc_is_installed_by_default
                (json.members_of example_settings.document)
                settings_cpp.at_start
                (settings_cpp.load_document (Some example_settings.document)
                   settings_cpp.at_start).2 (g_settings s) s 1646700
                eq_refl) as H.
  apply H; [intros l; discriminate|reflexivity|reflexivity].
Defined.

(** X15.  Which keys of the "dlc" object count.  A key is read as the decimal
    number it starts with: an entry whose key is a number below 2^32, possibly
    followed by text that does not start with a digit, is loaded under that
    number when its value is a string; an entry is skipped when the number
    does not fit 32 bits, when the key does not start with a digit, or when
    the value is not a string. *)
Theorem load_dlc_keys (ms : list (string * json.value)) :
  (forall id rest name,
     uint32 id -> charconv.leading_digits rest = [] ->
     settings_cpp.load_dlc ((pretty id +:+ rest, json.JString name) :: ms)
     = (id, name) :: settings_cpp.load_dlc ms) /\
  (forall z rest v,
     2 ^ 32 <= z -> charconv.leading_digits rest = [] ->
     settings_cpp.load_dlc ((pretty z +:+ rest, v) :: ms)
     = settings_cpp.load_dlc ms) /\
  (forall key v,
     charconv.leading_digits key = [] ->
     settings_cpp.load_dlc ((key, v) :: ms) = settings_cpp.load_dlc ms) /\
  (forall key v,
     json.IsString v = false ->
     settings_cpp.load_dlc ((key, v) :: ms) = settings_cpp.load_dlc ms).
Proof.
  repeat split.
  - intros id rest name Hid Hrest. cbn [settings_cpp.load_dlc].
    by rewrite from_chars_pretty.
  - intros z rest v Hz Hrest. cbn [settings_cpp.load_dlc].
    rewrite from_chars_pretty_any by (done || lia).
    destruct (Z.ltb_spec z (2 ^ 32)); [lia|done].
  - intros key v Hkey. cbn [settings_cpp.load_dlc].
    unfold charconv.from_chars. by rewrite Hkey.
  - intros key v Hv. cbn [settings_cpp.load_dlc].
    destruct (charconv.from_chars key); [|done]. by destruct v.
Qed.

Lemma load_dlc_keys_witness :
  settings_cpp.load_dlc
    [ ("512540", json.JString "Scorched Earth");
      ("1646700 (Genesis)", json.JString "Genesis");
      ("season pass", json.JString "Season Pass");
      ("4294967296", json.JString "Too large");
      ("473850", json.JInteger 1) ]
  = [(512540, "Scorched Earth"); (1646700, "Genesis")].
Proof.
  etrans; [apply (proj1 (load_dlc_keys _) 512540 "");
           [by vm_compute|done]|].
  apply (f_equal (cons _)).
  etrans; [apply (proj1 (load_dlc_keys _) 1646700 " (Genesis)");
           [by vm_compute|done]|].
  apply (f_equal (cons _)).
  etrans; [by apply (proj1 (proj2 (proj2 (load_dlc_keys _))))|].
  etrans; [by apply (proj1 (proj2 (load_dlc_keys _)) 4294967296 "")|].
  by apply (proj2 (proj2 (proj2 (load_dlc_keys []))) "473850"
              (json.JInteger 1)).
Defined.

(** ** tek-steamclient.cpp: the loader *)

Section loader.
Import steamclient_cpp.

Lemma P_bind_run {A B} (m : P A) (f : A -> P B) (v : variables) :
  (m ≫= f) v
  = match m v with
    | Ok (a, v') => f a v'
    | Undefined what => Undefined what
    end.
Proof. reflexivity. Qed.

(** [resolve] sets the variables of the names it gets through, and of
    nothing else. *)
Lemma resolve_run (w : sc_world) (names : list string) (v : variables) :
  exists e',
    resolve w names v = Ok (exports w (module v) names, set_entry e' v) /\
    (exports w (module v) names = true ->
     forall name, name ∈ names ->
       e' !! name = Some (w_GetProcAddress w (module v) name)) /\
    (forall name, name ∉ names -> e' !! name = entry v !! name).
Proof.
  revert v. induction names as [|name rest IH]; intros v.
  - exists (entry v). split; [by destruct v|]. split; [|done].
    intros _ n Hn. by apply elem_of_nil in Hn.
  - cbn [resolve exports forallb]. rewrite P_bind_run. cbn [get].
    rewrite P_bind_run. cbn [put].
    destruct (Z.eqb_spec (w_GetProcAddress w (module v) name) 0) as [Hp|Hp].
    + exists (<[name := w_GetProcAddress w (module v) name]> (entry v)).
      split; [done|]. split; [done|].
      intros n Hn. apply lookup_insert_ne. intros ->. apply Hn. by left.
    + cbn [negb andb].
      destruct (IH (set_entry
                      (<[name := w_GetProcAddress w (module v) name]>
                         (entry v)) v)) as (e' & Hrun & Hin & Hout).
      cbn [module set_entry entry] in Hrun, Hin, Hout.
      exists e'. split; [exact Hrun|]. split.
      * intros Hall n Hn.
        destruct (decide (n ∈ rest)) as [Hrest|Hrest]; [by apply Hin|].
        apply elem_of_cons in Hn as [->|Hn]; [|done].
        rewrite Hout by done. apply lookup_insert_eq.
      * intros n Hn. rewrite Hout.
        -- apply lookup_insert_ne. intros ->. apply Hn. by left.
        -- intros Hrest. apply Hn. by right.
Qed.

End loader.

(** X16.  [load] is all or nothing.  It ends loaded exactly when the library
    maps, exports all fifteen entry points and gives a context; then the
    module, the context and every function pointer variable are set. Otherwise
    the module variable is null again, and a library that was mapped has been
    freed: the calls made are [LoadLibraryW], then [tek_sc_lib_init] if all
    entry points were found, then [FreeLibrary] if the library had been
    mapped. *)
Theorem steamclient_load_all_or_nothing (w : steamclient_cpp.sc_world)
    (v : steamclient_cpp.variables) (o : settings.steam_options) :
  settings_cpp.steam (steamclient_cpp.settings_vars v) = Some o ->
  steamclient_cpp.loaded v = false ->
  let h := steamclient_cpp.w_LoadLibraryW w (library_name o) in
  let found := exports w h steamclient_cpp.entry_points in
  let ready :=
    negb (h =? 0) && found && negb (steamclient_cpp.w_lib_init w =? 0) in
  exists v',
    steamclient_cpp.load w v = Ok (tt, v') /\
    steamclient_cpp.loaded v' = ready /\
    steamclient_cpp.module v' = (if ready then h else 0) /\
    (ready = true ->
     steamclient_cpp.lib_ctx v' = steamclient_cpp.w_lib_init w /\
     forall name, name ∈ steamclient_cpp.entry_points ->
       steamclient_cpp.entry v' !! name
       = Some (steamclient_cpp.w_GetProcAddress w h name)) /\
    steamclient_cpp.trace v'
    = steamclient_cpp.trace v
      ++ [steamclient_cpp.call_LoadLibraryW (library_name o)]
      ++ (if negb (h =? 0) && found then [steamclient_cpp.call_lib_init]
          else [])
      ++ (if negb (h =? 0) && negb ready
          then [steamclient_cpp.call_FreeLibrary h] else []) /\
    steamclient_cpp.heap v' = steamclient_cpp.heap v /\
    steamclient_cpp.am v' = steamclient_cpp.am v /\
    steamclient_cpp.settings_vars v' = steamclient_cpp.settings_vars v.
Proof.
  intros Ho Hl h found ready.
  unfold steamclient_cpp.load.
  cbv [mbind mret steamclient_cpp.P_bind steamclient_cpp.P_ret
       steamclient_cpp.get steamclient_cpp.put steamclient_cpp.log
       steamclient_cpp.steam_options steamclient_cpp.through
       steamclient_cpp.free_lib steamclient_cpp.ub].
  rewrite Hl, Ho. fold (library_name o). fold h.
  subst ready. destruct (Z.eqb_spec h 0) as [Hh|Hh].
  { cbn [negb andb]. eexists. split; [reflexivity|].
    cbn. rewrite Hl. repeat split; try done. }
  cbn [negb andb].
  match goal with
  | |- context [steamclient_cpp.resolve w _ ?v0] =>
      destruct (resolve_run w steamclient_cpp.entry_points v0)
        as (e' & Hrun & Hin & _)
  end.
  cbn [steamclient_cpp.module steamclient_cpp.set_module] in Hrun, Hin.
  rewrite Hrun. fold found.
  destruct found eqn:Hfound.
  - cbn [negb andb steamclient_cpp.entry steamclient_cpp.set_entry].
    rewrite (Hin Hfound "tek_sc_lib_init")
      by (vm_compute; repeat constructor).
    cbn [default from_option id].
    assert (Hinit : steamclient_cpp.w_GetProcAddress w h "tek_sc_lib_init"
                    <> 0).
    { pose proof Hfound as Hall. unfold found, exports in Hall.
      cbn [forallb steamclient_cpp.entry_points] in Hall.
      apply andb_prop in Hall as [Hfirst _].
      by destruct (Z.eqb_spec
                     (steamclient_cpp.w_GetProcAddress w h "tek_sc_lib_init")
                     0). }
    destruct (Z.eqb_spec
                (steamclient_cpp.w_GetProcAddress w h "tek_sc_lib_init") 0);
      [done|].
    destruct (Z.eqb_spec (steamclient_cpp.w_lib_init w) 0) as [Hc|Hc].
    + cbn [negb andb]. eexists. split; [reflexivity|]. cbn.
      rewrite Hl, <- !app_assoc. repeat split; try done.
    + cbn [negb andb]. eexists. split; [reflexivity|]. cbn.
      rewrite <- !app_assoc. repeat split; try done. by apply Hin.
  - cbn [negb andb]. eexists. split; [reflexivity|]. cbn.
    rewrite Hl, <- !app_assoc. repeat split; try done.
Qed.

Lemma steamclient_load_all_or_nothing_witness :
  exists v',
    steamclient_cpp.load example_steamclient.old_library
      example_steamclient.process = Ok (tt, v') /\
    steamclient_cpp.loaded v' = false /\
    steamclient_cpp.module v' = 0 /\
    steamclient_cpp.trace v'
    = [ steamclient_cpp.call_LoadLibraryW "libtek-steamclient-1.dll";
        steamclient_cpp.call_FreeLibrary 4096 ].
Proof.
  destruct (steamclient_load_all_or_nothing example_steamclient.old_library
              example_steamclient.process _ eq_refl eq_refl)
    as (v' & Hrun & Hloaded & Hmodule & _ & Htrace & _).
  exists v'. split; [exact Hrun|]. split; [exact Hloaded|].
  split; [exact Hmodule|exact Htrace].
Defined.

(** X17.  [unload] releases what [load] acquired, each once and in order: with
    the function pointer variables set while the module is, it never calls
    through a null pointer; it destroys the application manager if one exists,
    cleans up the library context, frees the module, and leaves [loaded] false
    and the module and context null.  With no module it calls nothing.  The
    pointer [am] is not reset. *)
Theorem steamclient_unload_releases (v : steamclient_cpp.variables) :
  resolved v ->
  exists v',
    steamclient_cpp.unload v = Ok (tt, v') /\
    steamclient_cpp.loaded v' = false /\
    steamclient_cpp.module v' = 0 /\
    (steamclient_cpp.module v <> 0 -> steamclient_cpp.lib_ctx v' = 0) /\
    steamclient_cpp.am v' = steamclient_cpp.am v /\
    steamclient_cpp.trace v'
    = steamclient_cpp.trace v
      ++ (if steamclient_cpp.module v =? 0 then []
          else
            (if steamclient_cpp.am v =? 0 then []
             else [steamclient_cpp.call_am_destroy (steamclient_cpp.am v)])
            ++ (if steamclient_cpp.lib_ctx v =? 0 then []
                else [steamclient_cpp.call_lib_cleanup
                        (steamclient_cpp.lib_ctx v)])
            ++ [steamclient_cpp.call_FreeLibrary (steamclient_cpp.module v)]) /\
    steamclient_cpp.heap v' = steamclient_cpp.heap v /\
    steamclient_cpp.settings_vars v' = steamclient_cpp.settings_vars v.
Proof.
  intros Hres. unfold steamclient_cpp.unload.
  cbv [mbind mret steamclient_cpp.P_bind steamclient_cpp.P_ret
       steamclient_cpp.get steamclient_cpp.put steamclient_cpp.log
       steamclient_cpp.through steamclient_cpp.free_lib steamclient_cpp.ub].
  unfold resolved in Hres.
  destruct v as [st l h ctx a e hp t].
  cbn [steamclient_cpp.module steamclient_cpp.set_loaded
       steamclient_cpp.am steamclient_cpp.lib_ctx steamclient_cpp.entry
       steamclient_cpp.trace steamclient_cpp.heap
       steamclient_cpp.settings_vars steamclient_cpp.loaded] in *.
  destruct (Z.eqb_spec h 0) as [Hm|Hm].
  { eexists. split; [reflexivity|]. cbn. rewrite app_nil_r.
    repeat split; done. }
  destruct (Hres Hm "tek_sc_am_destroy") as (p1 & Hp1 & Hne1);
    [vm_compute; repeat constructor|].
  destruct (Hres Hm "tek_sc_lib_cleanup") as (p2 & Hp2 & Hne2);
    [vm_compute; repeat constructor|].
  assert (Hd : (default 0 (e !! "tek_sc_am_destroy") =? 0) = false)
    by (rewrite Hp1; by apply Z.eqb_neq).
  assert (Hcl : (default 0 (e !! "tek_sc_lib_cleanup") =? 0) = false)
    by (rewrite Hp2; by apply Z.eqb_neq).
  cbn.
  destruct (Z.eqb_spec a 0) as [Ha|Ha]; cbn; rewrite ?Hd; cbn;
    (destruct (Z.eqb_spec ctx 0) as [Hc|Hc]); cbn; rewrite ?Hcl; cbn;
    (eexists; split; [reflexivity|]); cbn; rewrite <- ?app_assoc;
    repeat split; done.
Qed.

Lemma steamclient_unload_releases_witness :
  exists v1 v2,
    steamclient_cpp.load (example_steamclient.library true)
      example_steamclient.process = Ok (tt, v1) /\
    steamclient_cpp.unload v1 = Ok (tt, v2) /\
    steamclient_cpp.module v2 = 0 /\
    steamclient_cpp.trace v2
    = [ steamclient_cpp.call_LoadLibraryW "libtek-steamclient-1.dll";
        steamclient_cpp.call_lib_init;
        steamclient_cpp.call_lib_cleanup 77;
        steamclient_cpp.call_FreeLibrary 4096 ].
Proof.
  set (v1 := match steamclient_cpp.load (example_steamclient.library true)
                     example_steamclient.process with
             | Ok (_, v1) => v1
             | Undefined _ => example_steamclient.process
             end).
  assert (Hres : resolved v1).
  { intros _ name Hname. exists (4096 + Z.of_nat (String.length name)).
    split; [|lia].
    unfold steamclient_cpp.entry_points in Hname.
    repeat (apply elem_of_cons in Hname as [->|Hname]; [by vm_compute|]).
    by apply elem_of_nil in Hname. }
  destruct (steamclient_unload_releases v1 Hres)
    as (v2 & Hrun & _ & Hmodule & _ & _ & Htrace & _).
  exists v1, v2. split; [by vm_compute|]. split; [exact Hrun|].
  split; [exact Hmodule|]. rewrite Htrace. by vm_compute.
Defined.

(** ** tek-steamclient.cpp: the DLC update *)

Section exchange.
Import steamclient_cpp.
Context (w : sc_world).

Lemma last_snoc_call (t : list call) (c : call) : last (t ++ [c]) = Some c.
Proof. by rewrite last_snoc. Qed.

Lemma released (h0 : gmap Z block) (data : Z) (d : data_pics) (b : block)
    (v : variables) :
  in_flight h0 data d b v ->
  delete data (delete (app_entries d) (heap v)) = h0.
Proof.
  intros (H1 & H2 & H3 & H4 & H5 & H6 & H7). apply map_eq. intros q.
  destruct (decide (q = data)) as [->|Hd].
  { by rewrite lookup_delete_eq. }
  rewrite lookup_delete_ne by done.
  destruct (decide (q = app_entries d)) as [->|Hp].
  { by rewrite lookup_delete_eq. }
  rewrite lookup_delete_ne by done. by apply H7.
Qed.

Lemma release_entry_run (h0 : gmap Z block) (client data : Z)
    (d : data_pics) (e : pics_entry) (v : variables) :
  in_flight h0 data d (one_entry e) v ->
  release_entry client data d v
  = Ok (tt, set_trace (trace v ++ [call_cm_disconnect client])
              (set_heap h0 v)).
Proof.
  intros Hin. pose proof (released _ _ _ _ _ Hin) as Hrel.
  destruct Hin as (H1 & H2 & H3 & H4 & H5 & H6 & H7).
  unfold release_entry, delete_entry, delete_data_pics.
  cbv [mbind mret P_bind P_ret get put log ub].
  destruct (Z.eqb_spec (app_entries d) 0) as [|_]; [done|].
  rewrite H6. cbn [heap set_heap].
  rewrite lookup_delete_ne, H5 by done. cbn [heap set_heap].
  rewrite Hrel. by destruct v.
Qed.

Lemma release_array_run (h0 : gmap Z block) (client data : Z)
    (d : data_pics) (l : list pics_entry) (v : variables) :
  in_flight h0 data d (entry_array l) v ->
  release_array client data d v
  = Ok (tt, set_trace (trace v ++ [call_cm_disconnect client])
              (set_heap h0 v)).
Proof.
  intros Hin. pose proof (released _ _ _ _ _ Hin) as Hrel.
  destruct Hin as (H1 & H2 & H3 & H4 & H5 & H6 & H7).
  unfold release_array, delete_array, delete_data_pics.
  cbv [mbind mret P_bind P_ret get put log ub].
  destruct (Z.eqb_spec (app_entries d) 0) as [|_]; [done|].
  rewrite H6. cbn [heap set_heap].
  rewrite lookup_delete_ne, H5 by done. cbn [heap set_heap].
  rewrite Hrel. by destruct v.
Qed.

Lemma load_data_pics_run (h0 : gmap Z block) (data : Z) (d : data_pics)
    (b : block) (v : variables) :
  in_flight h0 data d b v -> load_data_pics data v = Ok (d, v).
Proof.
  intros (_ & _ & _ & _ & H5 & _). unfold load_data_pics.
  cbv [mbind mret P_bind P_ret get]. by rewrite H5.
Qed.

Lemma first_entry_run (h0 : gmap Z block) (data : Z) (d : data_pics)
    (e : pics_entry) (v : variables) :
  in_flight h0 data d (one_entry e) v ->
  first_entry (app_entries d) v = Ok (e, v).
Proof.
  intros (_ & _ & _ & _ & _ & H6 & _). unfold first_entry.
  cbv [mbind mret P_bind P_ret get]. by rewrite H6.
Qed.

(** [cb_access_token] passes the structure on or releases it. *)
Lemma cb_access_token_run (h0 : gmap Z block) (client data : Z)
    (d : data_pics) (e : pics_entry) (v : variables) :
  in_flight h0 data d (one_entry e) v ->
  cb_access_token w client data v
  = Ok (tt,
        if w_tek_sc_err_success w (pics_result d)
           && w_tek_sc_err_success w (entry_result e)
        then set_trace
               (trace v
                ++ [call_cm_get_product_info client data cb_app_info_fn 2500])
               v
        else set_trace (trace v ++ [call_cm_disconnect client])
               (set_heap h0 v)).
Proof.
  intros Hin. unfold cb_access_token.
  rewrite P_bind_run, (load_data_pics_run _ _ _ _ _ Hin), P_bind_run.
  destruct (w_tek_sc_err_success w (pics_result d)); cbn [negb andb].
  - rewrite P_bind_run, (first_entry_run _ _ _ _ _ Hin).
    cbn [mret P_ret].
    destruct (w_tek_sc_err_success w (entry_result e)); cbn [negb];
      [reflexivity|by eapply release_entry_run].
  - cbn [mret P_ret negb]. by eapply release_entry_run.
Qed.

(** [cb_dlc_access_token] passes the structure on or releases it. *)
Lemma cb_dlc_access_token_run (h0 : gmap Z block) (client data : Z)
    (d : data_pics) (l : list pics_entry) (v : variables) :
  in_flight h0 data d (entry_array l) v ->
  cb_dlc_access_token w client data v
  = Ok (tt,
        if w_tek_sc_err_success w (pics_result d)
        then set_trace
               (trace v
                ++ [call_cm_get_product_info client data cb_dlc_info_fn 2500])
               v
        else set_trace (trace v ++ [call_cm_disconnect client])
               (set_heap h0 v)).
Proof.
  intros Hin. unfold cb_dlc_access_token.
  rewrite P_bind_run, (load_data_pics_run _ _ _ _ _ Hin).
  destruct (w_tek_sc_err_success w (pics_result d)); cbn [negb];
    [reflexivity|by eapply release_array_run].
Qed.

Lemma new_run (b : block) (v : variables) :
  exists p,
    new b v = Ok (p, set_heap (<[ p := b ]> (heap v)) v) /\
    p <> 0 /\ heap v !! p = None.
Proof.
  eexists. split; [reflexivity|].
  pose proof (is_fresh (({[ 0 ]} ∪ dom (heap v)) : gset Z)) as Hfresh.
  split.
  - intros Hp. apply Hfresh. rewrite Hp. set_solver.
  - apply not_elem_of_dom. intros Hp. apply Hfresh. set_solver.
Qed.

Lemma fill_all_ids (l : list pics_entry) (a : list (Z * string)) :
  entry_id <$> fill_all l a = entry_id <$> l.
Proof.
  revert a. induction l as [|e l IH]; intros a; [done|].
  cbn [fill_all fmap list_fmap]. f_equal; [|apply IH].
  unfold fill. by repeat case_match.
Qed.

Lemma fill_all_length (l : list pics_entry) (a : list (Z * string)) :
  length (fill_all l a) = length l.
Proof.
  rewrite <- (length_fmap entry_id (fill_all l a)), fill_all_ids.
  apply length_fmap.
Qed.

(** The library's stores keep the exchange in flight, the pointers, the
    count and the IDs. *)
Lemma answer_request_run (a : answer) (h0 : gmap Z block) (data : Z)
    (d : data_pics) (b : block) (v : variables) :
  in_flight h0 data d b v ->
  (forall d0, b <> one_data_pics d0) ->
  exists h' b',
    answer_request a data v = Ok (tt, set_heap h' v) /\
    let d' := {| app_entries := app_entries d;
                 num_app_entries := num_app_entries d;
                 pics_result := ans_result a;
                 timeout_ms := timeout_ms d |} in
    in_flight h0 data d' b' (set_heap h' v) /\ same_entries b b'.
Proof.
  intros (H1 & H2 & H3 & H4 & H5 & H6 & H7) Hb.
  unfold answer_request, load_data_pics, store_data_pics.
  cbv [mbind mret P_bind P_ret get put ub]. rewrite H5.
  cbn [heap set_heap]. rewrite H5. cbn [heap set_heap app_entries].
  rewrite lookup_insert_ne, H6 by done.
  destruct b as [e|l|d0]; [| |by destruct (Hb d0)].
  - eexists _, (one_entry (fill e (head (ans_entries a)))).
    split; [by destruct v|]. split.
    + unfold in_flight. cbn [app_entries heap set_heap].
      repeat split; try done.
      * by rewrite lookup_insert_ne, lookup_insert_eq.
      * by rewrite lookup_insert_eq.
      * intros q Hq1 Hq2. rewrite !lookup_insert_ne by done. by apply H7.
    + cbn. unfold fill. by repeat case_match.
  - eexists _, (entry_array (fill_all l (ans_entries a))).
    split; [by destruct v|]. split.
    + unfold in_flight. cbn [app_entries heap set_heap].
      repeat split; try done.
      * by rewrite lookup_insert_ne, lookup_insert_eq.
      * by rewrite lookup_insert_eq.
      * intros q Hq1 Hq2. rewrite !lookup_insert_ne by done. by apply H7.
    + cbn. apply fill_all_ids.
Qed.

(** [cb_signed_in] starts the exchange with a structure and one entry for
    the application, or disconnects. *)
Lemma cb_signed_in_run (client err : Z) (o : settings.steam_options)
    (v : variables) :
  settings_cpp.steam (settings_vars v) = Some o ->
  if w_tek_sc_err_success w err then
    exists data d e h',
      cb_signed_in w client err v
      = Ok (tt,
            set_trace
              (trace v
               ++ [call_cm_get_access_token client data cb_access_token_fn
                     2500])
              (set_heap h' v)) /\
      in_flight (heap v) data d (one_entry e) (set_heap h' v)
  else
    cb_signed_in w client err v
    = Ok (tt, set_trace (trace v ++ [call_cm_disconnect client]) v).
Proof.
  intros Ho. unfold cb_signed_in.
  destruct (w_tek_sc_err_success w err); cbn [negb]; [|reflexivity].
  destruct (new_run
              (one_data_pics
                 {| app_entries := 0; num_app_entries := 0;
                    pics_result := 0; timeout_ms := 0 |}) v)
    as (data & Hnew1 & Hd0 & Hdf).
  destruct (new_run (one_entry (entry_for 0))
              (set_heap
                 (<[data:=one_data_pics
                            {| app_entries := 0; num_app_entries := 0;
                               pics_result := 0; timeout_ms := 0 |}]>
                    (heap v)) v))
    as (p & Hnew2 & Hp0 & Hpf).
  cbn [heap set_heap] in Hpf.
  assert (Hpd : p <> data).
  { intros ->. by rewrite lookup_insert_eq in Hpf. }
  rewrite lookup_insert_ne in Hpf by done.
  exists data, {| app_entries := p; num_app_entries := 1;
                  pics_result := 0; timeout_ms := 2500 |},
    (entry_for (settings.app_id o)).
  eexists. split.
  - rewrite P_bind_run, Hnew1. cbv beta iota.
    rewrite P_bind_run, Hnew2. cbv beta iota.
    unfold steam_options, store_data_pics.
    cbv [mbind mret P_bind P_ret get put log ub].
    cbn [settings_vars set_heap heap]. rewrite Ho.
    cbn [settings_vars set_heap heap].
    rewrite lookup_insert_ne, lookup_insert_ne, lookup_insert_eq by done.
    destruct v. reflexivity.
  - unfold in_flight. cbn [app_entries heap set_heap].
    repeat split; try done.
    + by rewrite lookup_insert_eq.
    + by rewrite lookup_insert_ne, lookup_insert_eq.
    + intros q Hq1 Hq2. by rewrite !lookup_insert_ne.
Qed.

Lemma new_ids_spec (owned : list Z) (segments : list string) :
  Forall (fun i => i ∉ owned) (new_ids owned segments) /\
  (length (new_ids owned segments) <= length segments)%nat.
Proof.
  induction segments as [|seg rest [IH1 IH2]]; [by split|].
  cbn [new_ids length].
  destruct (charconv.from_chars seg) as [i|]; [|split; [done|lia]].
  destruct (bool_decide_reflect (i ∈ owned)); [split; [done|lia]|].
  split; [by constructor|cbn [length]; lia].
Qed.

(** [cb_app_info] releases the structure, or passes it on with an array of
    value-initialised entries, one per listed ID that is not owned. *)
Lemma cb_app_info_run (h0 : gmap Z block) (client data : Z)
    (d : data_pics) (e : pics_entry) (o : settings.steam_options)
    (v : variables) :
  in_flight h0 data d (one_entry e) v ->
  settings_cpp.steam (settings_vars v) = Some o ->
  listofdlc_fits w ->
  exists v',
    cb_app_info w client data v = Ok (tt, v') /\
    (v' = set_trace (trace v ++ [call_cm_disconnect client]) (set_heap h0 v) \/
     exists ids d' h',
       ids <> [] /\ Forall (fun i => i ∉ (settings.dlc o).*1) ids /\
       Z.of_nat (length ids) < 2 ^ 31 /\
       v' = set_trace
              (trace v
               ++ [call_cm_get_access_token client data
                     cb_dlc_access_token_fn 2500])
              (set_heap h' v) /\
       in_flight h0 data d' (entry_array (entry_for <$> ids))
         (set_heap h' v) /\
       num_app_entries d' = Z.of_nat (length ids)).
Proof.
  intros Hin Ho Hfits.
  assert (Hrelease :
            exists v',
              release_entry client data d v = Ok (tt, v') /\
              (v' = set_trace (trace v ++ [call_cm_disconnect client])
                      (set_heap h0 v) \/
               exists ids d' h',
                 ids <> [] /\
                 Forall (fun i => i ∉ (settings.dlc o).*1) ids /\
                 Z.of_nat (length ids) < 2 ^ 31 /\
                 v' = set_trace
                        (trace v
                         ++ [call_cm_get_access_token client data
                               cb_dlc_access_token_fn 2500])
                        (set_heap h' v) /\
                 in_flight h0 data d' (entry_array (entry_for <$> ids))
                   (set_heap h' v) /\
                 num_app_entries d' = Z.of_nat (length ids))).
  { eexists. split; [by eapply release_entry_run|by left]. }
  unfold cb_app_info.
  rewrite P_bind_run, (load_data_pics_run _ _ _ _ _ Hin). cbv beta iota.
  rewrite P_bind_run.
  destruct (w_tek_sc_err_success w (pics_result d)); cbn [negb];
    [|exact Hrelease].
  rewrite P_bind_run, (first_entry_run _ _ _ _ _ Hin). cbn [mret P_ret].
  destruct (w_tek_sc_err_success w (entry_result e)); cbn [negb];
    [|exact Hrelease].
  rewrite P_bind_run, (first_entry_run _ _ _ _ _ Hin). cbv beta iota.
  destruct (w_vdf_read w (entry_data e)) as [vdf|] eqn:Hvdf;
    [|exact Hrelease].
  rewrite P_bind_run.
  destruct (childs vdf !! "extended") as [extended_m|] eqn:Hext;
    [|exact Hrelease].
  destruct (attribs extended_m !! "listofdlc") as [listofdlc|] eqn:Hlist;
    [|exact Hrelease].
  rewrite P_bind_run. unfold steam_options.
  rewrite P_bind_run. cbn [get]. rewrite Ho. cbn [mret P_ret].
  destruct (new_ids_spec (settings.dlc o).*1 (views_split comma listofdlc))
    as [Hnew Hlen].
  pose proof (Hfits _ _ _ _ Hvdf Hext Hlist) as Hfit.
  destruct (new_ids (settings.dlc o).*1 (views_split comma listofdlc))
    as [|i ids'] eqn:Hids; [exact Hrelease|].
  set (ids := i :: ids') in *. clear Hrelease.
  pose proof Hin as (H1 & H2 & H3 & H4 & H5 & H6 & H7).
  unfold delete_entry.
  cbv [mbind mret P_bind P_ret get put].
  destruct (Z.eqb_spec (app_entries d) 0) as [|_]; [done|].
  rewrite H6.
  destruct (new_run (entry_array (entry_for <$> ids))
              (set_heap (delete (app_entries d) (heap v)) v))
    as (p & Hnew2 & Hp0 & Hpf).
  cbn [heap set_heap] in Hpf.
  assert (Hpd : p <> data).
  { intros ->. by rewrite lookup_delete_ne, H5 in Hpf. }
  assert (Hp : h0 !! p = None).
  { destruct (decide (p = app_entries d)) as [->|Hne]; [done|].
    rewrite lookup_delete_ne in Hpf by done. by rewrite <- H7. }
  rewrite Hnew2. unfold store_data_pics, log.
  cbv [mbind mret P_bind P_ret get put ub]. cbn [heap set_heap].
  rewrite lookup_insert_ne, lookup_delete_ne, H5 by done.
  eexists. split; [reflexivity|]. right.
  exists ids,
    {| app_entries := p;
       num_app_entries := cxx.static_cast_int (Z.of_nat (length ids));
       pics_result := pics_result d; timeout_ms := timeout_ms d |}.
  eexists. split; [done|]. split; [done|].
  split; [lia|]. split; [|split].
  - destruct v. reflexivity.
  - unfold in_flight. cbn [app_entries heap set_heap].
    repeat split; try done.
    + by rewrite lookup_insert_eq.
    + by rewrite lookup_insert_ne, lookup_insert_eq.
    + intros q Hq1 Hq2. rewrite !lookup_insert_ne by done.
      destruct (decide (q = app_entries d)) as [->|Hne].
      * by rewrite lookup_delete_eq.
      * rewrite lookup_delete_ne by done. by apply H7.
  - cbn [num_app_entries]. apply static_cast_int_small.
    unfold cxx.INT_MAX. lia.
Qed.

Lemma set_dlc_nil (o : settings.steam_options) :
  settings.set_dlc (settings.dlc o ++ [])
    (settings.installed_dlc o ∪ list_to_set ([] : list (Z * string)).*1) o
  = o.
Proof.
  destruct o. unfold settings.set_dlc. cbn.
  by rewrite app_nil_r, (right_id_L ∅ (∪)).
Qed.

(** The loop of [cb_dlc_info] appends to the DLC and touches nothing
    else. *)
Lemma add_dlc_run (entries : list pics_entry) (flag : bool)
    (o : settings.steam_options) (v : variables) :
  settings_cpp.steam (settings_vars v) = Some o ->
  exists added st',
    add_dlc w entries flag v
    = Ok (flag || negb (bool_decide (added = [])), set_settings_vars st' v) /\
    settings_cpp.steam st'
    = Some (settings.set_dlc (settings.dlc o ++ added)
              (settings.installed_dlc o ∪ list_to_set added.*1) o) /\
    settings_cpp.file_path st' = settings_cpp.file_path (settings_vars v) /\
    added.*1 ⊆ entry_id <$> entries.
Proof.
  revert flag o v. induction entries as [|e rest IH]; intros flag o v Ho.
  - exists [], (settings_vars v). cbn [add_dlc mret P_ret].
    rewrite orb_false_r, set_dlc_nil. by destruct v.
  - assert (Hskip : forall flag,
              exists added st',
                add_dlc w rest flag v
                = Ok (flag || negb (bool_decide (added = [])),
                      set_settings_vars st' v) /\
                settings_cpp.steam st'
                = Some (settings.set_dlc (settings.dlc o ++ added)
                          (settings.installed_dlc o ∪ list_to_set added.*1) o) /\
                settings_cpp.file_path st'
                = settings_cpp.file_path (settings_vars v) /\
                added.*1 ⊆ entry_id <$> (e :: rest)).
    { intros flag'. destruct (IH flag' o v Ho) as (added & st' & H1 & H2 & H3 & H4).
      exists added, st'. repeat split; try done.
      cbn [fmap list_fmap]. by apply list_subseteq_cons. }
    cbn [add_dlc].
    destruct (w_tek_sc_err_success w (entry_result e)); cbn [negb];
      [|by apply Hskip].
    destruct (w_vdf_read w (entry_data e)) as [vdf|]; [|by apply Hskip].
    destruct (childs vdf !! "common") as [common_m|]; [|by apply Hskip].
    destruct (attribs common_m !! "name") as [name|]; [|by apply Hskip].
    unfold steam_options, set_steam_options.
    cbv [mbind mret P_bind P_ret get put]. rewrite Ho.
    set (o1 := settings.set_dlc (settings.dlc o ++ [(entry_id e, name)])
                 (settings.installed_dlc o ∪ {[entry_id e]}) o).
    set (v1 := set_settings_vars
                 (settings_cpp.set_steam (Some o1) (settings_vars v)) v).
    destruct (IH true o1 v1 eq_refl) as (added & st' & H1 & H2 & H3 & H4).
    exists ((entry_id e, name) :: added), st'.
    split; [|split; [|split]].
    + rewrite H1, (bool_decide_false (_ :: _ = [])) by done.
      cbn [orb negb]. rewrite orb_true_r. by destruct v.
    + rewrite H2. unfold o1, settings.set_dlc. cbn. do 2 f_equal.
      * by rewrite <- app_assoc.
      * cbn [fmap list_fmap list_to_set]. by rewrite (assoc_L (∪)).
    + by rewrite H3.
    + cbn [fmap list_fmap]. intros x Hx.
      apply elem_of_cons in Hx as [->|Hx]; [by left|].
      right. by apply H4.
Qed.

Lemma save_defined (ws : settings_cpp.settings_world)
    (st : settings_cpp.variables) :
  is_Some (settings_cpp.steam st) ->
  exists written, settings_cpp.save ws st = Ok written.
Proof.
  intros [o Ho]. unfold settings_cpp.save. rewrite Ho.
  repeat case_match; eauto.
Qed.

Lemma in_flight_same_heap (h0 : gmap Z block) (data : Z) (d : data_pics)
    (b : block) (v v' : variables) :
  heap v' = heap v -> in_flight h0 data d b v -> in_flight h0 data d b v'.
Proof. unfold in_flight. by intros ->. Qed.

Lemma span_run (h0 : gmap Z block) (data : Z) (d : data_pics)
    (l : list pics_entry) (v : variables) :
  in_flight h0 data d (entry_array l) v ->
  num_app_entries d = Z.of_nat (length l) ->
  Z.of_nat (length l) < 2 ^ 31 ->
  span (app_entries d) (cxx.wrap 64 (num_app_entries d)) v = Ok (l, v).
Proof.
  intros (_ & _ & _ & _ & _ & H6 & _) Hnum Hlen. unfold span.
  cbv [mbind mret P_bind P_ret get ub]. rewrite H6, Hnum.
  rewrite wrap_small by lia.
  destruct (Z.leb_spec (Z.of_nat (length l)) (Z.of_nat (length l))); [|lia].
  by rewrite Nat2Z.id, firstn_all.
Qed.

(** [cb_dlc_info] adds what it can, saves if it added, and releases the
    structure in every case. *)
Lemma cb_dlc_info_run (h0 : gmap Z block) (client data : Z)
    (d : data_pics) (l : list pics_entry) (o : settings.steam_options)
    (v : variables) :
  in_flight h0 data d (entry_array l) v ->
  num_app_entries d = Z.of_nat (length l) ->
  Z.of_nat (length l) < 2 ^ 31 ->
  settings_cpp.steam (settings_vars v) = Some o ->
  exists added written st',
    cb_dlc_info w client data v
    = Ok (tt,
          set_trace
            (trace v
             ++ (if bool_decide (added = []) then []
                 else [call_save written])
             ++ [call_cm_disconnect client])
            (set_heap h0 (set_settings_vars st' v))) /\
    settings_cpp.steam st'
    = Some (settings.set_dlc (settings.dlc o ++ added)
              (settings.installed_dlc o ∪ list_to_set added.*1) o) /\
    added.*1 ⊆ entry_id <$> l.
Proof.
  intros Hin Hnum Hlen Ho. unfold cb_dlc_info.
  rewrite P_bind_run, (load_data_pics_run _ _ _ _ _ Hin). cbv beta iota.
  destruct (w_tek_sc_err_success w (pics_result d)); cbn [negb].
  - rewrite P_bind_run, (span_run _ _ _ _ _ Hin Hnum Hlen). cbv beta iota.
    destruct (add_dlc_run l false o v Ho) as (added & st' & Hadd & Hst & _ & Hsub).
    rewrite P_bind_run, Hadd. cbv beta iota. cbn [orb].
    set (v1 := set_settings_vars st' v).
    assert (Hin1 : in_flight h0 data d (entry_array l) v1)
      by (by eapply in_flight_same_heap).
    destruct (bool_decide (added = [])) eqn:Hempty; cbn [negb].
    + exists added, None, st'. split; [|done]. rewrite Hempty.
      rewrite P_bind_run. cbn [mret P_ret].
      rewrite (release_array_run _ _ _ _ _ _ Hin1). by destruct v.
    + destruct (save_defined (w_settings w) st') as [written Hw];
        [by rewrite Hst|].
      exists added, written, st'. split; [|done]. rewrite Hempty.
      rewrite P_bind_run. unfold settings_save.
      rewrite P_bind_run. cbn [get settings_vars v1 set_settings_vars].
      rewrite Hw. unfold log at 1. cbn [put].
      match goal with
      | |- release_array _ _ _ ?v2 = _ =>
          assert (Hin2 : in_flight h0 data d (entry_array l) v2)
            by (by eapply in_flight_same_heap; [|exact Hin])
      end.
      rewrite (release_array_run _ _ _ _ _ _ Hin2).
      destruct v. cbn. by rewrite <- app_assoc.
  - exists [], None, (settings_vars v). split; [|split].
    + rewrite (release_array_run _ _ _ _ _ _ Hin). by destruct v.
    + by rewrite set_dlc_nil.
    + intros x Hx. by apply elem_of_nil in Hx.
Qed.

End exchange.

Section serving.
Import steamclient_cpp.
Context (w : sc_world).

(** One call served. *)
Lemma serve_product_info (f k : nat) (client data : Z) (cb : callback)
    (t : Z) :
  serve (S f) w k (call_cm_get_product_info client data cb t)
  = (answer_request (w_answer w k) data ;;
     pics_callback w cb client data ;;
     t ← get trace;
     from_option (serve f w (S k)) (ub "no call was made") (last t)).
Proof. reflexivity. Qed.

Lemma serve_access_token_call (f k : nat) (client data : Z) (cb : callback)
    (t : Z) :
  serve (S f) w k (call_cm_get_access_token client data cb t)
  = (answer_request (w_answer w k) data ;;
     pics_callback w cb client data ;;
     t ← get trace;
     from_option (serve f w (S k)) (ub "no call was made") (last t)).
Proof. reflexivity. Qed.

Lemma serve_sign_in_call (f k : nat) (client : Z) (t : Z) :
  serve (S f) w k (call_cm_sign_in_anon client cb_signed_in_fn t)
  = (cb_signed_in w client (w_sign_in w) ;;
     t ← get trace;
     from_option (serve f w k) (ub "no call was made") (last t)).
Proof. reflexivity. Qed.

Lemma serve_connect_call (f k : nat) (client : Z) (t : Z) :
  serve (S f) w k
    (call_cm_connect client cb_connected_fn t cb_disconnected_fn)
  = (cb_connected w client (w_connect w) ;;
     t ← get trace;
     from_option (serve f w k) (ub "no call was made") (last t)).
Proof. reflexivity. Qed.

Lemma serve_done (f k : nat) (v : variables) :
  serve (S f) w k call_done_store v = Ok (true, v).
Proof. reflexivity. Qed.

Lemma serve_disconnect (f k : nat) (client : Z) (v : variables) :
  serve (S (S f)) w k (call_cm_disconnect client) v
  = Ok (true, set_trace (trace v ++ [call_done_store]) v).
Proof.
  change (serve (S (S f)) w k (call_cm_disconnect client))
    with (cb_disconnected ;;
          t ← get trace;
          from_option (serve (S f) w k) (ub "no call was made") (last t)).
  unfold cb_disconnected, log.
  cbv [mbind mret P_bind P_ret get put]. cbn [trace set_trace].
  by rewrite last_snoc_call.
Qed.

Lemma entry_for_ids (ids : list Z) :
  entry_id <$> (entry_for <$> ids) = ids.
Proof. induction ids as [|i ids IH]; [done|]. cbn. by rewrite IH. Qed.

Lemma updated_released (h0 : gmap Z block) (o : settings.steam_options)
    (client : Z) (v : variables) :
  settings_cpp.steam (settings_vars v) = Some o ->
  updated h0 o client v
    (set_trace ((trace v ++ [call_cm_disconnect client]) ++ [call_done_store])
       (set_heap h0 v)).
Proof.
  intros Ho. split; [done|]. exists [], [].
  cbn [trace set_trace settings_vars set_heap app forallb existsb].
  rewrite <- app_assoc, set_dlc_nil. repeat split; try done.
Qed.

Lemma updated_step (h0 : gmap Z block) (o : settings.steam_options)
    (client : Z) (v v1 v' : variables) (req : call) :
  trace v1 = trace v ++ [req] ->
  is_request req = true -> is_save req = false ->
  updated h0 o client v1 v' -> updated h0 o client v v'.
Proof.
  intros Ht Hreq Hsave (Hheap & requests & added & Htrace & Hall & Hst & Hnew & Hsaved).
  split; [done|]. exists (req :: requests), added.
  rewrite Htrace, Ht, <- app_assoc. cbn [forallb existsb app].
  rewrite Hreq, Hsave, Hall. repeat split; done.
Qed.

Lemma serve_dlc_info (f k : nat) (h0 : gmap Z block) (client data : Z)
    (d : data_pics) (l : list pics_entry) (o : settings.steam_options)
    (v : variables) (t : Z) :
  in_flight h0 data d (entry_array l) v ->
  num_app_entries d = Z.of_nat (length l) ->
  Z.of_nat (length l) < 2 ^ 31 ->
  settings_cpp.steam (settings_vars v) = Some o ->
  Forall (fun i => i ∉ (settings.dlc o).*1) (entry_id <$> l) ->
  exists v',
    serve (S (S (S f))) w k
      (call_cm_get_product_info client data cb_dlc_info_fn t) v
    = Ok (true, v') /\
    updated h0 o client v v'.
Proof.
  intros Hin Hnum Hlen Ho Hnew.
  destruct (answer_request_run (w_answer w k) h0 data d _ v Hin)
    as (h' & b' & Hans & Hin' & Hsame); [done|].
  destruct b' as [e'|l'|d0]; try done. cbn in Hsame.
  set (d1 := {| app_entries := app_entries d;
                num_app_entries := num_app_entries d;
                pics_result := ans_result (w_answer w k);
                timeout_ms := timeout_ms d |}) in *.
  assert (Hl : length l' = length l).
  { by rewrite <- (length_fmap entry_id l'), Hsame, length_fmap. }
  destruct (cb_dlc_info_run w h0 client data d1 l' o (set_heap h' v) Hin')
    as (added & written & st' & Hrun & Hst & Hsub);
    [by rewrite Hl|by rewrite Hl|done|].
  rewrite serve_product_info, P_bind_run, Hans. cbv beta iota.
  rewrite P_bind_run. cbn [pics_callback]. rewrite Hrun. cbv beta iota.
  rewrite P_bind_run. cbn [get trace set_trace set_heap].
  rewrite !app_assoc, last_snoc_call. cbn [from_option].
  rewrite serve_disconnect. eexists. split; [reflexivity|].
  split; [done|].
  exists (if bool_decide (added = []) then [] else [call_save written]),
    added.
  cbn [trace set_trace settings_vars set_heap set_settings_vars].
  split; [by rewrite <- !app_assoc|]. split; [by case_bool_decide|].
  split; [done|]. split; [|by case_bool_decide].
  apply Forall_forall. intros [i name] Hi. cbn.
  rewrite Forall_forall in Hnew. apply Hnew. rewrite <- Hsame.
  apply Hsub. by apply (list_elem_of_fmap_2 fst _ (i, name)).
Qed.

Lemma serve_dlc_access_token (f k : nat) (h0 : gmap Z block)
    (client data : Z) (d : data_pics) (l : list pics_entry)
    (o : settings.steam_options) (v : variables) (t : Z) :
  in_flight h0 data d (entry_array l) v ->
  num_app_entries d = Z.of_nat (length l) ->
  Z.of_nat (length l) < 2 ^ 31 ->
  settings_cpp.steam (settings_vars v) = Some o ->
  Forall (fun i => i ∉ (settings.dlc o).*1) (entry_id <$> l) ->
  exists v',
    serve (S (S (S (S f)))) w k
      (call_cm_get_access_token client data cb_dlc_access_token_fn t) v
    = Ok (true, v') /\
    updated h0 o client v v'.
Proof.
  intros Hin Hnum Hlen Ho Hnew.
  destruct (answer_request_run (w_answer w k) h0 data d _ v Hin)
    as (h' & b' & Hans & Hin' & Hsame); [done|].
  destruct b' as [e'|l'|d0]; try done. cbn in Hsame.
  set (d1 := {| app_entries := app_entries d;
                num_app_entries := num_app_entries d;
                pics_result := ans_result (w_answer w k);
                timeout_ms := timeout_ms d |}) in *.
  assert (Hl : length l' = length l).
  { by rewrite <- (length_fmap entry_id l'), Hsame, length_fmap. }
  rewrite serve_access_token_call, P_bind_run, Hans. cbv beta iota.
  rewrite P_bind_run. cbn [pics_callback].
  pose proof (cb_dlc_access_token_run w h0 client data d1 l' _ Hin') as Hcb.
  cbn [pics_result] in Hcb. rewrite Hcb.
  cbv beta iota. rewrite P_bind_run. cbn [get pics_result].
  destruct (w_tek_sc_err_success w (pics_result d1)).
  - cbn [trace set_trace]. rewrite last_snoc_call. cbn [from_option].
    match goal with
    | |- context [serve _ w _ _ ?v0] => set (v1 := v0)
    end.
    assert (Hin1 : in_flight h0 data d1 (entry_array l') v1)
      by (by eapply in_flight_same_heap; [|exact Hin']).
    assert (Hnum1 : num_app_entries d1 = Z.of_nat (length l'))
      by (by rewrite Hl).
    assert (Hlen1 : Z.of_nat (length l') < 2 ^ 31) by (by rewrite Hl).
    assert (Hnew1 : Forall (fun i => i ∉ (settings.dlc o).*1)
                      (entry_id <$> l')) by (by rewrite Hsame).
    destruct (serve_dlc_info f (S k) h0 client data d1 l' o v1 2500
                Hin1 Hnum1 Hlen1 Ho Hnew1) as (v' & Hrun & Hup).
    exists v'. split; [exact Hrun|].
    eapply updated_step; [| | |exact Hup]; done.
  - cbn [trace set_trace set_heap]. rewrite last_snoc_call.
    cbn [from_option]. rewrite serve_disconnect.
    eexists. split; [reflexivity|]. by apply updated_released.
Qed.

Lemma serve_app_info (f k : nat) (h0 : gmap Z block) (client data : Z)
    (d : data_pics) (e : pics_entry) (o : settings.steam_options)
    (v : variables) (t : Z) :
  listofdlc_fits w ->
  in_flight h0 data d (one_entry e) v ->
  settings_cpp.steam (settings_vars v) = Some o ->
  exists v',
    serve (S (S (S (S (S f))))) w k
      (call_cm_get_product_info client data cb_app_info_fn t) v
    = Ok (true, v') /\
    updated h0 o client v v'.
Proof.
  intros Hfits Hin Ho.
  destruct (answer_request_run (w_answer w k) h0 data d _ v Hin)
    as (h' & b' & Hans & Hin' & Hsame); [done|].
  destruct b' as [e'|l'|d0]; try done.
  set (d1 := {| app_entries := app_entries d;
                num_app_entries := num_app_entries d;
                pics_result := ans_result (w_answer w k);
                timeout_ms := timeout_ms d |}) in *.
  destruct (cb_app_info_run w h0 client data d1 e' o (set_heap h' v) Hin')
    as (v1 & Hrun & Hcases); [done|done|].
  rewrite serve_product_info, P_bind_run, Hans. cbv beta iota.
  rewrite P_bind_run. cbn [pics_callback]. rewrite Hrun. cbv beta iota.
  rewrite P_bind_run. cbn [get].
  destruct Hcases as [->|(ids & d' & h'' & Hne & Hnew & Hlen & -> & Hin'' & Hnum)].
  - cbn [trace set_trace set_heap]. rewrite last_snoc_call.
    cbn [from_option]. rewrite serve_disconnect.
    eexists. split; [reflexivity|]. by apply updated_released.
  - cbn [trace set_trace set_heap]. rewrite last_snoc_call.
    cbn [from_option].
    match goal with
    | |- context [serve _ w _ _ ?v0] => set (v2 := v0)
    end.
    assert (Hin2 : in_flight h0 data d' (entry_array (entry_for <$> ids)) v2)
      by (by eapply in_flight_same_heap; [|exact Hin'']).
    assert (Hnum2 : num_app_entries d'
                    = Z.of_nat (length (entry_for <$> ids)))
      by (by rewrite length_fmap).
    assert (Hlen2 : Z.of_nat (length (entry_for <$> ids)) < 2 ^ 31)
      by (by rewrite length_fmap).
    assert (Hnew2 : Forall (fun i => i ∉ (settings.dlc o).*1)
                      (entry_id <$> (entry_for <$> ids))).
    { by rewrite entry_for_ids. }
    destruct (serve_dlc_access_token f (S k) h0 client data d'
                (entry_for <$> ids) o v2 2500 Hin2 Hnum2 Hlen2 Ho Hnew2)
      as (v' & Hrun' & Hup).
    exists v'. split; [exact Hrun'|].
    eapply updated_step; [| | |exact Hup]; done.
Qed.

Lemma serve_access_token (f k : nat) (h0 : gmap Z block) (client data : Z)
    (d : data_pics) (e : pics_entry) (o : settings.steam_options)
    (v : variables) (t : Z) :
  listofdlc_fits w ->
  in_flight h0 data d (one_entry e) v ->
  settings_cpp.steam (settings_vars v) = Some o ->
  exists v',
    serve (S (S (S (S (S (S f)))))) w k
      (call_cm_get_access_token client data cb_access_token_fn t) v
    = Ok (true, v') /\
    updated h0 o client v v'.
Proof.
  intros Hfits Hin Ho.
  destruct (answer_request_run (w_answer w k) h0 data d _ v Hin)
    as (h' & b' & Hans & Hin' & Hsame); [done|].
  destruct b' as [e'|l'|d0]; try done.
  set (d1 := {| app_entries := app_entries d;
                num_app_entries := num_app_entries d;
                pics_result := ans_result (w_answer w k);
                timeout_ms := timeout_ms d |}) in *.
  rewrite serve_access_token_call, P_bind_run, Hans. cbv beta iota.
  rewrite P_bind_run. cbn [pics_callback].
  pose proof (cb_access_token_run w h0 client data d1 e' _ Hin') as Hcb.
  cbn [pics_result] in Hcb. rewrite Hcb.
  cbv beta iota. rewrite P_bind_run. cbn [get pics_result].
  destruct (w_tek_sc_err_success w (pics_result d1)
            && w_tek_sc_err_success w (entry_result e')).
  - cbn [trace set_trace]. rewrite last_snoc_call. cbn [from_option].
    match goal with
    | |- context [serve _ w _ _ ?v0] => set (v1 := v0)
    end.
    assert (Hin1 : in_flight h0 data d1 (one_entry e') v1)
      by (by eapply in_flight_same_heap; [|exact Hin']).
    destruct (serve_app_info f (S k) h0 client data d1 e' o v1 2500
                Hfits Hin1 Ho) as (v' & Hrun & Hup).
    exists v'. split; [exact Hrun|].
    eapply updated_step; [| | |exact Hup]; done.
  - cbn [trace set_trace set_heap]. rewrite last_snoc_call.
    cbn [from_option]. rewrite serve_disconnect.
    eexists. split; [reflexivity|]. by apply updated_released.
Qed.

Lemma serve_sign_in (f k : nat) (client : Z) (o : settings.steam_options)
    (v : variables) (t : Z) :
  listofdlc_fits w ->
  settings_cpp.steam (settings_vars v) = Some o ->
  exists v',
    serve (S (S (S (S (S (S (S f))))))) w k
      (call_cm_sign_in_anon client cb_signed_in_fn t) v
    = Ok (true, v') /\
    updated (heap v) o client v v'.
Proof.
  intros Hfits Ho.
  pose proof (cb_signed_in_run w client (w_sign_in w) o v Ho) as Hcb.
  rewrite serve_sign_in_call, P_bind_run.
  destruct (w_tek_sc_err_success w (w_sign_in w)).
  - destruct Hcb as (data & d & e & h' & Hrun & Hin).
    rewrite Hrun. cbv beta iota. rewrite P_bind_run.
    cbn [get trace set_trace]. rewrite last_snoc_call. cbn [from_option].
    match goal with
    | |- context [serve _ w _ _ ?v0] => set (v1 := v0)
    end.
    assert (Hin1 : in_flight (heap v) data d (one_entry e) v1)
      by (by eapply in_flight_same_heap; [|exact Hin]).
    destruct (serve_access_token f k (heap v) client data d e o v1 2500
                Hfits Hin1 Ho) as (v' & Hrun' & Hup).
    exists v'. split; [exact Hrun'|].
    eapply updated_step; [| | |exact Hup]; done.
  - rewrite Hcb. cbv beta iota. rewrite P_bind_run.
    cbn [get trace set_trace]. rewrite last_snoc_call. cbn [from_option].
    rewrite serve_disconnect. eexists. split; [reflexivity|].
    pose proof (updated_released (heap v) o client v Ho) as Hup.
    by destruct v.
Qed.

(** The whole exchange, from the call of [tek_sc_cm_connect]. *)
Lemma serve_connect (client : Z) (o : settings.steam_options)
    (v : variables) (t : Z) :
  listofdlc_fits w ->
  settings_cpp.steam (settings_vars v) = Some o ->
  exists v',
    serve 8 w 0 (call_cm_connect client cb_connected_fn t cb_disconnected_fn)
      v
    = Ok (true, v') /\
    if w_tek_sc_err_success w (w_connect w) then
      exists v1,
        trace v1 = trace v ++ [call_cm_sign_in_anon client cb_signed_in_fn 2500]
        /\ updated (heap v) o client v1 v'
    else v' = set_trace (trace v ++ [call_done_store]) v.
Proof.
  intros Hfits Ho.
  change 8%nat with (S 7). rewrite serve_connect_call. unfold cb_connected.
  rewrite P_bind_run.
  destruct (w_tek_sc_err_success w (w_connect w)).
  - unfold log at 1. cbn [put]. rewrite P_bind_run.
    cbn [get trace set_trace]. rewrite last_snoc_call. cbn [from_option].
    match goal with
    | |- context [serve _ w _ _ ?v0] => set (v1 := v0)
    end.
    destruct (serve_sign_in 0 0 client o v1 2500 Hfits Ho)
      as (v' & Hrun & Hup).
    exists v'. split; [exact Hrun|]. exists v1. by split.
  - unfold log at 1. cbn [put]. rewrite P_bind_run.
    cbn [get trace set_trace]. rewrite last_snoc_call. cbn [from_option].
    rewrite serve_done. eexists. split; reflexivity.
Qed.

End serving.

(** X18.  However the servers answer, the DLC update cleans up after itself.
    With the Steam options allocated and a DLC list that fits the entry count,
    the exchange that starts with [tek_sc_cm_connect] always ends with the
    futex stored, without undefined behaviour: every structure and entry array
    that the callbacks allocated has been released, each once and with the
    matching form of [delete], so the heap is what it was;
    [tek_sc_cm_disconnect] has been called exactly once if the connection
    succeeded, as the last call before the store, and not at all otherwise;
    all other calls are requests or the save. *)
Theorem dlc_update_releases_everything (w : steamclient_cpp.sc_world)
    (client t : Z) (o : settings.steam_options)
    (v : steamclient_cpp.variables) :
  listofdlc_fits w ->
  settings_cpp.steam (steamclient_cpp.settings_vars v) = Some o ->
  exists v',
    steamclient_cpp.serve 8 w 0
      (steamclient_cpp.call_cm_connect client steamclient_cpp.cb_connected_fn
         t steamclient_cpp.cb_disconnected_fn) v
    = Ok (true, v') /\
    steamclient_cpp.heap v' = steamclient_cpp.heap v /\
    exists requests,
      steamclient_cpp.trace v'
      = steamclient_cpp.trace v ++ requests
        ++ (if steamclient_cpp.w_tek_sc_err_success w
                 (steamclient_cpp.w_connect w)
            then [steamclient_cpp.call_cm_disconnect client] else [])
        ++ [steamclient_cpp.call_done_store] /\
      forallb is_request requests = true.
Proof.
  intros Hfits Ho.
  destruct (serve_connect w client o v t Hfits Ho) as (v' & Hrun & Hend).
  exists v'. split; [exact Hrun|].
  destruct (steamclient_cpp.w_tek_sc_err_success w
              (steamclient_cpp.w_connect w)).
  - destruct Hend as (v1 & Ht1 & Hheap & requests & added & Htrace & Hall & _).
    split; [exact Hheap|].
    exists (steamclient_cpp.call_cm_sign_in_anon client
              steamclient_cpp.cb_signed_in_fn 2500 :: requests).
    split; [|by cbn [forallb is_request andb]].
    rewrite Htrace, Ht1, <- !app_assoc. reflexivity.
  - subst v'. split; [done|]. exists []. by split.
Qed.

Lemma dlc_update_releases_everything_witness :
  exists v',
    steamclient_cpp.serve 8 (example_steamclient.library true) 0
      (steamclient_cpp.call_cm_connect 9 steamclient_cpp.cb_connected_fn
         2500 steamclient_cpp.cb_disconnected_fn)
      example_steamclient.process
    = Ok (true, v') /\
    steamclient_cpp.heap v' = ∅ /\
    exists requests,
      steamclient_cpp.trace v'
      = requests
        ++ [steamclient_cpp.call_cm_disconnect 9;
            steamclient_cpp.call_done_store] /\
      forallb is_request requests = true.
Proof.
  apply (dlc_update_releases_everything (example_steamclient.library true) 9
           2500 example_steamclient.options
           example_steamclient.process); [|reflexivity].
  intros text vdf extended_m listofdlc Hread Hext Hlist.
  cbn in Hread. repeat case_match; simplify_eq;
    vm_compute in Hext; simplify_eq.
  vm_compute in Hlist. simplify_eq. by vm_compute.
Defined.

(** X19.  The DLC update only adds.  Under the same conditions the Steam
    options after the exchange are the old ones with entries appended to the
    DLC list and their IDs added to the installed set; no appended ID was
    among the DLC before; the settings are saved exactly when something was
    appended.  This is the update that the coarse model of [update_dlc]
    performs for the entries discovered. *)
Theorem dlc_update_only_adds (w : steamclient_cpp.sc_world)
    (client t : Z) (o : settings.steam_options)
    (v : steamclient_cpp.variables) :
  listofdlc_fits w ->
  settings_cpp.steam (steamclient_cpp.settings_vars v) = Some o ->
  exists v' added,
    steamclient_cpp.serve 8 w 0
      (steamclient_cpp.call_cm_connect client steamclient_cpp.cb_connected_fn
         t steamclient_cpp.cb_disconnected_fn) v
    = Ok (true, v') /\
    settings_cpp.steam (steamclient_cpp.settings_vars v')
    = Some (settings.set_dlc (settings.dlc o ++ added)
              (settings.installed_dlc o ∪ list_to_set added.*1) o) /\
    Forall (fun e => e.1 ∉ (settings.dlc o).*1) added /\
    existsb is_save
      (drop (length (steamclient_cpp.trace v)) (steamclient_cpp.trace v'))
    = negb (bool_decide (added = [])) /\
    forall (cw : world) (s : state),
      g_settings s = o -> w_update_dlc cw = added ->
      exists s',
        steamclient.update_dlc cw s = Ok (tt, s') /\
        Some (g_settings s')
        = settings_cpp.steam (steamclient_cpp.settings_vars v').
Proof.
  intros Hfits Ho.
  destruct (serve_connect w client o v t Hfits Ho) as (v' & Hrun & Hend).
  assert (Hcoarse : forall added (cw : world) (s : state),
            g_settings s = o -> w_update_dlc cw = added ->
            exists s',
              steamclient.update_dlc cw s = Ok (tt, s') /\
              Some (g_settings s')
              = Some (settings.set_dlc (settings.dlc o ++ added)
                        (settings.installed_dlc o ∪ list_to_set added.*1) o)).
  { intros added cw s Hs Hcw. eexists. split; [reflexivity|].
    cbn. by rewrite Hs, Hcw. }
  destruct (steamclient_cpp.w_tek_sc_err_success w
              (steamclient_cpp.w_connect w)).
  - destruct Hend as (v1 & Ht1 & _ & requests & added & Htrace & _ & Hst
                      & Hnew & Hsaved).
    exists v', added. split; [exact Hrun|]. split; [exact Hst|].
    split; [exact Hnew|]. split.
    + rewrite Htrace, Ht1, <- !app_assoc, drop_app_length.
      cbn [app existsb is_save orb]. rewrite existsb_app. cbn [existsb is_save].
      by rewrite !orb_false_r.
    + intros cw s Hs Hcw. rewrite Hst. by apply Hcoarse.
  - subst v'. exists (steamclient_cpp.set_trace
                        (steamclient_cpp.trace v
                         ++ [steamclient_cpp.call_done_store]) v), [].
    cbn [steamclient_cpp.settings_vars steamclient_cpp.set_trace
         steamclient_cpp.trace].
    split; [exact Hrun|]. rewrite Ho, set_dlc_nil.
    split; [done|]. split; [done|]. split.
    + by rewrite drop_app_length.
    + intros cw s Hs Hcw.
      destruct (Hcoarse [] cw s Hs Hcw) as (s' & Hs' & Hg).
      exists s'. split; [done|]. by rewrite Hg, set_dlc_nil.
Qed.

Lemma dlc_update_only_adds_witness :
  exists v' added,
    steamclient_cpp.serve 8 (example_steamclient.library true) 0
      (steamclient_cpp.call_cm_connect 9 steamclient_cpp.cb_connected_fn
         2500 steamclient_cpp.cb_disconnected_fn)
      example_steamclient.process
    = Ok (true, v') /\
    settings.dlc <$> settings_cpp.steam (steamclient_cpp.settings_vars v')
    = Some ([(512540, "Scorched Earth")] ++ added) /\
    Forall (fun e => e.1 ∉ [512540]) added.
Proof.
  destruct (dlc_update_only_adds (example_steamclient.library true) 9 2500
              example_steamclient.options example_steamclient.process)
    as (v' & added & H1 & H2 & H3 & _);
    [|reflexivity|].
  - intros text vdf extended_m listofdlc Hread Hext Hlist.
    cbn in Hread. repeat case_match; simplify_eq;
      vm_compute in Hext; simplify_eq.
    vm_compute in Hlist. simplify_eq. by vm_compute.
  - exists v', added. split; [exact H1|]. split; [by rewrite H2|exact H3].
Defined.

(** ** steam/2399830.cpp: the EOS SDK wrappers *)


Section eos.
Import eos_2399830.
Context (w : eos_world).

Lemma E_bind_run {A B} (m : E A) (f : A -> E B) (v : variables) :
  (m ≫= f) v
  = match m v with
    | Ok (a, v') => f a v'
    | Undefined what => Undefined what
    end.
Proof. reflexivity. Qed.

Lemma eos_new_run (b : block) (v : variables) :
  exists p,
    new b v = Ok (p, set_heap (<[ p := b ]> (heap v)) v) /\
    p <> 0 /\ heap v !! p = None.
Proof.
  eexists. split; [reflexivity|].
  pose proof (is_fresh (({[ 0 ]} ∪ dom (heap v)) : gset Z)) as Hfresh.
  split.
  - intros Hp. apply Hfresh. rewrite Hp.
    apply elem_of_union_l. by apply elem_of_singleton.
  - apply not_elem_of_dom. intros Hp. apply Hfresh.
    by apply elem_of_union_r.
Qed.

Lemma filter_nil_existsb {A} (f : A -> bool) (l : list A) :
  existsb f l = false -> List.filter f l = [].
Proof.
  induction l as [|a l IH]; [done|]. cbn [existsb List.filter].
  destruct (f a); [done|]. exact IH.
Qed.

Lemma use_epic_run (so : settings.steam_options) (v : variables) :
  settings_cpp.steam (settings_vars v) = Some so ->
  use_epic v
  = Ok (app_2399830_vars.force_egs_auth
          (settings_cpp.statics_2399830 (settings_vars v))
        || negb (settings.spoof_app_id so =? 2399830), v).
Proof.
  intros Hso. unfold use_epic, statics.
  cbv [mbind mret E_bind E_ret get ub].
  destruct (app_2399830_vars.force_egs_auth _); [reflexivity|].
  by rewrite Hso.
Qed.

Lemma serve_auth_login (f k : nat) (iface : Z) (creds : EOS_Auth_Credentials)
    (scope_flags login_flags p : Z) :
  serve (S f) w k (call_Auth_Login iface creds scope_flags login_flags p)
  = (let '(result_code, user) := w_auth_login w k in
     auth_login_complete w result_code p user ;;
     t ← get trace;
     from_option (serve f w (S k)) (ub "no call was made") (last t)).
Proof. reflexivity. Qed.

(** Everything from a completed [EOS_Auth_Login] that is not retried to
    the game's delegate. *)
Lemma auth_final (f k : nat) (h0 : gmap Z block) (p : Z) (c : login_ctx)
    (o : EOS_Connect_LoginOptions) (st : settings_cpp.variables)
    (og : orig_fn -> Z) (tr : list call) (rc user : Z) :
  h0 !! p = None -> token c = 0 -> completion_delegate c <> 0 ->
  (forall fn, og fn <> 0) ->
  w_options w (options c) = Some o ->
  (forall user, (w_CopyIdToken w user).1.1 = 0 ->
                (w_CopyIdToken w user).1.2 <> 0) ->
  negb (rc =? 0)
  && (ac_type (auth_creds c) =? EOS_ELoginCredentialType_persistent_auth)
  = false ->
  exists tr' calls rc',
    (auth_login_complete w rc p user ;;
     t ← get trace;
     from_option (serve (S f) w (S k)) (ub "no call was made") (last t))
      {| settings_vars := st; origs := og;
         heap := <[ p := ctx_block c ]> h0; trace := tr |}
    = Ok (true,
          {| settings_vars := st; origs := og; heap := h0; trace := tr' |}) /\
    tr' = tr ++ calls
          ++ [call_delegate (completion_delegate c) rc' (client_data c)] /\
    existsb is_delegate calls = false /\
    existsb is_auth_login calls = false /\
    length (List.filter is_token_release calls)
    = length (List.filter (leaves_token w) calls).
Proof.
  intros Hp Htok Hdel Hog Hopt Hsdk Hfinal.
  assert (Hthrough : forall fn, (og fn =? 0) = false)
    by (intros fn; by apply Z.eqb_neq).
  assert (Hdel' : (completion_delegate c =? 0) = false)
    by (by apply Z.eqb_neq).
  unfold auth_login_complete, load_ctx, store_ctx, delete_block, through,
    log.
  cbv [mbind mret E_bind E_ret get put ub].
  cbn [heap trace origs settings_vars set_heap set_trace].
  rewrite lookup_insert_eq, Hfinal.
  destruct (Z.eqb_spec rc 0) as [->|Hrc].
  - rewrite Hthrough.
    cbn [heap trace origs settings_vars set_heap set_trace].
    pose proof (Hsdk user) as Hsdk'.
    destruct (w_CopyIdToken w user) as [[res tok] jwt] eqn:Hcopy.
    cbn [fst snd] in Hsdk'.
    destruct (Z.eqb_spec res 0) as [->|Hres].
    + destruct (Z.eqb_spec tok 0) as [->|Htk]; [by destruct Hsdk'|].
      cbn [heap trace origs settings_vars set_heap set_trace].
      rewrite lookup_insert_eq.
      cbn [heap trace origs settings_vars set_heap set_trace token
           set_connect_creds set_token options handle connect_creds].
      rewrite (proj2 (Z.eqb_neq tok 0)) by done. cbn [negb].
      rewrite Hopt, Hthrough.
      cbn [heap trace origs settings_vars set_heap set_trace].
      rewrite last_snoc. cbn [from_option serve].
      unfold connect_login_complete, load_ctx, delete_block, through, log.
      cbv [mbind mret E_bind E_ret get put ub].
      cbn [heap trace origs settings_vars set_heap set_trace].
      rewrite insert_insert_eq, lookup_insert_eq, Hthrough.
      cbn [set_connect_creds set_token completion_delegate client_data
           token].
      rewrite Hdel'.
      cbn [heap trace origs settings_vars set_heap set_trace].
      rewrite lookup_insert_eq, delete_insert_id by done.
      eexists _, [_; _; _], _. split; [reflexivity|].
      split; [by rewrite <- !app_assoc|].
      cbn. rewrite Hcopy. cbn.
      by rewrite (proj2 (Z.eqb_neq tok 0)) by done.
    + cbn [heap trace origs settings_vars set_heap set_trace].
      rewrite lookup_insert_eq.
      cbn [heap trace origs settings_vars set_heap set_trace token
           set_token options handle connect_creds].
      destruct (Z.eqb_spec tok 0) as [->|Htk]; cbn [negb].
      * rewrite Hthrough.
        cbn [heap trace origs settings_vars set_heap set_trace].
        rewrite insert_insert_eq, lookup_insert_eq, delete_insert_id by done.
        cbn [heap trace origs settings_vars set_heap set_trace].
        rewrite last_snoc. cbn [from_option serve set_token
          completion_delegate client_data]. rewrite Hdel'.
        unfold log. cbv [mbind mret E_bind E_ret get put ub].
        cbn [heap trace origs settings_vars set_heap set_trace].
        eexists _, [_; _], _. split; [reflexivity|].
        split; [by rewrite <- !app_assoc|].
        cbn. by rewrite Hcopy.
      * rewrite Hopt, Hthrough.
        cbn [heap trace origs settings_vars set_heap set_trace].
        rewrite last_snoc. cbn [from_option serve].
        unfold connect_login_complete, load_ctx, delete_block, through, log.
        cbv [mbind mret E_bind E_ret get put ub].
        cbn [heap trace origs settings_vars set_heap set_trace].
        rewrite insert_insert_eq, lookup_insert_eq, Hthrough.
        cbn [set_token completion_delegate client_data token].
        rewrite Hdel'.
        cbn [heap trace origs settings_vars set_heap set_trace].
        rewrite lookup_insert_eq, delete_insert_id by done.
        eexists _, [_; _; _], _. split; [reflexivity|].
        split; [by rewrite <- !app_assoc|].
        cbn. rewrite Hcopy. cbn.
        by rewrite (proj2 (Z.eqb_neq tok 0)) by done.
  - cbn [token]. rewrite Htok. cbn [Z.eqb negb].
    rewrite Hthrough.
    cbn [heap trace origs settings_vars set_heap set_trace].
    rewrite lookup_insert_eq, delete_insert_id by done.
    cbn [heap trace origs settings_vars set_heap set_trace].
    rewrite last_snoc. cbn [from_option serve]. rewrite Hdel'.
    unfold log. cbv [mbind mret E_bind E_ret get put ub].
    cbn [heap trace origs settings_vars set_heap set_trace].
    eexists _, [_], _. split; [reflexivity|].
    split; [by rewrite <- !app_assoc|]. by cbn.
Qed.

End eos.

(** X20.  A login through the wrapper always completes, and exactly once.
    With the function pointer variables set, a delegate and readable options,
    and an SDK that yields a token whenever [EOS_Auth_CopyIdToken] succeeds:
    whatever the SDK answers, the game's delegate is called exactly once, as
    the last call and with the game's own client data; the [login_ctx] has
    been freed (the heap is what it was); [EOS_Auth_Login] is tried at most
    twice; every token that [EOS_Auth_CopyIdToken] left is released exactly
    once.  When Epic authentication is neither forced nor needed, the only
    call is the original [EOS_Connect_Login] with the game's arguments. *)
Theorem eos_login_completes_once (w : eos_2399830.eos_world)
    (handle options client_data delegate : Z)
    (o : eos_2399830.EOS_Connect_LoginOptions)
    (so : settings.steam_options) (v : eos_2399830.variables) :
  (forall fn, eos_2399830.origs v fn <> 0) ->
  delegate <> 0 ->
  eos_2399830.w_options w options = Some o ->
  settings_cpp.steam (eos_2399830.settings_vars v) = Some so ->
  (forall user, (eos_2399830.w_CopyIdToken w user).1.1 = 0 ->
                (eos_2399830.w_CopyIdToken w user).1.2 <> 0) ->
  let forced :=
    app_2399830_vars.force_egs_auth
      (settings_cpp.statics_2399830 (eos_2399830.settings_vars v))
    || negb (settings.spoof_app_id so =? 2399830) in
  exists v' calls rc,
    eos_2399830.login w handle options client_data delegate v
    = Ok (true, v') /\
    eos_2399830.heap v' = eos_2399830.heap v /\
    eos_2399830.settings_vars v' = eos_2399830.settings_vars v /\
    eos_2399830.trace v'
    = eos_2399830.trace v ++ calls
      ++ [eos_2399830.call_delegate delegate rc client_data] /\
    existsb is_delegate calls = false /\
    (length (List.filter is_auth_login calls) <= 2)%nat /\
    length (List.filter is_token_release calls)
    = length (List.filter (leaves_token w) calls) /\
    (forced = false ->
     calls = [eos_2399830.call_Connect_Login handle
                (eos_2399830.game_options options) client_data
                (eos_2399830.game_delegate delegate)]).
Proof.
  intros Hog Hdel Hopt Hso Hsdk forced.
  destruct v as [st og hp tr].
  cbn [eos_2399830.origs eos_2399830.settings_vars eos_2399830.heap
       eos_2399830.trace] in *.
  assert (Hthrough : forall fn, (og fn =? 0) = false)
    by (intros fn; by apply Z.eqb_neq).
  assert (Hdel' : (delegate =? 0) = false) by (by apply Z.eqb_neq).
  unfold eos_2399830.login, eos_2399830.EOS_Connect_Login.
  rewrite E_bind_run, E_bind_run. unfold eos_2399830.statics at 1.
  cbn [eos_2399830.get eos_2399830.settings_vars]. cbv beta iota.
  rewrite E_bind_run, (use_epic_run so) by done.
  cbn [eos_2399830.settings_vars]. fold forced. cbv beta iota.
  destruct forced.
  - (* Epic authentication *)
    rewrite Hopt, E_bind_run.
    match goal with
    | |- context [eos_2399830.new ?b ?v0] =>
        destruct (eos_new_run b v0) as (p & Hnew & Hp0 & Hfresh)
    end.
    cbn [eos_2399830.heap] in Hfresh. rewrite Hnew. clear Hnew.
    unfold eos_2399830.through, eos_2399830.log.
    cbv [mbind mret eos_2399830.E_bind eos_2399830.E_ret eos_2399830.get
         eos_2399830.put eos_2399830.ub].
    cbn [eos_2399830.heap eos_2399830.trace eos_2399830.origs
         eos_2399830.settings_vars eos_2399830.set_heap
         eos_2399830.set_trace].
    rewrite Hthrough.
    cbn [eos_2399830.heap eos_2399830.trace eos_2399830.origs
         eos_2399830.settings_vars eos_2399830.set_heap
         eos_2399830.set_trace].
    rewrite last_snoc. cbn [from_option].
    set (c0 := {| eos_2399830.handle := handle;
                  eos_2399830.options := options;
                  eos_2399830.client_data := client_data;
                  eos_2399830.completion_delegate := delegate;
                  eos_2399830.token := 0;
                  eos_2399830.auth_creds := _;
                  eos_2399830.connect_creds := _ |}).
    rewrite (serve_auth_login w 2 0).
    destruct (eos_2399830.w_auth_login w 0) as [rc0 user0].
    destruct (Z.eqb_spec rc0 0) as [->|Hrc0].
    + match goal with
      | |- context [tr ++ [?c]] => set (first_call := c)
      end.
      destruct (auth_final w 1 0 hp p c0 o st og (tr ++ [first_call]) 0
                  user0)
        as (tr' & calls & rc' & Hrun & Htr & Hd & Ha & Hrel); try done.
      exists
        {| eos_2399830.settings_vars := st; eos_2399830.origs := og;
           eos_2399830.heap := hp; eos_2399830.trace := tr' |},
        (first_call :: calls), rc'.
      split; [exact Hrun|]. split; [done|]. split; [done|].
      split; [by rewrite Htr, <- !app_assoc|].
      cbn [existsb List.filter is_delegate is_auth_login is_token_release
           leaves_token orb length].
      split; [done|]. split; [|split; [done|done]].
      rewrite (filter_nil_existsb _ _ Ha). cbn. lia.
    + (* the first attempt fails and is retried through the portal *)
      unfold eos_2399830.auth_login_complete at 1, eos_2399830.load_ctx,
        eos_2399830.store_ctx, eos_2399830.through, eos_2399830.log.
      cbv [mbind mret eos_2399830.E_bind eos_2399830.E_ret eos_2399830.get
           eos_2399830.put eos_2399830.ub].
      cbn [eos_2399830.heap eos_2399830.trace eos_2399830.origs
           eos_2399830.settings_vars eos_2399830.set_heap
           eos_2399830.set_trace].
      rewrite lookup_insert_eq.
      rewrite (proj2 (Z.eqb_neq rc0 0)) by done.
      cbn [negb andb c0 eos_2399830.auth_creds eos_2399830.ac_type
           eos_2399830.EOS_ELoginCredentialType_persistent_auth Z.eqb
           Pos.eqb].
      cbn [eos_2399830.heap eos_2399830.trace eos_2399830.origs
           eos_2399830.settings_vars eos_2399830.set_heap
           eos_2399830.set_trace].
      rewrite lookup_insert_eq, Hthrough.
      cbn [eos_2399830.heap eos_2399830.trace eos_2399830.origs
           eos_2399830.settings_vars eos_2399830.set_heap
           eos_2399830.set_trace].
      rewrite insert_insert_eq, last_snoc. cbn [from_option].
      set (c1 := eos_2399830.set_auth_type
                   eos_2399830.EOS_ELoginCredentialType_account_portal _).
      rewrite (serve_auth_login w 1 1).
      destruct (eos_2399830.w_auth_login w 1) as [rc1 user1].
      match goal with
      | |- context [eos_2399830.set_trace ?t0
                      (eos_2399830.set_heap
                         (<[p:=eos_2399830.ctx_block c1]> hp) _)] =>
          pose (tr2 := t0)
      end.
      destruct (auth_final w 0 1 hp p c1 o st og tr2 rc1 user1)
        as (tr' & calls & rc' & Hrun & Htr & Hd & Ha & Hrel); try done.
      { by rewrite andb_false_r. }
      subst tr2.
      match type of Htr with
      | _ = (((tr ++ [?a]) ++ [?b]) ++ [?c]) ++ _ =>
          exists
            {| eos_2399830.settings_vars := st; eos_2399830.origs := og;
               eos_2399830.heap := hp; eos_2399830.trace := tr' |},
            (a :: b :: c :: calls), rc'
      end.
      split; [exact Hrun|]. split; [done|]. split; [done|].
      split; [by rewrite Htr, <- !app_assoc|].
      cbn [existsb List.filter is_delegate is_auth_login is_token_release
           leaves_token orb length].
      split; [done|]. split; [|split; [done|done]].
      rewrite (filter_nil_existsb _ _ Ha). cbn. lia.
  - (* pass-through *)
    unfold eos_2399830.through, eos_2399830.log.
    cbv [mbind mret eos_2399830.E_bind eos_2399830.E_ret eos_2399830.get
         eos_2399830.put eos_2399830.ub].
    cbn [eos_2399830.heap eos_2399830.trace eos_2399830.origs
         eos_2399830.settings_vars eos_2399830.set_heap
         eos_2399830.set_trace].
    rewrite Hthrough.
    cbn [eos_2399830.heap eos_2399830.trace eos_2399830.origs
         eos_2399830.settings_vars eos_2399830.set_heap
         eos_2399830.set_trace].
    rewrite last_snoc. cbn [from_option eos_2399830.serve].
    rewrite Hdel'. unfold eos_2399830.log.
    cbv [mbind mret eos_2399830.E_bind eos_2399830.E_ret eos_2399830.get
         eos_2399830.put eos_2399830.ub].
    cbn [eos_2399830.heap eos_2399830.trace eos_2399830.origs
         eos_2399830.settings_vars eos_2399830.set_heap
         eos_2399830.set_trace].
    eexists _, [_], _. split; [reflexivity|].
    split; [done|]. split; [done|]. split; [by rewrite <- !app_assoc|].
    cbn. repeat split; try done. lia.
Qed.

Lemma eos_login_completes_once_witness :
  exists v' calls rc,
    eos_2399830.login example_eos.sdk 1 700 60 70 example_eos.started
    = Ok (true, v') /\
    eos_2399830.heap v' = eos_2399830.heap example_eos.started /\
    eos_2399830.settings_vars v'
    = eos_2399830.settings_vars example_eos.started /\
    eos_2399830.trace v'
    = eos_2399830.trace example_eos.started ++ calls
      ++ [eos_2399830.call_delegate 70 rc 60] /\
    existsb is_delegate calls = false /\
    (length (List.filter is_auth_login calls) <= 2)%nat /\
    length (List.filter is_token_release calls)
    = length (List.filter (leaves_token example_eos.sdk) calls) /\
    (true = false ->
     calls = [eos_2399830.call_Connect_Login 1
                (eos_2399830.game_options 700) 60
                (eos_2399830.game_delegate 70)]).
Proof.
  refine (eos_login_completes_once example_eos.sdk 1 700 60 70
            {| eos_2399830.lo_api_version := 2;
               eos_2399830.credentials :=
                 {| eos_2399830.cc_api_version := 1;
                    eos_2399830.cc_token := 701;
                    eos_2399830.cc_type := 18 |};
               eos_2399830.user_login_info := 0 |}
            {| settings.app_id := 2399830; settings.spoof_app_id := 480;
               settings.dlc := []; settings.installed_dlc := ∅;
               settings.tek_sc_path := "";
               settings.auto_update_dlc := false |}
            example_eos.started _ _ _ _ _).
  - intros fn. cbn. lia.
  - lia.
  - reflexivity.
  - reflexivity.
  - intros user. cbn. destruct (user =? 42); cbn; [lia|discriminate].
Defined.



(** X22.  [steam_api_init_2399830] stays inside [steam_id_str]: for every
    value of the 64-bit [steam_api::steam_id] the decimal digits and the
    terminator behind them fit the 21 characters; afterwards the buffer holds
    the decimal text of the ID, and nothing else has changed. *)
Theorem steam_api_init_2399830_fits (steam_id : Z)
    (v : eos_2399830.variables) :
  0 <= steam_id < 2 ^ 64 ->
  let g := settings_cpp.statics_2399830 (eos_2399830.settings_vars v) in
  exists v',
    eos_2399830.steam_api_init_2399830 steam_id v = Ok (tt, v') /\
    (String.length (pretty steam_id) + 1 <= 21)%nat /\
    settings_cpp.statics_2399830 (eos_2399830.settings_vars v')
    = {| app_2399830_vars.force_egs_auth :=
           app_2399830_vars.force_egs_auth g;
         app_2399830_vars.cf_api_wrapper :=
           app_2399830_vars.cf_api_wrapper g;
         app_2399830_vars.steam_id_str := pretty steam_id;
         app_2399830_vars.eos_auth_iface :=
           app_2399830_vars.eos_auth_iface g |} /\
    settings_cpp.steam (eos_2399830.settings_vars v')
    = settings_cpp.steam (eos_2399830.settings_vars v) /\
    eos_2399830.origs v' = eos_2399830.origs v /\
    eos_2399830.heap v' = eos_2399830.heap v /\
    eos_2399830.trace v' = eos_2399830.trace v.
Proof.
  intros Hid g.
  assert (Hlen : (String.length (pretty steam_id) <= 20)%nat).
  { apply pretty_Z_length; [|lia]. split; [lia|].
    eapply Z.lt_le_trans; [apply Hid|]. by vm_compute. }
  unfold eos_2399830.steam_api_init_2399830, charconv.to_chars.
  destruct (Z.leb_spec (Z.of_nat (String.length (pretty steam_id))) 21);
    [|lia].
  destruct (Z.ltb_spec (Z.of_nat (String.length (pretty steam_id))) 21);
    [|lia].
  destruct v as [st og hp tr]. eexists. split; [reflexivity|].
  split; [lia|]. by destruct st.
Qed.

Lemma steam_api_init_2399830_fits_witness :
  exists v',
    eos_2399830.steam_api_init_2399830 18446744073709551615
      example_eos.started = Ok (tt, v') /\
    (String.length (pretty 18446744073709551615%Z) + 1 <= 21)%nat /\
    settings_cpp.statics_2399830 (eos_2399830.settings_vars v')
    = {| app_2399830_vars.force_egs_auth := false;
         app_2399830_vars.cf_api_wrapper := "";
         app_2399830_vars.steam_id_str := pretty 18446744073709551615%Z;
         app_2399830_vars.eos_auth_iface := 301 |} /\
    settings_cpp.steam (eos_2399830.settings_vars v')
    = settings_cpp.steam (eos_2399830.settings_vars example_eos.started) /\
    eos_2399830.origs v' = eos_2399830.origs example_eos.started /\
    eos_2399830.heap v' = eos_2399830.heap example_eos.started /\
    eos_2399830.trace v' = eos_2399830.trace example_eos.started.
Proof.
  apply (steam_api_init_2399830_fits 18446744073709551615
           example_eos.started).
  lia.
Defined.

(** ** steam/2399830.cpp: dllmain_2399830, and main.cpp *)

Section dllmain.
Import app_2399830_dllmain.

Lemma starts_with_take (pattern text : list Z) :
  starts_with pattern text = true <-> take (length pattern) text = pattern.
Proof.
  revert text. induction pattern as [|p pattern IH]; intros text.
  - by destruct text.
  - destruct text as [|t text]; cbn [starts_with length take].
    + split; discriminate.
    + rewrite andb_true_iff, IH, Z.eqb_eq. split.
      * by intros [-> ->].
      * intros H. by injection H as -> ->.
Qed.

(** [find] yields the first occurrence. *)
Lemma find_first (pattern text : list Z) (pos r : Z) :
  find pattern text pos = Some r ->
  exists idx : nat,
    r = pos + Z.of_nat idx /\
    take (length pattern) (drop idx text) = pattern /\
    forall j : nat, (j < idx)%nat ->
                    take (length pattern) (drop j text) <> pattern.
Proof.
  revert pos. induction text as [|t text IH]; intros pos Hfind.
  - cbn [find] in Hfind.
    destruct (starts_with pattern []) eqn:Hs; [|discriminate].
    injection Hfind as <-. exists 0%nat.
    split; [lia|]. split; [by apply starts_with_take|]. intros j Hj. lia.
  - cbn [find] in Hfind.
    destruct (starts_with pattern (t :: text)) eqn:Hs.
    + injection Hfind as <-. exists 0%nat.
      split; [lia|]. split; [by apply starts_with_take|]. intros j Hj. lia.
    + destruct (IH _ Hfind) as (idx & -> & Hat & Hbefore).
      exists (S idx). split; [lia|]. split; [exact Hat|].
      intros [|j] Hj.
      * cbn [drop]. intros Htake. apply starts_with_take in Htake.
        congruence.
      * cbn [drop]. apply Hbefore. lia.
Qed.

(** [find_section] yields the first section whose name begins with
    ".rdata". *)
Lemma find_section_first (sections : list IMAGE_SECTION_HEADER)
    (rdata : IMAGE_SECTION_HEADER) :
  find_section sections = Some rdata ->
  exists before after,
    sections = before ++ rdata :: after /\
    substring 0 6 (sec_Name rdata) = ".rdata" /\
    Forall (fun sec => substring 0 6 (sec_Name sec) <> ".rdata") before.
Proof.
  induction sections as [|sec rest IH]; [discriminate|].
  cbn [find_section].
  destruct (String.eqb_spec (substring 0 6 (sec_Name sec)) ".rdata")
    as [Hname|Hname].
  - intros [= <-]. by exists [], rest.
  - intros Hfind. destruct (IH Hfind) as (before & after & -> & Hr & Hb).
    exists (sec :: before), after. split; [done|]. split; [done|].
    by constructor.
Qed.


(** Whatever the import tables hold, the part behind the CF API block adds
    one message and fails, or adds stores only. *)
Lemma wrap_eos_functions_outcome (img : steam_api.image)
    (done : list event) (b : bool) (evs : list event) :
  wrap_eos_functions img done = Ok (b, evs) ->
  exists new,
    evs = done ++ new /\
    if b then Forall (fun e => is_store e = true) new
    else exists msg, new = [display_error msg].
Proof.
  unfold wrap_eos_functions.
  destruct (steam_api.delay_import_directory img) as [[dir_size base]|];
    [|intros [= <- <-]; by eexists _; split; [|eexists]].
  destruct (steam_api.span _ _ _) as [descs|]; [|discriminate].
  cbn [mbind steam_api.result_bind].
  destruct (find_descriptor img descs) as [[d|]|]; [| |discriminate];
    cbn [mbind steam_api.result_bind];
    [|intros [= <- <-]; by eexists _; split; [|eexists]].
  destruct (steam_api.thunk_array _ _) as [int|]; [|discriminate].
  cbn [mbind steam_api.result_bind].
  generalize 0 at 1. intros pos.
  destruct (wrap_thunks img _ int pos) as [stores|] eqn:Hloop;
    [|discriminate].
  cbn [mbind steam_api.result_bind]. intros [= <- <-].
  exists stores. split; [done|].
  clear -Hloop. revert pos stores Hloop.
  induction int as [|a int IH]; intros pos stores; [discriminate|].
  cbn [wrap_thunks]. destruct (a =? 0); [by intros [= <-]|].
  destruct (steam_api.string_at img _) as [name|]; [|discriminate].
  cbn [mbind steam_api.result_bind].
  destruct (wrap_thunks img _ int (pos + 1)) as [tail|] eqn:Htail;
    [|discriminate].
  cbn [mbind steam_api.result_bind]. intros [= <-].
  apply Forall_app. split; [|by eapply IH].
  destruct (wrapper_for name); by repeat constructor.
Qed.

End dllmain.

Section dllmain_runs.
Import app_2399830_dllmain.



(** The ways in which [dllmain_2399830] returns. *)
Lemma dllmain_2399830_cases (h : host) (img : steam_api.image)
    (g : app_2399830_vars.globals) (b : bool) (evs : list event) :
  dllmain_2399830 h img g = Ok (b, evs) ->
  (b = false /\ Forall (fun e => is_display_error e = true) evs) \/
  (app_2399830_vars.cf_api_wrapper g = "" /\
   wrap_eos_functions img [] = Ok (b, evs)) \/
  (exists sections rdata text idx ok prev pre mid,
     nt_sections h = Some sections /\
     find_section sections = Some rdata /\
     bytes_at h (VirtualAddress rdata) (VirtualSize rdata) = Some text /\
     find (wide cf_api_domain) text 0 = Some idx /\
     h_VirtualProtect h (VirtualAddress rdata + idx) 36 PAGE_READWRITE
     = (ok, Some prev) /\
     Forall (fun e => is_display_error e = true) pre /\
     Forall (fun e => is_display_error e = true) mid /\
     ((18 < String.length (app_2399830_vars.cf_api_wrapper g))%nat ->
      pre <> []) /\
     (ok = false -> mid <> []) /\
     wrap_eos_functions img
       (pre ++ [VirtualProtect (VirtualAddress rdata + idx) 36
                  PAGE_READWRITE]
        ++ mid
        ++ [MultiByteToWideChar (app_2399830_vars.cf_api_wrapper g)
              (VirtualAddress rdata + idx) 19;
            VirtualProtect (VirtualAddress rdata + idx) 36 prev])
     = Ok (b, evs)).
Proof.
  unfold dllmain_2399830. cbv zeta.
  destruct (String.eqb_spec (app_2399830_vars.cf_api_wrapper g) "")
    as [Hempty|Hne]; cbn [negb]; [by right; left|].
  set (too_long := if _ <? _ then _ else _).
  assert (Hlong : Forall (fun e => is_display_error e = true) too_long).
  { unfold too_long. case_match; by repeat constructor. }
  assert (Hpre : (18 < String.length (app_2399830_vars.cf_api_wrapper g))%nat
                 -> too_long <> []).
  { intros Hlen. unfold too_long.
    destruct (Z.ltb_spec (Z.of_nat (String.length cf_api_domain))
                (Z.of_nat (String.length
                             (app_2399830_vars.cf_api_wrapper g))));
      [done|]. cbn in *. lia. }
  destruct (nt_sections h) as [sections|] eqn:Hsec; [|discriminate].
  destruct (find_section sections) as [rdata|] eqn:Hrdata.
  2:{ intros [= <- <-]. left. split; [done|].
      apply Forall_app. by repeat constructor. }
  destruct (bytes_at h _ _) as [text|] eqn:Htext; [|discriminate].
  destruct (find (wide cf_api_domain) text 0) as [idx|] eqn:Hidx.
  2:{ intros [= <- <-]. left. split; [done|].
      apply Forall_app. by repeat constructor. }
  change cf_api_domain_raw_size with 36.
  change (Z.of_nat (String.length cf_api_domain) + 1) with 19.
  destruct (h_VirtualProtect h _ _ _) as [ok [prev|]] eqn:Hvp;
    [|discriminate].
  set (failed := if ok then [] else _).
  intros Hrun. right; right.
  exists sections, rdata, text, idx, ok, prev, too_long, failed.
  do 6 (split; [done|]).
  split; [unfold failed; destruct ok; by repeat constructor|].
  split; [done|]. split; [|exact Hrun].
  unfold failed. by intros ->.
Qed.


Lemma not_convert_display (l : list event) (src : string) (dest cch : Z) :
  Forall (fun e => is_display_error e = true) l ->
  ~ In (MultiByteToWideChar src dest cch) l.
Proof.
  intros Hall Hin. rewrite Forall_forall in Hall.
  apply list_elem_of_In, Hall in Hin. discriminate.
Qed.

Lemma not_convert_store (l : list event) (src : string) (dest cch : Z) :
  Forall (fun e => is_store e = true) l ->
  ~ In (MultiByteToWideChar src dest cch) l.
Proof.
  intros Hall Hin. rewrite Forall_forall in Hall.
  apply list_elem_of_In, Hall in Hin. discriminate.
Qed.

Lemma in_patched {A} (x a c d : A) (pre mid : list A) :
  In x (pre ++ [a] ++ mid ++ [c; d]) ->
  In x pre \/ a = x \/ In x mid \/ c = x \/ d = x.
Proof.
  rewrite in_app_iff. cbn [app In]. rewrite in_app_iff. cbn [In]. tauto.
Qed.

End dllmain_runs.


(** X24.  The domain is overwritten in place, at its first occurrence, between
    two changes of the protection.  Whenever [dllmain_2399830] returns and has
    called [MultiByteToWideChar]: the source is [cf_api_wrapper], the limit is
    19 characters, and the destination is the first place at which the UTF-16
    text of "api.curseforge.com" occurs in the first section whose name begins
    with ".rdata"; the call is made once, after [VirtualProtect] has been
    asked to make the 36 bytes there writable, and is followed by the
    [VirtualProtect] that restores the protection which the first call stored;
    everything before the conversion besides is a message, everything after
    the restoring a message or a store into the import address table.  A
    [cf_api_wrapper] of more than 18 characters is reported and converted all
    the same. *)
Theorem cf_api_wrapper_overwrites_first_occurrence
    (h : app_2399830_dllmain.host) (img : steam_api.image)
    (g : app_2399830_vars.globals) (b : bool)
    (evs : list app_2399830_dllmain.event) (src : string) (dest cch : Z) :
  app_2399830_dllmain.dllmain_2399830 h img g = Ok (b, evs) ->
  In (app_2399830_dllmain.MultiByteToWideChar src dest cch) evs ->
  src = app_2399830_vars.cf_api_wrapper g /\ cch = 19 /\
  exists before rdata after text (idx : nat) prev pre mid post,
    app_2399830_dllmain.nt_sections h = Some (before ++ rdata :: after) /\
    substring 0 6 (app_2399830_dllmain.sec_Name rdata) = ".rdata" /\
    Forall (fun sec =>
              substring 0 6 (app_2399830_dllmain.sec_Name sec) <> ".rdata")
      before /\
    app_2399830_dllmain.bytes_at h
      (app_2399830_dllmain.VirtualAddress rdata)
      (app_2399830_dllmain.VirtualSize rdata) = Some text /\
    dest = app_2399830_dllmain.VirtualAddress rdata + Z.of_nat idx /\
    take 36 (drop idx text)
    = app_2399830_dllmain.wide app_2399830_dllmain.cf_api_domain /\
    (forall j : nat,
       (j < idx)%nat ->
       take 36 (drop j text)
       <> app_2399830_dllmain.wide app_2399830_dllmain.cf_api_domain) /\
    (app_2399830_dllmain.h_VirtualProtect h dest 36
       app_2399830_dllmain.PAGE_READWRITE).2 = Some prev /\
    evs = pre
          ++ app_2399830_dllmain.VirtualProtect dest 36
               app_2399830_dllmain.PAGE_READWRITE
          :: mid
          ++ app_2399830_dllmain.MultiByteToWideChar src dest 19
          :: app_2399830_dllmain.VirtualProtect dest 36 prev
          :: post /\
    Forall (fun e => is_display_error e = true) pre /\
    Forall (fun e => is_display_error e = true) mid /\
    Forall (fun e => is_store e || is_display_error e = true) post /\
    ((18 < String.length src)%nat -> pre <> []).
Proof.
  intros Hret Hin.
  destruct (dllmain_2399830_cases h img g b evs Hret)
    as [[-> Hmsgs]|[[_ Hwrap]|Hpatched]].
  - by apply not_convert_display in Hin.
  - destruct (wrap_eos_functions_outcome img [] b evs Hwrap)
      as (new & -> & Hnew). cbn [app] in Hin. destruct b.
    + by apply not_convert_store in Hin.
    + destruct Hnew as (msg & ->). by destruct Hin as [|[]].
  - destruct Hpatched as (secs & rdata & text & idx & ok & prev & pre
                          & mid & Hsecs & Hrdata & Htext & Hidx & Hvp & Hpre
                          & Hmid & Hlong & _ & Hwrap).
    destruct (wrap_eos_functions_outcome img _ b evs Hwrap)
      as (post & -> & Hpost).
    assert (Hpost' : Forall (fun e => is_store e || is_display_error e = true)
                       post).
    { destruct b.
      - eapply Forall_impl; [exact Hpost|]. by intros e ->.
      - destruct Hpost as (msg & ->). by repeat constructor. }
    assert (Hnot : ~ In (app_2399830_dllmain.MultiByteToWideChar src dest
                           cch) post).
    { intros Hp. rewrite Forall_forall in Hpost'.
      by apply list_elem_of_In, Hpost' in Hp. }
    rewrite in_app_iff in Hin. destruct Hin as [Hin|Hin]; [|done].
    apply in_patched in Hin as [Hin|[Hin|[Hin|[Hin|Hin]]]]; try done.
    { by apply not_convert_display in Hin. }
    { by apply not_convert_display in Hin. }
    injection Hin as <- <- <-.
    destruct (find_section_first secs rdata Hrdata)
      as (before & after & -> & Hname & Hbefore).
    destruct (find_first _ text 0 idx Hidx) as (i & -> & Hat & Hfirst).
    rewrite Z.add_0_l in *.
    split; [done|]. split; [done|].
    exists before, rdata, after, text, i, prev, pre, mid, post.
    do 7 (split; [done|]).
    split; [by rewrite Hvp|].
    split; [by rewrite <- !app_assoc|]. done.
Qed.


Lemma cf_api_wrapper_overwrites_first_occurrence_witness :
  "cf.example.org"
  = app_2399830_vars.cf_api_wrapper example_dllmain.statics /\
  19 = 19 /\
  exists before rdata after text (idx : nat) prev pre mid post,
    app_2399830_dllmain.nt_sections example_dllmain.sections_and_memory
    = Some (before ++ rdata :: after) /\
    substring 0 6 (app_2399830_dllmain.sec_Name rdata) = ".rdata" /\
    Forall (fun sec =>
              substring 0 6 (app_2399830_dllmain.sec_Name sec) <> ".rdata")
      before /\
    app_2399830_dllmain.bytes_at example_dllmain.sections_and_memory
      (app_2399830_dllmain.VirtualAddress rdata)
      (app_2399830_dllmain.VirtualSize rdata) = Some text /\
    8196 = app_2399830_dllmain.VirtualAddress rdata + Z.of_nat idx /\
    take 36 (drop idx text)
    = app_2399830_dllmain.wide app_2399830_dllmain.cf_api_domain /\
    (forall j : nat,
       (j < idx)%nat ->
       take 36 (drop j text)
       <> app_2399830_dllmain.wide app_2399830_dllmain.cf_api_domain) /\
    (app_2399830_dllmain.h_VirtualProtect
       example_dllmain.sections_and_memory 8196 36
       app_2399830_dllmain.PAGE_READWRITE).2 = Some prev /\
    [ app_2399830_dllmain.VirtualProtect 8196 36 4;
      app_2399830_dllmain.MultiByteToWideChar "cf.example.org" 8196 19;
      app_2399830_dllmain.VirtualProtect 8196 36 2;
      app_2399830_dllmain.store_Function 28672
        app_2399830_dllmain.EOS_Platform_Create_wrapper;
      app_2399830_dllmain.store_Function 28688
        app_2399830_dllmain.EOS_Connect_Login_wrapper ]
    = pre
      ++ app_2399830_dllmain.VirtualProtect 8196 36
           app_2399830_dllmain.PAGE_READWRITE
      :: mid
      ++ app_2399830_dllmain.MultiByteToWideChar "cf.example.org" 8196 19
      :: app_2399830_dllmain.VirtualProtect 8196 36 prev
      :: post /\
    Forall (fun e => is_display_error e = true) pre /\
    Forall (fun e => is_display_error e = true) mid /\
    Forall (fun e => is_store e || is_display_error e = true) post /\
    ((18 < String.length "cf.example.org")%nat -> pre <> []).
Proof.
  apply (cf_api_wrapper_overwrites_first_occurrence
           example_dllmain.sections_and_memory example_dllmain.exe
           example_dllmain.statics true).
  - reflexivity.
  - cbn. tauto.
Defined.

Section dll_entry.
Import app_2399830_dllmain.

(** A failed [dllmain_2399830] has stored into no import cell. *)
Lemma dllmain_2399830_false (h : host) (img : steam_api.image)
    (g : app_2399830_vars.globals) (evs : list event) :
  dllmain_2399830 h img g = Ok (false, evs) ->
  Forall (fun e => is_store e = false) evs.
Proof.
  intros Hret.
  destruct (dllmain_2399830_cases h img g false evs Hret)
    as [[_ Hmsgs]|[[_ Hwrap]|Hpatched]].
  - eapply Forall_impl; [exact Hmsgs|]. by intros [].
  - destruct (wrap_eos_functions_outcome img [] false evs Hwrap)
      as (new & -> & msg & ->). by repeat constructor.
  - destruct Hpatched as (secs & rdata & text & idx & ok & prev & pre
                          & mid & _ & _ & _ & _ & _ & Hpre & Hmid & _ & _
                          & Hwrap).
    destruct (wrap_eos_functions_outcome img _ false evs Hwrap)
      as (new & -> & msg & ->).
    repeat (apply Forall_app; split); try by repeat constructor.
    + eapply Forall_impl; [exact Hpre|]. by intros [].
    + eapply Forall_impl; [exact Hmid|]. by intros [].
Qed.

End dll_entry.

(** X25.  Attaching hooks everything or stores nothing.  Whenever [DllMain]
    returns for [DLL_PROCESS_ATTACH]: the variables are those that
    [settings::load] left; if the result is [TRUE], the settings were loaded,
    the import tables are those that [wrap_init] leaves, and a game other than
    2399830 has had no callback run; if the result is [FALSE], the import
    tables are untouched and no wrapper was stored into an import cell. *)
Theorem DllMain_attach_hooks_or_stores_nothing
    (w : settings_cpp.settings_world) (h : app_2399830_dllmain.host)
    (p p' : main_cpp.process) (r : bool) :
  main_cpp.DllMain w h main_cpp.DLL_PROCESS_ATTACH p = Ok (r, p') ->
  let loaded :=
    settings_cpp.load w (steamclient_cpp.settings_vars (main_cpp.vars p)) in
  main_cpp.vars p'
  = steamclient_cpp.set_settings_vars loaded.2 (main_cpp.vars p) /\
  exists did,
    main_cpp.events p' = main_cpp.events p ++ did /\
    if r then
      loaded.1 = true /\
      steam_api.wrap_init (main_cpp.image p) = Ok (main_cpp.image p') /\
      exists o,
        settings_cpp.steam loaded.2 = Some o /\
        (settings.app_id o <> 2399830 -> did = [])
    else
      main_cpp.image p' = main_cpp.image p /\
      Forall (fun e => is_store e = false) did.
Proof.
  intros Hret loaded. unfold main_cpp.DllMain in Hret.
  change (main_cpp.DLL_PROCESS_ATTACH =? main_cpp.DLL_PROCESS_ATTACH)
    with true in Hret. cbv iota in Hret. fold loaded in Hret.
  destruct loaded as [ok st] eqn:Hload. cbn [fst snd].
  destruct ok; cbn [negb] in Hret.
  - pose proof (load_true_steam _ _ _ Hload) as [o Ho].
    unfold main_cpp.dllmain_cb in Hret. rewrite Ho in Hret.
    destruct (Z.eqb_spec (settings.app_id o) 2399830) as [Happ|Happ].
    + destruct (app_2399830_dllmain.dllmain_2399830 h (main_cpp.image p)
                  (settings_cpp.statics_2399830 st))
        as [[went did]|] eqn:Hcb; [|discriminate].
      cbn [mbind steam_api.result_bind] in Hret.
      destruct went; cbn [negb] in Hret.
      * destruct (steam_api.wrap_init (main_cpp.image p)) as [img|];
          [|discriminate].
        cbn [mbind steam_api.result_bind] in Hret.
        injection Hret as <- <-. cbn [main_cpp.vars main_cpp.events
                                     main_cpp.image].
        split; [done|]. exists did. split; [done|]. split; [done|].
        split; [done|]. exists o. by split.
      * injection Hret as <- <-. cbn [main_cpp.vars main_cpp.events
                                       main_cpp.image].
        split; [done|]. exists did. split; [done|]. split; [done|].
        by eapply dllmain_2399830_false.
    + cbn [mbind steam_api.result_bind negb] in Hret.
      destruct (steam_api.wrap_init (main_cpp.image p)) as [img|];
        [|discriminate].
      cbn [mbind steam_api.result_bind] in Hret.
      injection Hret as <- <-. cbn [main_cpp.vars main_cpp.events
                                     main_cpp.image].
      split; [done|]. exists []. split; [done|]. split; [done|].
      split; [done|]. exists o. by split.
  - injection Hret as <- <-. cbn [main_cpp.vars main_cpp.events
                                   main_cpp.image].
    split; [done|]. exists []. split; [by rewrite app_nil_r|]. by split.
Qed.

Lemma DllMain_attach_hooks_or_stores_nothing_witness :
  main_cpp.vars example_dllmain.attached
  = steamclient_cpp.set_settings_vars
      (settings_cpp.load
         (example_settings.by_file example_dllmain.document)
         (steamclient_cpp.settings_vars
            (main_cpp.vars example_dllmain.at_start))).2
      (main_cpp.vars example_dllmain.at_start) /\
  exists did,
    main_cpp.events example_dllmain.attached
    = main_cpp.events example_dllmain.at_start ++ did /\
    (settings_cpp.load
       (example_settings.by_file example_dllmain.document)
       (steamclient_cpp.settings_vars
          (main_cpp.vars example_dllmain.at_start))).1 = true /\
    steam_api.wrap_init (main_cpp.image example_dllmain.at_start)
    = Ok (main_cpp.image example_dllmain.attached) /\
    exists o,
      settings_cpp.steam
        (settings_cpp.load
           (example_settings.by_file example_dllmain.document)
           (steamclient_cpp.settings_vars
              (main_cpp.vars example_dllmain.at_start))).2 = Some o /\
      (settings.app_id o <> 2399830 -> did = []).
Proof.
  apply (DllMain_attach_hooks_or_stores_nothing
           (example_settings.by_file example_dllmain.document)
           example_dllmain.sections_and_memory example_dllmain.at_start
           example_dllmain.attached true).
  vm_compute. reflexivity.
Defined.

(** ** steam/346110.cpp: the server rules wrappers *)

Ltac rules_state :=
  cbv beta iota delta [server_rules.set_heap server_rules.set_trace];
  cbn [server_rules.heap server_rules.trace server_rules.settings_vars
       server_rules.servers_iface].

Section rules.
Import server_rules.

Lemma R_bind_run {A B} (m : R A) (f : A -> R B) (v : variables) :
  (m ≫= f) v
  = match m v with
    | Ok (a, v') => f a v'
    | Undefined what => Undefined what
    end.
Proof. reflexivity. Qed.

Lemma rules_new_run (w : rules_response_wrapper) (v : variables) :
  exists p,
    new w v = Ok (p, set_heap (<[ p := w ]> (heap v)) v) /\
    p <> 0 /\ heap v !! p = None.
Proof.
  eexists. split; [reflexivity|].
  pose proof (is_fresh (({[ 0 ]} ∪ dom (heap v)) : gset Z)) as Hfresh.
  split.
  - intros Hp. apply Hfresh. rewrite Hp.
    apply elem_of_union_l. by apply elem_of_singleton.
  - apply not_elem_of_dom. intros Hp. apply Hfresh.
    by apply elem_of_union_r.
Qed.

Lemma hide_run (o : settings.steam_options) (key value : string)
    (v : variables) :
  settings_cpp.steam (settings_vars v) = Some o ->
  hide key value v
  = Ok (hidden_rule (settings_cpp.statics_346110 (settings_vars v)) o
          (key, value), v).
Proof.
  intros Ho. unfold hide, hidden_rule. cbv [mbind mret R_bind R_ret get ub].
  cbn [fst snd].
  destruct (negb (app_346110_vars.show_be_servers _)
            && String.eqb key "SERVERUSESBATTLEYE_b"
            && negb (String.eqb value "false")); [reflexivity|].
  cbn [orb].
  destruct (negb (app_346110_vars.show_unavailable_servers _));
    [|reflexivity].
  rewrite Ho. reflexivity.
Qed.

(** Steam's side of a query whose wrapper is alive and holds the handle. *)
Lemma respond_run (st : settings_cpp.variables) (si : Z)
    (h0 : gmap Z rules_response_wrapper) (this b q c2 : Z)
    (o : settings.steam_options) (complete : bool)
    (rules : list (string * string)) (tr : list call) :
  h0 !! this = None -> b <> 0 ->
  app_346110_vars.SteamMatchmakingServers_CancelServerQuery_orig
    (settings_cpp.statics_346110 st) = fn_vendor c2 ->
  settings_cpp.steam st = Some o ->
  exists passed ending,
    respond this q rules complete
      {| settings_vars := st; servers_iface := si;
         heap := <[ this := {| base := b; query := Some q |} ]> h0;
         trace := tr |}
    = Ok (tt,
          {| settings_vars := st; servers_iface := si; heap := h0;
             trace := tr
                      ++ map (fun r => base_RulesResponded b r.1 r.2) passed
                      ++ ending |}) /\
    Forall (fun r => hidden_rule (settings_cpp.statics_346110 st) o r
                     = false) passed /\
    ((passed = rules /\
      ending = [if complete then base_RulesRefreshComplete b
                else base_RulesFailedToRespond b]) \/
     (exists r rest,
        rules = passed ++ r :: rest /\
        hidden_rule (settings_cpp.statics_346110 st) o r = true /\
        ending = [call_CancelServerQuery c2 si q;
                  base_RulesFailedToRespond b])).
Proof.
  intros Hthis Hb Hcancel Ho.
  assert (Hb' : (b =? 0) = false) by (by apply Z.eqb_neq).
  revert tr. induction rules as [|[key value] rules IH]; intros tr.
  - exists [], [if complete then base_RulesRefreshComplete b
                else base_RulesFailedToRespond b].
    split; [|split; [constructor|by left]].
    cbn [respond].
    destruct complete;
      unfold RulesRefreshComplete, RulesFailedToRespond, load, to_base,
        delete_this, log;
      cbv [mbind mret R_bind R_ret get put ub]; rules_state;
      rewrite lookup_insert_eq; cbn [base]; rewrite Hb'; rules_state;
      rewrite lookup_insert_eq; rules_state;
      by rewrite delete_insert_id.
  - cbn [respond]. rewrite R_bind_run. cbn [get]. cbv beta iota.
    rules_state. rewrite R_bind_run.
    unfold RulesResponded at 1. rewrite R_bind_run.
    unfold load at 1. cbv [mbind mret R_bind R_ret get ub]. rules_state.
    rewrite lookup_insert_eq. cbv beta iota.
    match goal with
    | |- context [hide key value ?v0] =>
        rewrite (hide_run o key value v0) by exact Ho
    end.
    rules_state.
    destruct (hidden_rule (settings_cpp.statics_346110 st) o (key, value))
      eqn:Hhidden.
    + (* the query is given up *)
      exists [], [call_CancelServerQuery c2 si q;
                  base_RulesFailedToRespond b].
      split; [|split; [constructor|]].
      2:{ right. by exists (key, value), rules. }
      cbv [mbind mret R_bind R_ret get put ub]. rules_state.
      cbn [query base]. rewrite Hcancel.
      unfold through, to_base, delete_this, log.
      cbv [mbind mret R_bind R_ret get put ub]. rules_state.
      rewrite Hb'. rules_state. rewrite lookup_insert_eq. rules_state.
      rewrite <- app_assoc, drop_app_length. cbn [app existsb is_cancel].
      rewrite Z.eqb_refl. cbn [orb]. rules_state.
      by rewrite delete_insert_id.
    + (* the rule is handed on *)
      cbn [base]. unfold to_base, log.
      cbv [mbind mret R_bind R_ret get put ub]. rules_state.
      rewrite Hb'. rules_state.
      rewrite drop_app_length. cbn [existsb is_cancel orb].
      destruct (IH (tr ++ [base_RulesResponded b key value]))
        as (passed & ending & Hrun & Hpassed & Hend).
      cbv [mbind mret R_bind R_ret get put ub] in Hrun.
      exists ((key, value) :: passed), ending.
      split; [|split; [by constructor|]].
      * rules_state. rewrite Hrun. cbn [map fst snd app].
        by rewrite <- app_assoc.
      * destruct Hend as [[-> ->]|(r & rest & -> & Hr & ->)]; [by left|].
        right. by exists r, rest.
Qed.

End rules.

(** X26.  A server query through the wrapper is filtered and cleans up after
    itself.  With the two original methods captured, a handler of the game and
    [g_settings.steam] allocated: whatever rules Steam reports and however it
    ends the query, the game's handler receives the rules up to the first one
    that hides the server, in order, and then exactly one final call: what
    Steam ended the query with if no rule hides the server, and otherwise
    [RulesFailedToRespond], after the query has been cancelled once on the
    interface of the descriptor; no rule behind a hiding one reaches the game;
    the wrapper object has been deleted (the heap is as before); and the query
    handle of Steam is returned. *)
Theorem server_rules_hide_and_free (handle iface ip port response_handler : Z)
    (rules : list (string * string)) (complete : bool) (c1 c2 : Z)
    (o : settings.steam_options) (v : server_rules.variables) :
  let g := settings_cpp.statics_346110 (server_rules.settings_vars v) in
  app_346110_vars.SteamMatchmakingServers_ServerRules_orig g
  = fn_vendor c1 ->
  app_346110_vars.SteamMatchmakingServers_CancelServerQuery_orig g
  = fn_vendor c2 ->
  response_handler <> 0 ->
  settings_cpp.steam (server_rules.settings_vars v) = Some o ->
  exists this passed ending v',
    server_rules.query_rules handle iface ip port response_handler rules
      complete v = Ok (handle, v') /\
    server_rules.heap v' = server_rules.heap v /\
    server_rules.settings_vars v' = server_rules.settings_vars v /\
    server_rules.trace v'
    = server_rules.trace v
      ++ server_rules.call_ServerRules c1 iface ip port this
      :: map (fun r => server_rules.base_RulesResponded response_handler
                         r.1 r.2) passed
      ++ ending /\
    Forall (fun r => hidden_rule g o r = false) passed /\
    ((passed = rules /\
      ending = [if complete
                then server_rules.base_RulesRefreshComplete response_handler
                else server_rules.base_RulesFailedToRespond
                       response_handler]) \/
     (exists r rest,
        rules = passed ++ r :: rest /\
        hidden_rule g o r = true /\
        ending = [server_rules.call_CancelServerQuery c2
                    (server_rules.servers_iface v) handle;
                  server_rules.base_RulesFailedToRespond
                    response_handler])).
Proof.
  intros g Hrules Hcancel Hhandler Ho. destruct v as [st si hp tr].
  cbn [server_rules.settings_vars server_rules.heap server_rules.trace
       server_rules.servers_iface] in *.
  unfold server_rules.query_rules,
    server_rules.SteamMatchmakingServers_ServerRules.
  rewrite !R_bind_run.
  match goal with
  | |- context [server_rules.new ?w ?v0] =>
      destruct (rules_new_run w v0) as (this & Hnew & Hthis0 & Hfresh)
  end.
  cbn [server_rules.heap] in Hfresh. rewrite Hnew. clear Hnew.
  rules_state. rewrite !R_bind_run. cbn [server_rules.get]. rules_state.
  fold g. rewrite Hrules. unfold server_rules.through, server_rules.log.
  rewrite !R_bind_run. cbn [server_rules.put]. rules_state.
  unfold server_rules.load at 1.
  cbv [mbind mret server_rules.R_bind server_rules.R_ret server_rules.get
       server_rules.put server_rules.ub].
  rules_state. rewrite lookup_insert_eq. rules_state.
  rewrite last_snoc, insert_insert_eq. cbn [server_rules.base].
  destruct (respond_run st si hp this response_handler handle c2 o complete
              rules (tr ++ [server_rules.call_ServerRules c1 iface ip port
                              this]) Hfresh Hhandler Hcancel Ho)
    as (passed & ending & Hrun & Hpassed & Hend).
  rewrite Hrun.
  exists this, passed, ending. eexists. split; [reflexivity|].
  rules_state. split; [done|]. split; [done|].
  split; [by rewrite <- app_assoc|]. by split.
Qed.

Lemma server_rules_hide_and_free_witness :
  exists this passed ending v',
    server_rules.query_rules 7 0x8000 1 2 0x500 example_rules.rules true
      example_rules.started = Ok (7, v') /\
    server_rules.heap v' = server_rules.heap example_rules.started /\
    server_rules.settings_vars v'
    = server_rules.settings_vars example_rules.started /\
    server_rules.trace v'
    = server_rules.trace example_rules.started
      ++ server_rules.call_ServerRules 0x9300 0x8000 1 2 this
      :: map (fun r => server_rules.base_RulesResponded 0x500 r.1 r.2) passed
      ++ ending /\
    Forall (fun r =>
              hidden_rule
                (settings_cpp.statics_346110
                   (server_rules.settings_vars example_rules.started))
                {| settings.app_id := 346110; settings.spoof_app_id := 480;
                   settings.dlc := []; settings.installed_dlc := ∅;
                   settings.tek_sc_path := "";
                   settings.auto_update_dlc := false |} r = false) passed /\
    ((passed = example_rules.rules /\
      ending = [server_rules.base_RulesRefreshComplete 0x500]) \/
     (exists r rest,
        example_rules.rules = passed ++ r :: rest /\
        hidden_rule
          (settings_cpp.statics_346110
             (server_rules.settings_vars example_rules.started))
          {| settings.app_id := 346110; settings.spoof_app_id := 480;
             settings.dlc := []; settings.installed_dlc := ∅;
             settings.tek_sc_path := "";
             settings.auto_update_dlc := false |} r = true /\
        ending = [server_rules.call_CancelServerQuery 0x9100
                    (server_rules.servers_iface example_rules.started) 7;
                  server_rules.base_RulesFailedToRespond 0x500])).
Proof.
  apply (server_rules_hide_and_free 7 0x8000 1 2 0x500 example_rules.rules
           true 0x9300 0x9100).
  - reflexivity.
  - reflexivity.
  - lia.
  - reflexivity.
Defined.
